(** * Kidizen Science API: entity schema, aggregate maintenance, cascade
      deletion and credentials, embedded from the JavaScript sources.

    Conventions of the embedding.
    - A JavaScript string is a [string]; one [ascii] stands for one UTF-16
      code unit, and string comparison is comparison of the codes.
    - A JavaScript number is an IEEE 754 binary64 value, a [spec_float] of
      the Standard Library; [+], [-] and [===] on numbers are its [SFadd],
      [SFsub] and [SFeqb] at precision 53. A status code, an index into a
      string or a time stamp in milliseconds is an integer far inside the
      range in which that arithmetic is exact, and is a [Z] or an [N].
    - A JavaScript object used as a record is a Rocq [Record]; one used as a
      dictionary (a request body, a Datastore kind) is an association list
      or a [gmap]; a [Set] is a [gset].
    - An [async] function that returns [false]/[null] on failure returns a
      [bool]/[option]; one that throws is modelled with an explicit result.
    - Datastore, Cloud Storage, AES, the clock and the random generators are
      collaborators: they appear as state, as parameters or as Section
      variables. *)

From Stdlib Require Import ZArith String Ascii List Bool Lia DecimalString DecimalN.
From Stdlib Require Import Floats.SpecFloat.
From stdpp Require Import base option list gmap sets strings fin_maps.
Import ListNotations.

Local Open Scope string_scope.
Local Open Scope list_scope.
Local Set Warnings "-register-all".

(** ** Numbers *)

Module JSNumber.

(** The format: 53 bits of precision, exponents below 1024. *)
Definition prec : Z := 53.
Definition emax : Z := 1024.

Definition t : Type := spec_float.

(** [a + b], [a - b] and [a === b] on two numbers. *)
Definition add (a b : t) : t := SFadd prec emax a b.
Definition sub (a b : t) : t := SFsub prec emax a b.
Definition strictEquals (a b : t) : bool := SFeqb a b.

(** The number written as the integer literal [z], and the integer a number
    is when it is one ([0] for what is not finite). *)
Definition ofZ (z : Z) : t := binary_normalize prec emax z 0 false.

Definition toZ (x : t) : Z :=
  match x with
  | S754_finite s m e => cond_Zopp s (Z.shiftl (Zpos m) e)
  | _ => 0%Z
  end.

(** [Number.isSafeInteger], with the bound [2^53] itself included: the
    integers below which every integer is a number. *)
Definition safeInteger (z : Z) : Prop := (- 2 ^ 53 <= z <= 2 ^ 53)%Z.

(** A count: a number that is an integer of magnitude at most [2^51], so
    that two counts can be taken off or added to a third with every
    intermediate result a safe integer. *)
Definition isCount (x : t) : bool :=
  match x with
  | S754_zero false => true
  | S754_finite _ _ _ =>
      SFeqb x (ofZ (toZ x)) && Z.leb (- 2 ^ 51) (toZ x) && Z.leb (toZ x) (2 ^ 51)
  | _ => false
  end.

End JSNumber.

(** ** JSON values, as [JSON.parse] delivers them to the handlers *)

Inductive Value : Type :=
| VUndefined
| VNull
| VBool (b : bool)
| VNumber (n : JSNumber.t)
| VString (s : string)
| VArray (items : list Value)
| VObject (fields : list (string * Value)).

(** [typeof value], restricted to the answers the validators test for. *)
Inductive JSType := TUndefined | TObject | TBoolean | TNumber | TString.

Definition typeof (value : Value) : JSType :=
  match value with
  | VUndefined => TUndefined
  | VNull => TObject
  | VBool _ => TBoolean
  | VNumber _ => TNumber
  | VString _ => TString
  | VArray _ => TObject
  | VObject _ => TObject
  end.

Definition JSType_eqb (a b : JSType) : bool :=
  match a, b with
  | TUndefined, TUndefined | TObject, TObject | TBoolean, TBoolean
  | TNumber, TNumber | TString, TString => true
  | _, _ => false
  end.

(** [obj[key]] on a list of fields: the first binding, [undefined] if none. *)
Fixpoint lookupField (key : string) (fields : list (string * Value)) : Value :=
  match fields with
  | [] => VUndefined
  | (k, v) :: rest => if String.eqb k key then v else lookupField key rest
  end.

(** [value.key] for the property names read by this program (never an array
    index, never [length]): only an object has them. On [null] and
    [undefined] the read throws a [TypeError]; who calls [getProp] has
    either checked for them ([VALIDATE_EMBEDDED_OBJECT]) or does so first
    ([SecretQuestions.deepCompare]). *)
Definition getProp (value : Value) (key : string) : Value :=
  match value with
  | VObject fields => lookupField key fields
  | _ => VUndefined
  end.

(** [Object.keys(value).length] for a non-null object. *)
Definition keysLength (value : Value) : nat :=
  match value with
  | VObject fields => length fields
  | VArray items => length items
  | _ => 0
  end.

(** [value === other] on strings held in values. *)
Definition strictEqualsString (a b : Value) : bool :=
  match a, b with
  | VString x, VString y => String.eqb x y
  | _, _ => false
  end.

(** The content of a value that has passed the validator for its type. *)
Definition asString (value : Value) : string :=
  match value with VString s => s | _ => "" end.
Definition asNumber (value : Value) : JSNumber.t :=
  match value with VNumber n => n | _ => JSNumber.ofZ 0 end.
Definition asBool (value : Value) : bool :=
  match value with VBool b => b | _ => false end.

(** [arr.includes(key)] for an array of strings. *)
Definition includes (key : string) (keys : list string) : bool :=
  existsb (String.eqb key) keys.

(** ** entity-type.js *)

Module EntityType.

Record Property := mkProperty {
  name : string;
  validator : Value -> bool;
  required : bool
}.

(** The first [for] loop of [validateProperties]: [None] is the early
    [return false], [Some n] the value of [numProps] when the loop ends. *)
Fixpoint checkExpected (entityData : list (string * Value))
    (entityDataKeys : list string) (expectedProperties : list Property)
    (numProps : nat) : option nat :=
  match expectedProperties with
  | [] => Some numProps
  | prop :: rest =>
      let key := name prop in
      if required prop && negb (includes key entityDataKeys) then None
      else if includes key entityDataKeys then
        let value := lookupField key entityData in
        if negb (validator prop value) then None
        else checkExpected entityData entityDataKeys rest (S numProps)
      else checkExpected entityData entityDataKeys rest numProps
  end.

(** The second [for] loop: [false] as soon as a key matches no expected
    property. *)
Fixpoint checkNoExtra (entityDataKeys : list string)
    (expectedProperties : list Property) : bool :=
  match entityDataKeys with
  | [] => true
  | key :: rest =>
      let matchingElements :=
        List.filter (fun prop => String.eqb (name prop) key) expectedProperties in
      if Nat.eqb (length matchingElements) 0 then false
      else checkNoExtra rest expectedProperties
  end.

Definition validateProperties (entityData : list (string * Value))
    (expectedProperties : list Property) : bool :=
  let entityDataKeys := map fst entityData in
  match checkExpected entityData entityDataKeys expectedProperties 0 with
  | None => false
  | Some numProps =>
      if Nat.ltb numProps 1 then false
      else checkNoExtra entityDataKeys expectedProperties
  end.

Record t := mk {
  entityTypeName : string;
  maxPerPage : nat;
  createProperties : list Property;
  updateProperties : list Property;
  methodsRequiringCredentials : list string;
  imageLocation : option (list string);
  requiresEmbeddedSelfLinks : bool
}.

Definition getImageLocation (this : t) : option (list string) := imageLocation this.

Definition methodRequiresCredentials (this : t) (method : string) : bool :=
  includes method (methodsRequiringCredentials this).

(** The four reasons for which the schema check is documented to fail. *)
Definition present (entityData : list (string * Value)) (key : string) : Prop :=
  In key (map fst entityData).

Definition requiredMissing entityData (props : list Property) : Prop :=
  exists prop, In prop props /\ required prop = true /\
               ~ present entityData (name prop).

Definition presentInvalid entityData (props : list Property) : Prop :=
  exists prop, In prop props /\ present entityData (name prop) /\
               validator prop (lookupField (name prop) entityData) = false.

Definition noneRecognized entityData (props : list Property) : Prop :=
  forall prop, In prop props -> ~ present entityData (name prop).

Definition unrecognizedPresent entityData (props : list Property) : Prop :=
  exists key, present entityData key /\
              forall prop, In prop props -> name prop <> key.

End EntityType.

(** ** constants.js: the validators and the property tables *)

Module Constants.
Import EntityType.

Definition inRange (lo hi : N) (c : ascii) : bool :=
  (N.leb lo (N_of_ascii c) && N.leb (N_of_ascii c) hi)%N.

(** [(c >= 'A' && c <= 'Z') || (c >= 'a' && c <= 'z') || (c >= '0' && c <= '9')] *)
Definition isAlphanumeric (c : ascii) : bool :=
  inRange 65 90 c || inRange 97 122 c || inRange 48 57 c.

(** The [for (const c of value)] loop of [VALIDATE_PASSWORD]. *)
Fixpoint allAlphanumeric (value : string) : bool :=
  match value with
  | EmptyString => true
  | String c rest => if isAlphanumeric c then allAlphanumeric rest else false
  end.

Definition VALIDATE_PASSWORD (value : Value) : bool :=
  match value with
  | VString s =>
      if Nat.ltb (String.length s) 8 || Nat.ltb 16 (String.length s) then false
      else allAlphanumeric s
  | _ => false
  end.

(** [ds.isValidId]: every character is a decimal digit. *)
Fixpoint isValidId (id : string) : bool :=
  match id with
  | EmptyString => true
  | String c rest => if inRange 48 57 c then isValidId rest else false
  end.

Definition VALIDATE_DS_ID (value : Value) : bool :=
  match value with
  | VString s => isValidId s
  | _ => false
  end.

Definition VALIDATE_STRING (value : Value) : bool :=
  match value with
  | VString s => Nat.ltb 0 (String.length s)
  | _ => false
  end.

Definition VALIDATE_STRING_OR_NULL (value : Value) : bool :=
  VALIDATE_STRING value || match value with VNull => true | _ => false end.

Definition VALIDATE_EMBEDDED_OBJECT (value : Value) : bool :=
  JSType_eqb (typeof value) TObject &&
  negb match value with VNull => true | _ => false end.

Definition VALIDATE_SECRET_QUESTIONS (value : Value) : bool :=
  if negb (VALIDATE_EMBEDDED_OBJECT value) then false
  else if negb (Nat.eqb (keysLength value) 4) then false
  else if negb (VALIDATE_STRING (getProp value "question_1")) then false
  else if negb (VALIDATE_STRING (getProp value "question_2")) then false
  else if negb (VALIDATE_STRING (getProp value "answer_1")) then false
  else if negb (VALIDATE_STRING (getProp value "answer_2")) then false
  else if strictEqualsString (getProp value "question_1") (getProp value "question_2")
    then false
  else if strictEqualsString (getProp value "answer_1") (getProp value "answer_2")
    then false
  else true.

Definition VALIDATE_PROJECT_DATA_NUMBER (value : Value) : bool :=
  if negb (VALIDATE_EMBEDDED_OBJECT value) then false
  else if negb (Nat.eqb (keysLength value) 3) then false
  else if negb (VALIDATE_STRING (getProp value "name")) then false
  else if negb (JSType_eqb (typeof (getProp value "must_be_unique")) TBoolean) then false
  else if negb (JSType_eqb (typeof (getProp value "number")) TNumber) then false
  else true.

Definition VALIDATE_IMAGE (value : Value) : bool :=
  if negb (VALIDATE_EMBEDDED_OBJECT value) then false
  else if negb (Nat.eqb (keysLength value) 3) then false
  else if negb (VALIDATE_STRING (getProp value "title")) then false
  else if negb (VALIDATE_STRING (getProp value "url")) then false
  else if negb (VALIDATE_STRING (getProp value "alt_text")) then false
  else true.

Definition VALIDATE_OBSERVATION_DATA_NUMBER (value : Value) : bool :=
  if negb (VALIDATE_EMBEDDED_OBJECT value) then false
  else if negb (Nat.eqb (keysLength value) 2) then false
  else if negb (VALIDATE_STRING (getProp value "description")) then false
  else if negb (JSType_eqb (typeof (getProp value "quantity")) TNumber) then false
  else true.

Definition PROJECT := "Project".
Definition TEACHER := "Teacher".
Definition OBSERVATION := "Observation".
Definition CREDENTIAL := "Credential".
Definition POST := "POST".
Definition PUT := "PUT".
Definition PATCH := "PATCH".
Definition DELETE := "DELETE".
Definition GET_ONE := "GET_ONE".

(** The [createProperties] and [updateProperties] of the entries of
    [COLLECTIONS] and of [CREDENTIAL_ENTITY_TYPE]. *)
Definition projectCreateProperties : list Property :=
  [ mkProperty "teacher_id" VALIDATE_DS_ID true;
    mkProperty "name" VALIDATE_STRING true;
    mkProperty "data_number" VALIDATE_PROJECT_DATA_NUMBER true;
    mkProperty "description_image" VALIDATE_IMAGE true;
    mkProperty "description_text" VALIDATE_STRING true ].

Definition projectUpdateProperties : list Property :=
  [ mkProperty "name" VALIDATE_STRING false;
    mkProperty "description_image" VALIDATE_IMAGE false;
    mkProperty "description_text" VALIDATE_STRING false ].

Definition observationCreateProperties : list Property :=
  [ mkProperty "date" VALIDATE_STRING true;
    mkProperty "data_image" VALIDATE_IMAGE true;
    mkProperty "data_number" VALIDATE_OBSERVATION_DATA_NUMBER true;
    mkProperty "data_description" VALIDATE_STRING true ].

Definition observationUpdateProperties : list Property :=
  [ mkProperty "date" VALIDATE_STRING false;
    mkProperty "data_image" VALIDATE_IMAGE false;
    mkProperty "data_number" VALIDATE_OBSERVATION_DATA_NUMBER false;
    mkProperty "data_description" VALIDATE_STRING false ].

Definition teacherCreateProperties : list Property :=
  [ mkProperty "name" VALIDATE_STRING true;
    mkProperty "email" VALIDATE_STRING true;
    mkProperty "school" VALIDATE_STRING true;
    mkProperty "password" VALIDATE_PASSWORD true;
    mkProperty "secret_questions" VALIDATE_SECRET_QUESTIONS true ].

Definition teacherUpdateProperties : list Property :=
  [ mkProperty "name" VALIDATE_STRING false;
    mkProperty "profile_photo" VALIDATE_STRING_OR_NULL false;
    mkProperty "email" VALIDATE_STRING false;
    mkProperty "school" VALIDATE_STRING false ].

Definition credentialCreateProperties : list Property :=
  [ mkProperty "password" VALIDATE_PASSWORD true;
    mkProperty "secret_questions" VALIDATE_SECRET_QUESTIONS true ].

Definition credentialUpdateProperties : list Property :=
  [ mkProperty "password" VALIDATE_PASSWORD false;
    mkProperty "secret_questions" VALIDATE_SECRET_QUESTIONS false ].

Module COLLECTIONS.
Module roots.
Definition projects : EntityType.t :=
  EntityType.mk PROJECT 5 projectCreateProperties projectUpdateProperties
    [POST; PATCH; DELETE] (Some ["description_image"; "url"]) true.

Definition teachers : EntityType.t :=
  EntityType.mk TEACHER 0 teacherCreateProperties teacherUpdateProperties
    [GET_ONE; PATCH; DELETE] (Some ["profile_photo"]) false.
End roots.
Module children.
Definition observations : EntityType.t :=
  EntityType.mk OBSERVATION 5 observationCreateProperties observationUpdateProperties
    [POST; PATCH; DELETE] (Some ["data_image"; "url"]) true.
End children.
End COLLECTIONS.

Definition CREDENTIAL_ENTITY_TYPE : EntityType.t :=
  EntityType.mk CREDENTIAL 0 credentialCreateProperties credentialUpdateProperties
    [POST; PUT; PATCH; DELETE] None false.

Definition RESET_CODE_LIFETIME : N := 30 * 60 * 1000.

Definition DEFAULT_PROFILE_PHOTO : string :=
  "https://storage.googleapis.com/kidizen-science-images/1606709615803_defaultUserPhoto.png".

(** What the documentation calls an acceptable password. *)
Definition letterOrDigit (c : ascii) : Prop :=
  let n := N_of_ascii c in
  (65 <= n <= 90)%N \/ (97 <= n <= 122)%N \/ (48 <= n <= 57)%N.

Definition acceptablePassword (value : Value) : Prop :=
  exists s, value = VString s /\
            8 <= String.length s <= 16 /\
            Forall letterOrDigit (list_ascii_of_string s).

(** A character from 0 to 9. *)
Definition decimalDigit (c : ascii) : Prop := (48 <= N_of_ascii c <= 57)%N.

(** What [VALIDATE_SECRET_QUESTIONS] is meant to accept: an object with
    four properties, among them two distinct questions and two distinct
    answers, none of them empty. *)
Definition acceptableSecretQuestions (value : Value) : Prop :=
  exists fields q1 q2 a1 a2,
    value = VObject fields /\ length fields = 4 /\
    lookupField "question_1" fields = VString q1 /\
    lookupField "question_2" fields = VString q2 /\
    lookupField "answer_1" fields = VString a1 /\
    lookupField "answer_2" fields = VString a2 /\
    q1 <> "" /\ q2 <> "" /\ a1 <> "" /\ a2 <> "" /\ q1 <> q2 /\ a1 <> a2.

End Constants.

(** ** Numbers written and read as decimal strings *)

Module JS.

Definition isDigit (c : ascii) : bool := Constants.inRange 48 57 c.

Fixpoint digitPrefix (s : string) : string :=
  match s with
  | EmptyString => EmptyString
  | String c rest => if isDigit c then String c (digitPrefix rest) else EmptyString
  end.

(** [parseInt(s, 10)] on the strings that reach it here (route ids that
    [isValidId] has let through, stored expiry stamps): the value of the
    leading digits, [None] for [NaN]. The blanks and the sign that
    [parseInt] skips at the front are not modelled, nor is the rounding to
    a double of a value above [2^53]: what is proved of a request whose id
    may be any string says so by asking for [isValidId] and for that
    bound. *)
Definition parseInt (s : string) : option N :=
  N.of_uint <$> NilZero.uint_of_string (digitPrefix s).

(** [n.toString(10)] for a non-negative integer below [10^21], from where
    on JavaScript switches to the exponent notation; also the way Datastore
    renders the numeric id of a key it returns. *)
Definition toString (n : N) : string :=
  NilZero.string_of_uint (N.to_uint n).

(** [s.split(sep)] for a one-character separator. *)
Fixpoint split (sep : ascii) (s : string) : list string :=
  match s with
  | EmptyString => [EmptyString]
  | String c rest =>
      if Ascii.eqb c sep then EmptyString :: split sep rest
      else match split sep rest with
           | first :: others => String c first :: others
           | [] => [String c EmptyString]
           end
  end.

(** [s.indexOf(c)] for a one-character [c]: [-1] when [c] does not occur. *)
Fixpoint indexOf (c : ascii) (s : string) : Z :=
  match s with
  | EmptyString => -1
  | String a rest =>
      if Ascii.eqb a c then 0
      else let i := indexOf c rest in if Z.ltb i 0 then -1 else i + 1
  end.

(** [s.substring(from, to)] and [s.substring(from)] for indices within [s]. *)
Definition substring2 (s : string) (from to : Z) : string :=
  String.substring (Z.to_nat from) (Z.to_nat (to - from)) s.
Definition substring1 (s : string) (from : Z) : string :=
  String.substring (Z.to_nat from) (String.length s) s.

End JS.

(** ** data-number.js: the two classes *)

Module ObservationDataNumber.

Record t := mk { quantity : JSNumber.t; description : string }.

Definition deepEquals (this otherODN : t) : bool :=
  JSNumber.strictEquals (quantity this) (quantity otherODN) &&
  String.eqb (description this) (description otherODN).

End ObservationDataNumber.

Module ProjectDataNumber.

Record t := mk { name : string; number : JSNumber.t; must_be_unique : bool }.

Definition setNumber (this : t) (n : JSNumber.t) : t :=
  {| name := name this; number := n; must_be_unique := must_be_unique this |}.

(** The methods mutate [this] and return whether [number] changed; here
    they return the object after the call as well. [None] is the
    [TypeError] of calling [has] on [null]. *)
Definition addObservation (this : t) (newObservationDataNumber : ObservationDataNumber.t)
    (otherODNDescriptions : option (gset string)) : option (t * bool) :=
  if must_be_unique this then
    match otherODNDescriptions with
    | None => None
    | Some others =>
        if decide (ObservationDataNumber.description newObservationDataNumber ∈ others)
        then Some (this, false)
        else Some (setNumber this (JSNumber.add (number this) (JSNumber.ofZ 1)), true)
    end
  else
    Some (setNumber this
            (JSNumber.add (number this)
               (ObservationDataNumber.quantity newObservationDataNumber)),
          true).

Definition deleteObservation (this : t) (oldObservationDataNumber : ObservationDataNumber.t)
    (otherODNDescriptions : option (gset string)) : option (t * bool) :=
  if must_be_unique this then
    match otherODNDescriptions with
    | None => None
    | Some others =>
        if decide (ObservationDataNumber.description oldObservationDataNumber ∈ others)
        then Some (this, false)
        else Some (setNumber this (JSNumber.sub (number this) (JSNumber.ofZ 1)), true)
    end
  else
    Some (setNumber this
            (JSNumber.sub (number this)
               (ObservationDataNumber.quantity oldObservationDataNumber)),
          true).

End ProjectDataNumber.

(** ** auth.js: secret questions and reset codes *)

Module SecretQuestions.

Record t := mk {
  question_1 : string; question_2 : string;
  answer_1 : string; answer_2 : string
}.

(** [this.field !== other.field], where [other] is the object received
    from the client. *)
Definition differs (mine : string) (other : Value) (key : string) : bool :=
  match getProp other key with
  | VString theirs => negb (String.eqb mine theirs)
  | _ => true
  end.

(** [None] is the [TypeError] of reading [question_1] of [null] or of
    [undefined]. *)
Definition deepCompare (this : t) (otherSecretQuestions : Value) : option bool :=
  match otherSecretQuestions with
  | VNull | VUndefined => None
  | _ =>
      Some (if differs (question_1 this) otherSecretQuestions "question_1" then false
            else if differs (question_2 this) otherSecretQuestions "question_2" then false
            else if differs (answer_1 this) otherSecretQuestions "answer_1" then false
            else if differs (answer_2 this) otherSecretQuestions "answer_2" then false
            else true)
  end.

(** [new SecretQuestions(json)] on a value that passed
    [VALIDATE_SECRET_QUESTIONS]. *)
Definition ofValue (secretQuestions_JSON : Value) : t :=
  {| question_1 := asString (getProp secretQuestions_JSON "question_1");
     question_2 := asString (getProp secretQuestions_JSON "question_2");
     answer_1 := asString (getProp secretQuestions_JSON "answer_1");
     answer_2 := asString (getProp secretQuestions_JSON "answer_2") |}.

End SecretQuestions.

Module ResetCode.

Record t := mk { code : string; expires : string }.

(** [new ResetCode(null)] *)
Definition empty : t := {| code := ""; expires := "" |}.

(** [refreshCode()], given the value of [uuid.v4()] and of [Date.now()]. *)
Definition refreshCode (uuid : string) (now : N) : t :=
  {| code := uuid; expires := JS.toString (now + Constants.RESET_CODE_LIFETIME) |}.

(** [isUnexpired()], given [Date.now()]; a comparison with [NaN] is false. *)
Definition isUnexpired (this : t) (now : N) : bool :=
  match JS.parseInt (expires this) with
  | Some expirationTime => N.ltb now expirationTime
  | None => false
  end.

Definition clearCode (this : t) : t := {| code := ""; expires := "" |}.

End ResetCode.

(** ** datastore.js, and the part of Cloud Datastore the handlers rely on *)

Module Datastore.

Record Image := mkImage { title : string; url : string; alt_text : string }.

Module Teacher.
Record t := mk {
  name : string; email : string; school : string; profile_photo : string
}.
End Teacher.

Module Project.
Record t := mk {
  teacher_id : string;
  name : string;
  data_number : ProjectDataNumber.t;
  description_image : Image;
  description_text : string
}.
End Project.

Module Observation.
Record t := mk {
  date : string;
  data_image : Image;
  data_number : ObservationDataNumber.t;
  data_description : string
}.
End Observation.

Module CredentialData.
Record t := mk {
  password : string;
  secret_questions : SecretQuestions.t;
  reset_code : ResetCode.t
}.
End CredentialData.

Inductive Key :=
| TeacherKey (id : N)
| CredentialKey (teacherId id : N)
| ProjectKey (id : N)
| ObservationKey (projectId id : N).

(** The four kinds. A root entity is keyed by its numeric id; a child by
    the id of its ancestor and its own id. [retired] holds the keys deleted
    so far: Datastore does not issue the id of a key a second time. *)
Record Store := mkStore {
  teachers : gmap N Teacher.t;
  credentials : gmap (N * N) CredentialData.t;
  projects : gmap N Project.t;
  observations : gmap (N * N) Observation.t;
  retired : list Key
}.

(** The calls made on a transaction. Reads are answered from the snapshot
    taken when the transaction started; writes are buffered until
    [commit]. *)
Inductive Call :=
| GetTeacher (id : N)
| GetProject (id : N)
| GetObservation (projectId id : N)
| QueryObservations (projectId : N)
| QueryProjects (teacher_id : string)
| QueryCredentials (teacherId : N)
| QueryPage (kind : string) (startCursor : option string)
| SaveTeacher (id : N) (data : Teacher.t)
| SaveNewTeacher (data : Teacher.t)
| SaveProject (id : N) (data : Project.t)
| SaveNewProject (data : Project.t)
| SaveObservation (projectId id : N) (data : Observation.t)
| SaveNewObservation (projectId : N) (data : Observation.t)
| SaveCredential (teacherId id : N) (data : CredentialData.t)
| DeleteKeys (keys : list Key).

(** [outage n] tells whether the [n]-th call on the transaction, when it
    goes to the server, fails (the client library then throws). *)
Record Transaction := mkTransaction {
  snapshot : Store;
  outage : nat -> bool;
  log : list Call
}.

Definition begin (s : Store) (faults : nat -> bool) : Transaction :=
  {| snapshot := s; outage := faults; log := [] |}.

Definition record (tx : Transaction) (c : Call) : Transaction :=
  {| snapshot := snapshot tx; outage := outage tx; log := log tx ++ [c] |}.

Definition failsNow (tx : Transaction) : bool := outage tx (length (log tx)).

(** A call that goes to the server: [None] when it throws. *)
Definition remote {A} (tx : Transaction) (c : Call) (answer : A)
    : option A * Transaction :=
  (if failsNow tx then None else Some answer, record tx c).

(** Results of the kind queries, as (id, entity) pairs. [childrenOf] is the
    ancestor query: the entities of a child kind under one parent. *)
Definition childrenOf {A} (kind : gmap (N * N) A) (parent : N) : list (N * A) :=
  omap (fun kv : N * N * A =>
          if decide (kv.1.1 = parent) then Some (kv.1.2, kv.2) else None)
       (map_to_list kind).

Definition observationsOf (s : Store) (projectId : N) : list (N * Observation.t) :=
  childrenOf (observations s) projectId.

Definition credentialsOf (s : Store) (teacherId : N) : list (N * CredentialData.t) :=
  childrenOf (credentials s) teacherId.

Definition projectsOf (s : Store) (teacher_id : string) : list (N * Project.t) :=
  List.filter (fun kv : N * Project.t => String.eqb (Project.teacher_id kv.2) teacher_id)
              (map_to_list (projects s)).

Definition getTeacher (tx : Transaction) (id : N) :=
  remote tx (GetTeacher id) (teachers (snapshot tx) !! id).
Definition getProject (tx : Transaction) (id : N) :=
  remote tx (GetProject id) (projects (snapshot tx) !! id).
Definition getObservation (tx : Transaction) (projectId id : N) :=
  remote tx (GetObservation projectId id) (observations (snapshot tx) !! (projectId, id)).
Definition runQueryObservations (tx : Transaction) (projectId : N) :=
  remote tx (QueryObservations projectId) (observationsOf (snapshot tx) projectId).
Definition runQueryProjects (tx : Transaction) (teacher_id : string) :=
  remote tx (QueryProjects teacher_id) (projectsOf (snapshot tx) teacher_id).
Definition runQueryCredentials (tx : Transaction) (teacherId : N) :=
  remote tx (QueryCredentials teacherId) (credentialsOf (snapshot tx) teacherId).

(** Buffered writes. *)
Definition setTeachers (s : Store) m :=
  {| teachers := m; credentials := credentials s;
     projects := projects s; observations := observations s; retired := retired s |}.
Definition setCredentials (s : Store) m :=
  {| teachers := teachers s; credentials := m;
     projects := projects s; observations := observations s; retired := retired s |}.
Definition setProjects (s : Store) m :=
  {| teachers := teachers s; credentials := credentials s;
     projects := m; observations := observations s; retired := retired s |}.
Definition setObservations (s : Store) m :=
  {| teachers := teachers s; credentials := credentials s;
     projects := projects s; observations := m; retired := retired s |}.

Definition retire (s : Store) (k : Key) : Store :=
  {| teachers := teachers s; credentials := credentials s;
     projects := projects s; observations := observations s;
     retired := k :: retired s |}.

Definition deleteKey (s : Store) (k : Key) : Store :=
  match k with
  | TeacherKey id => setTeachers (retire s k) (delete id (teachers s))
  | CredentialKey t id => setCredentials (retire s k) (delete (t, id) (credentials s))
  | ProjectKey id => setProjects (retire s k) (delete id (projects s))
  | ObservationKey p id => setObservations (retire s k) (delete (p, id) (observations s))
  end.

(** The id Datastore allocates to an entity saved with an incomplete key:
    one that no key of the kind has used. The ids used are those of the
    entities of the kind, those that stand for the kind in the keys of
    their descendants, and those of the retired keys. *)
Definition allocateId (used : list N) : N :=
  foldr (fun id next => N.max (id + 1) next) 1%N used.

Definition ancestorIds {A} (kind : gmap (N * N) A) : list N :=
  map (fun kv : N * N * A => kv.1.1) (map_to_list kind).

Definition retiredTeacherIds (s : Store) : list N :=
  omap (fun k => match k with
                 | TeacherKey id | CredentialKey id _ => Some id
                 | _ => None
                 end) (retired s).

Definition retiredProjectIds (s : Store) : list N :=
  omap (fun k => match k with
                 | ProjectKey id | ObservationKey id _ => Some id
                 | _ => None
                 end) (retired s).

Definition retiredObservationIds (s : Store) (projectId : N) : list N :=
  omap (fun k => match k with
                 | ObservationKey p id => if decide (p = projectId) then Some id else None
                 | _ => None
                 end) (retired s).

Definition retiredCredentialIds (s : Store) (teacherId : N) : list N :=
  omap (fun k => match k with
                 | CredentialKey t id => if decide (t = teacherId) then Some id else None
                 | _ => None
                 end) (retired s).

Definition newTeacherId (s : Store) : N :=
  allocateId (map fst (map_to_list (teachers s)) ++ ancestorIds (credentials s)
              ++ retiredTeacherIds s).
Definition newProjectId (s : Store) : N :=
  allocateId (map fst (map_to_list (projects s)) ++ ancestorIds (observations s)
              ++ retiredProjectIds s).
Definition newObservationId (s : Store) (projectId : N) : N :=
  allocateId (map fst (observationsOf s projectId) ++ retiredObservationIds s projectId).
Definition newCredentialId (s : Store) (teacherId : N) : N :=
  allocateId (map fst (credentialsOf s teacherId) ++ retiredCredentialIds s teacherId).

Definition applyCall (s : Store) (c : Call) : Store :=
  match c with
  | SaveTeacher id d => setTeachers s (<[id := d]> (teachers s))
  | SaveNewTeacher d => setTeachers s (<[newTeacherId s := d]> (teachers s))
  | SaveProject id d => setProjects s (<[id := d]> (projects s))
  | SaveNewProject d => setProjects s (<[newProjectId s := d]> (projects s))
  | SaveObservation p id d => setObservations s (<[(p, id) := d]> (observations s))
  | SaveNewObservation p d =>
      setObservations s (<[(p, newObservationId s p) := d]> (observations s))
  | SaveCredential t id d => setCredentials s (<[(t, id) := d]> (credentials s))
  | DeleteKeys keys => foldl deleteKey s keys
  | _ => s
  end.

(** The calls that only read, and the writes among a list of calls. *)
Definition isRead (c : Call) : bool :=
  match c with
  | GetTeacher _ | GetProject _ | GetObservation _ _
  | QueryObservations _ | QueryProjects _ | QueryCredentials _ | QueryPage _ _ => true
  | _ => false
  end.

Definition writesOf (calls : list Call) : list Call :=
  List.filter (fun c => negb (isRead c)) calls.

(** [tx'] continues [tx]: same snapshot, same outages, and [writes] are the
    writes buffered in between. *)
Definition extends (tx tx' : Transaction) (writes : list Call) : Prop :=
  snapshot tx' = snapshot tx /\ outage tx' = outage tx /\
  writesOf (log tx') = writesOf (log tx) ++ writes.

(** [transaction.commit()]: [None] when it throws, else the store with the
    buffered writes applied in order. *)
Definition commit (tx : Transaction) : option Store :=
  if failsNow tx then None else Some (foldl applyCall (snapshot tx) (log tx)).

(** [transaction.rollback()]: nothing of the transaction reaches the store. *)
Definition rollback (tx : Transaction) : Store := snapshot tx.

(** A teacher has its credential when the ancestor query of [getCredential]
    finds exactly one. *)
Definition hasCredential (s : Store) (teacherId : N) : Prop :=
  exists id c, credentialsOf s teacherId = [(id, c)].

(** [getAncestorData(transaction, key)] for a project key; [null] both when
    the entity is missing and when the read throws. *)
Definition getAncestorData (tx : Transaction) (key : N)
    : option Project.t * Transaction :=
  match getProject tx key with
  | (Some (Some entity), tx') => (Some entity, tx')
  | (_, tx') => (None, tx')
  end.

(** [teacherExists(transaction, id)] *)
Definition teacherExists (tx : Transaction) (id : string) : bool * Transaction :=
  match JS.parseInt id with
  | None => (false, tx)
  | Some key =>
      match getTeacher tx key with
      | (Some (Some _), tx') => (true, tx')
      | (_, tx') => (false, tx')
      end
  end.

End Datastore.

(** ** data-number.js: the aggregate maintainer *)

Module DataNumber.
Import Datastore.

(** [observation[KEY].id !== observationIdToExculde]: the id of a key read
    from Datastore is its decimal rendering; nothing equals [null]. *)
Definition differsFrom (id : N) (observationIdToExculde : option string) : bool :=
  match observationIdToExculde with
  | None => true
  | Some excluded => negb (String.eqb (JS.toString id) excluded)
  end.

(** The loop that fills [descriptionSet]. *)
Definition collectDescriptions (observations : list (N * Observation.t))
    (observationIdToExculde : option string) : gset string :=
  foldl (fun (descriptionSet : gset string) (observation : N * Observation.t) =>
           if differsFrom observation.1 observationIdToExculde
           then {[ ObservationDataNumber.description
                     (Observation.data_number observation.2) ]} ∪ descriptionSet
           else descriptionSet)
        ∅ observations.

Definition getOtherODNDescriptions (tx : Transaction) (projectKey : N)
    (observationIdToExculde : option string) : option (gset string) * Transaction :=
  match runQueryObservations tx projectKey with
  | (Some observations, tx') =>
      (Some (collectDescriptions observations observationIdToExculde), tx')
  | (None, tx') => (None, tx')
  end.

Definition withDataNumber (p : Project.t) (pdn : ProjectDataNumber.t) : Project.t :=
  {| Project.teacher_id := Project.teacher_id p;
     Project.name := Project.name p;
     Project.data_number := pdn;
     Project.description_image := Project.description_image p;
     Project.description_text := Project.description_text p |}.

(** [transaction.save] only buffers the write, so this always succeeds. *)
Definition saveUpdatedProject (tx : Transaction) (projectKey : N)
    (currentProjectData : Project.t) (newProjectDataNumber : ProjectDataNumber.t)
    : bool * Transaction :=
  (true, record tx (SaveProject projectKey
                      (withDataNumber currentProjectData newProjectDataNumber))).

(** The three entry points return [Some true]/[Some false] for the boolean
    they resolve to, and [None] if an exception escapes them. Each is
    split at the point where [otherODNDescriptions] has its final value. *)
Definition adjustPosted (tx : Transaction) (projectKey : N) (projectData : Project.t)
    (newObservationDataNumber : ObservationDataNumber.t)
    (otherODNDescriptions : option (gset string)) : option bool * Transaction :=
  match ProjectDataNumber.addObservation (Project.data_number projectData)
          newObservationDataNumber otherODNDescriptions with
  | None => (None, tx)
  | Some (projectDataNumber, projectDataNumberChanged) =>
      if projectDataNumberChanged then
        let (succeeded, tx') :=
          saveUpdatedProject tx projectKey projectData projectDataNumber in
        if negb succeeded then (Some false, tx') else (Some true, tx')
      else (Some true, tx)
  end.

(** What [processPostedObservation] is handed as [projectData]: the entity
    read for the ancestor of the route. Under [/projects/:id/observations]
    it is a project; under [/teachers/:id/observations] it is a teacher,
    which has no [data_number], and [new ProjectDataNumber(undefined)]
    throws. *)
Inductive AncestorData :=
| TeacherData (teacher : Teacher.t)
| ProjectData (project : Project.t).

Definition processPostedObservation (tx : Transaction) (projectKey : N)
    (projectData : AncestorData) (observationDataNumberJSON : ObservationDataNumber.t)
    : option bool * Transaction :=
  match projectData with
  | TeacherData _ => (None, tx)
  | ProjectData projectData =>
      if ProjectDataNumber.must_be_unique (Project.data_number projectData) then
        match getOtherODNDescriptions tx projectKey None with
        | (None, tx1) => (Some false, tx1)
        | (Some others, tx1) =>
            adjustPosted tx1 projectKey projectData observationDataNumberJSON
                         (Some others)
        end
      else adjustPosted tx projectKey projectData observationDataNumberJSON None
  end.

Definition adjustUpdated (tx : Transaction) (projectKey : N)
    (currentProjectData : Project.t) (oldODN newODN : ObservationDataNumber.t)
    (otherODNDescriptions : option (gset string)) : option bool * Transaction :=
  let projectDataNumber := Project.data_number currentProjectData in
  let oldPDNNumber := ProjectDataNumber.number projectDataNumber in
  match ProjectDataNumber.deleteObservation projectDataNumber oldODN
          otherODNDescriptions with
  | None => (None, tx)
  | Some (afterDelete, _) =>
      match ProjectDataNumber.addObservation afterDelete newODN
              otherODNDescriptions with
      | None => (None, tx)
      | Some (afterAdd, _) =>
          let newPDNNumber := ProjectDataNumber.number afterAdd in
          if negb (JSNumber.strictEquals oldPDNNumber newPDNNumber) then
            let (succeeded, tx') :=
              saveUpdatedProject tx projectKey currentProjectData afterAdd in
            if negb succeeded then (Some false, tx') else (Some true, tx')
          else (Some true, tx)
      end
  end.

Definition processUpdatedObservation (tx : Transaction) (ancestorProjectId : string)
    (observationId : string) (oldODN_JSON newODN_JSON : ObservationDataNumber.t)
    : option bool * Transaction :=
  let oldODN := oldODN_JSON in
  let newODN := newODN_JSON in
  if ObservationDataNumber.deepEquals newODN oldODN then (Some true, tx)
  else
    match JS.parseInt ancestorProjectId with
    | None => (Some false, tx)
    | Some projectKey =>
        match getAncestorData tx projectKey with
        | (None, tx1) => (Some false, tx1)
        | (Some currentProjectData, tx1) =>
            if ProjectDataNumber.must_be_unique (Project.data_number currentProjectData)
            then
              if String.eqb (ObservationDataNumber.description oldODN)
                            (ObservationDataNumber.description newODN)
              then (Some true, tx1)
              else
                match getOtherODNDescriptions tx1 projectKey (Some observationId) with
                | (None, tx2) => (Some false, tx2)
                | (Some others, tx2) =>
                    adjustUpdated tx2 projectKey currentProjectData oldODN newODN
                                  (Some others)
                end
            else adjustUpdated tx1 projectKey currentProjectData oldODN newODN None
        end
    end.

Definition adjustDeleted (tx : Transaction) (projectKey : N)
    (currentProjectData : Project.t) (observationDataNumber : ObservationDataNumber.t)
    (otherODNDescriptions : option (gset string)) : option bool * Transaction :=
  match ProjectDataNumber.deleteObservation (Project.data_number currentProjectData)
          observationDataNumber otherODNDescriptions with
  | None => (None, tx)
  | Some (projectDataNumber, projectDataNumberChanged) =>
      if projectDataNumberChanged then
        let (succeeded, tx') :=
          saveUpdatedProject tx projectKey currentProjectData projectDataNumber in
        if negb succeeded then (Some false, tx') else (Some true, tx')
      else (Some true, tx)
  end.

Definition processDeletedObservation (tx : Transaction) (ancestorProjectId : string)
    (observationId : string) (observationDataNumber_JSON : ObservationDataNumber.t)
    : option bool * Transaction :=
  match JS.parseInt ancestorProjectId with
  | None => (Some false, tx)
  | Some projectKey =>
      match getAncestorData tx projectKey with
      | (None, tx1) => (Some false, tx1)
      | (Some currentProjectData, tx1) =>
          if ProjectDataNumber.must_be_unique (Project.data_number currentProjectData)
          then
            match getOtherODNDescriptions tx1 projectKey (Some observationId) with
            | (None, tx2) => (Some false, tx2)
            | (Some others, tx2) =>
                adjustDeleted tx2 projectKey currentProjectData
                              observationDataNumber_JSON (Some others)
            end
          else adjustDeleted tx1 projectKey currentProjectData
                             observationDataNumber_JSON None
      end
  end.

(** What [project.data_number.number] is meant to track: the sum of the
    quantities of the project's observations, or the number of distinct
    descriptions among them. The sum is that of the integers the
    quantities are. *)
Definition descriptionOf (observation : N * Observation.t) : string :=
  ObservationDataNumber.description (Observation.data_number observation.2).

Definition quantityOf (observation : N * Observation.t) : Z :=
  JSNumber.toZ (ObservationDataNumber.quantity (Observation.data_number observation.2)).

Definition totalQuantity (observations : list (N * Observation.t)) : Z :=
  foldr (fun observation total => (quantityOf observation + total)%Z) 0%Z observations.

Definition distinctDescriptions (observations : list (N * Observation.t)) : gset string :=
  list_to_set (map descriptionOf observations).

Definition aggregate (must_be_unique : bool) (observations : list (N * Observation.t)) : Z :=
  if must_be_unique then Z.of_nat (size (distinctDescriptions observations))
  else totalQuantity observations.

(** What one observation adds to the aggregate, next to observations whose
    descriptions are [others]. *)
Definition contribution (must_be_unique : bool)
    (dataNumber : option ObservationDataNumber.t) (others : gset string) : Z :=
  match dataNumber with
  | None => 0
  | Some odn =>
      if must_be_unique then
        if decide (ObservationDataNumber.description odn ∈ others) then 0 else 1
      else JSNumber.toZ (ObservationDataNumber.quantity odn)
  end.

(** The same in the arithmetic of the code: a counter with the contribution
    of one observation taken off, and with it added. *)
Definition takenOff (must_be_unique : bool) (odn : ObservationDataNumber.t)
    (others : gset string) (n : JSNumber.t) : JSNumber.t :=
  if must_be_unique then
    if decide (ObservationDataNumber.description odn ∈ others) then n
    else JSNumber.sub n (JSNumber.ofZ 1)
  else JSNumber.sub n (ObservationDataNumber.quantity odn).

Definition added (must_be_unique : bool) (odn : ObservationDataNumber.t)
    (others : gset string) (n : JSNumber.t) : JSNumber.t :=
  if must_be_unique then
    if decide (ObservationDataNumber.description odn ∈ others) then n
    else JSNumber.add n (JSNumber.ofZ 1)
  else JSNumber.add n (ObservationDataNumber.quantity odn).

(** The project with its counter set to [n]. *)
Definition withNumber (p : Project.t) (n : JSNumber.t) : Project.t :=
  withDataNumber p (ProjectDataNumber.setNumber (Project.data_number p) n).

(** The writes by which the maintainer brings the counter of project [key]
    to [n]: one save, or none when the counter already is [n], or is [===]
    to it. *)
Definition projectWrite (key : N) (p : Project.t) (n : JSNumber.t) (writes : list Call)
    : Prop :=
  writes = [SaveProject key (withNumber p n)] \/
  (writes = [] /\
   (n = ProjectDataNumber.number (Project.data_number p) \/
    JSNumber.strictEquals (ProjectDataNumber.number (Project.data_number p)) n = true)).

(** [tx] with the project saved under the counter [n], unless [n] is
    [===] to the counter the project has. *)
Definition persisted (tx : Transaction) (key : N) (p : Project.t) (n : JSNumber.t)
    : Transaction :=
  if JSNumber.strictEquals (ProjectDataNumber.number (Project.data_number p)) n then tx
  else record tx (SaveProject key (withNumber p n)).

(** One observation request as seen on the store: nothing, or the
    observation [(key, id)] created, replaced or removed together with the
    counter of project [key] moved, as an integer, by what the observation
    contributed before and contributes after. *)
Definition aggregateStep (s s' : Store) : Prop :=
  s' = s \/
  exists key id p after,
    projects s !! key = Some p /\
    let before := observations s !! (key, id) in
    let others :=
      distinctDescriptions (childrenOf (delete (key, id) (observations s)) key) in
    let unique := ProjectDataNumber.must_be_unique (Project.data_number p) in
    let n := (JSNumber.toZ (ProjectDataNumber.number (Project.data_number p))
              - contribution unique (Observation.data_number <$> before) others
              + contribution unique (Observation.data_number <$> after) others)%Z in
    JSNumber.safeInteger n /\
    projects s' = <[key := withNumber p (JSNumber.ofZ n)]> (projects s) /\
    observations s' = match after with
                      | Some entity => <[(key, id) := entity]> (observations s)
                      | None => delete (key, id) (observations s)
                      end.

(** A request id is exact when it is made of digits, as the routes see to
    with [isValidId], and [parseInt] reads it without rounding: the number
    it denotes is at most [2^53]. It is canonical when, besides, it is the
    decimal rendering of that number (no leading zeros). *)
Definition exactId (id : string) : Prop :=
  Constants.isValidId id = true /\
  forall n, JS.parseInt id = Some n -> (n <= 2 ^ 53)%N.

Definition canonicalId (id : string) : Prop :=
  Constants.isValidId id = true /\
  forall n, JS.parseInt id = Some n -> JS.toString n = id /\ (n <= 2 ^ 53)%N.

(** The numbers of a store that the maintainer computes with are counts. *)
Definition countsOnly (s : Store) : bool :=
  forallb (fun entry : N * Project.t =>
             JSNumber.isCount (ProjectDataNumber.number (Project.data_number entry.2)))
          (map_to_list (projects s)) &&
  forallb (fun entry : N * N * Observation.t =>
             JSNumber.isCount
               (ObservationDataNumber.quantity (Observation.data_number entry.2)))
          (map_to_list (observations s)).

End DataNumber.

(** ** parsed-image-url.js and storage.js *)

Module Storage.
Import Datastore.

Definition BUCKET_NAME : string := "kidizen-science-images".
Definition CLOUD_STORAGE_BASE_URL : string := "https://storage.googleapis.com".
Definition IMAGE_MIME_TYPES_ALLOWED : list string := ["image/jpeg"; "image/png"].

Record ParsedImageUrl := mkParsedImageUrl {
  baseUrl : string; bucketName : string; fileName : string
}.

(** The constructor; [None] when it throws. *)
Definition parseImageUrl (imageUrl : string) : option ParsedImageUrl :=
  match JS.split "/" imageUrl with
  | [protocol; _; hostname; bucket; file] =>
      Some {| baseUrl := protocol ++ "//" ++ hostname;
              bucketName := bucket; fileName := file |}
  | _ => None
  end.

(** The bucket: the files it holds, each with its content type. Deleting a
    file that is not there is an error of the storage client. *)
Definition deleteImage (bucket : gmap string string) (imageUrl : string)
    : bool * gmap string string :=
  match parseImageUrl imageUrl with
  | None => (false, bucket)
  | Some parsedImageUrl =>
      match bucket !! fileName parsedImageUrl with
      | Some _ => (true, delete (fileName parsedImageUrl) bucket)
      | None => (false, bucket)
      end
  end.

(** [axios.get(imageUrl)] is answered from the bucket: the URL of a file it
    holds answers 200 with the content type of the file, any other URL
    fails. That the public URL of the service serves exactly the files of
    the bucket is an assumption on Cloud Storage, not something the code
    decides. *)
Definition validateImageUrl (bucket : gmap string string) (imageUrl : string) : bool :=
  match parseImageUrl imageUrl with
  | None => false
  | Some parsedImageUrl =>
      if negb (String.eqb (baseUrl parsedImageUrl) CLOUD_STORAGE_BASE_URL) then false
      else if negb (String.eqb (bucketName parsedImageUrl) BUCKET_NAME) then false
      else match bucket !! fileName parsedImageUrl with
           | Some imageMimeType => includes imageMimeType IMAGE_MIME_TYPES_ALLOWED
           | None => false
           end
  end.

(** [writeImageToStorage]: the name under which an upload is stored, given
    [Date.now()] and the name the client gave the file, and the public URL
    answered for a stored file. *)
Definition uploadedName (now : N) (originalname : string) : string :=
  JS.toString now ++ "_" ++ originalname.

Definition publicUrl (blobName : string) : string :=
  CLOUD_STORAGE_BASE_URL ++ "/" ++ BUCKET_NAME ++ "/" ++ blobName.

(** How often a character occurs in a string. *)
Fixpoint occurrences (c : ascii) (s : string) : nat :=
  match s with
  | EmptyString => 0
  | String a rest => (if Ascii.eqb a c then 1 else 0) + occurrences c rest
  end.

End Storage.

(** ** batch-delete.js: the cascade *)

Module BatchDelete.
Import Datastore.

(** The [for] loop of [deleteObservationsOfProject]: the value returned by
    [deleteImage] is dropped. *)
Fixpoint deleteObservationImages (bucket : gmap string string) (projectKey : N)
    (observations : list (N * Observation.t)) (observationKeys : list Key)
    : gmap string string * list Key :=
  match observations with
  | [] => (bucket, observationKeys)
  | observation :: rest =>
      let (_, bucket') :=
        Storage.deleteImage bucket (url (Observation.data_image observation.2)) in
      deleteObservationImages bucket' projectKey rest
        (observationKeys ++ [ObservationKey projectKey observation.1])
  end.

Definition deleteObservationsOfProject (tx : Transaction) (bucket : gmap string string)
    (projectKey : N) : bool * Transaction * gmap string string :=
  match runQueryObservations tx projectKey with
  | (None, tx1) => (false, tx1, bucket)
  | (Some observations, tx1) =>
      let (bucket', observationKeys) :=
        deleteObservationImages bucket projectKey observations [] in
      (true, record tx1 (DeleteKeys observationKeys), bucket')
  end.

(** The [for] loop of [deleteProjectsOfTeacher]: neither the value of
    [deleteImage] nor that of [deleteObservationsOfProject] is looked at. *)
Fixpoint deleteProjectSubtrees (tx : Transaction) (bucket : gmap string string)
    (projects : list (N * Project.t)) (projectKeys : list Key)
    : Transaction * gmap string string * list Key :=
  match projects with
  | [] => (tx, bucket, projectKeys)
  | project :: rest =>
      let (_, bucket1) :=
        Storage.deleteImage bucket (url (Project.description_image project.2)) in
      let projectKey := project.1 in
      let '(_, tx1, bucket2) := deleteObservationsOfProject tx bucket1 projectKey in
      deleteProjectSubtrees tx1 bucket2 rest (projectKeys ++ [ProjectKey projectKey])
  end.

Definition deleteProjectsOfTeacher (tx : Transaction) (bucket : gmap string string)
    (teacherId : string) : bool * Transaction * gmap string string :=
  match runQueryProjects tx teacherId with
  | (None, tx1) => (false, tx1, bucket)
  | (Some projects, tx1) =>
      let '(tx2, bucket', projectKeys) := deleteProjectSubtrees tx1 bucket projects [] in
      (true, record tx2 (DeleteKeys projectKeys), bucket')
  end.

End BatchDelete.

(** ** server-response.js *)

Inductive Content :=
| NoContent
| ErrorMessage (error : string)
| IdAndSelf (id : N)
| ResetCodeChallenge (secret_question_1 secret_question_2 reset_code : string)
| EntityList (ids : list N).

Record ServerResponse := mkServerResponse { status : Z; content : Content }.

(** ** The collaborators of auth.js *)

(** AES under the process-wide secret. CryptoJS salts each encryption, so
    the ciphertext depends on a salt drawn at the time of the call. *)
Class Cipher := {
  encryptString : string -> string -> string;
  decryptString : string -> string
}.

(** [Buffer.from(s, "base64").toString("utf8")] *)
Class Base64 := { base64Decode : string -> string }.

(** The random source behind the salts and [uuid.v4()]. *)
Record Entropy := mkEntropy { pool : nat -> string; used : nat }.

Definition draw (e : Entropy) : string * Entropy :=
  (pool e (used e), {| pool := pool e; used := S (used e) |}).

(** ** auth.js: credentials and the authorization check *)

Module Auth.
Import Datastore.

Section Credential.
Context {cipher : Cipher}.

Record Credential := mkCredential {
  data : CredentialData.t;
  datastoreKey : option (N * N)
}.

Definition setPassword (this : Credential) (p : string) : Credential :=
  {| data := {| CredentialData.password := p;
                CredentialData.secret_questions :=
                  CredentialData.secret_questions (data this);
                CredentialData.reset_code := CredentialData.reset_code (data this) |};
     datastoreKey := datastoreKey this |}.

Definition setSecretQuestions (this : Credential) (q : SecretQuestions.t) : Credential :=
  {| data := {| CredentialData.password := CredentialData.password (data this);
                CredentialData.secret_questions := q;
                CredentialData.reset_code := CredentialData.reset_code (data this) |};
     datastoreKey := datastoreKey this |}.

Definition setResetCode (this : Credential) (r : ResetCode.t) : Credential :=
  {| data := {| CredentialData.password := CredentialData.password (data this);
                CredentialData.secret_questions :=
                  CredentialData.secret_questions (data this);
                CredentialData.reset_code := r |};
     datastoreKey := datastoreKey this |}.

Definition password (this : Credential) := CredentialData.password (data this).
Definition secret_questions (this : Credential) :=
  CredentialData.secret_questions (data this).
Definition reset_code (this : Credential) := CredentialData.reset_code (data this).

(** One call of [Credential.encryptString], with the salt it draws. *)
Definition encrypt (e : Entropy) (plaintext : string) : string * Entropy :=
  let (salt, e') := draw e in (encryptString salt plaintext, e').

Definition encryptPassword (this : Credential) (e : Entropy) : Credential * Entropy :=
  let (c, e1) := encrypt e (password this) in (setPassword this c, e1).

(** [Object.keys] lists the fields in the order the constructor set them. *)
Definition encryptSecretQuestions (this : Credential) (e : Entropy)
    : Credential * Entropy :=
  let q := secret_questions this in
  let (q1, e1) := encrypt e (SecretQuestions.question_1 q) in
  let (q2, e2) := encrypt e1 (SecretQuestions.question_2 q) in
  let (a1, e3) := encrypt e2 (SecretQuestions.answer_1 q) in
  let (a2, e4) := encrypt e3 (SecretQuestions.answer_2 q) in
  (setSecretQuestions this (SecretQuestions.mk q1 q2 a1 a2), e4).

Definition encryptResetCode (this : Credential) (e : Entropy) : Credential * Entropy :=
  let r := reset_code this in
  let (c, e1) := encrypt e (ResetCode.code r) in
  let (x, e2) := encrypt e1 (ResetCode.expires r) in
  (setResetCode this (ResetCode.mk c x), e2).

Definition decryptPassword (this : Credential) : Credential :=
  setPassword this (decryptString (password this)).

Definition decryptSecretQuestions (this : Credential) : Credential :=
  let q := secret_questions this in
  setSecretQuestions this
    (SecretQuestions.mk (decryptString (SecretQuestions.question_1 q))
                        (decryptString (SecretQuestions.question_2 q))
                        (decryptString (SecretQuestions.answer_1 q))
                        (decryptString (SecretQuestions.answer_2 q))).

Definition decryptResetCode (this : Credential) : Credential :=
  let r := reset_code this in
  setResetCode this
    (ResetCode.mk (decryptString (ResetCode.code r))
                  (decryptString (ResetCode.expires r))).

(** [new Credential(json, false)]: the plaintext is encrypted field by
    field; no reset code has been issued yet. *)
Definition newCredential (password : string) (questions : SecretQuestions.t)
    (e : Entropy) : Credential * Entropy :=
  let this := {| data := CredentialData.mk password questions ResetCode.empty;
                 datastoreKey := None |} in
  let (this1, e1) := encryptPassword this e in
  let (this2, e2) := encryptSecretQuestions this1 e1 in
  encryptResetCode this2 e2.

Definition generateResetCodeChallenge (this : Credential) (e : Entropy) (now : N)
    : Content * Credential * Entropy :=
  let this1 := decryptSecretQuestions this in
  let decrypted_secret_question_1 := SecretQuestions.question_1 (secret_questions this1) in
  let decrypted_secret_question_2 := SecretQuestions.question_2 (secret_questions this1) in
  let (this2, e1) := encryptSecretQuestions this1 e in
  let (uuid, e2) := draw e1 in
  let this3 := setResetCode this2 (ResetCode.refreshCode uuid now) in
  let refereshed_reset_code := ResetCode.code (reset_code this3) in
  let (this4, e3) := encryptResetCode this3 e2 in
  (ResetCodeChallenge decrypted_secret_question_1 decrypted_secret_question_2
                      refereshed_reset_code, this4, e3).

Definition updatePassword (this : Credential) (e : Entropy) (newPassword : string)
    : Credential * Entropy :=
  encryptPassword (setPassword this newPassword) e.

Definition updateSecretQuestions (this : Credential) (e : Entropy)
    (newSecretQuestions : SecretQuestions.t) : Credential * Entropy :=
  encryptSecretQuestions (setSecretQuestions this newSecretQuestions) e.

Definition clearResetCode (this : Credential) (e : Entropy) : Credential * Entropy :=
  encryptResetCode (setResetCode this (ResetCode.clearCode (reset_code this))) e.

Definition passwordsMatch (this : Credential) (e : Entropy) (passwordFromClient : string)
    : bool * Credential * Entropy :=
  let this1 := decryptPassword this in
  let passwordsAreEqual := String.eqb passwordFromClient (password this1) in
  let (this2, e1) := encryptPassword this1 e in
  (passwordsAreEqual, this2, e1).

(** When [deepCompare] throws, the call ends there ([None]), past the
    decryption and short of the encryption. *)
Definition secretQuestionsMatch (this : Credential) (e : Entropy)
    (secretQuestionsFromClient : Value) : option bool * Credential * Entropy :=
  let this1 := decryptSecretQuestions this in
  match SecretQuestions.deepCompare (secret_questions this1) secretQuestionsFromClient with
  | None => (None, this1, e)
  | Some questionsAreEqual =>
      let (this2, e1) := encryptSecretQuestions this1 e in
      (Some questionsAreEqual, this2, e1)
  end.

Definition resetCodeValid (this : Credential) (e : Entropy) (now : N)
    (resetCodeFromClient : string) : bool * Credential * Entropy :=
  let this1 := decryptResetCode this in
  let resetCodesMatch := String.eqb resetCodeFromClient (ResetCode.code (reset_code this1)) in
  let resetCodeUnexpired := ResetCode.isUnexpired (reset_code this1) now in
  let (this2, e1) := encryptResetCode this1 e in
  (resetCodesMatch && resetCodeUnexpired, this2, e1).

(** What a credential says once every field is decrypted, and what it
    means for its fields to be ciphertexts. *)
Definition plain (this : Credential) : CredentialData.t :=
  data (decryptResetCode (decryptSecretQuestions (decryptPassword this))).

Definition encryptedForm (field : string) : Prop :=
  exists salt plaintext, field = encryptString salt plaintext.

Definition allEncrypted (this : Credential) : Prop :=
  encryptedForm (password this) /\
  encryptedForm (SecretQuestions.question_1 (secret_questions this)) /\
  encryptedForm (SecretQuestions.question_2 (secret_questions this)) /\
  encryptedForm (SecretQuestions.answer_1 (secret_questions this)) /\
  encryptedForm (SecretQuestions.answer_2 (secret_questions this)) /\
  encryptedForm (ResetCode.code (reset_code this)) /\
  encryptedForm (ResetCode.expires (reset_code this)).

End Credential.

Section Functions.
Context {cipher : Cipher} {base64 : Base64}.

Definition getTeacherOfProject (tx : Transaction) (projectId : string)
    : option string * Transaction :=
  match JS.parseInt projectId with
  | None => (None, tx)
  | Some key =>
      match getProject tx key with
      | (Some (Some project), tx') => (Some (Project.teacher_id project), tx')
      | (_, tx') => (None, tx')
      end
  end.

(** [postCredential]: a save outside any transaction; [saveFails] tells
    whether that call to the server throws. *)
Definition postCredential (s : Store) (saveFails : bool) (credentialToAdd : Credential)
    (teacherId : string) : bool * Store :=
  match JS.parseInt teacherId with
  | None => (false, s)
  | Some teacherKey =>
      if saveFails then (false, s)
      else (true,
            setCredentials s
              (<[(teacherKey, newCredentialId s teacherKey) := data credentialToAdd]>
                 (credentials s)))
  end.

Definition getCredential (tx : Transaction) (teacherId : string)
    : option Credential * Transaction :=
  match JS.parseInt teacherId with
  | None => (None, tx)
  | Some teacherKey =>
      match runQueryCredentials tx teacherKey with
      | (Some [entity], tx') =>
          (Some {| data := entity.2; datastoreKey := Some (teacherKey, entity.1) |}, tx')
      | (_, tx') => (None, tx')
      end
  end.

Definition SERVER_ERROR : ServerResponse :=
  mkServerResponse 500 (ErrorMessage "An internal server error has occurred.").
Definition TEACHER_NOT_FOUND : ServerResponse :=
  mkServerResponse 404 (ErrorMessage "The teacher with teacher_id cannot be found.").
Definition CREDENTIAL_NOT_FOUND : ServerResponse :=
  mkServerResponse 404 (ErrorMessage
    "No credentials could be found on file for the teacher whose credentials were provided.").
Definition INVALID_UPDATE : ServerResponse :=
  mkServerResponse 400 (ErrorMessage
    "No valid parameter was included or at least 1 parameter was invalid.").

Definition FORBIDDEN : ServerResponse :=
  mkServerResponse 403 (ErrorMessage
    "The teacher whose authorization credentials were provided does not own this resource.").

Definition RESET_CODE_REFUSED : ServerResponse :=
  mkServerResponse 401 (ErrorMessage "The reset code provided is incorrect and/or expired.").

(** [transaction.save] of a credential under the key it was read with. *)
Definition saveCredential (tx : Transaction) (c : Credential) : option Transaction :=
  match datastoreKey c with
  | Some (teacherKey, id) => Some (record tx (SaveCredential teacherKey id (data c)))
  | None => None
  end.

Definition getCredentialResetChallenge (s : Store) (faults : nat -> bool)
    (e : Entropy) (now : N) (teacherId : string) : ServerResponse * Store * Entropy :=
  let tx := begin s faults in
  match getCredential tx teacherId with
  | (None, tx1) => (TEACHER_NOT_FOUND, rollback tx1, e)
  | (Some currentCredential, tx1) =>
      let '(resetCodeChallenge, credential', e') :=
        generateResetCodeChallenge currentCredential e now in
      match saveCredential tx1 credential' with
      | None => (SERVER_ERROR, rollback tx1, e')
      | Some tx2 =>
          match commit tx2 with
          | None => (SERVER_ERROR, rollback tx2, e')
          | Some s' => (mkServerResponse 200 resetCodeChallenge, s', e')
          end
      end
  end.

(** What [validateAuthHeader] leaves behind besides its answer: the
    transaction, the random source, and the credential object it worked
    on (the caller's own object when one was passed in). *)
Record AuthState := mkAuthState {
  transaction : Transaction;
  entropy : Entropy;
  credential : option Credential
}.

(** [None] as answer is the [null] that lets the request proceed. *)
Definition validateAuthHeader (tx : Transaction) (e : Entropy) (now : N)
    (authReceived : option string) (teacherIdExpected : option string)
    (credentialExpected : option Credential) (useResetCode : bool)
    : option ServerResponse * AuthState :=
  let untouched := mkAuthState tx e credentialExpected in
  match authReceived with
  | None | Some EmptyString =>
      (Some (mkServerResponse 401
         (ErrorMessage "Authorization is required to access this endpoint.")), untouched)
  | Some authReceived =>
      let spaceIndex := JS.indexOf " " authReceived in
      if Z.leb spaceIndex 0 then
        (Some (mkServerResponse 400
           (ErrorMessage "The authorization credentials included could not be parsed")),
         untouched)
      else
        let authType := JS.substring2 authReceived 0 spaceIndex in
        let authCredentialsBase64 := JS.substring1 authReceived (spaceIndex + 1) in
        if negb (String.eqb authType "Basic") then
          (Some (mkServerResponse 401
             (ErrorMessage "Only Basic-type authorization headers are accepted")),
           untouched)
        else
          let authCredentials := base64Decode authCredentialsBase64 in
          match JS.split ":" authCredentials with
          | [teacherIdReceived; passwordReceived] =>
              if match teacherIdExpected with
                 | Some expected => negb (String.eqb teacherIdReceived expected)
                 | None => false
                 end
              then
                (Some FORBIDDEN, untouched)
              else
                let fetched :=
                  match credentialExpected with
                  | Some c => (Some c, tx)
                  | None => getCredential tx teacherIdReceived
                  end in
                match fetched with
                | (None, tx1) =>
                    (Some CREDENTIAL_NOT_FOUND, mkAuthState tx1 e None)
                | (Some credentialExpected, tx1) =>
                    if useResetCode then
                      let '(valid, c', e') :=
                        resetCodeValid credentialExpected e now passwordReceived in
                      (if negb valid then Some RESET_CODE_REFUSED else None,
                       mkAuthState tx1 e' (Some c'))
                    else
                      let '(matches, c', e') :=
                        passwordsMatch credentialExpected e passwordReceived in
                      (if negb matches
                       then Some (mkServerResponse 401 (ErrorMessage
                              "The password provided is incorrect."))
                       else None,
                       mkAuthState tx1 e' (Some c'))
                end
          | _ =>
              (Some (mkServerResponse 400
                 (ErrorMessage "The authorization credentials included could not be parsed")),
               untouched)
          end
  end.

(** A header the parser accepts: not empty, a first blank after the word
    Basic, and after the blank a payload that decodes to an id and a
    secret separated by the only colon. *)
Definition wellFormed (authReceived id secret : string) : Prop :=
  authReceived <> EmptyString /\
  (0 < JS.indexOf " " authReceived)%Z /\
  JS.substring2 authReceived 0 (JS.indexOf " " authReceived) = "Basic" /\
  JS.split ":" (base64Decode
                  (JS.substring1 authReceived (JS.indexOf " " authReceived + 1)))
  = [id; secret].

(** The tail shared by the two credential updates: save, commit, 204. *)
Definition saveAndCommit (tx : Transaction) (c : Credential) (e : Entropy)
    : ServerResponse * Store * Entropy :=
  match saveCredential tx c with
  | None => (SERVER_ERROR, rollback tx, e)
  | Some tx' =>
      match commit tx' with
      | None => (SERVER_ERROR, rollback tx', e)
      | Some s' => (mkServerResponse 204 NoContent, s', e)
      end
  end.

Definition updateCredentialPasswordKnown (s : Store) (faults : nat -> bool)
    (e : Entropy) (now : N) (credentialPatches : list (string * Value))
    (teacherId : string) (authReceived : option string)
    : ServerResponse * Store * Entropy :=
  let entityType := Constants.CREDENTIAL_ENTITY_TYPE in
  if negb (EntityType.validateProperties credentialPatches
             (EntityType.updateProperties entityType))
  then (INVALID_UPDATE, s, e)
  else
    let tx := begin s faults in
    let (exists_, tx1) := teacherExists tx teacherId in
    if negb exists_ then (TEACHER_NOT_FOUND, rollback tx1, e)
    else
      match getCredential tx1 teacherId with
      | (None, tx2) => (CREDENTIAL_NOT_FOUND, rollback tx2, e)
      | (Some credentialToUpdate, tx2) =>
          match validateAuthHeader tx2 e now authReceived (Some teacherId)
                  (Some credentialToUpdate) false with
          | (Some responseInfo, st) =>
              (responseInfo, rollback (transaction st), entropy st)
          | (None, st) =>
              match credential st with
              | None => (SERVER_ERROR, rollback (transaction st), entropy st)
              | Some c =>
                  let patchKeys := map fst credentialPatches in
                  let (c1, e1) :=
                    if includes "password" patchKeys
                    then updatePassword c (entropy st)
                           (asString (lookupField "password" credentialPatches))
                    else (c, entropy st) in
                  let (c2, e2) :=
                    if includes "secret_questions" patchKeys
                    then updateSecretQuestions c1 e1
                           (SecretQuestions.ofValue
                              (lookupField "secret_questions" credentialPatches))
                    else (c1, e1) in
                  saveAndCommit (transaction st) c2 e2
              end
          end
      end.

Definition resetUnknownPassword (s : Store) (faults : nat -> bool)
    (e : Entropy) (now : N) (requestBody : list (string * Value))
    (teacherId : string) (authReceived : option string)
    : ServerResponse * Store * Entropy :=
  let entityType := Constants.CREDENTIAL_ENTITY_TYPE in
  if negb (EntityType.validateProperties requestBody
             (EntityType.createProperties entityType))
  then (INVALID_UPDATE, s, e)
  else
    let tx := begin s faults in
    let (exists_, tx1) := teacherExists tx teacherId in
    if negb exists_ then (TEACHER_NOT_FOUND, rollback tx1, e)
    else
      match getCredential tx1 teacherId with
      | (None, tx2) => (CREDENTIAL_NOT_FOUND, rollback tx2, e)
      | (Some credentialToUpdate, tx2) =>
          match validateAuthHeader tx2 e now authReceived (Some teacherId)
                  (Some credentialToUpdate) true with
          | (Some responseInfo, st) =>
              (responseInfo, rollback (transaction st), entropy st)
          | (None, st) =>
              match credential st with
              | None => (SERVER_ERROR, rollback (transaction st), entropy st)
              | Some c =>
                  let '(questionsMatch, c1, e1) :=
                    secretQuestionsMatch c (entropy st)
                      (lookupField "secret_questions" requestBody) in
                  match questionsMatch with
                  | None => (SERVER_ERROR, rollback (transaction st), e1)
                  | Some false =>
                      (mkServerResponse 401 (ErrorMessage
                         "The secret questions and answers provided do not match those on file."),
                       rollback (transaction st), e1)
                  | Some true =>
                      let newPassword := asString (lookupField "password" requestBody) in
                      let '(same, c2, e2) := passwordsMatch c1 e1 newPassword in
                      if same then
                        (mkServerResponse 403 (ErrorMessage
                           "The new password cannot match the old one."),
                         rollback (transaction st), e2)
                      else
                        let (c3, e3) := updatePassword c2 e2 newPassword in
                        let (c4, e4) := clearResetCode c3 e3 in
                        saveAndCommit (transaction st) c4 e4
                  end
              end
          end
      end.

Definition deleteCredential (tx : Transaction) (teacherId : string)
    : bool * Transaction :=
  match getCredential tx teacherId with
  | (None, tx1) => (false, tx1)
  | (Some credentialToDelete, tx1) =>
      match datastoreKey credentialToDelete with
      | Some (teacherKey, id) =>
          (true, record tx1 (DeleteKeys [CredentialKey teacherKey id]))
      | None => (false, tx1)
      end
  end.

(** What a credential request may do to the store: nothing, or replace the
    one credential of the teacher it names. *)
Definition credentialStep (s s' : Store) (teacherId : string) : Prop :=
  s' = s \/
  exists key cid d stored,
    JS.parseInt teacherId = Some key /\ credentialsOf s key = [(cid, d)] /\
    s' = setCredentials s (<[(key, cid) := stored]> (credentials s)).

(** The header carries the id [owner] and the password on file for that
    teacher in store [s]. *)
Definition presentsPassword (s : Store) (authReceived : option string)
    (owner : string) : Prop :=
  exists header secret key cid d,
    authReceived = Some header /\ wellFormed header owner secret /\
    JS.parseInt owner = Some key /\ credentialsOf s key = [(cid, d)] /\
    decryptString (CredentialData.password d) = secret.

End Functions.

End Auth.

(** ** crud.js: the four operations *)

Module Crud.
Import Datastore.

(** What a request can change: the store, the bucket, the random source. *)
Record World := mkWorld {
  store : Store;
  bucket : gmap string string;
  entropy : Entropy
}.

(** The routes reach the handlers with a root collection, or with the
    child collection together with the id of its ancestor project. The
    routes let a teacher stand as the ancestor too
    ([/teachers/:id/observations]); the handlers are modelled for the
    documented routes, under a project. *)
Inductive Collection :=
| Teachers
| Projects
| Observations (ancestorId : string).

Definition entityTypeOf (collection : Collection) : EntityType.t :=
  match collection with
  | Teachers => Constants.COLLECTIONS.roots.teachers
  | Projects => Constants.COLLECTIONS.roots.projects
  | Observations _ => Constants.COLLECTIONS.children.observations
  end.

Definition respond (code : Z) (error : string) : ServerResponse :=
  mkServerResponse code (ErrorMessage error).

Definition INVALID_PROPERTIES :=
  respond 400 "At least one parameter was missing, invalid, or extraneous.".
Definition INVALID_UPDATE :=
  respond 400 "No valid parameter was included or at least 1 parameter was invalid.".
Definition INVALID_IMAGE_URL :=
  respond 400 ("The image URL provided is improperly formatted, the image does not exist, "
               ++ "or the image is not in an acceptable format").
Definition ITEM_NOT_FOUND := respond 404 "The item you requested could not be found.".
Definition ANCESTOR_NOT_FOUND := respond 404 "The project with project_id cannot be found.".
Definition TEACHER_NOT_FOUND := respond 404 "The teacher with teacher_id cannot be found.".
Definition SERVER_ERROR := respond 500 "An internal server error has occurred.".
Definition INVALID_CURSOR :=
  respond 403 "The start cursor provided is not a valid Datastore cursor.".

(** The stored form of a request body that passed validation. *)
Definition imageOf (value : Value) : Image :=
  {| title := asString (getProp value "title");
     url := asString (getProp value "url");
     alt_text := asString (getProp value "alt_text") |}.

Definition observationDataNumberOf (value : Value) : ObservationDataNumber.t :=
  {| ObservationDataNumber.quantity := asNumber (getProp value "quantity");
     ObservationDataNumber.description := asString (getProp value "description") |}.

Definition projectDataNumberOf (value : Value) : ProjectDataNumber.t :=
  {| ProjectDataNumber.name := asString (getProp value "name");
     ProjectDataNumber.number := asNumber (getProp value "number");
     ProjectDataNumber.must_be_unique := asBool (getProp value "must_be_unique") |}.

Definition teacherOf (entityData : list (string * Value)) : Teacher.t :=
  {| Teacher.name := asString (lookupField "name" entityData);
     Teacher.email := asString (lookupField "email" entityData);
     Teacher.school := asString (lookupField "school" entityData);
     Teacher.profile_photo := asString (lookupField "profile_photo" entityData) |}.

Definition projectOf (entityData : list (string * Value)) : Project.t :=
  {| Project.teacher_id := asString (lookupField "teacher_id" entityData);
     Project.name := asString (lookupField "name" entityData);
     Project.data_number := projectDataNumberOf (lookupField "data_number" entityData);
     Project.description_image := imageOf (lookupField "description_image" entityData);
     Project.description_text := asString (lookupField "description_text" entityData) |}.

Definition observationOf (entityData : list (string * Value)) : Observation.t :=
  {| Observation.date := asString (lookupField "date" entityData);
     Observation.data_image := imageOf (lookupField "data_image" entityData);
     Observation.data_number :=
       observationDataNumberOf (lookupField "data_number" entityData);
     Observation.data_description :=
       asString (lookupField "data_description" entityData) |}.

(** [obj.key = value] and [delete obj.key] on a request body. *)
Fixpoint removeField (key : string) (fields : list (string * Value)) :=
  match fields with
  | [] => []
  | (k, v) :: rest =>
      if String.eqb k key then removeField key rest else (k, v) :: removeField key rest
  end.
Definition setField (key : string) (value : Value) (fields : list (string * Value)) :=
  removeField key fields ++ [(key, value)].

(** [cloudStorage.getImageUrl(entityData, entityType)] on a request body:
    [None] is [null]. *)
Fixpoint followPath (prop : Value) (imagePath : list string) : option Value :=
  match imagePath with
  | [] => Some prop
  | key :: rest =>
      match getProp prop key with
      | VUndefined => None
      | next => followPath next rest
      end
  end.

Definition getImageUrl (entityData : list (string * Value)) (entityType : EntityType.t)
    : option string :=
  match EntityType.getImageLocation entityType with
  | None => None
  | Some imagePath =>
      match followPath (VObject entityData) imagePath with
      | Some (VString imageUrl) => Some imageUrl
      | _ => None
      end
  end.

Section Operations.
Context {cipher : Cipher} {base64 : Base64}.

(** [if (entityType.methodRequiresCredentials(method)) { ... validateAuthHeader ... }] *)
Definition authorize (tx : Transaction) (e : Entropy) (now : N)
    (entityType : EntityType.t) (method : string)
    (authReceived : option string) (teacherIdExpected : string)
    : option ServerResponse * Transaction * Entropy :=
  if EntityType.methodRequiresCredentials entityType method then
    let (responseInfo, st) :=
      Auth.validateAuthHeader tx e now authReceived (Some teacherIdExpected) None false in
    (responseInfo, Auth.transaction st, Auth.entropy st)
  else (None, tx, e).

(** The end of a write request: commit, or roll back when commit throws. *)
Definition finish (tx : Transaction) (w : World) (e : Entropy)
    (success : ServerResponse) : ServerResponse * World :=
  match commit tx with
  | None => (SERVER_ERROR, mkWorld (rollback tx) (bucket w) e)
  | Some s' => (success, mkWorld s' (bucket w) e)
  end.

Definition postEntity (w : World) (faults : nat -> bool) (credentialSaveFails : bool)
    (now : N) (entityData : list (string * Value)) (collection : Collection)
    (authReceived : option string) : ServerResponse * World :=
  let entityType := entityTypeOf collection in
  if negb (EntityType.validateProperties entityData
             (EntityType.createProperties entityType))
  then (INVALID_PROPERTIES, w)
  else if match getImageUrl entityData entityType with
          | Some imageUrl => negb (Storage.validateImageUrl (bucket w) imageUrl)
          | None => false
          end
  then (INVALID_IMAGE_URL, w)
  else
    let tx := begin (store w) faults in
    match collection with
    | Teachers =>
        let entityData :=
          setField "profile_photo" (VString Constants.DEFAULT_PROFILE_PHOTO) entityData in
        match authorize tx (entropy w) now entityType Constants.POST authReceived "" with
        | (Some responseInfo, tx1, e1) =>
            (responseInfo, mkWorld (rollback tx1) (bucket w) e1)
        | (None, tx1, e1) =>
            let (credentialDataCopy, e2) :=
              Auth.newCredential (asString (lookupField "password" entityData))
                (SecretQuestions.ofValue (lookupField "secret_questions" entityData)) e1 in
            let entityData :=
              removeField "secret_questions" (removeField "password" entityData) in
            let tx2 := record tx1 (SaveNewTeacher (teacherOf entityData)) in
            match commit tx2 with
            | None => (SERVER_ERROR, mkWorld (rollback tx2) (bucket w) e2)
            | Some s' =>
                let id := newTeacherId (snapshot tx2) in
                let (succeeded, s'') :=
                  Auth.postCredential s' credentialSaveFails credentialDataCopy
                    (JS.toString id) in
                if negb succeeded then (SERVER_ERROR, mkWorld s'' (bucket w) e2)
                else (mkServerResponse 201 (IdAndSelf id), mkWorld s'' (bucket w) e2)
            end
        end
    | Projects =>
        let teacher_id := asString (lookupField "teacher_id" entityData) in
        let (exists_, tx1) := teacherExists tx teacher_id in
        if negb exists_ then (TEACHER_NOT_FOUND, w)
        else
          match authorize tx1 (entropy w) now entityType Constants.POST authReceived
                  teacher_id with
          | (Some responseInfo, tx2, e1) =>
              (responseInfo, mkWorld (rollback tx2) (bucket w) e1)
          | (None, tx2, e1) =>
              finish (record tx2 (SaveNewProject (projectOf entityData))) w e1
                     (mkServerResponse 201 (IdAndSelf (newProjectId (snapshot tx2))))
          end
    | Observations ancestorId =>
        match JS.parseInt ancestorId with
        | None => (ANCESTOR_NOT_FOUND, w)
        | Some ancestorKey =>
            match getAncestorData tx ancestorKey with
            | (None, tx1) => (ANCESTOR_NOT_FOUND, mkWorld (rollback tx1) (bucket w) (entropy w))
            | (Some ancestorData, tx1) =>
                match authorize tx1 (entropy w) now entityType Constants.POST
                        authReceived (Project.teacher_id ancestorData) with
                | (Some responseInfo, tx2, e1) =>
                    (responseInfo, mkWorld (rollback tx2) (bucket w) e1)
                | (None, tx2, e1) =>
                    let observation := observationOf entityData in
                    let tx3 := record tx2 (SaveNewObservation ancestorKey observation) in
                    match DataNumber.processPostedObservation tx3 ancestorKey
                            (DataNumber.ProjectData ancestorData)
                            (Observation.data_number observation) with
                    | (Some true, tx4) =>
                        finish tx4 w e1
                          (mkServerResponse 201
                             (IdAndSelf (newObservationId (snapshot tx4) ancestorKey)))
                    | (_, tx4) => (SERVER_ERROR, mkWorld (rollback tx4) (bucket w) e1)
                    end
                end
            end
        end
    end.

(** The assignments [entityToUpdate[propKey] = entityPatches[propKey]]. *)
Definition patched (key : string) (entityPatches : list (string * Value))
    {A} (convert : Value -> A) (current : A) : A :=
  if includes key (map fst entityPatches)
  then convert (lookupField key entityPatches) else current.

Definition patchObservation (entityToUpdate : Observation.t) patches : Observation.t :=
  {| Observation.date := patched "date" patches asString (Observation.date entityToUpdate);
     Observation.data_image :=
       patched "data_image" patches imageOf (Observation.data_image entityToUpdate);
     Observation.data_number :=
       patched "data_number" patches observationDataNumberOf
               (Observation.data_number entityToUpdate);
     Observation.data_description :=
       patched "data_description" patches asString
               (Observation.data_description entityToUpdate) |}.

(** The image step of [updateEntity] for projects and observations:
    [None] when the new URL is refused, else the bucket afterwards. *)
Definition replaceImage (b : gmap string string) (oldImageUrl : string)
    (newImageUrl : option string) : option (gmap string string) :=
  match newImageUrl with
  | Some newUrl =>
      if negb (String.eqb newUrl oldImageUrl) then
        if negb (Storage.validateImageUrl b newUrl) then None
        else if negb (String.eqb oldImageUrl Constants.DEFAULT_PROFILE_PHOTO)
             then Some (snd (Storage.deleteImage b oldImageUrl))
             else Some b
      else Some b
  | None => Some b
  end.

(** [updateEntity] for the child collection, the one whose entities carry
    a [data_number] that feeds the aggregate. *)
Definition updateEntity (w : World) (faults : nat -> bool) (now : N)
    (entityPatches : list (string * Value)) (ancestorId entityId : string)
    (authReceived : option string) : ServerResponse * World :=
  let entityType := Constants.COLLECTIONS.children.observations in
  if negb (EntityType.validateProperties entityPatches
             (EntityType.updateProperties entityType))
  then (INVALID_UPDATE, w)
  else
    match JS.parseInt ancestorId, JS.parseInt entityId with
    | Some ancestorKey, Some id =>
        let tx := begin (store w) faults in
        match getObservation tx ancestorKey id with
        | (None, tx1) => (SERVER_ERROR, mkWorld (rollback tx1) (bucket w) (entropy w))
        | (Some None, tx1) =>
            (ITEM_NOT_FOUND, mkWorld (rollback tx1) (bucket w) (entropy w))
        | (Some (Some entityToUpdate), tx1) =>
            match Auth.getTeacherOfProject tx1 ancestorId with
            | (None, tx2) => (SERVER_ERROR, mkWorld (rollback tx2) (bucket w) (entropy w))
            | (Some teacherIdExpected, tx2) =>
                match authorize tx2 (entropy w) now entityType Constants.PATCH
                        authReceived teacherIdExpected with
                | (Some responseInfo, tx3, e1) =>
                    (responseInfo, mkWorld (rollback tx3) (bucket w) e1)
                | (None, tx3, e1) =>
                    let oldImageUrl := url (Observation.data_image entityToUpdate) in
                    let newImageUrl := getImageUrl entityPatches entityType in
                    match replaceImage (bucket w) oldImageUrl newImageUrl with
                    | None => (INVALID_IMAGE_URL, mkWorld (rollback tx3) (bucket w) e1)
                    | Some bucket' =>
                        let oldODN_JSON :=
                          if includes "data_number" (map fst entityPatches)
                          then Some (Observation.data_number entityToUpdate) else None in
                        let entityToUpdate' := patchObservation entityToUpdate entityPatches in
                        let tx4 := record tx3 (SaveObservation ancestorKey id entityToUpdate') in
                        let w' := mkWorld (store w) bucket' e1 in
                        match oldODN_JSON with
                        | Some old =>
                            match DataNumber.processUpdatedObservation tx4 ancestorId entityId
                                    old (observationDataNumberOf
                                           (lookupField "data_number" entityPatches)) with
                            | (Some true, tx5) =>
                                finish tx5 w' e1 (mkServerResponse 200 (IdAndSelf id))
                            | (_, tx5) => (SERVER_ERROR, mkWorld (rollback tx5) bucket' e1)
                            end
                        | None => finish tx4 w' e1 (mkServerResponse 200 (IdAndSelf id))
                        end
                    end
                end
            end
        end
    | _, _ => (SERVER_ERROR, w)
    end.

(** [if (imageUrl !== null && imageUrl !== DEFAULT_PROFILE_PHOTO) deleteImage(imageUrl)] *)
Definition deleteEntityImage (b : gmap string string) (imageUrl : string)
    : gmap string string :=
  if negb (String.eqb imageUrl Constants.DEFAULT_PROFILE_PHOTO)
  then snd (Storage.deleteImage b imageUrl) else b.

Definition NO_CONTENT : ServerResponse := mkServerResponse 204 NoContent.

Definition deleteEntity (w : World) (faults : nat -> bool) (now : N)
    (collection : Collection) (entityId : string) (authReceived : option string)
    : ServerResponse * World :=
  let entityType := entityTypeOf collection in
  let tx := begin (store w) faults in
  let aborted (t : Transaction) (e : Entropy) (r : ServerResponse) :=
    (r, mkWorld (rollback t) (bucket w) e) in
  match JS.parseInt entityId with
  | None => (SERVER_ERROR, w)
  | Some id =>
      match collection with
      | Teachers =>
          match getTeacher tx id with
          | (None, tx1) => aborted tx1 (entropy w) SERVER_ERROR
          | (Some None, tx1) => aborted tx1 (entropy w) ITEM_NOT_FOUND
          | (Some (Some entity), tx1) =>
              match authorize tx1 (entropy w) now entityType Constants.DELETE
                      authReceived entityId with
              | (Some responseInfo, tx2, e1) => aborted tx2 e1 responseInfo
              | (None, tx2, e1) =>
                  let bucket1 := deleteEntityImage (bucket w) (Teacher.profile_photo entity) in
                  let '(_, tx3, bucket2) :=
                    BatchDelete.deleteProjectsOfTeacher tx2 bucket1 entityId in
                  let (_, tx4) := Auth.deleteCredential tx3 entityId in
                  let tx5 := record tx4 (DeleteKeys [TeacherKey id]) in
                  finish tx5 (mkWorld (store w) bucket2 e1) e1 NO_CONTENT
              end
          end
      | Projects =>
          match getProject tx id with
          | (None, tx1) => aborted tx1 (entropy w) SERVER_ERROR
          | (Some None, tx1) => aborted tx1 (entropy w) ITEM_NOT_FOUND
          | (Some (Some entity), tx1) =>
              match authorize tx1 (entropy w) now entityType Constants.DELETE
                      authReceived (Project.teacher_id entity) with
              | (Some responseInfo, tx2, e1) => aborted tx2 e1 responseInfo
              | (None, tx2, e1) =>
                  let bucket1 :=
                    deleteEntityImage (bucket w) (url (Project.description_image entity)) in
                  let '(_, tx3, bucket2) :=
                    BatchDelete.deleteObservationsOfProject tx2 bucket1 id in
                  let tx4 := record tx3 (DeleteKeys [ProjectKey id]) in
                  finish tx4 (mkWorld (store w) bucket2 e1) e1 NO_CONTENT
              end
          end
      | Observations ancestorId =>
          match JS.parseInt ancestorId with
          | None => (SERVER_ERROR, w)
          | Some ancestorKey =>
              match getObservation tx ancestorKey id with
              | (None, tx1) => aborted tx1 (entropy w) SERVER_ERROR
              | (Some None, tx1) => aborted tx1 (entropy w) ITEM_NOT_FOUND
              | (Some (Some entity), tx1) =>
                  match Auth.getTeacherOfProject tx1 ancestorId with
                  | (None, tx2) => aborted tx2 (entropy w) SERVER_ERROR
                  | (Some teacherIdExpected, tx2) =>
                      match authorize tx2 (entropy w) now entityType Constants.DELETE
                              authReceived teacherIdExpected with
                      | (Some responseInfo, tx3, e1) => aborted tx3 e1 responseInfo
                      | (None, tx3, e1) =>
                          let bucket1 :=
                            deleteEntityImage (bucket w)
                              (url (Observation.data_image entity)) in
                          let tx4 := record tx3 (DeleteKeys [ObservationKey ancestorKey id]) in
                          match DataNumber.processDeletedObservation tx4 ancestorId
                                  entityId (Observation.data_number entity) with
                          | (Some true, tx5) =>
                              finish tx5 (mkWorld (store w) bucket1 e1) e1 NO_CONTENT
                          | (_, tx5) =>
                              (SERVER_ERROR, mkWorld (rollback tx5) bucket1 e1)
                          end
                      end
                  end
              end
          end
      end
  end.

(** The codes with which the Datastore client rejects a query: 3 for an
    argument it cannot parse, here the start cursor; 14 when the server
    cannot be reached. *)
Definition INVALID_ARGUMENT : Z := 3.
Definition UNAVAILABLE : Z := 14.

(** [transaction.runQuery(query)] for a page of [rows]: the error code
    when it throws, else the page and whether more results remain.
    [decodeCursor] is Datastore's reading of a cursor as a position. *)
Definition runPageQuery (tx : Transaction) (decodeCursor : string -> option nat)
    (kind : string) (rows : list N) (limit : nat) (startCursor : option string)
    : (Z + list N * bool) * Transaction :=
  let tx' := record tx (QueryPage kind startCursor) in
  if failsNow tx then (inl UNAVAILABLE, tx')
  else
    match match startCursor with
          | Some cursor => decodeCursor cursor
          | None => Some 0
          end with
    | None => (inl INVALID_ARGUMENT, tx')
    | Some position =>
        let remaining := drop position rows in
        (inr (take limit remaining, Nat.ltb limit (length remaining)), tx')
    end.

Definition getEntities (s : Store) (faults : nat -> bool)
    (decodeCursor : string -> option nat) (collection : Collection)
    (startCursor : option string) (teacherId : option string) : ServerResponse :=
  let tx := begin s faults in
  let entityType := entityTypeOf collection in
  let ancestorChecked :=
    match collection with
    | Observations ancestorId =>
        match JS.parseInt ancestorId with
        | None => (false, tx)
        | Some ancestorKey =>
            match getAncestorData tx ancestorKey with
            | (Some _, tx1) => (true, tx1)
            | (None, tx1) => (false, tx1)
            end
        end
    | _ => (true, tx)
    end in
  let (ancestorExists, tx1) := ancestorChecked in
  if negb ancestorExists then ANCESTOR_NOT_FOUND
  else
    let (teacherFound, tx2) :=
      match teacherId with
      | Some id => teacherExists tx1 id
      | None => (true, tx1)
      end in
    if negb teacherFound then TEACHER_NOT_FOUND
    else
      let rows :=
        match collection with
        | Teachers => map fst (map_to_list (teachers s))
        | Projects =>
            match teacherId with
            | Some id => map fst (projectsOf s id)
            | None => map fst (map_to_list (projects s))
            end
        | Observations ancestorId =>
            match JS.parseInt ancestorId with
            | Some ancestorKey => map fst (observationsOf s ancestorKey)
            | None => []
            end
        end in
      match runPageQuery tx2 decodeCursor (EntityType.entityTypeName entityType) rows
              (EntityType.maxPerPage entityType) startCursor with
      | (inl code, _) =>
          if Z.eqb code 3 then INVALID_CURSOR else SERVER_ERROR
      | (inr (entities, _), tx3) =>
          match commit tx3 with
          | None => SERVER_ERROR
          | Some _ => mkServerResponse 200 (EntityList entities)
          end
      end.

(** The ancestor and the teacher named by a list request exist. *)
Definition listable (s : Store) (collection : Collection)
    (teacherId : option string) : Prop :=
  match collection with
  | Observations ancestorId =>
      exists key project,
        JS.parseInt ancestorId = Some key /\ projects s !! key = Some project
  | _ => True
  end /\
  match teacherId with
  | Some id =>
      exists key teacher, JS.parseInt id = Some key /\ teachers s !! key = Some teacher
  | None => True
  end.

(** The three observation requests, each with the conditions under which
    it runs: the outages met, the clock, and what the client sends. *)
Inductive ObservationRequest :=
| CreateObservation (faults : nat -> bool) (now : N) (ancestorId : string)
    (entityData : list (string * Value)) (authReceived : option string)
| UpdateObservation (faults : nat -> bool) (now : N) (ancestorId entityId : string)
    (entityPatches : list (string * Value)) (authReceived : option string)
| DeleteObservation (faults : nat -> bool) (now : N) (ancestorId entityId : string)
    (authReceived : option string).

Definition serve (w : World) (request : ObservationRequest) : ServerResponse * World :=
  match request with
  | CreateObservation faults now ancestorId entityData authReceived =>
      postEntity w faults false now entityData (Observations ancestorId) authReceived
  | UpdateObservation faults now ancestorId entityId entityPatches authReceived =>
      updateEntity w faults now entityPatches ancestorId entityId authReceived
  | DeleteObservation faults now ancestorId entityId authReceived =>
      deleteEntity w faults now (Observations ancestorId) entityId authReceived
  end.

Definition serveAll (w : World) (requests : list ObservationRequest) : World :=
  foldl (fun w request => (serve w request).2) w requests.

(** The id of the observation a request names, when it names one. *)
Definition namedId (request : ObservationRequest) : option string :=
  match request with
  | CreateObservation _ _ _ _ _ => None
  | UpdateObservation _ _ _ entityId _ _ => Some entityId
  | DeleteObservation _ _ _ entityId _ => Some entityId
  end.

(** The id of the project a request names. *)
Definition ancestorOf (request : ObservationRequest) : string :=
  match request with
  | CreateObservation _ _ ancestorId _ _ => ancestorId
  | UpdateObservation _ _ ancestorId _ _ _ => ancestorId
  | DeleteObservation _ _ ancestorId _ _ => ancestorId
  end.

Definition canonicalRequest (request : ObservationRequest) : Prop :=
  DataNumber.exactId (ancestorOf request) /\
  match namedId request with
  | Some entityId => DataNumber.canonicalId entityId
  | None => True
  end.

(** The quantity a request brings, when it brings one. *)
Definition quantityOfRequest (request : ObservationRequest) : option JSNumber.t :=
  match request with
  | CreateObservation _ _ _ entityData _ =>
      Some (ObservationDataNumber.quantity
              (Observation.data_number (observationOf entityData)))
  | UpdateObservation _ _ _ _ entityPatches _ =>
      if includes "data_number" (map fst entityPatches)
      then Some (ObservationDataNumber.quantity
                   (observationDataNumberOf (lookupField "data_number" entityPatches)))
      else None
  | DeleteObservation _ _ _ _ _ => None
  end.

(** Along a run of requests every number the maintainer computes with is a
    count: the counters and quantities of the store before each request and
    after the last, and the quantity each request brings. *)
Fixpoint countsAlong (w : World) (requests : list ObservationRequest) : Prop :=
  DataNumber.countsOnly (store w) = true /\
  match requests with
  | [] => True
  | request :: rest =>
      match quantityOfRequest request with
      | Some quantity => JSNumber.isCount quantity = true
      | None => True
      end /\
      countsAlong (serve w request).2 rest
  end.

(** The teacher to whom an entity belongs: the teacher itself, the
    [teacher_id] of a project, the [teacher_id] of the project above an
    observation. *)
Definition ownerOf (s : Store) (collection : Collection) (entityId : string)
    : option string :=
  match collection with
  | Teachers => Some entityId
  | Projects =>
      match JS.parseInt entityId with
      | Some id => Project.teacher_id <$> projects s !! id
      | None => None
      end
  | Observations ancestorId =>
      match JS.parseInt ancestorId with
      | Some ancestorKey => Project.teacher_id <$> projects s !! ancestorKey
      | None => None
      end
  end.

End Operations.

End Crud.

(** ** Sample collaborators and sample data, used to run the model *)

Module Samples.

(** A stand-in for AES: the first character of the salt, then the
    plaintext with every character code moved up by one. *)
Definition shiftUp (c : ascii) : ascii := ascii_of_N ((N_of_ascii c + 1) mod 256).
Definition shiftDown (c : ascii) : ascii := ascii_of_N ((N_of_ascii c + 255) mod 256).

Fixpoint mapString (f : ascii -> ascii) (s : string) : string :=
  match s with
  | EmptyString => EmptyString
  | String c rest => String (f c) (mapString f rest)
  end.

Definition saltMark (salt : string) : ascii :=
  match salt with
  | EmptyString => "#"%char
  | String c _ => c
  end.

Definition sampleEncrypt (salt plaintext : string) : string :=
  String (saltMark salt) (mapString shiftUp plaintext).

Definition sampleDecrypt (ciphertext : string) : string :=
  match ciphertext with
  | EmptyString => EmptyString
  | String _ body => mapString shiftDown body
  end.

Definition sampleCipher : Cipher :=
  {| encryptString := sampleEncrypt; decryptString := sampleDecrypt |}.

(** Base64 decoding of the standard alphabet; other characters, among
    them the padding, are skipped. *)
Definition sextet (c : ascii) : option N :=
  let n := N_of_ascii c in
  if Constants.inRange 65 90 c then Some (n - 65)%N
  else if Constants.inRange 97 122 c then Some (n - 71)%N
  else if Constants.inRange 48 57 c then Some (n + 4)%N
  else if N.eqb n 43 then Some 62%N
  else if N.eqb n 47 then Some 63%N
  else None.

Fixpoint sextets (s : string) : list N :=
  match s with
  | EmptyString => []
  | String c rest =>
      match sextet c with
      | Some v => v :: sextets rest
      | None => sextets rest
      end
  end.

Definition byte (n : N) : ascii := ascii_of_N (n mod 256).

Fixpoint octets (l : list N) : string :=
  match l with
  | a :: b :: c :: d :: rest =>
      String (byte (a * 4 + b / 16))
        (String (byte (b * 16 + c / 4))
           (String (byte (c * 64 + d)) (octets rest)))
  | [a; b; c] =>
      String (byte (a * 4 + b / 16)) (String (byte (b * 16 + c / 4)) EmptyString)
  | [a; b] => String (byte (a * 4 + b / 16)) EmptyString
  | _ => EmptyString
  end%N.

Definition sampleBase64 : Base64 := {| base64Decode := fun s => octets (sextets s) |}.

(** A random source that hands out the decimal rendering of a counter. *)
Definition sampleEntropy : Entropy :=
  {| pool := fun n => JS.toString (N.of_nat n); used := 0 |}.

Definition noFaults : nat -> bool := fun _ => false.

(** A Datastore that reads no string as a cursor. *)
Definition noCursor : string -> option nat := fun _ => None.

(** The header of teacher 8 with the secret Relativity1. *)
Definition headerOfTeacher8 : string := "Basic ODpSZWxhdGl2aXR5MQ==".

Definition emptyStore : Datastore.Store :=
  {| Datastore.teachers := ∅; Datastore.credentials := ∅;
     Datastore.projects := ∅; Datastore.observations := ∅;
     Datastore.retired := [] |}.

Definition secretQuestionsBody : Value :=
  VObject [ ("question_1", VString "First pet?"); ("question_2", VString "First school?");
            ("answer_1", VString "Rex"); ("answer_2", VString "Elm Street") ].

Definition teacherBody (password : Value) : list (string * Value) :=
  [ ("name", VString "Ada"); ("email", VString "ada@example.org");
    ("school", VString "Elm Street School"); ("password", password);
    ("secret_questions", secretQuestionsBody) ].

(** The credential made for a new teacher with password Relativity1. *)
Definition sampleCredential : Auth.Credential :=
  (@Auth.newCredential sampleCipher "Relativity1"
     (SecretQuestions.ofValue secretQuestionsBody) sampleEntropy).1.

Definition imageUrl (file : string) : string :=
  "https://storage.googleapis.com/kidizen-science-images/" ++ file.

Definition sampleImage (file : string) : Datastore.Image :=
  {| Datastore.title := "photo"; Datastore.url := imageUrl file;
     Datastore.alt_text := "a photo" |}.

(** The header of teacher 7 with the secret Relativity1. *)
Definition headerOfTeacher7 : string := "Basic NzpSZWxhdGl2aXR5MQ==".

Definition observationWith (file description : string) (quantity : Z)
    : Datastore.Observation.t :=
  {| Datastore.Observation.date := "2020-11-30";
     Datastore.Observation.data_image := sampleImage file;
     Datastore.Observation.data_number :=
       ObservationDataNumber.mk (JSNumber.ofZ quantity) description;
     Datastore.Observation.data_description := "seen at the feeder" |}.

Definition projectWith (number : Z) (must_be_unique : bool) : Datastore.Project.t :=
  {| Datastore.Project.teacher_id := "7";
     Datastore.Project.name := "Birds";
     Datastore.Project.data_number :=
       ProjectDataNumber.mk "birds seen" (JSNumber.ofZ number) must_be_unique;
     Datastore.Project.description_image := sampleImage "project.png";
     Datastore.Project.description_text := "Count the birds" |}.

(** Teacher 7, with a credential, owns project 1; the project has two
    observations whose images are one and the same file. *)
Definition schoolStore : Datastore.Store :=
  {| Datastore.teachers :=
       {[ 7%N := Datastore.Teacher.mk "Ada" "ada@example.org" "Elm Street School"
                   Constants.DEFAULT_PROFILE_PHOTO ]};
     Datastore.credentials := {[ (7%N, 1%N) := Auth.data sampleCredential ]};
     Datastore.projects := {[ 1%N := projectWith 4 false ]};
     Datastore.observations :=
       {[ (1%N, 1%N) := observationWith "shared.png" "Goldfinch" 1;
          (1%N, 2%N) := observationWith "shared.png" "Goldfinch" 3 ]};
     Datastore.retired := [] |}.

Definition schoolBucket : gmap string string :=
  {[ "project.png" := "image/png"; "shared.png" := "image/png" ]}.

Definition schoolWorld : Crud.World :=
  {| Crud.store := schoolStore; Crud.bucket := schoolBucket;
     Crud.entropy := sampleEntropy |}.

Definition emptyWorld : Crud.World :=
  {| Crud.store := emptyStore; Crud.bucket := ∅; Crud.entropy := sampleEntropy |}.

(** The header of teacher 1 with the secret Relativity1. *)
Definition headerOfTeacher1 : string := "Basic MTpSZWxhdGl2aXR5MQ==".

Definition imageBody (file : string) : Value :=
  VObject [ ("title", VString "photo"); ("url", VString (imageUrl file));
            ("alt_text", VString "a photo") ].

Definition projectBody (number : Z) (must_be_unique : bool) : list (string * Value) :=
  [ ("teacher_id", VString "1"); ("name", VString "Birds");
    ("data_number", VObject [ ("name", VString "birds seen");
                              ("must_be_unique", VBool must_be_unique);
                              ("number", VNumber (JSNumber.ofZ number)) ]);
    ("description_image", imageBody "project.png");
    ("description_text", VString "Count the birds") ].

Definition observationBody (file description : string) (quantity : Z)
    : list (string * Value) :=
  [ ("date", VString "2020-11-30"); ("data_image", imageBody file);
    ("data_number", VObject [ ("description", VString description);
                              ("quantity", VNumber (JSNumber.ofZ quantity)) ]);
    ("data_description", VString "seen at the feeder") ].

(** A bucket with the uploaded images, and the world in which teacher 1 has
    registered and created project 1 with the given counter and policy. *)
Definition uploads : gmap string string :=
  {[ "project.png" := "image/png"; "a.png" := "image/png"; "b.png" := "image/png" ]}.

Definition withTeacher : Crud.World :=
  (@Crud.postEntity sampleCipher sampleBase64
     {| Crud.store := emptyStore; Crud.bucket := uploads; Crud.entropy := sampleEntropy |}
     noFaults false 0 (teacherBody (VString "Relativity1")) Crud.Teachers None).2.

Definition withProject (number : Z) (must_be_unique : bool) : Crud.World :=
  (@Crud.postEntity sampleCipher sampleBase64 withTeacher noFaults false 0
     (projectBody number must_be_unique) Crud.Projects (Some headerOfTeacher1)).2.

Definition create (file description : string) (quantity : Z) : Crud.ObservationRequest :=
  Crud.CreateObservation noFaults 0 "1" (observationBody file description quantity)
    (Some headerOfTeacher1).

Definition remove (entityId : string) : Crud.ObservationRequest :=
  Crud.DeleteObservation noFaults 0 "1" entityId (Some headerOfTeacher1).

Definition serveSamples := @Crud.serveAll sampleCipher sampleBase64.

Definition counterOf (w : Crud.World) : option JSNumber.t :=
  (fun p => ProjectDataNumber.number (Datastore.Project.data_number p))
    <$> Datastore.projects (Crud.store w) !! 1%N.

(** The store fails to answer the call numbered [n], and only that one. *)
Definition faultAt (n : nat) : nat -> bool := fun k => Nat.eqb k n.

(** A password reset of teacher 7: the challenge issued at time 1000 with
    the random source above carries the code 4. *)
Definition headerOfReset : string := "Basic Nzo0".

Definition resetBody : list (string * Value) :=
  [ ("password", VString "Gravitation2"); ("secret_questions", secretQuestionsBody) ].

Definition challenged : ServerResponse * Datastore.Store * Entropy :=
  @Auth.getCredentialResetChallenge sampleCipher schoolStore noFaults sampleEntropy 1000 "7".

Definition afterReset : ServerResponse * Datastore.Store * Entropy :=
  @Auth.resetUnknownPassword sampleCipher sampleBase64 challenged.1.2 noFaults
    challenged.2 2000 resetBody "7" (Some headerOfReset).

(** Teacher 7 changes the password, presenting the current one. *)
Definition passwordPatch : list (string * Value) :=
  [ ("password", VString "Gravitation2") ].

Definition afterUpdate : ServerResponse * Datastore.Store * Entropy :=
  @Auth.updateCredentialPasswordKnown sampleCipher sampleBase64 schoolStore noFaults
    sampleEntropy 0 passwordPatch "7" (Some headerOfTeacher7).

End Samples.

(** * Properties *)

(** ** Schema validation *)

Module EntityTypeFacts.
Import EntityType.

Lemma includes_In key keys : includes key keys = true <-> In key keys.
Proof.
  unfold includes. rewrite existsb_exists. split.
  - intros (k & Hk & Heq). apply String.eqb_eq in Heq. now subst.
  - intros Hk. exists key. split; [assumption | apply String.eqb_refl].
Qed.

Lemma includes_not_In key keys : includes key keys = false <-> ~ In key keys.
Proof.
  rewrite <- includes_In. destruct (includes key keys); split; congruence.
Qed.

(** The first loop stops early exactly when some expected property is
    required and absent, or present and refused by its validator. *)
Lemma checkExpected_None entityData props : forall numProps,
  checkExpected entityData (map fst entityData) props numProps = None <->
  exists prop, In prop props /\
    ((required prop = true /\ ~ present entityData (name prop)) \/
     (present entityData (name prop) /\
      validator prop (lookupField (name prop) entityData) = false)).
Proof.
  unfold present.
  induction props as [|p rest IH]; intros n; simpl.
  - split; [discriminate | intros (? & [] & _)].
  - destruct (includes (name p) (map fst entityData)) eqn:Hinc; simpl.
    + apply includes_In in Hinc. rewrite andb_false_r.
      destruct (validator p (lookupField (name p) entityData)) eqn:Hval; simpl.
      * rewrite IH. split.
        -- intros (q & Hq & Hcase). exists q. split; [now right | exact Hcase].
        -- intros (q & [<- | Hq] & Hcase).
           ++ destruct Hcase as [[_ Habs] | [_ Hbad]]; [contradiction | congruence].
           ++ exists q. split; assumption.
      * split; [intros _ | reflexivity].
        exists p. split; [now left | right; split; assumption].
    + apply includes_not_In in Hinc. rewrite andb_true_r.
      destruct (required p) eqn:Hreq.
      * split; [intros _ | reflexivity].
        exists p. split; [now left | left; split; assumption].
      * rewrite IH. split.
        -- intros (q & Hq & Hcase). exists q. split; [now right | exact Hcase].
        -- intros (q & [<- | Hq] & Hcase).
           ++ destruct Hcase as [[Habs _] | [Habs _]]; [congruence | contradiction].
           ++ exists q. split; assumption.
Qed.

(** When the first loop runs to its end, the counter has grown exactly
    if some expected property is present. *)
Lemma checkExpected_Some entityData props : forall numProps total,
  checkExpected entityData (map fst entityData) props numProps = Some total ->
  numProps <= total /\
  (numProps < total <-> exists prop, In prop props /\ present entityData (name prop)).
Proof.
  unfold present.
  induction props as [|p rest IH]; intros n total; simpl.
  - intros [= <-]. split; [lia |]. split; [lia | intros (? & [] & _)].
  - destruct (includes (name p) (map fst entityData)) eqn:Hinc; simpl.
    + apply includes_In in Hinc. rewrite andb_false_r.
      destruct (validator p (lookupField (name p) entityData)); simpl; [|discriminate].
      intros H. apply IH in H as [Hle _]. split; [lia |].
      split; [intros _ | lia]. exists p. split; [now left | assumption].
    + apply includes_not_In in Hinc. rewrite andb_true_r.
      destruct (required p); [discriminate |].
      intros H. apply IH in H as [Hle Hiff]. split; [assumption |].
      rewrite Hiff. split.
      * intros (q & Hq & Hpres). exists q. split; [now right | assumption].
      * intros (q & [<- | Hq] & Hpres); [contradiction |].
        exists q. split; assumption.
Qed.

Lemma filter_name_empty key props :
  length (List.filter (fun prop => String.eqb (name prop) key) props) = 0 <->
  forall prop, In prop props -> name prop <> key.
Proof.
  induction props as [|p rest IH]; simpl.
  - split; [intros _ ? [] | reflexivity].
  - destruct (String.eqb (name p) key) eqn:Heq; simpl.
    + apply String.eqb_eq in Heq. split; [discriminate |].
      intros H. exfalso. apply (H p); [now left | assumption].
    + apply String.eqb_neq in Heq. rewrite IH. split.
      * intros H q [<- | Hq]; [assumption | now apply H].
      * intros H q Hq. apply H. now right.
Qed.

Lemma checkNoExtra_false keys props :
  checkNoExtra keys props = false <->
  exists key, In key keys /\ forall prop, In prop props -> name prop <> key.
Proof.
  induction keys as [|k rest IH]; simpl.
  - split; [discriminate | intros (? & [] & _)].
  - destruct (Nat.eqb _ 0) eqn:Hlen.
    + apply Nat.eqb_eq in Hlen.
      pose proof (proj1 (filter_name_empty k props) Hlen) as Hno.
      split; [intros _ | reflexivity]. exists k. split; [now left | assumption].
    + apply Nat.eqb_neq in Hlen. rewrite filter_name_empty in Hlen.
      rewrite IH. split.
      * intros (key & Hkey & Hno). exists key. split; [now right | assumption].
      * intros (key & [<- | Hkey] & Hno); [contradiction |].
        exists key. split; assumption.
Qed.

Lemma validateProperties_false entityData expectedProperties :
  validateProperties entityData expectedProperties = false <->
  requiredMissing entityData expectedProperties \/
  presentInvalid entityData expectedProperties \/
  noneRecognized entityData expectedProperties \/
  unrecognizedPresent entityData expectedProperties.
Proof.
  unfold validateProperties, requiredMissing, presentInvalid, noneRecognized,
    unrecognizedPresent.
  destruct (checkExpected entityData (map fst entityData) expectedProperties 0)
    as [total|] eqn:Hloop.
  - pose proof (checkExpected_Some _ _ _ _ Hloop) as [_ Hcount].
    assert (Hnone : checkExpected entityData (map fst entityData) expectedProperties 0
                    <> None) by congruence.
    rewrite checkExpected_None in Hnone.
    destruct (Nat.ltb total 1) eqn:Hlt.
    + apply Nat.ltb_lt in Hlt. split; [intros _ | reflexivity].
      right; right; left. intros prop Hin Hpres.
      assert (0 < total) by (apply Hcount; eauto). lia.
    + apply Nat.ltb_ge in Hlt. rewrite checkNoExtra_false. split.
      * intros H. now repeat right.
      * intros [(p & Hin & Hreq & Habs) | [(p & Hin & Hpres & Hbad) | [Hzero | Hextra]]].
        -- exfalso. apply Hnone. exists p. split; [assumption | left; now split].
        -- exfalso. apply Hnone. exists p. split; [assumption | right; now split].
        -- exfalso. assert (Hpos : 0 < total) by lia.
           apply Hcount in Hpos as (p & Hin & Hpres). exact (Hzero p Hin Hpres).
        -- exact Hextra.
  - apply checkExpected_None in Hloop as (p & Hin & [[Hreq Habs] | [Hpres Hbad]]).
    + split; [intros _ | reflexivity]. left. exists p. now repeat split.
    + split; [intros _ | reflexivity]. right; left. exists p. now repeat split.
Qed.

(** C7. Schema validation fails if and only if a required property is
    absent, or a present recognized property is refused by its validator,
    or no recognized property is present, or the data holds a property
    that is not in the set; in every other case it passes. *)
Theorem validateProperties_fails_iff entityData expectedProperties :
  (validateProperties entityData expectedProperties = false <->
   requiredMissing entityData expectedProperties \/
   presentInvalid entityData expectedProperties \/
   noneRecognized entityData expectedProperties \/
   unrecognizedPresent entityData expectedProperties) /\
  (validateProperties entityData expectedProperties = true <->
   ~ (requiredMissing entityData expectedProperties \/
      presentInvalid entityData expectedProperties \/
      noneRecognized entityData expectedProperties \/
      unrecognizedPresent entityData expectedProperties)).
Proof.
  pose proof (validateProperties_false entityData expectedProperties) as H.
  split; [exact H |].
  rewrite <- H. destruct (validateProperties entityData expectedProperties);
    split; congruence.
Qed.

(** The schema check run on sample bodies. *)
Example validate_teacher_body :
  validateProperties (Samples.teacherBody (VString "Relativity1"))
    Constants.teacherCreateProperties = true.
Proof. reflexivity. Qed.

Example validate_teacher_body_extra :
  validateProperties (("nickname", VString "A") :: Samples.teacherBody (VString "Relativity1"))
    Constants.teacherCreateProperties = false.
Proof. reflexivity. Qed.

Example validate_empty_patch :
  validateProperties [] Constants.teacherUpdateProperties = false.
Proof. reflexivity. Qed.

End EntityTypeFacts.

(** ** The password rule *)

Module PasswordFacts.
Import EntityType Constants.

Lemma inRange_spec lo hi c :
  inRange lo hi c = true <-> (lo <= N_of_ascii c <= hi)%N.
Proof.
  unfold inRange. rewrite andb_true_iff, !N.leb_le. reflexivity.
Qed.

Lemma isAlphanumeric_spec c : isAlphanumeric c = true <-> letterOrDigit c.
Proof.
  unfold isAlphanumeric, letterOrDigit.
  rewrite !orb_true_iff, !inRange_spec. tauto.
Qed.

Lemma allAlphanumeric_spec s :
  allAlphanumeric s = true <-> Forall letterOrDigit (list_ascii_of_string s).
Proof.
  induction s as [|c rest IH]; simpl.
  - split; [constructor | reflexivity].
  - destruct (isAlphanumeric c) eqn:Hc.
    + apply isAlphanumeric_spec in Hc. rewrite IH. split.
      * intros H. now constructor.
      * intros H. now inversion H.
    + split; [discriminate |]. intros H. inversion H as [|? ? Hhead _]; subst.
      apply isAlphanumeric_spec in Hhead. congruence.
Qed.

Lemma VALIDATE_PASSWORD_spec value :
  VALIDATE_PASSWORD value = true <-> acceptablePassword value.
Proof.
  unfold acceptablePassword. split.
  - destruct value; simpl; try discriminate.
    destruct (Nat.ltb (String.length s) 8) eqn:Hlo; [discriminate |].
    destruct (Nat.ltb 16 (String.length s)) eqn:Hhi; [discriminate |]. simpl.
    apply Nat.ltb_ge in Hlo, Hhi. intros Hall. exists s.
    split; [reflexivity |]. split; [lia |]. now apply allAlphanumeric_spec.
  - intros (s & -> & [Hlo Hhi] & Hall). simpl.
    apply Nat.ltb_ge in Hlo. apply Nat.ltb_ge in Hhi. rewrite Hlo, Hhi. simpl.
    now apply allAlphanumeric_spec.
Qed.

(** A property of the set whose value is refused makes the whole check
    fail, whether the property is required or merely present. *)
Lemma validateProperties_refused entityData props prop :
  In prop props ->
  required prop = true \/ present entityData (name prop) ->
  validator prop (lookupField (name prop) entityData) = false ->
  validateProperties entityData props = false.
Proof.
  intros Hin Hwhy Hbad. apply EntityTypeFacts.validateProperties_false.
  destruct (in_dec string_dec (name prop) (map fst entityData)) as [Hpres | Habs].
  - right; left. exists prop. now repeat split.
  - destruct Hwhy as [Hreq | Hpres]; [| contradiction].
    left. exists prop. now repeat split.
Qed.

Lemma refused_password value :
  ~ acceptablePassword value -> VALIDATE_PASSWORD value = false.
Proof.
  intros H. destruct (VALIDATE_PASSWORD value) eqn:Hv; [| reflexivity].
  apply VALIDATE_PASSWORD_spec in Hv. contradiction.
Qed.

Section Requests.
Context {cipher : Cipher} {base64 : Base64}.

Lemma postEntity_refuses_password w faults credentialSaveFails now entityData auth :
  ~ acceptablePassword (lookupField "password" entityData) ->
  Crud.postEntity w faults credentialSaveFails now entityData Crud.Teachers auth
  = (Crud.INVALID_PROPERTIES, w).
Proof.
  intros Hbad. unfold Crud.postEntity.
  rewrite (validateProperties_refused entityData _
             (mkProperty "password" VALIDATE_PASSWORD true)).
  - reflexivity.
  - simpl. tauto.
  - now left.
  - simpl. now apply refused_password.
Qed.

Lemma resetUnknownPassword_refuses_password s faults e now requestBody teacherId auth :
  ~ acceptablePassword (lookupField "password" requestBody) ->
  Auth.resetUnknownPassword s faults e now requestBody teacherId auth
  = (Auth.INVALID_UPDATE, s, e).
Proof.
  intros Hbad. unfold Auth.resetUnknownPassword.
  rewrite (validateProperties_refused requestBody _
             (mkProperty "password" VALIDATE_PASSWORD true)).
  - reflexivity.
  - simpl. tauto.
  - now left.
  - simpl. now apply refused_password.
Qed.

Lemma updateCredential_refuses_password s faults e now patches teacherId auth :
  present patches "password" ->
  ~ acceptablePassword (lookupField "password" patches) ->
  Auth.updateCredentialPasswordKnown s faults e now patches teacherId auth
  = (Auth.INVALID_UPDATE, s, e).
Proof.
  intros Hpres Hbad. unfold Auth.updateCredentialPasswordKnown.
  rewrite (validateProperties_refused patches _
             (mkProperty "password" VALIDATE_PASSWORD false)).
  - reflexivity.
  - simpl. tauto.
  - now right.
  - simpl. now apply refused_password.
Qed.

(** C10. The password validator accepts a value exactly when it is a
    string of 8 to 16 characters, each an ASCII letter or digit; a
    teacher creation, a password reset or a credential update whose
    password is any other value is answered 400 (validation failure)
    and changes nothing. *)
Theorem password_rule :
  (forall value, VALIDATE_PASSWORD value = true <-> acceptablePassword value) /\
  (forall w faults credentialSaveFails now entityData auth,
      ~ acceptablePassword (lookupField "password" entityData) ->
      Crud.postEntity w faults credentialSaveFails now entityData Crud.Teachers auth
      = (Crud.INVALID_PROPERTIES, w) /\ status Crud.INVALID_PROPERTIES = 400%Z) /\
  (forall s faults e now requestBody teacherId auth,
      ~ acceptablePassword (lookupField "password" requestBody) ->
      Auth.resetUnknownPassword s faults e now requestBody teacherId auth
      = (Auth.INVALID_UPDATE, s, e) /\ status Auth.INVALID_UPDATE = 400%Z) /\
  (forall s faults e now patches teacherId auth,
      present patches "password" ->
      ~ acceptablePassword (lookupField "password" patches) ->
      Auth.updateCredentialPasswordKnown s faults e now patches teacherId auth
      = (Auth.INVALID_UPDATE, s, e) /\ status Auth.INVALID_UPDATE = 400%Z).
Proof.
  split; [exact VALIDATE_PASSWORD_spec |].
  split; [| split].
  - intros. split; [now apply postEntity_refuses_password | reflexivity].
  - intros. split; [now apply resetUnknownPassword_refuses_password | reflexivity].
  - intros. split; [now apply updateCredential_refuses_password | reflexivity].
Qed.

End Requests.

Example password_accepted : VALIDATE_PASSWORD (VString "Relativity1") = true.
Proof. reflexivity. Qed.
Example password_too_short : VALIDATE_PASSWORD (VString "Rel1") = false.
Proof. reflexivity. Qed.
Example password_too_long : VALIDATE_PASSWORD (VString "Relativity1234567") = false.
Proof. reflexivity. Qed.
Example password_with_blank : VALIDATE_PASSWORD (VString "Relativity 1") = false.
Proof. reflexivity. Qed.
Example password_not_a_string :
  VALIDATE_PASSWORD (VNumber (JSNumber.ofZ 12345678)) = false.
Proof. reflexivity. Qed.

Lemma short_password_unacceptable : ~ acceptablePassword (VString "Rel1").
Proof.
  intros (s & [= <-] & [Hlo _] & _). simpl in Hlo. lia.
Qed.

(** The rule at work on a teacher creation with a four-character password. *)
Lemma password_rule_witness :
  ~ acceptablePassword (lookupField "password" (Samples.teacherBody (VString "Rel1"))) /\
  fst (@Crud.postEntity Samples.sampleCipher Samples.sampleBase64
         (Crud.mkWorld Samples.emptyStore ∅ Samples.sampleEntropy) Samples.noFaults false 0
         (Samples.teacherBody (VString "Rel1")) Crud.Teachers None)
  = Crud.INVALID_PROPERTIES.
Proof.
  split; [exact short_password_unacceptable |].
  destruct (@password_rule Samples.sampleCipher Samples.sampleBase64) as (_ & Hpost & _).
  destruct (Hpost (Crud.mkWorld Samples.emptyStore ∅ Samples.sampleEntropy)
              Samples.noFaults false 0%N (Samples.teacherBody (VString "Rel1")) None
              short_password_unacceptable) as [-> _].
  reflexivity.
Defined.

End PasswordFacts.

(** ** Ownership is checked before the secret *)

Module AuthFacts.
Import Datastore Auth.

Lemma substring_all s : forall m, String.length s <= m -> String.substring 0 m s = s.
Proof.
  induction s as [|c rest IH]; intros [|m] Hm; simpl in *; try reflexivity; try lia.
  rewrite IH; [reflexivity | lia].
Qed.

Section Ownership.
Context {cipher : Cipher} {base64 : Base64}.

Lemma basic_wellFormed payload id secret :
  JS.split ":" (base64Decode payload) = [id; secret] ->
  wellFormed (String.append "Basic " payload) id secret.
Proof.
  intros Hsplit. unfold wellFormed.
  assert (Hidx : JS.indexOf " " (String.append "Basic " payload) = 5%Z) by reflexivity.
  rewrite Hidx. repeat split; [discriminate |].
  replace (JS.substring1 (String.append "Basic " payload) (5 + 1)) with payload;
    [exact Hsplit |].
  unfold JS.substring1. change (Z.to_nat (5 + 1)) with 6.
  change (String.substring 6 (String.length (String.append "Basic " payload))
            (String.append "Basic " payload))
    with (String.substring 0 (6 + String.length payload) payload).
  symmetry. apply substring_all. lia.
Qed.

Lemma validateAuthHeader_mismatch tx e now authReceived id secret expected
    credentialExpected useResetCode :
  wellFormed authReceived id secret ->
  id <> expected ->
  validateAuthHeader tx e now (Some authReceived) (Some expected)
    credentialExpected useResetCode
  = (Some FORBIDDEN, mkAuthState tx e credentialExpected).
Proof.
  intros (Hnonempty & Hidx & Htype & Hsplit) Hne.
  unfold validateAuthHeader.
  destruct authReceived as [|c rest]; [contradiction |].
  apply Z.leb_gt in Hidx. rewrite Hidx, Htype. cbn [String.eqb negb].
  change (("Basic" =? "Basic")%string) with true. cbn [negb].
  rewrite Hsplit.
  apply String.eqb_neq in Hne. rewrite Hne. reflexivity.
Qed.

(** The same refusal seen from a request: deleting a project with the
    credentials of a teacher who does not own it. *)
Lemma deleteEntity_project_of_another w faults now entityId id entity
    authReceived received secret :
  JS.parseInt entityId = Some id ->
  projects (Crud.store w) !! id = Some entity ->
  faults 0 = false ->
  wellFormed authReceived received secret ->
  received <> Project.teacher_id entity ->
  Crud.deleteEntity w faults now Crud.Projects entityId (Some authReceived)
  = (FORBIDDEN, w).
Proof.
  intros Hid Hentity Hup Hwf Hne.
  unfold Crud.deleteEntity. rewrite Hid.
  unfold getProject, remote, failsNow, begin. cbn [log snapshot outage length].
  rewrite Hup, Hentity. unfold Crud.authorize.
  cbn [Crud.entityTypeOf].
  change (EntityType.methodRequiresCredentials Constants.COLLECTIONS.roots.projects
            Constants.DELETE) with true. cbv iota.
  rewrite (validateAuthHeader_mismatch _ _ _ _ _ _ _ _ _ Hwf Hne).
  cbn [transaction entropy rollback record snapshot]. now destruct w.
Qed.

(** C4. When the id carried by a well-formed credential header differs
    from the expected owner id, the check answers 403 Forbidden, not 401,
    whatever the secret, the stored credential and the kind of secret
    (password or reset code); it answers before any credential is
    fetched or verified: the transaction, the random source and the
    credential object passed in are left as they were. *)
Theorem ownership_decided_first tx e now authReceived id secret expected
    credentialExpected useResetCode :
  wellFormed authReceived id secret ->
  id <> expected ->
  let answer :=
    validateAuthHeader tx e now (Some authReceived) (Some expected)
      credentialExpected useResetCode in
  fst answer = Some FORBIDDEN /\
  status FORBIDDEN = 403%Z /\ status FORBIDDEN <> 401%Z /\
  snd answer = mkAuthState tx e credentialExpected.
Proof.
  intros Hwf Hne answer. subst answer.
  rewrite (validateAuthHeader_mismatch _ _ _ _ _ _ _ _ _ Hwf Hne).
  repeat split. discriminate.
Qed.

End Ownership.

Lemma headerOfTeacher8_wellFormed :
  @wellFormed Samples.sampleBase64 Samples.headerOfTeacher8 "8" "Relativity1".
Proof. apply (@basic_wellFormed Samples.sampleBase64). reflexivity. Qed.

Lemma ownership_decided_first_witness :
  @wellFormed Samples.sampleBase64 Samples.headerOfTeacher8 "8" "Relativity1" /\
  "8" <> "7" /\
  fst (@validateAuthHeader Samples.sampleCipher Samples.sampleBase64
         (begin Samples.emptyStore Samples.noFaults) Samples.sampleEntropy 0
         (Some Samples.headerOfTeacher8) (Some "7") None false)
  = Some FORBIDDEN.
Proof.
  split; [exact headerOfTeacher8_wellFormed |].
  split; [discriminate |].
  apply (@ownership_decided_first Samples.sampleCipher Samples.sampleBase64
           (begin Samples.emptyStore Samples.noFaults) Samples.sampleEntropy 0%N
           Samples.headerOfTeacher8 "8" "Relativity1" "7" None false).
  - exact headerOfTeacher8_wellFormed.
  - discriminate.
Defined.

End AuthFacts.

(** ** Verifying a secret leaves the credential as it was, up to decryption *)

Module CredentialFacts.
Import Datastore Auth.

Lemma shiftDown_shiftUp c : Samples.shiftDown (Samples.shiftUp c) = c.
Proof. destruct c as [[] [] [] [] [] [] [] []]; reflexivity. Qed.

Lemma sample_round_trip salt s : Samples.sampleDecrypt (Samples.sampleEncrypt salt s) = s.
Proof.
  unfold Samples.sampleEncrypt, Samples.sampleDecrypt.
  induction s as [|c rest IH]; simpl; [reflexivity |].
  now rewrite shiftDown_shiftUp, IH.
Qed.

Section RoundTrip.
Context {cipher : Cipher}.
Hypothesis decrypt_encrypt : forall salt s, decryptString (encryptString salt s) = s.

Ltac open_credential :=
  cbv beta iota zeta delta
    [passwordsMatch secretQuestionsMatch resetCodeValid plain
     SecretQuestions.deepCompare
     decryptPassword decryptSecretQuestions decryptResetCode
     encryptPassword encryptSecretQuestions encryptResetCode encrypt draw
     setPassword setSecretQuestions setResetCode password secret_questions reset_code
     data datastoreKey fst snd
     CredentialData.password CredentialData.secret_questions CredentialData.reset_code
     SecretQuestions.question_1 SecretQuestions.question_2
     SecretQuestions.answer_1 SecretQuestions.answer_2
     ResetCode.code ResetCode.expires].

Lemma encrypt_form e s : encryptedForm (encrypt e s).1.
Proof. unfold encrypt, encryptedForm. simpl. eauto. Qed.

Lemma encrypt_decrypts e s : decryptString (encrypt e s).1 = s.
Proof. unfold encrypt. simpl. apply decrypt_encrypt. Qed.

Lemma passwordsMatch_preserves this e candidate :
  let after := (passwordsMatch this e candidate).1.2 in
  plain after = plain this /\
  encryptedForm (password after) /\
  secret_questions after = secret_questions this /\
  reset_code after = reset_code this /\
  datastoreKey after = datastoreKey this.
Proof.
  destruct this as [[p q r] k]. open_credential.
  repeat split; try (unfold encryptedForm; eauto; fail).
  now rewrite decrypt_encrypt.
Qed.

Lemma secretQuestionsMatch_preserves this e candidate :
  candidate <> VNull -> candidate <> VUndefined ->
  let after := (secretQuestionsMatch this e candidate).1.2 in
  (secretQuestionsMatch this e candidate).1.1 <> None /\
  plain after = plain this /\
  encryptedForm (SecretQuestions.question_1 (secret_questions after)) /\
  encryptedForm (SecretQuestions.question_2 (secret_questions after)) /\
  encryptedForm (SecretQuestions.answer_1 (secret_questions after)) /\
  encryptedForm (SecretQuestions.answer_2 (secret_questions after)) /\
  password after = password this /\
  reset_code after = reset_code this /\
  datastoreKey after = datastoreKey this.
Proof.
  intros Hnull Hundefined.
  destruct this as [[p [q1 q2 a1 a2] r] k].
  destruct candidate; try contradiction; open_credential.
  all: repeat split; try discriminate; try (unfold encryptedForm; eauto; fail).
  all: now rewrite !decrypt_encrypt.
Qed.

(** Handed [null] or [undefined], [secretQuestionsMatch] throws with the
    questions and answers decrypted, and nothing else touched. *)
Lemma secretQuestionsMatch_throws this e candidate :
  candidate = VNull \/ candidate = VUndefined ->
  secretQuestionsMatch this e candidate = (None, decryptSecretQuestions this, e).
Proof. now intros [-> | ->]. Qed.

Lemma resetCodeValid_preserves this e now candidate :
  let after := (resetCodeValid this e now candidate).1.2 in
  plain after = plain this /\
  encryptedForm (ResetCode.code (reset_code after)) /\
  encryptedForm (ResetCode.expires (reset_code after)) /\
  password after = password this /\
  secret_questions after = secret_questions this /\
  datastoreKey after = datastoreKey this.
Proof.
  destruct this as [[p q [c x]] k]. open_credential.
  repeat split; try (unfold encryptedForm; eauto; fail).
  now rewrite !decrypt_encrypt.
Qed.

(** What the three checks answer, in terms of the decrypted content. *)
Lemma passwordsMatch_answer this e candidate :
  (passwordsMatch this e candidate).1.1
  = String.eqb candidate (CredentialData.password (plain this)).
Proof. destruct this as [[p q r] k]. reflexivity. Qed.

Lemma resetCodeValid_answer this e now candidate :
  (resetCodeValid this e now candidate).1.1
  = String.eqb candidate (ResetCode.code (CredentialData.reset_code (plain this)))
    && ResetCode.isUnexpired (CredentialData.reset_code (plain this)) now.
Proof. destruct this as [[p q [c x]] k]. reflexivity. Qed.

(** C9, as the code has it. Under the law that decryption undoes
    encryption, [passwordsMatch] and [resetCodeValid], and
    [secretQuestionsMatch] for every candidate other than [null] and
    [undefined], leave every stored field with the decrypted value it had
    before the call; the fields handled are ciphertexts again, the others
    are untouched, so a credential whose fields were all encrypted stays so.
    Handed [null] or [undefined], [secretQuestionsMatch] throws in
    [deepCompare], after it has decrypted the questions and answers and
    before it encrypts them again: the credential is left holding the four
    of them as decrypted. *)
Theorem verification_preserves_secrets (this : Credential) (e : Entropy) (now : N)
    (passwordFromClient : string) (secretQuestionsFromClient : Value)
    (resetCodeFromClient : string) :
  let afterPassword := (passwordsMatch this e passwordFromClient).1.2 in
  let questionsChecked := secretQuestionsMatch this e secretQuestionsFromClient in
  let afterQuestions := questionsChecked.1.2 in
  let afterResetCode := (resetCodeValid this e now resetCodeFromClient).1.2 in
  (plain afterPassword = plain this /\ plain afterResetCode = plain this) /\
  (allEncrypted this -> allEncrypted afterPassword /\ allEncrypted afterResetCode) /\
  (secretQuestionsFromClient <> VNull -> secretQuestionsFromClient <> VUndefined ->
   questionsChecked.1.1 <> None /\
   plain afterQuestions = plain this /\
   (allEncrypted this -> allEncrypted afterQuestions)) /\
  (secretQuestionsFromClient = VNull \/ secretQuestionsFromClient = VUndefined ->
   questionsChecked.1.1 = None /\
   afterQuestions = decryptSecretQuestions this).
Proof.
  intros afterPassword questionsChecked afterQuestions afterResetCode.
  destruct (passwordsMatch_preserves this e passwordFromClient)
    as (Hp & Hpe & Hpq & Hpr & _).
  destruct (resetCodeValid_preserves this e now resetCodeFromClient)
    as (Hr & Hr1 & Hr2 & Hrp & Hrq & _).
  split; [split; assumption |]. split; [| split].
  - intros (Ep & E1 & E2 & E3 & E4 & E5 & E6).
    unfold allEncrypted. subst afterPassword afterResetCode.
    repeat split; try assumption; rewrite ?Hpq, ?Hpr, ?Hrp, ?Hrq; assumption.
  - intros Hnull Hundefined.
    destruct (secretQuestionsMatch_preserves this e secretQuestionsFromClient
                Hnull Hundefined)
      as (Hreturns & Hq & Hq1 & Hq2 & Hq3 & Hq4 & Hqp & Hqr & _).
    split; [exact Hreturns |]. split; [exact Hq |].
    intros (Ep & E1 & E2 & E3 & E4 & E5 & E6).
    unfold allEncrypted. subst afterQuestions questionsChecked.
    repeat split; try assumption; rewrite ?Hqp, ?Hqr; assumption.
  - intros Hthrows. subst afterQuestions questionsChecked.
    now rewrite (secretQuestionsMatch_throws this e _ Hthrows).
Qed.

End RoundTrip.

(** The credential of a teacher created with password Relativity1, under
    the sample cipher. *)
Lemma verification_preserves_secrets_witness :
  (forall salt s, Samples.sampleDecrypt (Samples.sampleEncrypt salt s) = s) /\
  @plain Samples.sampleCipher
    (@passwordsMatch Samples.sampleCipher Samples.sampleCredential
       Samples.sampleEntropy "Manhattan01").1.2
  = @plain Samples.sampleCipher Samples.sampleCredential.
Proof.
  split; [exact sample_round_trip |].
  exact (proj1 (proj1 (@verification_preserves_secrets Samples.sampleCipher
                         sample_round_trip Samples.sampleCredential
                         Samples.sampleEntropy 0%N "Manhattan01"
                         Samples.secretQuestionsBody "some-code"))).
Defined.

(** C9, as the claim words it, fails at the candidate [null]: the call
    throws and leaves the credential of the sample teacher with its first
    question stored as the plain text it was created with; what the stored
    fields decrypt to is no longer what it was. *)
Lemma null_candidate_leaves_questions_decrypted :
  let checked :=
    @secretQuestionsMatch Samples.sampleCipher Samples.sampleCredential
      Samples.sampleEntropy VNull in
  checked.1.1 = None /\
  SecretQuestions.question_1 (@secret_questions checked.1.2) = "First pet?" /\
  SecretQuestions.answer_1 (@secret_questions checked.1.2) = "Rex" /\
  @plain Samples.sampleCipher checked.1.2
  <> @plain Samples.sampleCipher Samples.sampleCredential.
Proof.
  cbv zeta. split; [reflexivity |]. split; [reflexivity |]. split; [reflexivity |].
  vm_compute. discriminate.
Qed.

End CredentialFacts.

(** ** A list request with a cursor Datastore cannot read *)

Module CursorFacts.
Import Datastore.

Section Listing.
Context {cipher : Cipher} {base64 : Base64}.

Lemma teacherExists_answers tx id key teacher :
  JS.parseInt id = Some key ->
  teachers (snapshot tx) !! key = Some teacher ->
  failsNow tx = false ->
  teacherExists tx id = (true, record tx (GetTeacher key)).
Proof.
  intros Hid Hteacher Hup. unfold teacherExists, getTeacher, remote.
  now rewrite Hid, Hup, Hteacher.
Qed.

Lemma getAncestorData_answers tx key project :
  projects (snapshot tx) !! key = Some project ->
  failsNow tx = false ->
  getAncestorData tx key = (Some project, record tx (GetProject key)).
Proof.
  intros Hproject Hup. unfold getAncestorData, getProject, remote.
  now rewrite Hup, Hproject.
Qed.

Lemma getEntities_invalid_cursor s faults decodeCursor collection cursor teacherId :
  (forall n, faults n = false) ->
  Crud.listable s collection teacherId ->
  decodeCursor cursor = None ->
  Crud.getEntities s faults decodeCursor collection (Some cursor) teacherId
  = Crud.INVALID_CURSOR.
Proof.
  intros Hup [Hancestor Hteacher] Hcursor. unfold Crud.getEntities.
  assert (Hnow : forall tx, outage tx = faults -> failsNow tx = false)
    by (intros tx Htx; unfold failsNow; now rewrite Htx).
  set (tx := begin s faults).
  assert (Hchecked :
    exists tx1, outage tx1 = faults /\ snapshot tx1 = s /\
      match collection with
      | Crud.Observations ancestorId =>
          match JS.parseInt ancestorId with
          | Some ancestorKey =>
              match getAncestorData tx ancestorKey with
              | (Some _, t) => (true, t)
              | (None, t) => (false, t)
              end
          | None => (false, tx)
          end
      | _ => (true, tx)
      end = (true, tx1)).
  { destruct collection as [| | ancestorId].
    - exists tx. now repeat split.
    - exists tx. now repeat split.
    - destruct Hancestor as (key & project & -> & Hproject).
      rewrite (getAncestorData_answers tx key project Hproject (Hnow tx eq_refl)).
      exists (record tx (GetProject key)). now repeat split. }
  destruct Hchecked as (tx1 & Hout1 & Hsnap1 & ->). cbn [negb].
  assert (Hfound :
    exists tx2, outage tx2 = faults /\
      match teacherId with
      | Some id => teacherExists tx1 id
      | None => (true, tx1)
      end = (true, tx2)).
  { destruct teacherId as [id|].
    - destruct Hteacher as (key & teacher & Hid & Hthere).
      rewrite <- Hsnap1 in Hthere.
      rewrite (teacherExists_answers tx1 id key teacher Hid Hthere (Hnow tx1 Hout1)).
      exists (record tx1 (GetTeacher key)). split; [exact Hout1 | reflexivity].
    - exists tx1. now split. }
  destruct Hfound as (tx2 & Hout2 & ->). cbn [negb].
  unfold Crud.runPageQuery. rewrite (Hnow tx2 Hout2), Hcursor. reflexivity.
Qed.

(** C8, as the code has it. A list request whose start cursor Datastore
    cannot read is answered 403, the status of the Forbidden kind, with a
    message of its own; the answer differs from the generic server error
    (500) and is not 409. *)
Theorem invalid_cursor_is_forbidden s faults decodeCursor collection cursor teacherId :
  (forall n, faults n = false) ->
  Crud.listable s collection teacherId ->
  decodeCursor cursor = None ->
  let answer :=
    Crud.getEntities s faults decodeCursor collection (Some cursor) teacherId in
  answer = Crud.INVALID_CURSOR /\
  status answer = 403%Z /\
  status answer = status Auth.FORBIDDEN /\
  content answer <> content Auth.FORBIDDEN /\
  status answer <> status Crud.SERVER_ERROR.
Proof.
  intros Hup Hlist Hcursor answer. subst answer.
  rewrite (getEntities_invalid_cursor _ _ _ _ _ _ Hup Hlist Hcursor).
  repeat split; discriminate.
Qed.

End Listing.

Lemma listable_projects : Crud.listable Samples.emptyStore Crud.Projects None.
Proof. split; exact I. Qed.

Lemma invalid_cursor_is_forbidden_witness :
  (forall n, Samples.noFaults n = false) /\
  Crud.listable Samples.emptyStore Crud.Projects None /\
  Samples.noCursor "not-a-cursor" = None /\
  Crud.getEntities Samples.emptyStore Samples.noFaults Samples.noCursor Crud.Projects
    (Some "not-a-cursor") None
  = Crud.INVALID_CURSOR.
Proof.
  split; [reflexivity |]. split; [exact listable_projects |]. split; [reflexivity |].
  apply (invalid_cursor_is_forbidden Samples.emptyStore Samples.noFaults
           Samples.noCursor Crud.Projects "not-a-cursor" None).
  - reflexivity.
  - exact listable_projects.
  - reflexivity.
Defined.

(** C8, as the specification words it, fails: the answer to a list request
    with an unreadable cursor carries the status of Forbidden, the one that
    an ownership mismatch gets, and not the 409 of a conflict. *)
Lemma invalid_cursor_not_conflict :
  let answer :=
    Crud.getEntities Samples.emptyStore Samples.noFaults Samples.noCursor Crud.Projects
      (Some "not-a-cursor") None in
  status answer = status Auth.FORBIDDEN /\ status answer <> 409%Z.
Proof. split; [reflexivity | discriminate]. Qed.

End CursorFacts.

(** ** The cascade does not report the failures it meets *)

Module CascadeFacts.
Import Datastore.

(** Both observations of project 1 point at shared.png. Deleting the image
    of the first removes the file; deleting the image of the second then
    fails, and the cascade still answers [true] and queues both records for
    deletion. *)
Lemma second_image_delete_fails :
  let bucket1 := (Storage.deleteImage Samples.schoolBucket (Samples.imageUrl "shared.png")).2 in
  (Storage.deleteImage Samples.schoolBucket (Samples.imageUrl "shared.png")).1 = true /\
  (Storage.deleteImage bucket1 (Samples.imageUrl "shared.png")).1 = false.
Proof. split; reflexivity. Qed.

Lemma image_failure_not_reported :
  let result :=
    BatchDelete.deleteObservationsOfProject
      (begin Samples.schoolStore Samples.noFaults) Samples.schoolBucket 1 in
  result.1.1 = true /\
  log result.1.2 = [QueryObservations 1;
                    DeleteKeys [ObservationKey 1 2; ObservationKey 1 1]].
Proof. split; reflexivity. Qed.

(** The nested cascade of a project fails when its query is not answered,
    and [deleteProjectsOfTeacher] answers [true] all the same. *)
Lemma nested_failure_not_reported :
  let tx := begin Samples.schoolStore (Samples.faultAt 1) in
  (BatchDelete.deleteObservationsOfProject
     (record tx (QueryProjects "7")) Samples.schoolBucket 1).1.1 = false /\
  (BatchDelete.deleteProjectsOfTeacher tx Samples.schoolBucket "7").1.1 = true.
Proof. split; reflexivity. Qed.

(** C2 at its failing inputs. Deleting project 1 is answered 204 and
    committed although one image deletion failed; deleting teacher 7 while
    the store misses one query is answered 204 and committed with the
    teacher, the credential and the project gone and the two observations,
    and their image, still there. *)
Theorem cascade_commits_partially :
  let deleteProject :=
    @Crud.deleteEntity Samples.sampleCipher Samples.sampleBase64 Samples.schoolWorld
      Samples.noFaults 0 Crud.Projects "1" (Some Samples.headerOfTeacher7) in
  let deleteTeacher :=
    @Crud.deleteEntity Samples.sampleCipher Samples.sampleBase64 Samples.schoolWorld
      (Samples.faultAt 3) 0 Crud.Teachers "7" (Some Samples.headerOfTeacher7) in
  (deleteProject.1 = Crud.NO_CONTENT /\
   projects (Crud.store deleteProject.2) !! 1%N = None /\
   observations (Crud.store deleteProject.2) = ∅) /\
  (deleteTeacher.1 = Crud.NO_CONTENT /\
   teachers (Crud.store deleteTeacher.2) !! 7%N = None /\
   credentials (Crud.store deleteTeacher.2) !! (7%N, 1%N) = None /\
   projects (Crud.store deleteTeacher.2) !! 1%N = None /\
   is_Some (observations (Crud.store deleteTeacher.2) !! (1%N, 1%N)) /\
   is_Some (observations (Crud.store deleteTeacher.2) !! (1%N, 2%N)) /\
   is_Some (Crud.bucket deleteTeacher.2 !! "shared.png")).
Proof.
  cbv zeta. split.
  - repeat split; vm_compute; reflexivity.
  - repeat split; try (vm_compute; reflexivity); vm_compute; eauto.
Qed.

End CascadeFacts.

(** ** Facts about ids, decimal strings and the kind queries *)

Module StoreFacts.
Import Datastore.

Lemma digitPrefix_digits d :
  JS.digitPrefix (NilEmpty.string_of_uint d) = NilEmpty.string_of_uint d.
Proof. induction d; simpl; try reflexivity; now rewrite IHd. Qed.

Lemma to_uint_nonnil n : N.to_uint n <> Decimal.Nil.
Proof.
  destruct n as [|p]; simpl; [discriminate |].
  apply DecimalPos.Unsigned.to_uint_nonnil.
Qed.

Lemma toString_digits n : JS.toString n = NilEmpty.string_of_uint (N.to_uint n).
Proof.
  unfold JS.toString, NilZero.string_of_uint.
  pose proof (to_uint_nonnil n). now destruct (N.to_uint n).
Qed.

(** Reading back the decimal rendering of a number gives the number. *)
Lemma parseInt_toString n : JS.parseInt (JS.toString n) = Some n.
Proof.
  unfold JS.parseInt. rewrite toString_digits, digitPrefix_digits.
  rewrite <- toString_digits. unfold JS.toString.
  rewrite NilZero.usu by apply to_uint_nonnil.
  simpl. now rewrite DecimalN.Unsigned.of_to.
Qed.

Lemma toString_inj m n : JS.toString m = JS.toString n -> m = n.
Proof.
  intros H. apply (f_equal JS.parseInt) in H.
  rewrite !parseInt_toString in H. congruence.
Qed.

Lemma allocateId_above used id : In id used -> (id < allocateId used)%N.
Proof.
  induction used as [|k rest IH]; simpl; [intros [] |].
  intros [-> | Hin]; [lia |]. specialize (IH Hin). lia.
Qed.

Lemma allocateId_positive used : (1 <= allocateId used)%N.
Proof. induction used; simpl; lia. Qed.

Lemma newTeacherId_fresh s : teachers s !! newTeacherId s = None.
Proof.
  destruct (teachers s !! newTeacherId s) as [t|] eqn:H; [| reflexivity].
  apply elem_of_map_to_list in H.
  assert (Hin : In (newTeacherId s) (map fst (map_to_list (teachers s)))).
  { apply in_map_iff. exists (newTeacherId s, t). split; [reflexivity |].
    now apply list_elem_of_In. }
  eapply or_introl, in_or_app, allocateId_above in Hin.
  unfold newTeacherId in Hin at 1. apply N.lt_irrefl in Hin. contradiction.
Qed.

Section Children.
Context {A : Type}.
Implicit Types (kind : gmap (N * N) A) (parent id : N) (x : A).

Lemma elem_of_childrenOf kind parent id x :
  (id, x) ∈ childrenOf kind parent <-> kind !! (parent, id) = Some x.
Proof.
  unfold childrenOf. rewrite list_elem_of_omap. split.
  - intros ([[p i] y] & Hin & Hf). simpl in Hf.
    destruct (decide (p = parent)) as [-> |]; [| discriminate].
    injection Hf as -> ->. now apply elem_of_map_to_list.
  - intros H. exists ((parent, id), x). split; [now apply elem_of_map_to_list |].
    simpl. now rewrite decide_True.
Qed.

(** An entity found under the parent is one row of the query, next to the
    rows of the kind without it. *)
Lemma childrenOf_lookup kind parent id x :
  kind !! (parent, id) = Some x ->
  childrenOf kind parent ≡ₚ (id, x) :: childrenOf (delete (parent, id) kind) parent.
Proof.
  intros H. unfold childrenOf.
  rewrite <- (map_to_list_delete kind (parent, id) x H). simpl.
  now rewrite decide_True.
Qed.

Lemma childrenOf_insert kind parent id x :
  childrenOf (<[(parent, id) := x]> kind) parent
  ≡ₚ (id, x) :: childrenOf (delete (parent, id) kind) parent.
Proof.
  rewrite <- insert_delete_eq. unfold childrenOf.
  rewrite map_to_list_insert by apply lookup_delete_eq. simpl.
  now rewrite decide_True.
Qed.

Lemma childrenOf_insert_fresh kind parent id x :
  kind !! (parent, id) = None ->
  childrenOf (<[(parent, id) := x]> kind) parent ≡ₚ (id, x) :: childrenOf kind parent.
Proof.
  intros H. rewrite childrenOf_insert. now rewrite delete_id.
Qed.

(** Writes under another parent do not show in the query. *)
Lemma childrenOf_insert_other kind parent other id x :
  other <> parent ->
  childrenOf (<[(other, id) := x]> kind) parent ≡ₚ childrenOf kind parent.
Proof.
  intros Hne. rewrite <- insert_delete_eq. unfold childrenOf.
  rewrite map_to_list_insert by apply lookup_delete_eq. simpl.
  rewrite decide_False by assumption.
  destruct (kind !! (other, id)) as [y|] eqn:Hy.
  - rewrite <- (map_to_list_delete kind (other, id) y Hy). simpl.
    now rewrite decide_False.
  - now rewrite delete_id.
Qed.

Lemma childrenOf_delete_other kind parent other id :
  other <> parent ->
  childrenOf (delete (other, id) kind) parent ≡ₚ childrenOf kind parent.
Proof.
  intros Hne. destruct (kind !! (other, id)) as [y|] eqn:Hy.
  - unfold childrenOf at 2.
    rewrite <- (map_to_list_delete kind (other, id) y Hy). simpl.
    now rewrite decide_False.
  - now rewrite delete_id.
Qed.

Lemma childrenOf_deleted kind parent id x :
  (id, x) ∉ childrenOf (delete (parent, id) kind) parent.
Proof. rewrite elem_of_childrenOf, lookup_delete_eq. discriminate. Qed.

Lemma childrenOf_keys_deleted kind parent id :
  id ∉ (childrenOf (delete (parent, id) kind) parent).*1.
Proof.
  intros Hin. apply list_elem_of_fmap in Hin as ([i x] & -> & Hin).
  now apply childrenOf_deleted in Hin.
Qed.

(** A query answered by exactly one row keeps exactly one row when that
    entity is overwritten. *)
Lemma childrenOf_overwrite_single kind parent id x y :
  childrenOf kind parent = [(id, x)] ->
  childrenOf (<[(parent, id) := y]> kind) parent = [(id, y)].
Proof.
  intros Hone.
  assert (Hthere : kind !! (parent, id) = Some x).
  { apply elem_of_childrenOf. rewrite Hone. apply list_elem_of_here. }
  pose proof (childrenOf_lookup _ _ _ _ Hthere) as Hperm.
  rewrite Hone in Hperm. apply Permutation_cons_inv, Permutation_nil_l in Hperm.
  pose proof (childrenOf_insert kind parent id y) as Hins.
  rewrite <- Hperm in Hins. now apply Permutation_singleton_r in Hins.
Qed.

End Children.

Lemma newObservationId_fresh s parent :
  observations s !! (parent, newObservationId s parent) = None.
Proof.
  destruct (observations s !! (parent, newObservationId s parent)) as [x|] eqn:H;
    [| reflexivity].
  apply elem_of_childrenOf in H.
  assert (Hin : In (newObservationId s parent) (map fst (observationsOf s parent))).
  { apply in_map_iff. exists (newObservationId s parent, x). split; [reflexivity |].
    now apply list_elem_of_In. }
  eapply or_introl, in_or_app, allocateId_above in Hin.
  unfold newObservationId in Hin at 1. apply N.lt_irrefl in Hin. contradiction.
Qed.

End StoreFacts.

(** ** Creating a teacher and its credential *)

Module TeacherFacts.
Import Datastore.

(** The id of a new teacher stands in the key of no credential. *)
Lemma no_credentials_for_new_teacher s : credentialsOf s (newTeacherId s) = [].
Proof.
  destruct (credentialsOf s (newTeacherId s)) as [|[id c] rest] eqn:H;
    [reflexivity |].
  assert (Hin : (id, c) ∈ credentialsOf s (newTeacherId s))
    by (rewrite H; apply list_elem_of_here).
  apply StoreFacts.elem_of_childrenOf, elem_of_map_to_list, list_elem_of_In in Hin.
  assert (Hused : In (newTeacherId s) (ancestorIds (credentials s))).
  { unfold ancestorIds. apply in_map_iff. now exists (newTeacherId s, id, c). }
  eapply or_introl, in_or_app, or_intror, in_or_app, StoreFacts.allocateId_above in Hused.
  unfold newTeacherId at 1 in Hused. apply N.lt_irrefl in Hused. contradiction.
Qed.

Section Creation.
Context {cipher : Cipher} {base64 : Base64}.

(** The store after the commit of a teacher creation, and after the
    credential write that follows it. *)
Lemma postCredential_saved s credentialToAdd id :
  credentialsOf s id = [] ->
  let result := Auth.postCredential s false credentialToAdd (JS.toString id) in
  result.1 = true /\ teachers result.2 = teachers s /\ hasCredential result.2 id.
Proof.
  intros Hnone. unfold Auth.postCredential. rewrite StoreFacts.parseInt_toString.
  cbn [fst snd]. repeat split.
  exists (newCredentialId s id), (Auth.data credentialToAdd).
  unfold credentialsOf, setCredentials. cbn [credentials].
  apply Permutation_singleton_r.
  rewrite StoreFacts.childrenOf_insert_fresh.
  - unfold credentialsOf in Hnone. now rewrite Hnone.
  - destruct (credentials s !! (id, newCredentialId s id)) as [x|] eqn:Hx; [| reflexivity].
    apply StoreFacts.elem_of_childrenOf in Hx. unfold credentialsOf in Hnone.
    rewrite Hnone in Hx. now apply elem_of_nil in Hx.
Qed.

Lemma postCredential_failed s credentialToAdd teacherId :
  Auth.postCredential s true credentialToAdd teacherId = (false, s).
Proof. unfold Auth.postCredential. now destruct (JS.parseInt teacherId). Qed.

(** C6, as the code has it. A create-Teacher request answered 201 leaves
    the new Teacher and exactly one Credential for it; one answered
    otherwise either leaves the store as it was, or (the credential write,
    made after the commit and outside the transaction, having failed) is
    answered 500 and leaves the new Teacher without Credential. *)
Theorem teacher_committed_before_credential w faults credentialSaveFails now entityData auth :
  let result :=
    Crud.postEntity w faults credentialSaveFails now entityData Crud.Teachers auth in
  let id := newTeacherId (Crud.store w) in
  (status result.1 = 201%Z ->
     result.1 = mkServerResponse 201 (IdAndSelf id) /\
     teachers (Crud.store w) !! id = None /\
     is_Some (teachers (Crud.store result.2) !! id) /\
     hasCredential (Crud.store result.2) id) /\
  (status result.1 <> 201%Z ->
     Crud.store result.2 = Crud.store w \/
     (credentialSaveFails = true /\ result.1 = Crud.SERVER_ERROR /\
      is_Some (teachers (Crud.store result.2) !! id) /\
      credentialsOf (Crud.store result.2) id = [])).
Proof.
  cbv zeta. unfold Crud.postEntity.
  destruct (EntityType.validateProperties entityData _); cbn [negb];
    [| split; [discriminate | now left]].
  match goal with |- context [if ?c then (Crud.INVALID_IMAGE_URL, w) else _] =>
    destruct c end; [split; [discriminate | now left] |].
  unfold Crud.authorize. cbn [Crud.entityTypeOf].
  change (EntityType.methodRequiresCredentials Constants.COLLECTIONS.roots.teachers
            Constants.POST) with false. cbv iota.
  destruct (Auth.newCredential _ _ _) as [credentialDataCopy e2].
  unfold commit, failsNow. cbn [log outage record begin snapshot length app].
  destruct (faults 1); [split; [discriminate | now left] |].
  cbn [foldl applyCall rollback].
  set (teacher := Crud.teacherOf _).
  set (s' := setTeachers (Crud.store w) _).
  assert (Hnone : credentialsOf s' (newTeacherId (Crud.store w)) = [])
    by apply (no_credentials_for_new_teacher (Crud.store w)).
  assert (Hthere : is_Some (teachers s' !! newTeacherId (Crud.store w))).
  { subst s'. cbn [teachers setTeachers]. rewrite lookup_insert_eq. eauto. }
  destruct credentialSaveFails.
  - rewrite postCredential_failed. cbn [negb fst snd Crud.store].
    split; [discriminate |]. intros _. right. now repeat split.
  - destruct (postCredential_saved s' credentialDataCopy _ Hnone) as (Hok & Hteachers & Hcred).
    destruct (Auth.postCredential s' false credentialDataCopy _) as [succeeded s''].
    cbn [fst snd] in Hok, Hteachers, Hcred. subst succeeded. cbn [negb fst snd Crud.store].
    split; [intros _ | intros H; now contradiction H].
    repeat split; [apply StoreFacts.newTeacherId_fresh | | exact Hcred].
    now rewrite Hteachers.
Qed.

End Creation.

(** A teacher is created in the store from which teacher 7 and its
    credential have been deleted: the new teacher is not given the id 7
    again. *)
Example deleted_id_not_issued_again :
  let s := foldl deleteKey Samples.schoolStore [CredentialKey 7 1; TeacherKey 7] in
  teachers s = ∅ /\ newTeacherId s = 8%N.
Proof. split; vm_compute; reflexivity. Qed.

(** C6, as the specification words it, fails: when the credential write
    fails, the request is answered 500 and teacher 1 is in the store with
    no credential. *)
Lemma teacher_left_without_credential :
  let result :=
    @Crud.postEntity Samples.sampleCipher Samples.sampleBase64 Samples.emptyWorld
      Samples.noFaults true 0 (Samples.teacherBody (VString "Relativity1"))
      Crud.Teachers None in
  status result.1 = 500%Z /\
  is_Some (teachers (Crud.store result.2) !! 1%N) /\
  credentials (Crud.store result.2) = ∅.
Proof. repeat split; vm_compute; eauto. Qed.

End TeacherFacts.

(** ** Facts about transactions *)

Module TransactionFacts.
Import Datastore.

Lemma writesOf_app l1 l2 : writesOf (l1 ++ l2) = writesOf l1 ++ writesOf l2.
Proof. unfold writesOf. apply List.filter_app. Qed.

Lemma applyCall_read s c : isRead c = true -> applyCall s c = s.
Proof. destruct c; simpl; congruence. Qed.

(** Only the writes of a log matter at commit. *)
Lemma foldl_applyCall_writes calls : forall s,
  foldl applyCall s calls = foldl applyCall s (writesOf calls).
Proof.
  induction calls as [|c rest IH]; intros s; simpl; [reflexivity |].
  destruct (isRead c) eqn:Hc; simpl.
  - rewrite applyCall_read by assumption. apply IH.
  - apply IH.
Qed.

Lemma extends_refl tx : extends tx tx [].
Proof. unfold extends. now rewrite app_nil_r. Qed.

Lemma extends_trans tx1 tx2 tx3 w1 w2 :
  extends tx1 tx2 w1 -> extends tx2 tx3 w2 -> extends tx1 tx3 (w1 ++ w2).
Proof.
  intros (Hs1 & Ho1 & Hw1) (Hs2 & Ho2 & Hw2). unfold extends.
  rewrite Hs2, Ho2, Hw2, Hw1, Hs1, Ho1. now rewrite app_assoc.
Qed.

Lemma extends_reads tx1 tx2 tx3 w :
  extends tx1 tx2 [] -> extends tx2 tx3 w -> extends tx1 tx3 w.
Proof. intros H1 H2. exact (extends_trans _ _ _ _ _ H1 H2). Qed.

Lemma extends_record_read tx c : isRead c = true -> extends tx (record tx c) [].
Proof.
  intros Hc. unfold extends, record. cbn [snapshot outage log].
  rewrite writesOf_app. simpl. rewrite Hc. simpl. now rewrite !app_nil_r.
Qed.

Lemma extends_record_write tx c : isRead c = false -> extends tx (record tx c) [c].
Proof.
  intros Hc. unfold extends, record. cbn [snapshot outage log].
  rewrite writesOf_app. simpl. now rewrite Hc.
Qed.

Lemma extends_remote {A} tx c (answer : A) :
  isRead c = true -> extends tx (remote tx c answer).2 [].
Proof. intros Hc. unfold remote. cbn [snd]. now apply extends_record_read. Qed.

(** What a commit makes of a transaction begun on [s]. *)
Lemma commit_extends s faults tx writes s' :
  extends (begin s faults) tx writes ->
  commit tx = Some s' ->
  s' = foldl applyCall s writes.
Proof.
  intros (Hsnap & _ & Hwrites) Hcommit. unfold commit in Hcommit.
  destruct (failsNow tx); [discriminate |]. injection Hcommit as <-.
  rewrite foldl_applyCall_writes, Hwrites, Hsnap. reflexivity.
Qed.

Lemma rollback_extends s faults tx writes :
  extends (begin s faults) tx writes -> rollback tx = s.
Proof. intros (Hsnap & _). exact Hsnap. Qed.

Lemma getAncestorData_extends tx key :
  extends tx (getAncestorData tx key).2 [].
Proof.
  unfold getAncestorData.
  pose proof (extends_remote tx (GetProject key) (projects (snapshot tx) !! key) eq_refl) as H.
  unfold getProject. destruct (remote tx _ _) as [[[entity|]|] tx']; exact H.
Qed.

Lemma getAncestorData_found tx key project tx' :
  getAncestorData tx key = (Some project, tx') ->
  projects (snapshot tx) !! key = Some project.
Proof.
  unfold getAncestorData, getProject, remote.
  destruct (failsNow tx); [intros [=] |].
  destruct (projects (snapshot tx) !! key); now intros [= -> _].
Qed.

Section Authorization.
Context {cipher : Cipher} {base64 : Base64}.

Lemma getCredential_extends tx teacherId :
  extends tx (Auth.getCredential tx teacherId).2 [].
Proof.
  unfold Auth.getCredential. destruct (JS.parseInt teacherId) as [key|];
    [| apply extends_refl].
  pose proof (extends_remote tx (QueryCredentials key)
                (credentialsOf (snapshot tx) key) eq_refl) as H.
  unfold runQueryCredentials.
  destruct (remote tx _ _) as [[[|entity [|other rest]]|] tx']; exact H.
Qed.

Lemma getTeacherOfProject_extends tx projectId :
  extends tx (Auth.getTeacherOfProject tx projectId).2 [].
Proof.
  unfold Auth.getTeacherOfProject. destruct (JS.parseInt projectId) as [key|];
    [| apply extends_refl].
  pose proof (extends_remote tx (GetProject key) (projects (snapshot tx) !! key) eq_refl) as H.
  unfold getProject. destruct (remote tx _ _) as [[[project|]|] tx']; exact H.
Qed.

(** The authorization check reads, and writes nothing. *)
Lemma validateAuthHeader_extends tx e now authReceived expected :
  extends tx (Auth.transaction
                (Auth.validateAuthHeader tx e now authReceived expected None false).2) [].
Proof.
  unfold Auth.validateAuthHeader.
  repeat match goal with
         | |- context [match ?x with _ => _ end] =>
             lazymatch x with
             | Auth.getCredential _ _ => fail
             | Auth.passwordsMatch _ _ _ => fail
             | _ => destruct x eqn:?
             end
         end; cbn [snd Auth.transaction]; try apply extends_refl.
  match goal with
  | |- context [Auth.getCredential tx ?id] =>
      pose proof (getCredential_extends tx id) as H;
      destruct (Auth.getCredential tx id) as [[c|] tx1]
  end; cbn [snd] in H.
  - destruct (Auth.passwordsMatch c e _) as [[matches c'] e']. exact H.
  - exact H.
Qed.

Lemma authorize_extends tx e now entityType method authReceived expected :
  extends tx (Crud.authorize tx e now entityType method authReceived expected).1.2 [].
Proof.
  unfold Crud.authorize.
  destruct (EntityType.methodRequiresCredentials entityType method);
    [| apply extends_refl].
  pose proof (validateAuthHeader_extends tx e now authReceived (Some expected)) as H.
  destruct (Auth.validateAuthHeader _ _ _ _ _ _ _) as [responseInfo st]. exact H.
Qed.

End Authorization.

End TransactionFacts.

(** ** Numbers: where the arithmetic of doubles is that of the integers *)

Module NumberFacts.
Import JSNumber.
Local Open Scope Z_scope.

Lemma digits2_size p : digits2_pos p = Pos.size p.
Proof. induction p; simpl; congruence. Qed.

Lemma digits2_log2 p : Zpos (digits2_pos p) = Z.log2 (Zpos p) + 1.
Proof.
  rewrite digits2_size. destruct p; simpl; try reflexivity; lia.
Qed.

Lemma iter_xO m d : Zpos (Pos.iter xO m d) = Zpos m * 2 ^ Zpos d.
Proof.
  revert m. induction d using Pos.peano_ind; intros m.
  - simpl. lia.
  - rewrite Pos.iter_succ, Pos2Z.inj_xO, IHd, Pos2Z.inj_succ, Z.pow_succ_r by lia. lia.
Qed.

Lemma shr_1_even m :
  shr_1 {| shr_m := Zpos m * 2; shr_r := false; shr_s := false |}
  = {| shr_m := Zpos m; shr_r := false; shr_s := false |}.
Proof. rewrite Z.mul_comm. reflexivity. Qed.

Lemma iter_shr_1_exact q : forall m,
  SpecFloat.iter_pos shr_1 q {| shr_m := Zpos m * 2 ^ Zpos q; shr_r := false; shr_s := false |}
  = {| shr_m := Zpos m; shr_r := false; shr_s := false |}.
Proof.
  induction q as [q IH | q IH |]; intros m.
  - cbn [SpecFloat.iter_pos].
    replace (Zpos m * 2 ^ Zpos q~1) with (Zpos (Pos.iter xO (Pos.iter xO m q) q) * 2).
    + rewrite shr_1_even, iter_xO, IH, iter_xO. apply IH.
    + rewrite !iter_xO. replace (Zpos q~1) with (Zpos q + Zpos q + 1) by lia.
      rewrite !Z.pow_add_r by lia. ring.
  - cbn [SpecFloat.iter_pos].
    replace (Zpos m * 2 ^ Zpos q~0) with (Zpos (Pos.iter xO m q) * 2 ^ Zpos q).
    + rewrite IH, iter_xO. apply IH.
    + rewrite iter_xO. replace (Zpos q~0) with (Zpos q + Zpos q) by lia.
      rewrite Z.pow_add_r by lia. ring.
  - cbn [SpecFloat.iter_pos]. rewrite Z.pow_1_r. apply shr_1_even.
Qed.

Lemma binary_round_aux_canonical s m e :
  fexp prec emax (Z.log2 (Zpos m) + 1 + e) = e ->
  e <= emax - prec ->
  binary_round_aux prec emax s (Zpos m) e loc_Exact = S754_finite s m e.
Proof.
  intros Hcanonical Hbound. unfold binary_round_aux, shr_fexp.
  cbn [Zdigits2 shr_record_of_loc]. rewrite digits2_log2, Hcanonical, Z.sub_diag.
  cbn [shr shr_m loc_of_shr_record round_nearest_even Zdigits2 shr_record_of_loc].
  rewrite digits2_log2, Hcanonical, Z.sub_diag. cbn [shr shr_m].
  apply Z.leb_le in Hbound. now rewrite Hbound.
Qed.

Lemma log2_shift m k : 0 <= k -> Z.log2 (Zpos m * 2 ^ k) = Z.log2 (Zpos m) + k.
Proof. intros Hk. rewrite Z.log2_mul_pow2 by lia. lia. Qed.

(** Rounding a mantissa that needs no rounding: the canonical form of
    [m * 2^e] when it has one. *)
Lemma binary_round_exact s m e :
  let t := fexp prec emax (Z.log2 (Zpos m) + 1 + e) in
  t <= emax - prec ->
  (e < t -> exists m0, Zpos m = Zpos m0 * 2 ^ (t - e)) ->
  exists m',
    binary_round prec emax s m e = S754_finite s m' t /\
    (t <= e -> Zpos m' = Zpos m * 2 ^ (e - t)) /\
    (e < t -> Zpos m = Zpos m' * 2 ^ (t - e)).
Proof.
  intros t Hbound Hdivides. unfold binary_round. rewrite digits2_log2. fold t.
  unfold shl_align. destruct (t - e) as [|q|q] eqn:Hq.
  - assert (t = e) as Ht by lia. exists m. rewrite <- Ht at 1.
    rewrite binary_round_aux_canonical; [| now rewrite Ht at 1 | lia].
    split; [now rewrite Ht |]. split; [| lia].
    intros _. rewrite <- Ht, Z.sub_diag. lia.
  - destruct Hdivides as [m0 Hm0]; [lia |]. rewrite ?Hq in Hm0.
    exists m0. split; [| split; [lia | intros _; exact Hm0]].
    unfold binary_round_aux, shr_fexp. cbn [Zdigits2 shr_record_of_loc].
    rewrite digits2_log2. fold t. rewrite Hq. cbn [shr].
    rewrite Hm0, iter_shr_1_exact.
    cbn [shr_m loc_of_shr_record round_nearest_even Zdigits2 shr_record_of_loc].
    rewrite digits2_log2.
    assert (Z.log2 (Zpos m0) + 1 + (e + Zpos q) = Z.log2 (Zpos m) + 1 + e) as ->.
    { rewrite Hm0, log2_shift by lia. lia. }
    fold t. replace (t - (e + Zpos q)) with 0 by lia. cbn [shr shr_m].
    replace (e + Zpos q) with t by lia.
    apply Z.leb_le in Hbound. now rewrite Hbound.
  - exists (Pos.iter xO m q).
    assert (e - t = Zpos q) as Hshift by lia.
    rewrite binary_round_aux_canonical; [| | lia].
    + split; [reflexivity |]. split; [| lia]. intros _. now rewrite iter_xO, Hshift.
    + rewrite iter_xO, log2_shift by lia. unfold t at 2.
      f_equal. lia.
Qed.

(** The same in the scale of [2^-52], in which every value met below is an
    integer. *)
Lemma binary_round_scaled s m e :
  let t := fexp prec emax (Z.log2 (Zpos m) + 1 + e) in
  -52 <= e -> -52 <= t <= emax - prec ->
  (2 ^ (t + 52) | Zpos m * 2 ^ (e + 52)) ->
  exists m',
    binary_round prec emax s m e = S754_finite s m' t /\
    Zpos m' * 2 ^ (t + 52) = Zpos m * 2 ^ (e + 52).
Proof.
  intros t He Ht Hdivides.
  destruct (binary_round_exact s m e) as (m' & Hround & Hleft & Hright).
  - fold t. lia.
  - fold t. intros Hlt. destruct Hdivides as [q Hq].
    assert (Zpos m = q * 2 ^ (t - e)) as Hm.
    { apply (Z.mul_cancel_r _ _ (2 ^ (e + 52))); [lia |].
      rewrite Hq, <- Z.mul_assoc, <- Z.pow_add_r by lia. do 2 f_equal. lia. }
    assert (0 < q) as Hpos.
    { apply (Z.mul_pos_cancel_r _ (2 ^ (t - e))); [lia |]. rewrite <- Hm. lia. }
    exists (Z.to_pos q). now rewrite Z2Pos.id.
  - exists m'. fold t in Hround, Hleft, Hright. split; [exact Hround |].
    destruct (Z_le_gt_dec t e) as [Hle | Hgt].
    + rewrite (Hleft Hle), <- Z.mul_assoc, <- Z.pow_add_r by lia. do 2 f_equal. lia.
    + rewrite (Hright ltac:(lia)), <- Z.mul_assoc, <- Z.pow_add_r by lia.
      do 2 f_equal. lia.
Qed.

Lemma log2_safe p : Zpos p <= 2 ^ 53 -> 0 <= Z.log2 (Zpos p) <= 53.
Proof.
  intros Hp. split; [apply Z.log2_nonneg |].
  rewrite <- (Z.log2_pow2 53) by lia. now apply Z.log2_le_mono.
Qed.

Lemma safe_top p : Zpos p <= 2 ^ 53 -> Z.log2 (Zpos p) = 53 -> Zpos p = 2 ^ 53.
Proof.
  intros Hp Hlog. pose proof (Z.log2_spec (Zpos p) ltac:(lia)) as [Hlow _].
  rewrite Hlog in Hlow. lia.
Qed.

(** A mantissa and an exponent that denote the integer [p]: rounding them
    gives what rounding [p] itself gives. *)
Lemma binary_round_integer s m e p :
  Zpos p <= 2 ^ 53 -> -52 <= e <= 1 ->
  Zpos m * 2 ^ (e + 52) = Zpos p * 2 ^ 52 ->
  exists m' t,
    binary_round prec emax s m e = S754_finite s m' t /\
    t = Z.log2 (Zpos p) - 52 /\
    Zpos m' * 2 ^ (t + 52) = Zpos p * 2 ^ 52.
Proof.
  intros Hp He Hvalue.
  assert (Z.log2 (Zpos m) + e = Z.log2 (Zpos p)) as Hlog.
  { pose proof (log2_shift m (e + 52) ltac:(lia)) as H1.
    pose proof (log2_shift p 52 ltac:(lia)) as H2. rewrite Hvalue in H1. lia. }
  pose proof (log2_safe p Hp) as Hrange.
  assert (fexp prec emax (Z.log2 (Zpos m) + 1 + e) = Z.log2 (Zpos p) - 52) as Ht.
  { unfold fexp, emin, prec, emax. lia. }
  destruct (binary_round_scaled s m e) as (m' & Hround & Hm').
  - lia.
  - rewrite Ht. unfold emax, prec. lia.
  - rewrite Ht, Hvalue.
    destruct (Z.eq_dec (Z.log2 (Zpos p)) 53) as [Htop | Hlow].
    + rewrite Htop, (safe_top p Hp Htop). exists (2 ^ 52).
      rewrite <- !Z.pow_add_r by lia. reflexivity.
    + exists (Zpos p * 2 ^ (52 - Z.log2 (Zpos p))).
      rewrite <- Z.mul_assoc, <- Z.pow_add_r by lia. do 2 f_equal. lia.
  - exists m', (Z.log2 (Zpos p) - 52). rewrite Ht in Hround, Hm'.
    split; [exact Hround |]. split; [reflexivity |]. now rewrite Hm', Hvalue.
Qed.

Lemma binary_round_same s m1 e1 m2 e2 p :
  Zpos p <= 2 ^ 53 -> -52 <= e1 <= 1 -> -52 <= e2 <= 1 ->
  Zpos m1 * 2 ^ (e1 + 52) = Zpos p * 2 ^ 52 ->
  Zpos m2 * 2 ^ (e2 + 52) = Zpos p * 2 ^ 52 ->
  binary_round prec emax s m1 e1 = binary_round prec emax s m2 e2.
Proof.
  intros Hp He1 He2 H1 H2.
  destruct (binary_round_integer s m1 e1 p Hp He1 H1) as (m1' & t1 & -> & -> & Hm1).
  destruct (binary_round_integer s m2 e2 p Hp He2 H2) as (m2' & t2 & -> & -> & Hm2).
  f_equal. rewrite <- Hm2 in Hm1. apply Z.mul_cancel_r in Hm1; [| lia].
  now injection Hm1.
Qed.

(** [binary_normalize] on a signed mantissa that denotes the integer [z]. *)
Lemma binary_normalize_integer S e z :
  safeInteger z -> -52 <= e <= 1 ->
  S * 2 ^ (e + 52) = z * 2 ^ 52 ->
  binary_normalize prec emax S e false = ofZ z.
Proof.
  unfold safeInteger. intros Hz He Hvalue. unfold ofZ.
  assert (0 < 2 ^ (e + 52)) as Hpow by (apply Z.pow_pos_nonneg; lia).
  destruct S as [|m|m], z as [|p|p]; try lia; cbn [binary_normalize].
  - reflexivity.
  - apply (binary_round_same false m e p 0 p); try lia.
  - apply (binary_round_same true m e p 0 p); lia.
Qed.

(** The double that holds a safe integer other than zero. *)
Lemma ofZ_finite z :
  safeInteger z -> z <> 0 ->
  exists m t,
    ofZ z = S754_finite (z <? 0) m t /\ -52 <= t <= 1 /\
    Zpos m * 2 ^ (t + 52) = Z.abs z * 2 ^ 52.
Proof.
  unfold safeInteger, ofZ. intros Hz Hnonzero.
  destruct z as [|p|p]; [contradiction | |]; cbn [binary_normalize Z.ltb Z.compare Z.abs].
  - destruct (binary_round_integer false p 0 p ltac:(lia) ltac:(lia) eq_refl)
      as (m & t & Hround & Ht & Hm).
    exists m, t. pose proof (log2_safe p ltac:(lia)). repeat split; try assumption; lia.
  - destruct (binary_round_integer true p 0 p ltac:(lia) ltac:(lia) eq_refl)
      as (m & t & Hround & Ht & Hm).
    exists m, t. pose proof (log2_safe p ltac:(lia)). repeat split; try assumption; lia.
Qed.

Lemma shl_align_fst m e e' :
  e' <= e -> Zpos (fst (shl_align m e e')) = Zpos m * 2 ^ (e - e').
Proof.
  intros Hle. unfold shl_align. destruct (e' - e) as [|q|q] eqn:Hq; cbn [fst]; try lia.
  - replace (e - e') with 0 by lia. lia.
  - rewrite iter_xO. do 2 f_equal. lia.
Qed.

Lemma signed_value (negative : bool) m t z :
  negative = (z <? 0) -> z <> 0 -> -52 <= t ->
  Zpos m * 2 ^ (t + 52) = Z.abs z * 2 ^ 52 ->
  forall ez, -52 <= ez <= t ->
    cond_Zopp negative (Zpos (fst (shl_align m t ez))) * 2 ^ (ez + 52) = z * 2 ^ 52.
Proof.
  intros -> Hnonzero Ht Hm ez Hez. rewrite shl_align_fst by lia.
  assert (Zpos m * 2 ^ (t - ez) * 2 ^ (ez + 52) = Z.abs z * 2 ^ 52) as Habs.
  { rewrite <- Z.mul_assoc, <- Z.pow_add_r by lia. rewrite <- Hm. do 2 f_equal. lia. }
  destruct (Z.ltb_spec z 0); cbn [cond_Zopp]; lia.
Qed.

(** On safe integers whose sum, or difference, is a safe integer, the
    arithmetic of doubles is that of the integers. *)
Lemma add_exact a b :
  safeInteger a -> safeInteger b -> safeInteger (a + b) ->
  add (ofZ a) (ofZ b) = ofZ (a + b).
Proof.
  intros Ha Hb Hsum.
  destruct (Z.eq_dec a 0) as [-> | Hanz].
  { destruct (Z.eq_dec b 0) as [-> | Hbnz]; [reflexivity |].
    rewrite Z.add_0_l. destruct (ofZ_finite b Hb Hbnz) as (m & t & -> & _). reflexivity. }
  destruct (Z.eq_dec b 0) as [-> | Hbnz].
  { rewrite Z.add_0_r. destruct (ofZ_finite a Ha Hanz) as (m & t & -> & _). reflexivity. }
  destruct (ofZ_finite a Ha Hanz) as (ma & ta & -> & Hta & Hma).
  destruct (ofZ_finite b Hb Hbnz) as (mb & tb & -> & Htb & Hmb).
  unfold add. cbn [SFadd].
  apply binary_normalize_integer; [exact Hsum | lia |].
  rewrite Z.mul_add_distr_r.
  rewrite (signed_value _ ma ta a eq_refl Hanz ltac:(lia) Hma) by lia.
  rewrite (signed_value _ mb tb b eq_refl Hbnz ltac:(lia) Hmb) by lia.
  lia.
Qed.

Lemma binary_round_opp s m :
  Zpos m <= 2 ^ 53 ->
  binary_round prec emax (negb s) m 0 = SFopp (binary_round prec emax s m 0).
Proof.
  intros Hm.
  destruct (binary_round_integer s m 0 m Hm ltac:(lia) eq_refl) as (m1 & t1 & -> & -> & H1).
  destruct (binary_round_integer (negb s) m 0 m Hm ltac:(lia) eq_refl)
    as (m2 & t2 & -> & -> & H2).
  cbn [SFopp]. f_equal. rewrite <- H1 in H2. apply Z.mul_cancel_r in H2; [| lia].
  now injection H2.
Qed.

Lemma ofZ_opp z : safeInteger z -> z <> 0 -> ofZ (- z) = SFopp (ofZ z).
Proof.
  unfold safeInteger, ofZ. intros Hz Hnonzero.
  destruct z as [|p|p]; cbn [Z.opp binary_normalize].
  - contradiction.
  - apply (binary_round_opp false). lia.
  - apply (binary_round_opp true). lia.
Qed.

Lemma sub_exact a b :
  safeInteger a -> safeInteger b -> safeInteger (a - b) ->
  sub (ofZ a) (ofZ b) = ofZ (a - b).
Proof.
  intros Ha Hb Hdifference.
  destruct (Z.eq_dec b 0) as [-> | Hbnz].
  { rewrite Z.sub_0_r. destruct (Z.eq_dec a 0) as [-> | Hanz]; [reflexivity |].
    destruct (ofZ_finite a Ha Hanz) as (m & t & -> & _). reflexivity. }
  destruct (Z.eq_dec a 0) as [-> | Hanz].
  { rewrite Z.sub_0_l, (ofZ_opp b Hb Hbnz).
    destruct (ofZ_finite b Hb Hbnz) as (m & t & -> & _). reflexivity. }
  destruct (ofZ_finite a Ha Hanz) as (ma & ta & -> & Hta & Hma).
  destruct (ofZ_finite b Hb Hbnz) as (mb & tb & -> & Htb & Hmb).
  unfold sub. cbn [SFsub].
  apply binary_normalize_integer; [exact Hdifference | lia |].
  rewrite Z.mul_sub_distr_r.
  rewrite (signed_value _ ma ta a eq_refl Hanz ltac:(lia) Hma) by lia.
  rewrite (signed_value _ mb tb b eq_refl Hbnz ltac:(lia) Hmb) by lia.
  lia.
Qed.

(** Reading the integer back, and comparing. *)
Lemma toZ_ofZ z : safeInteger z -> toZ (ofZ z) = z.
Proof.
  intros Hz. destruct (Z.eq_dec z 0) as [-> | Hnonzero]; [reflexivity |].
  destruct (ofZ_finite z Hz Hnonzero) as (m & t & -> & Ht & Hm). cbn [toZ].
  assert (Z.shiftl (Zpos m) t = Z.abs z) as ->.
  { destruct (Z_le_gt_dec 0 t) as [Hpos | Hneg].
    - rewrite Z.shiftl_mul_pow2 by lia.
      apply (Z.mul_cancel_r _ _ (2 ^ 52)); [lia |].
      rewrite <- Hm, <- Z.mul_assoc, <- Z.pow_add_r by lia. reflexivity.
    - rewrite Z.shiftl_div_pow2 by lia.
      assert (Zpos m = Z.abs z * 2 ^ (- t)) as ->.
      { apply (Z.mul_cancel_r _ _ (2 ^ (t + 52))); [lia |].
        rewrite Hm, <- Z.mul_assoc, <- Z.pow_add_r by lia. do 2 f_equal. lia. }
      apply Z.div_mul. lia. }
  destruct (Z.ltb_spec z 0); cbn [cond_Zopp]; lia.
Qed.

Lemma ofZ_inj a b : safeInteger a -> safeInteger b -> ofZ a = ofZ b -> a = b.
Proof. intros Ha Hb H. now rewrite <- (toZ_ofZ a Ha), <- (toZ_ofZ b Hb), H. Qed.

Lemma compare_cont_eq m n : Pos.compare_cont Eq m n = Eq -> m = n.
Proof. apply Pos.compare_eq. Qed.

Lemma strictEquals_finite s1 m1 e1 s2 m2 e2 :
  strictEquals (S754_finite s1 m1 e1) (S754_finite s2 m2 e2) = true ->
  S754_finite s1 m1 e1 = S754_finite s2 m2 e2.
Proof.
  unfold strictEquals, SFeqb, SFcompare.
  destruct s1, s2; try discriminate;
    destruct (Z.compare_spec e1 e2) as [-> | |]; try discriminate;
    destruct (Pos.compare_cont Eq m1 m2) eqn:Hm; try discriminate;
    intros _; apply Pos.compare_eq in Hm; now subst.
Qed.

Lemma strictEquals_ofZ a b :
  safeInteger a -> safeInteger b -> strictEquals (ofZ a) (ofZ b) = (a =? b).
Proof.
  intros Ha Hb. destruct (Z.eqb_spec a b) as [-> | Hne].
  - destruct (Z.eq_dec b 0) as [-> | Hnonzero]; [reflexivity |].
    destruct (ofZ_finite b Hb Hnonzero) as (m & t & -> & _).
    unfold strictEquals, SFeqb, SFcompare.
    rewrite Z.compare_refl, Pos.compare_cont_refl. now destruct (b <? 0).
  - destruct (strictEquals (ofZ a) (ofZ b)) eqn:Hequal; [| reflexivity].
    exfalso. apply Hne.
    destruct (Z.eq_dec a 0) as [-> | Hanz], (Z.eq_dec b 0) as [-> | Hbnz].
    + reflexivity.
    + destruct (ofZ_finite b Hb Hbnz) as (m & t & Hb' & _). rewrite Hb' in Hequal.
      cbn in Hequal. now destruct (b <? 0).
    + destruct (ofZ_finite a Ha Hanz) as (m & t & Ha' & _). rewrite Ha' in Hequal.
      cbn in Hequal. now destruct (a <? 0).
    + apply (ofZ_inj a b Ha Hb).
      destruct (ofZ_finite a Ha Hanz) as (ma & ta & Ha' & _).
      destruct (ofZ_finite b Hb Hbnz) as (mb & tb & Hb' & _).
      rewrite Ha', Hb' in *. now apply strictEquals_finite.
Qed.
Lemma strictEquals_refl_ofZ z : safeInteger z -> strictEquals (ofZ z) (ofZ z) = true.
Proof. intros Hz. rewrite strictEquals_ofZ by assumption. apply Z.eqb_refl. Qed.

(** A count is the number of an integer of magnitude at most [2^51]. *)
Lemma isCount_spec x :
  isCount x = true <-> exists z, x = ofZ z /\ - 2 ^ 51 <= z <= 2 ^ 51.
Proof.
  split.
  - destruct x as [[|]| | |s m e]; try discriminate.
    + intros _. exists 0. split; [reflexivity | lia].
    + unfold isCount. intros H.
      apply andb_true_iff in H as [H Hupper]. apply andb_true_iff in H as [Hsame Hlower].
      apply Z.leb_le in Hupper, Hlower.
      exists (toZ (S754_finite s m e)). split; [| lia].
      destruct (ofZ (toZ (S754_finite s m e))) as [s'|s'| |s' m' e'] eqn:Hform;
        try (destruct s; try destruct s'; discriminate).
      now apply strictEquals_finite.
  - intros (z & -> & Hz).
    assert (safeInteger z) as Hsafe by (unfold safeInteger; lia).
    destruct (Z.eq_dec z 0) as [-> | Hnonzero]; [reflexivity |].
    pose proof (toZ_ofZ z Hsafe) as Hread.
    pose proof (strictEquals_refl_ofZ z Hsafe) as Hsame. unfold strictEquals in Hsame.
    destruct (ofZ_finite z Hsafe Hnonzero) as (m & t & Hform & _).
    rewrite Hform. unfold isCount. rewrite <- Hform, Hread, Hsame.
    apply andb_true_iff. split; [| apply Z.leb_le; lia]. apply Z.leb_le. lia.
Qed.

Lemma count_safe z : - 2 ^ 51 <= z <= 2 ^ 51 -> safeInteger z.
Proof. unfold safeInteger. lia. Qed.

End NumberFacts.

(** ** The aggregate and the sets of descriptions *)

Module AggregateFacts.
Import Datastore DataNumber.

Lemma totalQuantity_perm l1 l2 : l1 ≡ₚ l2 -> totalQuantity l1 = totalQuantity l2.
Proof.
  induction 1 as [|x l1 l2 _ IH|x y l|l1 l2 l3 _ IH1 _ IH2]; simpl;
    [reflexivity | now rewrite IH | lia | congruence].
Qed.

Lemma distinctDescriptions_perm l1 l2 :
  l1 ≡ₚ l2 -> distinctDescriptions l1 = distinctDescriptions l2.
Proof.
  intros H. unfold distinctDescriptions. apply list_to_set_perm_L.
  now apply fmap_Permutation.
Qed.

Lemma aggregate_perm u l1 l2 : l1 ≡ₚ l2 -> aggregate u l1 = aggregate u l2.
Proof.
  intros H. unfold aggregate.
  now rewrite (totalQuantity_perm _ _ H), (distinctDescriptions_perm _ _ H).
Qed.

Lemma elem_of_distinctDescriptions d l :
  d ∈ distinctDescriptions l <-> exists o, o ∈ l /\ descriptionOf o = d.
Proof.
  unfold distinctDescriptions. rewrite elem_of_list_to_set.
  change (map descriptionOf l) with (descriptionOf <$> l).
  rewrite list_elem_of_fmap. split.
  - intros (o & -> & Hin). now exists o.
  - intros (o & Hin & <-). now exists o.
Qed.

Lemma size_add_description (d : string) (D : gset string) :
  Z.of_nat (size ({[d]} ∪ D)) = ((if decide (d ∈ D) then 0 else 1) + Z.of_nat (size D))%Z.
Proof.
  destruct (decide (d ∈ D)) as [Hin | Hout].
  - replace ({[d]} ∪ D) with D by set_solver. lia.
  - rewrite size_union by set_solver. rewrite size_singleton. lia.
Qed.

(** The aggregate of a list of observations, one observation at a time. *)
Lemma aggregate_cons u i x rest :
  aggregate u ((i, x) :: rest)
  = (contribution u (Some (Observation.data_number x)) (distinctDescriptions rest)
     + aggregate u rest)%Z.
Proof.
  unfold aggregate, contribution. destruct u.
  - unfold distinctDescriptions at 1. simpl. apply size_add_description.
  - reflexivity.
Qed.

(** The set that the loop of [getOtherODNDescriptions] builds. *)
Lemma elem_of_collectDescriptions observations excluded d :
  d ∈ collectDescriptions observations excluded <->
  exists o, o ∈ observations /\ differsFrom o.1 excluded = true /\ descriptionOf o = d.
Proof.
  unfold collectDescriptions.
  assert (Hgen : forall (acc : gset string),
    d ∈ foldl (fun (descriptionSet : gset string) (observation : N * Observation.t) =>
                 if differsFrom observation.1 excluded
                 then {[ ObservationDataNumber.description
                           (Observation.data_number observation.2) ]} ∪ descriptionSet
                 else descriptionSet) acc observations <->
    d ∈ acc \/ exists o, o ∈ observations /\ differsFrom o.1 excluded = true /\
                         descriptionOf o = d).
  { induction observations as [|o rest IH]; intros acc; simpl.
    - split; [now left | intros [H | (o & Ho & _)]; [exact H | now apply elem_of_nil in Ho]].
    - rewrite IH. split.
      + intros [Hacc | (o' & Hin & Hd & Heq)].
        * destruct (differsFrom o.1 excluded) eqn:Hdiff.
          -- apply elem_of_union in Hacc as [Hnew | Hacc]; [| now left].
             apply elem_of_singleton in Hnew. right. exists o.
             split; [apply list_elem_of_here | now split].
          -- now left.
        * right. exists o'. split; [now apply list_elem_of_further | now split].
      + intros [Hacc | (o' & Hin & Hd & Heq)].
        * left. destruct (differsFrom o.1 excluded); [set_solver | exact Hacc].
        * apply elem_of_cons in Hin as [-> | Hin].
          -- left. rewrite Hd. unfold descriptionOf in Heq. set_solver.
          -- right. exists o'. now repeat split. }
  rewrite Hgen. split; [intros [H | H]; [now apply elem_of_empty in H | exact H] | now right].
Qed.

Lemma collectDescriptions_all observations :
  collectDescriptions observations None = distinctDescriptions observations.
Proof.
  apply set_eq. intros d.
  rewrite elem_of_collectDescriptions, elem_of_distinctDescriptions.
  split; [intros (o & H1 & _ & H2) | intros (o & H1 & H2)]; exists o; now repeat split.
Qed.

(** With a canonical id, the set is that of the other observations. *)
Lemma collectDescriptions_others observations i x rest :
  observations ≡ₚ (i, x) :: rest ->
  i ∉ rest.*1 ->
  collectDescriptions observations (Some (JS.toString i)) = distinctDescriptions rest.
Proof.
  intros Hperm Hnot. apply set_eq. intros d.
  rewrite elem_of_collectDescriptions, elem_of_distinctDescriptions.
  split.
  - intros (o & Hin & Hdiff & Hd). exists o. split; [| exact Hd].
    rewrite Hperm in Hin. apply elem_of_cons in Hin as [-> | Hin]; [| exact Hin].
    simpl in Hdiff. now rewrite String.eqb_refl in Hdiff.
  - intros (o & Hin & Hd). exists o. repeat split; [| | exact Hd].
    + rewrite Hperm. now apply list_elem_of_further.
    + simpl. apply negb_true_iff, String.eqb_neq. intros Heq.
      apply StoreFacts.toString_inj in Heq. apply Hnot. rewrite <- Heq.
      apply list_elem_of_fmap. exists o. now split.
Qed.

End AggregateFacts.

(** ** What the maintainer reads and writes *)

Module MaintainerFacts.
Import Datastore DataNumber TransactionFacts.

Abbreviation unique p := (ProjectDataNumber.must_be_unique (Project.data_number p)).
Abbreviation counter p := (ProjectDataNumber.number (Project.data_number p)).

Lemma getOtherODNDescriptions_extends tx key excluded :
  extends tx (getOtherODNDescriptions tx key excluded).2 [].
Proof.
  unfold getOtherODNDescriptions, runQueryObservations.
  pose proof (extends_remote tx (QueryObservations key)
                (observationsOf (snapshot tx) key) eq_refl) as H.
  destruct (remote tx _ _) as [[observations|] tx']; exact H.
Qed.

Lemma getOtherODNDescriptions_answer tx key excluded others tx' :
  getOtherODNDescriptions tx key excluded = (Some others, tx') ->
  others = collectDescriptions (observationsOf (snapshot tx) key) excluded.
Proof.
  unfold getOtherODNDescriptions, runQueryObservations, remote.
  destruct (failsNow tx); now intros [= <- _].
Qed.

Lemma withNumber_same p : withNumber p (counter p) = p.
Proof. now destruct p as [t n [nm num u] i d]. Qed.

Lemma setNumber_setNumber pdn a b :
  ProjectDataNumber.setNumber (ProjectDataNumber.setNumber pdn a) b
  = ProjectDataNumber.setNumber pdn b.
Proof. reflexivity. Qed.

Lemma saveUpdatedProject_extends tx key p pdn :
  extends tx (saveUpdatedProject tx key p pdn).2
          [SaveProject key (withDataNumber p pdn)].
Proof. unfold saveUpdatedProject. cbn [snd]. now apply extends_record_write. Qed.

(** Counts are compared by [===] as the integers they are. *)
Lemma deepEquals_counts a b :
  JSNumber.isCount (ObservationDataNumber.quantity a) = true ->
  JSNumber.isCount (ObservationDataNumber.quantity b) = true ->
  ObservationDataNumber.deepEquals a b = true -> a = b.
Proof.
  destruct a as [qa da], b as [qb db]. unfold ObservationDataNumber.deepEquals. simpl.
  intros Ha Hb H. apply andb_true_iff in H as [Hq Hd].
  apply NumberFacts.isCount_spec in Ha as (za & -> & Hza).
  apply NumberFacts.isCount_spec in Hb as (zb & -> & Hzb).
  rewrite NumberFacts.strictEquals_ofZ in Hq by now apply NumberFacts.count_safe.
  apply Z.eqb_eq in Hq. apply String.eqb_eq in Hd. now subst.
Qed.

Lemma count_canonical x : JSNumber.isCount x = true -> x = JSNumber.ofZ (JSNumber.toZ x).
Proof.
  intros H. apply NumberFacts.isCount_spec in H as (z & -> & Hz).
  now rewrite NumberFacts.toZ_ofZ by now apply NumberFacts.count_safe.
Qed.

Lemma count_bound x :
  JSNumber.isCount x = true -> (- 2 ^ 51 <= JSNumber.toZ x <= 2 ^ 51)%Z.
Proof.
  intros H. apply NumberFacts.isCount_spec in H as (z & -> & Hz).
  now rewrite NumberFacts.toZ_ofZ by now apply NumberFacts.count_safe.
Qed.

Lemma contribution_bound u odn others :
  JSNumber.isCount (ObservationDataNumber.quantity odn) = true ->
  (- 2 ^ 51 <= contribution u (Some odn) others <= 2 ^ 51)%Z.
Proof.
  intros H. unfold contribution. destruct u; [destruct (decide _); lia |].
  now apply count_bound.
Qed.

(** On integers that stay far enough from [2^53], the arithmetic of the
    code is that of the contributions. *)
Lemma added_exact u odn others z :
  (- 2 ^ 52 <= z <= 2 ^ 52)%Z ->
  JSNumber.isCount (ObservationDataNumber.quantity odn) = true ->
  added u odn others (JSNumber.ofZ z)
  = JSNumber.ofZ (z + contribution u (Some odn) others).
Proof.
  intros Hz Hq. unfold added, contribution. destruct u.
  - destruct (decide _); [now rewrite Z.add_0_r |].
    apply NumberFacts.add_exact; unfold JSNumber.safeInteger; lia.
  - pose proof (count_bound _ Hq) as Hbound.
    rewrite (count_canonical _ Hq) at 1.
    apply NumberFacts.add_exact; unfold JSNumber.safeInteger; lia.
Qed.

Lemma takenOff_exact u odn others z :
  (- 2 ^ 52 <= z <= 2 ^ 52)%Z ->
  JSNumber.isCount (ObservationDataNumber.quantity odn) = true ->
  takenOff u odn others (JSNumber.ofZ z)
  = JSNumber.ofZ (z - contribution u (Some odn) others).
Proof.
  intros Hz Hq. unfold takenOff, contribution. destruct u.
  - destruct (decide _); [now rewrite Z.sub_0_r |].
    apply NumberFacts.sub_exact; unfold JSNumber.safeInteger; lia.
  - pose proof (count_bound _ Hq) as Hbound.
    rewrite (count_canonical _ Hq) at 1.
    apply NumberFacts.sub_exact; unfold JSNumber.safeInteger; lia.
Qed.

(** With [others] fetched as the code fetches it, the three adjustments
    write the counter moved as the methods of the counter move it. *)
Lemma adjustPosted_spec tx key p odn others result tx' :
  adjustPosted tx key p odn (if unique p then Some others else None) = (result, tx') ->
  result = Some true /\
  exists writes, extends tx tx' writes /\
    projectWrite key p (added (unique p) odn others (counter p)) writes.
Proof.
  unfold adjustPosted, ProjectDataNumber.addObservation, added.
  destruct (unique p) eqn:Hu.
  - destruct (decide _); cbn [negb saveUpdatedProject].
    + intros [= <- <-]. split; [reflexivity |]. exists []. split; [apply extends_refl |].
      right. split; [reflexivity | now left].
    + intros [= <- <-]. split; [reflexivity |]. eexists. split;
        [apply saveUpdatedProject_extends | now left].
  - cbn [negb saveUpdatedProject]. intros [= <- <-]. split; [reflexivity |].
    eexists. split; [apply saveUpdatedProject_extends | now left].
Qed.

Lemma adjustDeleted_spec tx key p odn others result tx' :
  adjustDeleted tx key p odn (if unique p then Some others else None) = (result, tx') ->
  result = Some true /\
  exists writes, extends tx tx' writes /\
    projectWrite key p (takenOff (unique p) odn others (counter p)) writes.
Proof.
  unfold adjustDeleted, ProjectDataNumber.deleteObservation, takenOff.
  destruct (unique p) eqn:Hu.
  - destruct (decide _); cbn [negb saveUpdatedProject].
    + intros [= <- <-]. split; [reflexivity |]. exists []. split; [apply extends_refl |].
      right. split; [reflexivity | now left].
    + intros [= <- <-]. split; [reflexivity |]. eexists. split;
        [apply saveUpdatedProject_extends | now left].
  - cbn [negb saveUpdatedProject]. intros [= <- <-]. split; [reflexivity |].
    eexists. split; [apply saveUpdatedProject_extends | now left].
Qed.

(** The adjustment of an update, to the letter: the old contribution taken
    off, the new one added, and the project saved unless the counter ends
    [===] to where it started. *)
Lemma adjustUpdated_exact tx key p oldODN newODN others :
  adjustUpdated tx key p oldODN newODN (if unique p then Some others else None)
  = (Some true,
     persisted tx key p
       (added (unique p) newODN others (takenOff (unique p) oldODN others (counter p)))).
Proof.
  unfold adjustUpdated, persisted, ProjectDataNumber.deleteObservation,
    ProjectDataNumber.addObservation, added, takenOff, saveUpdatedProject, withNumber.
  destruct (unique p) eqn:Hu;
    cbn [ProjectDataNumber.must_be_unique ProjectDataNumber.setNumber
         ProjectDataNumber.number].
  all: repeat destruct (decide _);
    cbn [ProjectDataNumber.must_be_unique ProjectDataNumber.setNumber
         ProjectDataNumber.number ProjectDataNumber.name].
  all: rewrite ?Hu; repeat destruct (decide _);
    cbn [ProjectDataNumber.must_be_unique ProjectDataNumber.setNumber
         ProjectDataNumber.number ProjectDataNumber.name].
  all: rewrite ?setNumber_setNumber.
  all: match goal with
       | |- context [negb (JSNumber.strictEquals ?a ?b)] =>
           destruct (JSNumber.strictEquals a b)
       end; cbn [negb]; try reflexivity.
  all: now destruct p as [t nm [name num u] i d].
Qed.

Lemma adjustUpdated_spec tx key p oldODN newODN others result tx' :
  adjustUpdated tx key p oldODN newODN (if unique p then Some others else None)
  = (result, tx') ->
  result = Some true /\
  exists writes, extends tx tx' writes /\
    projectWrite key p
      (added (unique p) newODN others (takenOff (unique p) oldODN others (counter p)))
      writes.
Proof.
  rewrite adjustUpdated_exact. unfold persisted.
  destruct (JSNumber.strictEquals _ _) eqn:Hsame; intros [= <- <-];
    (split; [reflexivity |]).
  - exists []. split; [apply extends_refl |]. right. split; [reflexivity | now right].
  - eexists. split; [now apply extends_record_write | now left].
Qed.

Lemma contribution_unique_description a b others :
  ObservationDataNumber.description a = ObservationDataNumber.description b ->
  contribution true (Some a) others = contribution true (Some b) others.
Proof. unfold contribution. now intros ->. Qed.

Lemma processPostedObservation_spec tx key p odn result tx' :
  processPostedObservation tx key (ProjectData p) odn = (result, tx') ->
  exists writes, extends tx tx' writes /\
    (result = Some true ->
     projectWrite key p
       (added (unique p) odn
          (collectDescriptions (observationsOf (snapshot tx) key) None) (counter p))
       writes).
Proof.
  unfold processPostedObservation. destruct (unique p) eqn:Hu.
  - pose proof (getOtherODNDescriptions_extends tx key None) as Hread.
    destruct (getOtherODNDescriptions tx key None) as [[others|] tx1] eqn:Hget;
      cbn [snd] in Hread.
    + apply getOtherODNDescriptions_answer in Hget as ->.
      set (others := collectDescriptions _ _).
      replace (Some others) with (if unique p then Some others else None)
        by now rewrite Hu.
      intros H. apply adjustPosted_spec in H as (_ & writes & Hext & Hwrite).
      exists writes. split; [exact (extends_reads _ _ _ _ Hread Hext) |].
      intros _. now rewrite Hu in Hwrite.
    + intros [= <- <-]. exists []. split; [exact Hread | discriminate].
  - set (others := collectDescriptions (observationsOf (snapshot tx) key) None).
    replace (@None (gset string)) with (if unique p then Some others else None)
      by now rewrite Hu.
    intros H. apply adjustPosted_spec in H as (_ & writes & Hext & Hwrite).
    exists writes. split; [exact Hext |]. intros _. now rewrite Hu in Hwrite.
Qed.

Lemma processDeletedObservation_spec tx ancestorId id odn result tx' :
  processDeletedObservation tx ancestorId id odn = (result, tx') ->
  exists writes, extends tx tx' writes /\
    (result = Some true ->
     exists key p,
       JS.parseInt ancestorId = Some key /\ projects (snapshot tx) !! key = Some p /\
       projectWrite key p
         (takenOff (unique p) odn
            (collectDescriptions (observationsOf (snapshot tx) key) (Some id))
            (counter p))
         writes).
Proof.
  unfold processDeletedObservation.
  destruct (JS.parseInt ancestorId) as [key|];
    [| intros [= <- <-]; exists []; split; [apply extends_refl | discriminate]].
  pose proof (getAncestorData_extends tx key) as Hread1.
  destruct (getAncestorData tx key) as [[p|] tx1] eqn:Hanc; cbn [snd] in Hread1;
    [| intros [= <- <-]; exists []; split; [exact Hread1 | discriminate]].
  apply getAncestorData_found in Hanc.
  assert (Hsnap : snapshot tx1 = snapshot tx) by apply Hread1.
  destruct (unique p) eqn:Hu.
  - pose proof (getOtherODNDescriptions_extends tx1 key (Some id)) as Hread2.
    destruct (getOtherODNDescriptions tx1 key (Some id)) as [[others|] tx2] eqn:Hget;
      cbn [snd] in Hread2.
    + apply getOtherODNDescriptions_answer in Hget as ->. rewrite Hsnap.
      set (others := collectDescriptions _ _).
      replace (Some others) with (if unique p then Some others else None)
        by now rewrite Hu.
      intros H. apply adjustDeleted_spec in H as (_ & writes & Hext & Hwrite).
      exists writes.
      split; [exact (extends_reads _ _ _ _ Hread1 (extends_reads _ _ _ _ Hread2 Hext)) |].
      intros _. exists key, p. now repeat split.
    + intros [= <- <-]. exists [].
      split; [exact (extends_reads _ _ _ _ Hread1 Hread2) | discriminate].
  - set (others := collectDescriptions (observationsOf (snapshot tx) key) (Some id)).
    replace (@None (gset string)) with (if unique p then Some others else None)
      by now rewrite Hu.
    intros H. apply adjustDeleted_spec in H as (_ & writes & Hext & Hwrite).
    exists writes. split; [exact (extends_reads _ _ _ _ Hread1 Hext) |].
    intros _. exists key, p. now repeat split.
Qed.

Lemma processUpdatedObservation_spec tx ancestorId id oldODN newODN result tx' :
  processUpdatedObservation tx ancestorId id oldODN newODN = (result, tx') ->
  exists writes, extends tx tx' writes /\
    (result = Some true ->
     (ObservationDataNumber.deepEquals newODN oldODN = true /\ writes = []) \/
     exists key p,
       JS.parseInt ancestorId = Some key /\ projects (snapshot tx) !! key = Some p /\
       ((unique p = true /\
         ObservationDataNumber.description oldODN = ObservationDataNumber.description newODN /\
         writes = []) \/
        let others := collectDescriptions (observationsOf (snapshot tx) key) (Some id) in
        projectWrite key p
          (added (unique p) newODN others (takenOff (unique p) oldODN others (counter p)))
          writes)).
Proof.
  unfold processUpdatedObservation.
  destruct (ObservationDataNumber.deepEquals newODN oldODN) eqn:Hequal.
  { intros [= <- <-]. exists []. split; [apply extends_refl |]. intros _. now left. }
  destruct (JS.parseInt ancestorId) as [key|];
    [| intros [= <- <-]; exists []; split; [apply extends_refl | discriminate]].
  pose proof (getAncestorData_extends tx key) as Hread1.
  destruct (getAncestorData tx key) as [[p|] tx1] eqn:Hanc; cbn [snd] in Hread1;
    [| intros [= <- <-]; exists []; split; [exact Hread1 | discriminate]].
  apply getAncestorData_found in Hanc.
  assert (Hsnap : snapshot tx1 = snapshot tx) by apply Hread1.
  destruct (unique p) eqn:Hu.
  - destruct (String.eqb_spec (ObservationDataNumber.description oldODN)
                              (ObservationDataNumber.description newODN)) as [Hsame | Hdiff].
    { intros [= <- <-]. exists []. split; [exact Hread1 |]. intros _. right.
      exists key, p. repeat split; [assumption |]. left. now repeat split. }
    pose proof (getOtherODNDescriptions_extends tx1 key (Some id)) as Hread2.
    destruct (getOtherODNDescriptions tx1 key (Some id)) as [[others|] tx2] eqn:Hget;
      cbn [snd] in Hread2.
    + apply getOtherODNDescriptions_answer in Hget as ->. rewrite Hsnap.
      set (others := collectDescriptions _ _).
      replace (Some others) with (if unique p then Some others else None)
        by now rewrite Hu.
      intros H. apply adjustUpdated_spec in H as (_ & writes & Hext & Hwrite).
      exists writes.
      split; [exact (extends_reads _ _ _ _ Hread1 (extends_reads _ _ _ _ Hread2 Hext)) |].
      intros _. right. exists key, p. repeat split; [assumption |].
      right. exact Hwrite.
    + intros [= <- <-]. exists [].
      split; [exact (extends_reads _ _ _ _ Hread1 Hread2) | discriminate].
  - set (others := collectDescriptions (observationsOf (snapshot tx) key) (Some id)).
    replace (@None (gset string)) with (if unique p then Some others else None)
      by now rewrite Hu.
    intros H. apply adjustUpdated_spec in H as (_ & writes & Hext & Hwrite).
    exists writes. split; [exact (extends_reads _ _ _ _ Hread1 Hext) |].
    intros _. right. exists key, p. repeat split; [assumption |].
    right. exact Hwrite.
Qed.

End MaintainerFacts.

(** ** What an observation request does to the store *)

Module RequestFacts.
Import Datastore DataNumber TransactionFacts MaintainerFacts.

Lemma countsOnly_project s key p :
  countsOnly s = true -> projects s !! key = Some p ->
  JSNumber.isCount (counter p) = true.
Proof.
  unfold countsOnly. intros H Hp. apply andb_true_iff in H as [H _].
  rewrite forallb_forall in H. apply (H (key, p)).
  apply list_elem_of_In, elem_of_map_to_list. exact Hp.
Qed.

Lemma countsOnly_observation s key id entity :
  countsOnly s = true -> observations s !! (key, id) = Some entity ->
  JSNumber.isCount (ObservationDataNumber.quantity (Observation.data_number entity)) = true.
Proof.
  unfold countsOnly. intros H Hentity. apply andb_true_iff in H as [_ H].
  rewrite forallb_forall in H. apply (H (key, id, entity)).
  apply list_elem_of_In, elem_of_map_to_list. exact Hentity.
Qed.

Lemma apply_projectWrite s key p n writes :
  projects s !! key = Some p ->
  JSNumber.isCount (counter p) = true ->
  JSNumber.safeInteger n ->
  projectWrite key p (JSNumber.ofZ n) writes ->
  projects (foldl applyCall s writes)
  = <[key := withNumber p (JSNumber.ofZ n)]> (projects s) /\
  observations (foldl applyCall s writes) = observations s.
Proof.
  intros Hp Hcount Hn [-> | [-> Hsame]]; simpl.
  - now split.
  - split; [| reflexivity].
    assert (JSNumber.ofZ n = counter p) as ->.
    { destruct Hsame as [Hsame | Hsame]; [exact Hsame |].
      apply NumberFacts.isCount_spec in Hcount as (c & Hc & Hbound).
      rewrite Hc in Hsame |- *.
      rewrite NumberFacts.strictEquals_ofZ in Hsame
        by (try assumption; now apply NumberFacts.count_safe).
      apply Z.eqb_eq in Hsame. now rewrite Hsame. }
    rewrite withNumber_same. symmetry. now apply insert_id.
Qed.

Section Requests.
Context {cipher : Cipher} {base64 : Base64}.

(** A request that ends in [finish] leaves the store rolled back or with
    the buffered writes applied. *)
Lemma finish_store s faults tx writes w e success :
  extends (begin s faults) tx writes ->
  Crud.store (Crud.finish tx w e success).2 = s \/
  Crud.store (Crud.finish tx w e success).2 = foldl applyCall s writes.
Proof.
  intros Hext. unfold Crud.finish. destruct (commit tx) as [s'|] eqn:Hcommit; cbn [snd Crud.store].
  - right. exact (commit_extends _ _ _ _ _ Hext Hcommit).
  - left. exact (rollback_extends _ _ _ _ Hext).
Qed.

(** The shape shared by the three requests once their writes are known:
    the observation written or removed first, then the project write. *)
Lemma step_from_writes s s1 key id p after n writes :
  projects s !! key = Some p ->
  projects s1 = projects s ->
  observations s1 = match after with
                    | Some entity => <[(key, id) := entity]> (observations s)
                    | None => delete (key, id) (observations s)
                    end ->
  JSNumber.isCount (counter p) = true ->
  JSNumber.safeInteger n ->
  projectWrite key p (JSNumber.ofZ n) writes ->
  (let others :=
     distinctDescriptions (childrenOf (delete (key, id) (observations s)) key) in
   n = JSNumber.toZ (counter p)
       - contribution (unique p) (Observation.data_number <$> observations s !! (key, id))
                      others
       + contribution (unique p) (Observation.data_number <$> after) others)%Z ->
  aggregateStep s (foldl applyCall s1 writes).
Proof.
  intros Hp Hprojects Hobservations Hcount Hsafe Hwrite Hn. right.
  exists key, id, p, after. split; [exact Hp |]. cbv zeta in *. rewrite <- Hn.
  rewrite <- Hprojects in Hp.
  destruct (apply_projectWrite s1 key p n writes Hp Hcount Hsafe Hwrite) as [-> ->].
  split; [exact Hsafe |]. now rewrite Hprojects, Hobservations.
Qed.

Lemma getObservation_extends tx key id : extends tx (getObservation tx key id).2 [].
Proof. unfold getObservation. now apply extends_remote. Qed.

Lemma getObservation_found tx key id entity tx' :
  getObservation tx key id = (Some (Some entity), tx') ->
  observations (snapshot tx) !! (key, id) = Some entity.
Proof.
  unfold getObservation, remote. destruct (failsNow tx); [intros [=] |].
  now intros [= -> _].
Qed.

Lemma getTeacherOfProject_found tx projectId teacherId tx' :
  Auth.getTeacherOfProject tx projectId = (Some teacherId, tx') ->
  exists key p, JS.parseInt projectId = Some key /\ projects (snapshot tx) !! key = Some p.
Proof.
  unfold Auth.getTeacherOfProject, getProject, remote.
  destruct (JS.parseInt projectId) as [key|]; [| intros [=]].
  destruct (failsNow tx); [intros [=] |].
  destruct (projects (snapshot tx) !! key) as [p|] eqn:Hp; [| intros [=]].
  intros _. now exists key, p.
Qed.

(** With a canonical id, the descriptions fetched for an update or a
    deletion are those of the other observations of the project. *)
Lemma others_fetched s key id entityId entity :
  canonicalId entityId ->
  JS.parseInt entityId = Some id ->
  observations s !! (key, id) = Some entity ->
  collectDescriptions (observationsOf s key) (Some entityId)
  = distinctDescriptions (childrenOf (delete (key, id) (observations s)) key).
Proof.
  intros [_ Hcanonical] Hid Hentity. rewrite <- (proj1 (Hcanonical id Hid)).
  apply (AggregateFacts.collectDescriptions_others _ id entity).
  - now apply StoreFacts.childrenOf_lookup.
  - apply StoreFacts.childrenOf_keys_deleted.
Qed.

Lemma postEntity_observation_step w faults credentialSaveFails now entityData
    ancestorId auth :
  countsOnly (Crud.store w) = true ->
  JSNumber.isCount (ObservationDataNumber.quantity
                      (Observation.data_number (Crud.observationOf entityData))) = true ->
  aggregateStep (Crud.store w)
    (Crud.store (Crud.postEntity w faults credentialSaveFails now entityData
                   (Crud.Observations ancestorId) auth).2).
Proof.
  intros Hcounts Hquantity. unfold Crud.postEntity.
  destruct (EntityType.validateProperties entityData _); cbn [negb]; [| now left].
  match goal with |- context [if ?c then (Crud.INVALID_IMAGE_URL, w) else _] =>
    destruct c end; [now left |].
  destruct (JS.parseInt ancestorId) as [key|]; [| now left].
  set (tx := begin (Crud.store w) faults).
  pose proof (getAncestorData_extends tx key) as H1.
  destruct (getAncestorData tx key) as [[p|] tx1] eqn:Hanc; cbn [snd] in H1;
    [| left; exact (rollback_extends _ _ _ _ H1)].
  apply getAncestorData_found in Hanc. cbn [snapshot begin tx] in Hanc.
  match goal with |- context [Crud.authorize tx1 ?e ?n ?t ?m ?a ?x] =>
    pose proof (authorize_extends tx1 e n t m a x) as H2;
    destruct (Crud.authorize tx1 e n t m a x) as [[[responseInfo|] tx2] e1]
  end; cbn [fst snd] in H2.
  { left. exact (rollback_extends _ _ _ _ (extends_reads _ _ _ _ H1 H2)). }
  set (observation := Crud.observationOf entityData).
  set (tx3 := record tx2 (SaveNewObservation key observation)).
  assert (H3 : extends tx tx3 [SaveNewObservation key observation]).
  { exact (extends_reads _ _ _ _ H1
             (extends_reads _ _ _ _ H2
                (extends_record_write tx2 (SaveNewObservation key observation) eq_refl))). }
  destruct (processPostedObservation tx3 key (ProjectData p) _) as [result tx4]
    eqn:Hprocess.
  apply processPostedObservation_spec in Hprocess as (writes & H4 & Hwrite).
  pose proof (extends_trans _ _ _ _ _ H3 H4) as H5.
  destruct result as [[|]|]; try (left; exact (rollback_extends _ _ _ _ H5)).
  destruct (finish_store _ _ _ _ w e1
              (mkServerResponse 201 (IdAndSelf (newObservationId (snapshot tx4) key))) H5)
    as [-> | ->]; [now left |].
  specialize (Hwrite eq_refl).
  assert (Hsnap : snapshot tx3 = Crud.store w) by apply H3. rewrite Hsnap in Hwrite.
  set (s := Crud.store w) in *.
  assert (Hfresh : observations s !! (key, newObservationId s key) = None)
    by apply StoreFacts.newObservationId_fresh.
  cbn [app foldl].
  pose proof (countsOnly_project s key p Hcounts Hanc) as Hcount.
  pose proof (count_bound _ Hcount) as Hbound.
  pose proof (contribution_bound (unique p) _ (collectDescriptions (observationsOf s key) None)
                Hquantity) as Hmoved.
  fold observation in Hmoved.
  rewrite (count_canonical _ Hcount) in Hwrite at 1.
  rewrite added_exact in Hwrite by (try assumption; lia).
  refine (step_from_writes s (applyCall s (SaveNewObservation key observation)) key
            (newObservationId s key) p (Some observation) _ writes
            Hanc eq_refl eq_refl Hcount _ Hwrite _).
  - unfold JSNumber.safeInteger. lia.
  - cbv zeta. rewrite Hfresh, (delete_id _ _ Hfresh).
    rewrite AggregateFacts.collectDescriptions_all.
    cbn [fmap option_fmap option_map]. unfold observationsOf, contribution at 2. lia.
Qed.

Lemma deleteEntity_observation_step w faults now ancestorId entityId auth :
  canonicalId entityId ->
  countsOnly (Crud.store w) = true ->
  aggregateStep (Crud.store w)
    (Crud.store (Crud.deleteEntity w faults now (Crud.Observations ancestorId)
                   entityId auth).2).
Proof.
  intros Hcanonical Hcounts. unfold Crud.deleteEntity.
  destruct (JS.parseInt entityId) as [id|] eqn:Hid; [| now left].
  destruct (JS.parseInt ancestorId) as [key|] eqn:Hkey; [| now left].
  set (tx := begin (Crud.store w) faults).
  pose proof (getObservation_extends tx key id) as H1.
  destruct (getObservation tx key id) as [[[entity|]|] tx1] eqn:Hget; cbn [snd] in H1;
    try (left; exact (rollback_extends _ _ _ _ H1)).
  apply getObservation_found in Hget. cbn [snapshot begin tx] in Hget.
  pose proof (getTeacherOfProject_extends tx1 ancestorId) as H2.
  destruct (Auth.getTeacherOfProject tx1 ancestorId) as [[teacherIdExpected|] tx2];
    cbn [snd] in H2;
    [| left; exact (rollback_extends _ _ _ _ (extends_reads _ _ _ _ H1 H2))].
  match goal with |- context [Crud.authorize tx2 ?e ?n ?t ?m ?a ?x] =>
    pose proof (authorize_extends tx2 e n t m a x) as H3;
    destruct (Crud.authorize tx2 e n t m a x) as [[[responseInfo|] tx3] e1]
  end; cbn [fst snd] in H3.
  { left. exact (rollback_extends _ _ _ _
                   (extends_reads _ _ _ _ H1 (extends_reads _ _ _ _ H2 H3))). }
  set (tx4 := record tx3 (DeleteKeys [ObservationKey key id])).
  assert (H4 : extends tx tx4 [DeleteKeys [ObservationKey key id]]).
  { exact (extends_reads _ _ _ _ H1
             (extends_reads _ _ _ _ H2
                (extends_reads _ _ _ _ H3
                   (extends_record_write tx3 (DeleteKeys [ObservationKey key id]) eq_refl)))). }
  destruct (processDeletedObservation tx4 ancestorId entityId _) as [result tx5] eqn:Hprocess.
  apply processDeletedObservation_spec in Hprocess as (writes & H5 & Hwrite).
  pose proof (extends_trans _ _ _ _ _ H4 H5) as H6.
  destruct result as [[|]|]; try (left; exact (rollback_extends _ _ _ _ H6)).
  match goal with |- context [Crud.finish tx5 ?w' e1 ?r] =>
    destruct (finish_store _ _ _ _ w' e1 r H6) as [-> | ->]
  end; [now left |].
  destruct (Hwrite eq_refl) as (key' & p & Hkey' & Hp & Hwrites).
  rewrite Hkey in Hkey'. injection Hkey' as <-.
  assert (Hsnap : snapshot tx4 = Crud.store w) by apply H4.
  rewrite Hsnap in Hp, Hwrites.
  set (s := Crud.store w) in *.
  cbn [app foldl].
  pose proof (countsOnly_project s key p Hcounts Hp) as Hcount.
  pose proof (count_bound _ Hcount) as Hbound.
  pose proof (countsOnly_observation s key id entity Hcounts Hget) as Hquantity.
  pose proof (contribution_bound (unique p) _
                (collectDescriptions (observationsOf s key) (Some entityId)) Hquantity)
    as Hmoved.
  rewrite (count_canonical _ Hcount) in Hwrites at 1.
  rewrite takenOff_exact in Hwrites by (try assumption; lia).
  refine (step_from_writes s (applyCall s (DeleteKeys [ObservationKey key id])) key id p
            None _ writes Hp eq_refl eq_refl Hcount _ Hwrites _).
  - unfold JSNumber.safeInteger. lia.
  - cbv zeta. rewrite Hget.
    rewrite (others_fetched s key id entityId entity Hcanonical Hid Hget).
    cbn [fmap option_fmap option_map]. unfold contribution at 3. lia.
Qed.

Lemma patchObservation_data_number entity patches :
  Observation.data_number (Crud.patchObservation entity patches)
  = if includes "data_number" (map fst patches)
    then Crud.observationDataNumberOf (lookupField "data_number" patches)
    else Observation.data_number entity.
Proof. reflexivity. Qed.

Lemma updateEntity_step w faults now entityPatches ancestorId entityId auth :
  canonicalId entityId ->
  countsOnly (Crud.store w) = true ->
  (includes "data_number" (map fst entityPatches) = true ->
   JSNumber.isCount
     (ObservationDataNumber.quantity
        (Crud.observationDataNumberOf (lookupField "data_number" entityPatches))) = true) ->
  aggregateStep (Crud.store w)
    (Crud.store (Crud.updateEntity w faults now entityPatches ancestorId entityId auth).2).
Proof.
  intros Hcanonical Hcounts Hquantity. unfold Crud.updateEntity.
  destruct (EntityType.validateProperties entityPatches _); cbn [negb]; [| now left].
  destruct (JS.parseInt ancestorId) as [key|] eqn:Hkey; [| now left].
  destruct (JS.parseInt entityId) as [id|] eqn:Hid; [| now left].
  set (tx := begin (Crud.store w) faults).
  pose proof (getObservation_extends tx key id) as H1.
  destruct (getObservation tx key id) as [[[entity|]|] tx1] eqn:Hget; cbn [snd] in H1;
    try (left; exact (rollback_extends _ _ _ _ H1)).
  apply getObservation_found in Hget. cbn [snapshot begin tx] in Hget.
  pose proof (getTeacherOfProject_extends tx1 ancestorId) as H2.
  destruct (Auth.getTeacherOfProject tx1 ancestorId) as [[teacherIdExpected|] tx2] eqn:Howner;
    cbn [snd] in H2;
    [| left; exact (rollback_extends _ _ _ _ (extends_reads _ _ _ _ H1 H2))].
  apply getTeacherOfProject_found in Howner as (key' & p & Hkey' & Hp).
  rewrite Hkey in Hkey'. injection Hkey' as <-.
  replace (snapshot tx1) with (Crud.store w) in Hp by (symmetry; apply H1).
  match goal with |- context [Crud.authorize tx2 ?e ?n ?t ?m ?a ?x] =>
    pose proof (authorize_extends tx2 e n t m a x) as H3;
    destruct (Crud.authorize tx2 e n t m a x) as [[[responseInfo|] tx3] e1]
  end; cbn [fst snd] in H3.
  { left. exact (rollback_extends _ _ _ _
                   (extends_reads _ _ _ _ H1 (extends_reads _ _ _ _ H2 H3))). }
  destruct (Crud.replaceImage _ _ _) as [bucket'|];
    [| left; exact (rollback_extends _ _ _ _
                      (extends_reads _ _ _ _ H1 (extends_reads _ _ _ _ H2 H3)))].
  set (entity' := Crud.patchObservation entity entityPatches).
  set (tx4 := record tx3 (SaveObservation key id entity')).
  assert (H4 : extends tx tx4 [SaveObservation key id entity']).
  { exact (extends_reads _ _ _ _ H1
             (extends_reads _ _ _ _ H2
                (extends_reads _ _ _ _ H3
                   (extends_record_write tx3 (SaveObservation key id entity') eq_refl)))). }
  set (s := Crud.store w) in *.
  pose proof (countsOnly_project s key p Hcounts Hp) as Hcount.
  pose proof (count_bound _ Hcount) as Hbound.
  pose proof (countsOnly_observation s key id entity Hcounts Hget) as Hold.
  assert (Hstays :
    (forall others,
       contribution (unique p) (Some (Observation.data_number entity')) others
       = contribution (unique p) (Some (Observation.data_number entity)) others) ->
    aggregateStep s (foldl applyCall s [SaveObservation key id entity'])).
  { intros Hsame. cbn [foldl].
    apply (step_from_writes s (applyCall s (SaveObservation key id entity')) key id p
             (Some entity') (JSNumber.toZ (counter p)) [] Hp eq_refl eq_refl Hcount).
    - unfold JSNumber.safeInteger. lia.
    - right. split; [reflexivity |]. left. symmetry. now apply count_canonical.
    - cbv zeta. rewrite Hget. cbn [fmap option_fmap option_map]. rewrite Hsame. lia. }
  assert (Hunchanged :
    Observation.data_number entity' = Observation.data_number entity ->
    aggregateStep s (foldl applyCall s [SaveObservation key id entity'])).
  { intros Hsame. apply Hstays. intros others. now rewrite Hsame. }
  pose proof (patchObservation_data_number entity entityPatches) as Hpatched.
  fold entity' in Hpatched.
  destruct (includes "data_number" (map fst entityPatches)) eqn:Hincluded.
  - destruct (processUpdatedObservation tx4 ancestorId entityId _ _) as [result tx5]
      eqn:Hprocess.
    apply processUpdatedObservation_spec in Hprocess as (writes & H5 & Hwrite).
    pose proof (extends_trans _ _ _ _ _ H4 H5) as H6.
    destruct result as [[|]|]; try (left; exact (rollback_extends _ _ _ _ H6)).
    match goal with |- context [Crud.finish tx5 ?w' e1 ?r] =>
      destruct (finish_store _ _ _ _ w' e1 r H6) as [-> | ->]
    end; [now left |].
    specialize (Hquantity eq_refl).
    destruct (Hwrite eq_refl) as [[Hsame ->] | (key' & p' & Hkey' & Hp' & Hwrites)].
    + apply Hunchanged. rewrite Hpatched. now apply deepEquals_counts.
    + rewrite Hkey in Hkey'. injection Hkey' as <-.
      replace (snapshot tx4) with s in Hp', Hwrites by (symmetry; apply H4).
      rewrite Hp in Hp'. injection Hp' as <-.
      destruct Hwrites as [(Hu & Hsame & ->) | Hwrites].
      { apply Hstays. intros others. rewrite Hu, Hpatched.
        now apply contribution_unique_description. }
      cbv zeta in Hwrites. cbn [app foldl].
      set (others := collectDescriptions (observationsOf s key) (Some entityId)) in *.
      pose proof (contribution_bound (unique p) _ others Hold) as Hoff.
      pose proof (contribution_bound (unique p) _ others Hquantity) as Hon.
      rewrite (count_canonical _ Hcount) in Hwrites at 1.
      rewrite takenOff_exact in Hwrites by (try assumption; lia).
      rewrite added_exact in Hwrites by (try assumption; lia).
      refine (step_from_writes s (applyCall s (SaveObservation key id entity')) key id p
                (Some entity') _ writes Hp eq_refl eq_refl Hcount _ Hwrites _).
      * unfold JSNumber.safeInteger. lia.
      * cbv zeta. rewrite Hget.
        rewrite <- (others_fetched s key id entityId entity Hcanonical Hid Hget).
        cbn [fmap option_fmap option_map]. now rewrite Hpatched.
  - match goal with |- context [Crud.finish tx4 ?w' e1 ?r] =>
      destruct (finish_store _ _ _ _ w' e1 r H4) as [-> | ->]
    end; [now left |].
    now apply Hunchanged.
Qed.

(** Every observation request moves the store by an aggregate step. *)
Lemma serve_step w request :
  Crud.canonicalRequest request ->
  countsOnly (Crud.store w) = true ->
  match Crud.quantityOfRequest request with
  | Some quantity => JSNumber.isCount quantity = true
  | None => True
  end ->
  aggregateStep (Crud.store w) (Crud.store (Crud.serve w request).2).
Proof.
  destruct request;
    cbn [Crud.serve Crud.canonicalRequest Crud.namedId Crud.quantityOfRequest];
    intros [_ Hcanonical] Hcounts Hquantity.
  - now apply postEntity_observation_step.
  - apply updateEntity_step; try assumption. intros Hincluded.
    now rewrite Hincluded in Hquantity.
  - now apply deleteEntity_observation_step.
Qed.

End Requests.

End RequestFacts.

(** ** The counter of a project follows its observations *)

Module CounterFacts.
Import Datastore DataNumber MaintainerFacts.

(** The aggregate of the observations of a project, around one of them. *)
Lemma aggregate_around (kind : gmap (N * N) Observation.t) key id u :
  aggregate u (childrenOf kind key)
  = (contribution u (Observation.data_number <$> kind !! (key, id))
                  (distinctDescriptions (childrenOf (delete (key, id) kind) key))
     + aggregate u (childrenOf (delete (key, id) kind) key))%Z.
Proof.
  destruct (kind !! (key, id)) as [entity|] eqn:Hentity.
  - rewrite (AggregateFacts.aggregate_perm u _ _
               (StoreFacts.childrenOf_lookup kind key id entity Hentity)).
    apply AggregateFacts.aggregate_cons.
  - rewrite (delete_id _ _ Hentity). reflexivity.
Qed.

Lemma aggregate_after (kind : gmap (N * N) Observation.t) key id u after :
  aggregate u (childrenOf (match after with
                           | Some entity => <[(key, id) := entity]> kind
                           | None => delete (key, id) kind
                           end) key)
  = (contribution u (Observation.data_number <$> after)
                  (distinctDescriptions (childrenOf (delete (key, id) kind) key))
     + aggregate u (childrenOf (delete (key, id) kind) key))%Z.
Proof.
  destruct after as [entity|].
  - rewrite (AggregateFacts.aggregate_perm u _ _
               (StoreFacts.childrenOf_insert kind key id entity)).
    apply AggregateFacts.aggregate_cons.
  - reflexivity.
Qed.

Lemma observations_of_other (kind : gmap (N * N) Observation.t) key other id after :
  other <> key ->
  childrenOf (match after with
              | Some entity => <[(other, id) := entity]> kind
              | None => delete (other, id) kind
              end) key
  ≡ₚ childrenOf kind key.
Proof.
  intros Hne. destruct after as [entity|].
  - now apply StoreFacts.childrenOf_insert_other.
  - now apply StoreFacts.childrenOf_delete_other.
Qed.

(** One aggregate step keeps, for every project, the policy and the
    distance between the counter and the aggregate. *)
Lemma aggregateStep_offset s s' key p :
  aggregateStep s s' ->
  projects s !! key = Some p ->
  exists p',
    projects s' !! key = Some p' /\ unique p' = unique p /\
    (JSNumber.toZ (counter p') - aggregate (unique p) (observationsOf s' key)
     = JSNumber.toZ (counter p) - aggregate (unique p) (observationsOf s key))%Z.
Proof.
  intros [-> | (key' & id & q & after & Hq & Hsafe & Hprojects & Hobservations)] Hp.
  { exists p. now repeat split. }
  cbv zeta in Hprojects, Hsafe. unfold observationsOf. rewrite Hprojects, Hobservations.
  destruct (decide (key' = key)) as [-> | Hne].
  - rewrite Hp in Hq. injection Hq as <-.
    eexists. split; [apply lookup_insert_eq |]. split; [reflexivity |].
    rewrite aggregate_after, (aggregate_around (observations s) key id).
    cbn [withNumber withDataNumber Project.data_number ProjectDataNumber.setNumber
         ProjectDataNumber.number]. rewrite NumberFacts.toZ_ofZ by exact Hsafe. lia.
  - exists p. split; [now rewrite lookup_insert_ne |]. split; [reflexivity |].
    now rewrite (AggregateFacts.aggregate_perm _ _ _
                   (observations_of_other (observations s) key key' id after Hne)).
Qed.

Section Runs.
Context {cipher : Cipher} {base64 : Base64}.

Lemma serveAll_offset requests : forall w key p,
  Forall Crud.canonicalRequest requests ->
  Crud.countsAlong w requests ->
  projects (Crud.store w) !! key = Some p ->
  exists p',
    projects (Crud.store (Crud.serveAll w requests)) !! key = Some p' /\
    unique p' = unique p /\
    JSNumber.isCount (counter p') = true /\
    (JSNumber.toZ (counter p')
     - aggregate (unique p) (observationsOf (Crud.store (Crud.serveAll w requests)) key)
     = JSNumber.toZ (counter p)
       - aggregate (unique p) (observationsOf (Crud.store w) key))%Z.
Proof.
  induction requests as [|request rest IH]; intros w key p Hcanonical Hcounts Hp.
  - exists p. destruct Hcounts as [Hcounts _].
    repeat split; try assumption. exact (RequestFacts.countsOnly_project _ _ _ Hcounts Hp).
  - inversion Hcanonical as [|? ? Hfirst Hrest]; subst.
    destruct Hcounts as (Hcounts & Hquantity & Hlater).
    destruct (aggregateStep_offset _ _ key p
                (RequestFacts.serve_step w request Hfirst Hcounts Hquantity) Hp)
      as (p1 & Hp1 & Hu1 & Hoffset1).
    destruct (IH (Crud.serve w request).2 key p1 Hrest Hlater Hp1)
      as (p' & Hp' & Hu' & Hcount' & Hoffset).
    exists p'. cbn [Crud.serveAll foldl]. split; [exact Hp' |].
    split; [congruence |]. split; [exact Hcount' |]. rewrite Hu1 in Hoffset.
    fold (Crud.serveAll (Crud.serve w request).2 rest) in *.
    lia.
Qed.

(** C1, as the code has it. Take any sequence of observation requests
    whose ids are made of digits, name numbers up to [2^53] and name the
    observations canonically, and along which the counters and quantities
    are integers of magnitude at most [2^51], so that the doubles of the
    code compute as integers. A project keeps its policy, and afterwards
    its counter is an integer that has moved from where it stood exactly as
    the aggregate of its observations has: by the sum of their quantities
    when [must_be_unique] is false, by the number of their distinct
    descriptions when it is true. For a project that had no observation,
    the counter is the number it was created with plus that aggregate, and
    is the aggregate itself when the project was created with the number
    0. *)
Theorem counter_follows_aggregate w requests key p :
  Forall Crud.canonicalRequest requests ->
  Crud.countsAlong w requests ->
  projects (Crud.store w) !! key = Some p ->
  let after := Crud.store (Crud.serveAll w requests) in
  exists p',
    projects after !! key = Some p' /\
    unique p' = unique p /\
    counter p' = JSNumber.ofZ (JSNumber.toZ (counter p')) /\
    (JSNumber.toZ (counter p') - aggregate (unique p) (observationsOf after key)
     = JSNumber.toZ (counter p)
       - aggregate (unique p) (observationsOf (Crud.store w) key))%Z /\
    (observationsOf (Crud.store w) key = [] ->
     JSNumber.toZ (counter p')
     = (JSNumber.toZ (counter p)
        + if unique p
          then Z.of_nat (size (distinctDescriptions (observationsOf after key)))
          else totalQuantity (observationsOf after key))%Z) /\
    (observationsOf (Crud.store w) key = [] -> counter p = JSNumber.ofZ 0 ->
     counter p' = JSNumber.ofZ (aggregate (unique p) (observationsOf after key))).
Proof.
  intros Hcanonical Hcounts Hp after.
  destruct (serveAll_offset requests w key p Hcanonical Hcounts Hp)
    as (p' & Hp' & Hu & Hcount' & Hoffset).
  exists p'. fold after in Hp', Hoffset.
  assert (H0 : aggregate (unique p) [] = 0%Z) by (unfold aggregate; now destruct (unique p)).
  split; [exact Hp' |]. split; [exact Hu |].
  split; [now apply count_canonical |]. split; [exact Hoffset |]. split.
  - intros Hnone. rewrite Hnone, H0 in Hoffset.
    unfold aggregate in Hoffset. destruct (unique p); lia.
  - intros Hnone Hzero. rewrite Hnone, H0, Hzero in Hoffset.
    change (JSNumber.toZ (JSNumber.ofZ 0)) with 0%Z in Hoffset.
    rewrite (count_canonical _ Hcount'). f_equal. lia.
Qed.

End Runs.

(** The scenario of the specification: a project that counts each
    description once, two observations of a goldfinch, then their removal. *)
Example goldfinch_first :
  Samples.counterOf (Samples.serveSamples (Samples.withProject 0 true)
                       [Samples.create "a.png" "Goldfinch" 1]) = Some (JSNumber.ofZ 1).
Proof. vm_compute. reflexivity. Qed.

Example goldfinch_second :
  Samples.counterOf (Samples.serveSamples (Samples.withProject 0 true)
                       [Samples.create "a.png" "Goldfinch" 1;
                        Samples.create "b.png" "Goldfinch" 3]) = Some (JSNumber.ofZ 1).
Proof. vm_compute. reflexivity. Qed.

Example goldfinch_first_removed :
  Samples.counterOf (Samples.serveSamples (Samples.withProject 0 true)
                       [Samples.create "a.png" "Goldfinch" 1;
                        Samples.create "b.png" "Goldfinch" 3;
                        Samples.remove "1"]) = Some (JSNumber.ofZ 1).
Proof. vm_compute. reflexivity. Qed.

Example goldfinch_both_removed :
  Samples.counterOf (Samples.serveSamples (Samples.withProject 0 true)
                       [Samples.create "a.png" "Goldfinch" 1;
                        Samples.create "b.png" "Goldfinch" 3;
                        Samples.remove "1"; Samples.remove "2"]) = Some (JSNumber.ofZ 0).
Proof. vm_compute. reflexivity. Qed.

Lemma canonical_1 : canonicalId "1".
Proof. split; [reflexivity |]. intros n [= <-]. split; [reflexivity | vm_compute; discriminate]. Qed.

Lemma exact_1 : exactId "1".
Proof. split; [reflexivity |]. intros n [= <-]. vm_compute. discriminate. Qed.

Lemma goldfinch_requests_canonical :
  Forall Crud.canonicalRequest
    [Samples.create "a.png" "Goldfinch" 1; Samples.create "b.png" "Goldfinch" 3;
     Samples.remove "1"].
Proof.
  repeat (constructor;
          [split; [exact exact_1 | first [exact I | exact canonical_1]] |]).
  constructor.
Qed.

Lemma goldfinch_counts :
  @Crud.countsAlong Samples.sampleCipher Samples.sampleBase64
    (Samples.withProject 0 true)
    [Samples.create "a.png" "Goldfinch" 1; Samples.create "b.png" "Goldfinch" 3;
     Samples.remove "1"].
Proof. vm_compute. repeat split. Qed.

Lemma goldfinch_project :
  projects (Crud.store (Samples.withProject 0 true)) !! 1%N
  = Some (Crud.projectOf (Samples.projectBody 0 true)).
Proof. vm_compute. reflexivity. Qed.

Lemma counter_follows_aggregate_witness :
  Forall Crud.canonicalRequest
    [Samples.create "a.png" "Goldfinch" 1; Samples.create "b.png" "Goldfinch" 3;
     Samples.remove "1"] /\
  @Crud.countsAlong Samples.sampleCipher Samples.sampleBase64
    (Samples.withProject 0 true)
    [Samples.create "a.png" "Goldfinch" 1; Samples.create "b.png" "Goldfinch" 3;
     Samples.remove "1"] /\
  projects (Crud.store (Samples.withProject 0 true)) !! 1%N
  = Some (Crud.projectOf (Samples.projectBody 0 true)) /\
  exists p',
    projects (Crud.store (Samples.serveSamples (Samples.withProject 0 true)
                            [Samples.create "a.png" "Goldfinch" 1;
                             Samples.create "b.png" "Goldfinch" 3;
                             Samples.remove "1"])) !! 1%N = Some p' /\
    unique p' = true.
Proof.
  split; [exact goldfinch_requests_canonical |].
  split; [exact goldfinch_counts |].
  split; [exact goldfinch_project |].
  destruct (@counter_follows_aggregate Samples.sampleCipher Samples.sampleBase64
              (Samples.withProject 0 true) _ 1%N _
              goldfinch_requests_canonical goldfinch_counts goldfinch_project)
    as (p' & Hp' & Hu & _).
  exists p'. split; [exact Hp' | exact Hu].
Defined.

(** C1, as the specification words it, fails: project 1 is created with the
    number 5 and counts quantities; with no observation its counter is 5,
    not 0, and after one observation of quantity 2 it is 7, not 2. *)
Lemma counter_differs_from_sum :
  let created := Samples.withProject 5 false in
  let after := Samples.serveSamples created [Samples.create "a.png" "Goldfinch" 2] in
  (Samples.counterOf created = Some (JSNumber.ofZ 5) /\
   totalQuantity (observationsOf (Crud.store created) 1) = 0%Z) /\
  (Samples.counterOf after = Some (JSNumber.ofZ 7) /\
   totalQuantity (observationsOf (Crud.store after) 1) = 2%Z).
Proof. repeat split; vm_compute; reflexivity. Qed.

(** Why the numbers must stay counts: a project that sums quantities is
    given an observation of [2^53] and one of 1; the second addition is
    lost to rounding, and the counter stands at [2^53], one below the
    sum. *)
Example large_quantities_round :
  let after := Samples.serveSamples (Samples.withProject 0 false)
                 [Samples.create "a.png" "Goldfinch" (2 ^ 53);
                  Samples.create "b.png" "Robin" 1] in
  Samples.counterOf after = Some (JSNumber.ofZ (2 ^ 53)) /\
  totalQuantity (observationsOf (Crud.store after) 1) = (2 ^ 53 + 1)%Z.
Proof. split; vm_compute; reflexivity. Qed.

(** Why the ids must be canonical: [isValidId] lets the id 01 through,
    [parseInt] reads it as 1, but the maintainer compares the stored id 1
    with the text 01 and so counts the observation being removed among the
    others. The only goldfinch is removed and the counter stays at 1. *)
Example leading_zero_id_drifts :
  let after := Samples.serveSamples (Samples.withProject 0 true)
                 [Samples.create "a.png" "Goldfinch" 1; Samples.remove "01"] in
  Samples.counterOf after = Some (JSNumber.ofZ 1) /\
  observationsOf (Crud.store after) 1 = [].
Proof. split; vm_compute; reflexivity. Qed.

End CounterFacts.

(** ** The maintainer on an update *)

Module UpdateFacts.
Import Datastore DataNumber MaintainerFacts.

Lemma elem_of_others s key id d :
  d ∈ collectDescriptions (observationsOf s key) (Some id) <->
  exists i o, observations s !! (key, i) = Some o /\ JS.toString i <> id /\
              ObservationDataNumber.description (Observation.data_number o) = d.
Proof.
  rewrite AggregateFacts.elem_of_collectDescriptions. split.
  - intros ([i o] & Hin & Hdiff & Hd). exists i, o.
    apply StoreFacts.elem_of_childrenOf in Hin. simpl in Hdiff.
    apply negb_true_iff, String.eqb_neq in Hdiff. now repeat split.
  - intros (i & o & Hin & Hdiff & Hd). exists (i, o).
    split; [now apply StoreFacts.elem_of_childrenOf |]. split; [| exact Hd].
    simpl. now apply negb_true_iff, String.eqb_neq.
Qed.

(** C3, as the code has it. On an update the maintainer does nothing when
    the old and the new [data_number] are value-equal. Otherwise it reads
    the project; with [must_be_unique] and an unchanged description it stops
    there, fetching no descriptions and writing nothing; with
    [must_be_unique] and a changed description it fetches the descriptions
    of the observations other than the updated one; without [must_be_unique]
    it fetches no descriptions. In the last two cases it takes the old
    contribution off the counter, adds the new one, both in the arithmetic
    of doubles, and saves the project only if the counter ends on a value
    that is not [===] to the one it started from. *)
Theorem update_maintainer tx ancestorId id oldODN newODN key p :
  JS.parseInt ancestorId = Some key ->
  (key <= 2 ^ 53)%N ->
  projects (snapshot tx) !! key = Some p ->
  (forall n, outage tx n = false) ->
  let result := processUpdatedObservation tx ancestorId id oldODN newODN in
  let others := collectDescriptions (observationsOf (snapshot tx) key) (Some id) in
  let read := record tx (GetProject key) in
  let fetched := record read (QueryObservations key) in
  (ObservationDataNumber.deepEquals newODN oldODN = true -> result = (Some true, tx)) /\
  (ObservationDataNumber.deepEquals newODN oldODN = false ->
   unique p = true ->
   ObservationDataNumber.description oldODN = ObservationDataNumber.description newODN ->
   result = (Some true, read)) /\
  (ObservationDataNumber.deepEquals newODN oldODN = false ->
   unique p = true ->
   ObservationDataNumber.description oldODN <> ObservationDataNumber.description newODN ->
   let without :=
     if decide (ObservationDataNumber.description oldODN ∈ others) then counter p
     else JSNumber.sub (counter p) (JSNumber.ofZ 1) in
   let again :=
     if decide (ObservationDataNumber.description newODN ∈ others) then without
     else JSNumber.add without (JSNumber.ofZ 1) in
   result = (Some true, persisted fetched key p again)) /\
  (ObservationDataNumber.deepEquals newODN oldODN = false ->
   unique p = false ->
   result = (Some true,
             persisted read key p
               (JSNumber.add
                  (JSNumber.sub (counter p) (ObservationDataNumber.quantity oldODN))
                  (ObservationDataNumber.quantity newODN)))) /\
  (forall d, d ∈ others <->
     exists i o, observations (snapshot tx) !! (key, i) = Some o /\ JS.toString i <> id /\
                 ObservationDataNumber.description (Observation.data_number o) = d) /\
  (JSNumber.isCount (counter p) = true ->
   JSNumber.isCount (ObservationDataNumber.quantity oldODN) = true ->
   JSNumber.isCount (ObservationDataNumber.quantity newODN) = true ->
   added (unique p) newODN others (takenOff (unique p) oldODN others (counter p))
   = JSNumber.ofZ (JSNumber.toZ (counter p)
                   - contribution (unique p) (Some oldODN) others
                   + contribution (unique p) (Some newODN) others)).
Proof.
  intros Hkey _ Hp Hup result others read fetched. subst result.
  unfold processUpdatedObservation.
  assert (Hread : getAncestorData tx key = (Some p, read)).
  { unfold getAncestorData, getProject, remote, failsNow. now rewrite Hup, Hp. }
  assert (Hfetch : getOtherODNDescriptions read key (Some id) = (Some others, fetched)).
  { unfold getOtherODNDescriptions, runQueryObservations, remote, failsNow.
    cbn [outage record read]. now rewrite Hup. }
  split; [now intros -> |].
  split; [| split; [| split; [| split]]].
  - intros -> Hu Hsame. rewrite Hkey, Hread, Hu.
    apply String.eqb_eq in Hsame. now rewrite Hsame.
  - intros -> Hu Hdiff. rewrite Hkey, Hread, Hu.
    apply String.eqb_neq in Hdiff. rewrite Hdiff, Hfetch.
    pose proof (adjustUpdated_exact fetched key p oldODN newODN others) as H.
    rewrite Hu in H. exact H.
  - intros -> Hu. rewrite Hkey, Hread, Hu.
    pose proof (adjustUpdated_exact read key p oldODN newODN others) as H.
    rewrite Hu in H. exact H.
  - intros d. apply elem_of_others.
  - intros Hcount Hold Hnew.
    pose proof (count_bound _ Hcount) as Hbound.
    pose proof (contribution_bound (unique p) _ others Hold) as Hoff.
    rewrite (count_canonical _ Hcount) at 1.
    rewrite takenOff_exact by (try assumption; lia).
    apply added_exact; [lia | assumption].
Qed.

Lemma school_project :
  projects Samples.schoolStore !! 1%N = Some (Samples.projectWith 4 false).
Proof. reflexivity. Qed.

Lemma update_maintainer_witness :
  JS.parseInt "1" = Some 1%N /\
  (1 <= 2 ^ 53)%N /\
  projects Samples.schoolStore !! 1%N = Some (Samples.projectWith 4 false) /\
  (forall n, Samples.noFaults n = false) /\
  processUpdatedObservation (begin Samples.schoolStore Samples.noFaults) "1" "2"
    (ObservationDataNumber.mk (JSNumber.ofZ 3) "Goldfinch")
    (ObservationDataNumber.mk (JSNumber.ofZ 3) "Goldfinch")
  = (Some true, begin Samples.schoolStore Samples.noFaults).
Proof.
  split; [reflexivity |]. split; [vm_compute; discriminate |].
  split; [exact school_project |]. split; [reflexivity |].
  assert (Hexact : (1 <= 2 ^ 53)%N) by (vm_compute; discriminate).
  apply (update_maintainer (begin Samples.schoolStore Samples.noFaults) "1" "2"
           (ObservationDataNumber.mk (JSNumber.ofZ 3) "Goldfinch")
           (ObservationDataNumber.mk (JSNumber.ofZ 3) "Goldfinch")
           1%N (Samples.projectWith 4 false) eq_refl Hexact
           school_project (fun _ => eq_refl)).
  reflexivity.
Defined.

(** C3, as the specification words it, fails: project 1 sums quantities;
    observation 2 goes from 3 goldfinches to 5, which is neither of the two
    cases in which nothing is done, and the maintainer fetches no
    description: it reads the project and saves it with the counter 6. *)
Lemma update_without_fetch :
  let oldODN := ObservationDataNumber.mk (JSNumber.ofZ 3) "Goldfinch" in
  let newODN := ObservationDataNumber.mk (JSNumber.ofZ 5) "Goldfinch" in
  let result :=
    processUpdatedObservation (begin Samples.schoolStore Samples.noFaults) "1" "2"
      oldODN newODN in
  ObservationDataNumber.deepEquals newODN oldODN = false /\
  unique (Samples.projectWith 4 false) = false /\
  result.1 = Some true /\
  log result.2 = [GetProject 1; SaveProject 1 (Samples.projectWith 6 false)] /\
  ~ In (QueryObservations 1) (log result.2).
Proof.
  repeat split. intros [H | [H | []]]; discriminate.
Qed.

End UpdateFacts.

(** ** Reset codes: used once, and for thirty minutes *)

Module ResetFacts.
Import Datastore Auth TransactionFacts.

Section Reading.
Context {cipher : Cipher} {base64 : Base64}.

Lemma teacherExists_true tx id tx' :
  teacherExists tx id = (true, tx') ->
  exists key teacher,
    JS.parseInt id = Some key /\ teachers (snapshot tx) !! key = Some teacher /\
    extends tx tx' [].
Proof.
  unfold teacherExists, getTeacher. destruct (JS.parseInt id) as [key|]; [| intros [=]].
  pose proof (extends_remote tx (GetTeacher key) (teachers (snapshot tx) !! key) eq_refl) as H.
  unfold remote in *. cbn [snd] in H. destruct (failsNow tx); [intros [=] |].
  destruct (teachers (snapshot tx) !! key) as [teacher|] eqn:Ht; intros [= <-].
  now exists key, teacher.
Qed.

Lemma getCredential_some tx id c tx' :
  getCredential tx id = (Some c, tx') ->
  exists key cid,
    JS.parseInt id = Some key /\ credentialsOf (snapshot tx) key = [(cid, data c)] /\
    datastoreKey c = Some (key, cid) /\ extends tx tx' [].
Proof.
  unfold getCredential, runQueryCredentials.
  destruct (JS.parseInt id) as [key|]; [| intros [=]].
  pose proof (extends_remote tx (QueryCredentials key)
                (credentialsOf (snapshot tx) key) eq_refl) as H.
  unfold remote in *. cbn [snd] in H. destruct (failsNow tx); [intros [=] |].
  destruct (credentialsOf (snapshot tx) key) as [|[cid d] [|other rest]] eqn:Hc;
    intros [= <- <-].
  now exists key, cid.
Qed.

Lemma getCredential_answers tx id key cid d :
  JS.parseInt id = Some key ->
  credentialsOf (snapshot tx) key = [(cid, d)] ->
  failsNow tx = false ->
  getCredential tx id
  = (Some {| data := d; datastoreKey := Some (key, cid) |},
     record tx (QueryCredentials key)).
Proof.
  intros Hid Hc Hup. unfold getCredential, runQueryCredentials, remote.
  now rewrite Hid, Hup, Hc.
Qed.

(** The check against a reset code, for a credential passed in. *)
Lemma validateAuthHeader_reset_code tx e now authReceived expected secret c :
  wellFormed authReceived expected secret ->
  validateAuthHeader tx e now (Some authReceived) (Some expected) (Some c) true
  = (if negb (resetCodeValid c e now secret).1.1 then Some RESET_CODE_REFUSED else None,
     mkAuthState tx (resetCodeValid c e now secret).2
                 (Some (resetCodeValid c e now secret).1.2)).
Proof.
  intros (Hnonempty & Hidx & Htype & Hsplit).
  unfold validateAuthHeader.
  destruct authReceived as [|a rest]; [contradiction |].
  apply Z.leb_gt in Hidx. rewrite Hidx, Htype.
  change (("Basic" =? "Basic")%string) with true. cbn [negb].
  rewrite Hsplit, String.eqb_refl. cbn [negb].
  now destruct (resetCodeValid c e now secret) as [[valid c'] e'].
Qed.

(** When the check lets a request through, the header was well formed for
    the expected teacher and the reset code it carried was valid. *)
Lemma validateAuthHeader_reset_accepts tx e now authReceived expected c st :
  validateAuthHeader tx e now authReceived (Some expected) (Some c) true = (None, st) ->
  exists header secret,
    authReceived = Some header /\ wellFormed header expected secret /\
    (resetCodeValid c e now secret).1.1 = true /\
    st = mkAuthState tx (resetCodeValid c e now secret).2
                     (Some (resetCodeValid c e now secret).1.2).
Proof.
  unfold validateAuthHeader.
  destruct authReceived as [[|a rest]|]; try (intros [=]; fail).
  destruct (Z.leb_spec (JS.indexOf " " (String a rest)) 0) as [|Hidx];
    [intros [=] |].
  destruct (String.eqb_spec (JS.substring2 (String a rest) 0
                               (JS.indexOf " " (String a rest))) "Basic") as [Htype|];
    [| intros [=]].
  cbn [negb].
  destruct (JS.split ":" _) as [|received [|secret [|extra more]]] eqn:Hsplit;
    try (intros [=]; fail).
  destruct (String.eqb_spec received expected) as [-> |]; [| intros [=]].
  cbn [negb].
  destruct (resetCodeValid c e now secret) as [[valid c'] e'] eqn:Hvalid.
  destruct valid; cbn [negb]; intros [= <-].
  exists (String a rest), secret. rewrite Hvalid.
  repeat split; try assumption. discriminate.
Qed.

Lemma validateAuthHeader_status tx e now authReceived expected c useResetCode r st :
  validateAuthHeader tx e now authReceived expected c useResetCode = (Some r, st) ->
  status r <> 204%Z.
Proof.
  unfold validateAuthHeader.
  repeat match goal with
         | |- context [match ?x with _ => _ end] =>
             lazymatch x with
             | getCredential _ _ => fail
             | passwordsMatch _ _ _ => fail
             | resetCodeValid _ _ _ _ => fail
             | _ => destruct x eqn:?
             end
         end; try (intros [= <- _]; discriminate).
  all: try match goal with
       | |- context [getCredential ?t ?i] => destruct (getCredential t i) as [[?|] ?]
       end.
  all: try destruct (resetCodeValid _ _ _ _) as [[[|] ?] ?];
    try destruct (passwordsMatch _ _ _) as [[[|] ?] ?];
    cbn [negb]; intros [= <- _]; discriminate.
Qed.

End Reading.

Section Consuming.
Context {cipher : Cipher} {base64 : Base64}.
Hypothesis decrypt_encrypt : forall salt s, decryptString (encryptString salt s) = s.

Ltac open_methods :=
  cbv beta iota zeta delta
    [passwordsMatch secretQuestionsMatch resetCodeValid updatePassword clearResetCode
     generateResetCodeChallenge
     decryptPassword decryptSecretQuestions decryptResetCode
     encryptPassword encryptSecretQuestions encryptResetCode encrypt draw
     setPassword setSecretQuestions setResetCode password secret_questions reset_code
     data datastoreKey fst snd transaction entropy credential pool used
     CredentialData.password CredentialData.secret_questions CredentialData.reset_code
     SecretQuestions.question_1 SecretQuestions.question_2
     SecretQuestions.answer_1 SecretQuestions.answer_2
     ResetCode.code ResetCode.expires ResetCode.clearCode] in *.

(** A successful reset: who asked, and what it stored. *)
Lemma reset_succeeded s faults e now requestBody teacherId authReceived s' e' :
  resetUnknownPassword s faults e now requestBody teacherId authReceived
  = (mkServerResponse 204 NoContent, s', e') ->
  exists key teacher cid d header secret stored,
    JS.parseInt teacherId = Some key /\
    teachers s !! key = Some teacher /\
    credentialsOf s key = [(cid, d)] /\
    authReceived = Some header /\
    wellFormed header teacherId secret /\
    s' = setCredentials s (<[(key, cid) := stored]> (credentials s)) /\
    decryptString (ResetCode.code (CredentialData.reset_code stored)) = "" /\
    decryptString (ResetCode.expires (CredentialData.reset_code stored)) = "".
Proof.
  unfold resetUnknownPassword.
  destruct (EntityType.validateProperties requestBody _); cbn [negb]; [| intros [=]].
  set (tx := begin s faults).
  destruct (teacherExists tx teacherId) as [[|] tx1] eqn:Hteacher; cbn [negb];
    [| intros [=]].
  apply teacherExists_true in Hteacher as (key & teacher & Hkey & Hthere & H1).
  destruct (getCredential tx1 teacherId) as [[c|] tx2] eqn:Hcredential; [| intros [=]].
  apply getCredential_some in Hcredential as (key' & cid & Hkey' & Hcreds & Hdk & H2).
  rewrite Hkey in Hkey'. injection Hkey' as <-.
  replace (snapshot tx1) with s in Hcreds by (symmetry; apply H1).
  destruct (validateAuthHeader tx2 e now authReceived (Some teacherId) (Some c) true)
    as [[responseInfo|] st] eqn:Hauth.
  { intros [= -> _ _]. now apply validateAuthHeader_status in Hauth. }
  apply validateAuthHeader_reset_accepts in Hauth
    as (header & secret & -> & Hwf & _ & ->).
  destruct c as [[p q [code expires]] dk]. cbn [datastoreKey] in Hdk. subst dk.
  cbn [data] in Hcreds.
  open_methods.
  match goal with |- context [SecretQuestions.deepCompare ?q ?v] =>
    destruct (SecretQuestions.deepCompare q v) as [[|]|] end;
    try (intros [=]; fail).
  match goal with |- context [if ?b then (mkServerResponse 403 _, _, _) else _] =>
    destruct b end; [intros [=] |].
  unfold saveAndCommit, saveCredential. open_methods.
  match goal with |- context [commit ?t] => destruct (commit t) as [s1|] eqn:Hcommit end;
    [| intros [=]].
  intros [= <- _].
  match type of Hcommit with
  | commit (record _ ?c) = _ =>
      pose proof (extends_reads _ _ _ _ H1
                    (extends_reads _ _ _ _ H2 (extends_record_write tx2 c eq_refl))) as H3
  end.
  apply (commit_extends _ _ _ _ _ H3) in Hcommit. cbn [foldl applyCall] in Hcommit.
  eexists key, teacher, cid, _, header, secret, _.
  refine (conj Hkey (conj Hthere (conj Hcreds (conj eq_refl (conj Hwf
            (conj Hcommit (conj _ _))))))); cbn; apply decrypt_encrypt.
Qed.

Lemma reachable_failsNow tx : (forall n, outage tx n = false) -> failsNow tx = false.
Proof. intros H. apply H. Qed.

(** A stored expiry time that has passed, or none at all, refuses whatever
    secret the header carries. *)
Lemma lapsed_code_invalid c e now secret :
  (forall t, JS.parseInt (decryptString (ResetCode.expires (reset_code c))) = Some t ->
             (t <= now)%N) ->
  (resetCodeValid c e now secret).1.1 = false.
Proof.
  intros Hlapsed. unfold resetCodeValid, encryptResetCode, encrypt, draw. cbn [fst snd].
  apply andb_false_intro2. unfold ResetCode.isUnexpired, decryptResetCode, setResetCode.
  cbn [reset_code data CredentialData.reset_code ResetCode.expires].
  destruct (JS.parseInt _) as [t|] eqn:Ht; [| reflexivity].
  apply N.ltb_ge. apply Hlapsed. reflexivity.
Qed.

Lemma reset_refused s faults e now requestBody teacherId header secret key teacher cid d :
  EntityType.validateProperties requestBody
    (EntityType.createProperties Constants.CREDENTIAL_ENTITY_TYPE) = true ->
  (forall n, faults n = false) ->
  JS.parseInt teacherId = Some key ->
  teachers s !! key = Some teacher ->
  credentialsOf s key = [(cid, d)] ->
  wellFormed header teacherId secret ->
  (forall t, JS.parseInt (decryptString (ResetCode.expires (CredentialData.reset_code d)))
             = Some t -> (t <= now)%N) ->
  (resetUnknownPassword s faults e now requestBody teacherId (Some header)).1
  = (RESET_CODE_REFUSED, s).
Proof.
  intros Hvalid Hup Hkey Hthere Hcreds Hwf Hlapsed.
  unfold resetUnknownPassword. rewrite Hvalid. cbn [negb].
  rewrite (CursorFacts.teacherExists_answers (begin s faults) _ _ _ Hkey Hthere
             (reachable_failsNow (begin s faults) Hup)). cbn [negb].
  rewrite (getCredential_answers (record (begin s faults) (GetTeacher key)) _ _ _ _
             Hkey Hcreds
             (reachable_failsNow (record (begin s faults) (GetTeacher key)) Hup)).
  rewrite (validateAuthHeader_reset_code _ _ _ _ _ _ _ Hwf).
  rewrite (lapsed_code_invalid {| data := d; datastoreKey := Some (key, cid) |}
             e now secret Hlapsed). reflexivity.
Qed.

(** An issued challenge: what it stored, issued at time [now]. *)
Lemma challenge_issued s faults e now teacherId challenge s' e' :
  getCredentialResetChallenge s faults e now teacherId
  = (mkServerResponse 200 challenge, s', e') ->
  exists key cid d stored,
    JS.parseInt teacherId = Some key /\
    credentialsOf s key = [(cid, d)] /\
    s' = setCredentials s (<[(key, cid) := stored]> (credentials s)) /\
    decryptString (ResetCode.expires (CredentialData.reset_code stored))
    = JS.toString (now + Constants.RESET_CODE_LIFETIME).
Proof.
  unfold getCredentialResetChallenge.
  set (tx := begin s faults).
  destruct (getCredential tx teacherId) as [[c|] tx1] eqn:Hcredential; [| intros [=]].
  apply getCredential_some in Hcredential as (key & cid & Hkey & Hcreds & Hdk & H1).
  destruct c as [[p q [code expires]] dk]. cbn [datastoreKey] in Hdk. subst dk.
  cbn [data] in Hcreds.
  unfold saveCredential. open_methods.
  match goal with |- context [commit ?t] => destruct (commit t) as [s1|] eqn:Hcommit end;
    [| intros [=]].
  intros [= _ <- _].
  match type of Hcommit with
  | commit (record _ ?c) = _ =>
      pose proof (extends_reads _ _ _ _ H1 (extends_record_write tx1 c eq_refl)) as H2
  end.
  apply (commit_extends _ _ _ _ _ H2) in Hcommit. cbn [foldl applyCall] in Hcommit.
  eexists key, cid, _, _.
  refine (conj Hkey (conj Hcreds (conj Hcommit _))).
  cbn. apply decrypt_encrypt.
Qed.

(** Saving a credential under the key it was read with leaves the teacher
    with that one credential, and the teachers as they were. *)
Lemma credential_replaced s key cid d stored :
  credentialsOf s key = [(cid, d)] ->
  credentialsOf (setCredentials s (<[(key, cid) := stored]> (credentials s))) key
  = [(cid, stored)].
Proof. intros H. exact (StoreFacts.childrenOf_overwrite_single _ _ _ _ _ H). Qed.

(** C5. A reset code is used once and lasts thirty minutes. When the
    cipher decrypts what it encrypted, and a later attempt for the same
    teacher arrives with a valid body, the store reachable and a header the
    parser accepts for that teacher (the one used before or any other):
    - a reset that answered 204 has stored a credential whose reset code and
      expiry time decrypt to the empty string, and every later attempt on
      the resulting store is answered 401, reset code refused, with the
      store unchanged;
    - after a challenge issued at time [issued] for an existing teacher,
      every attempt at time [issued + RESET_CODE_LIFETIME] or later is
      answered 401, reset code refused, with the store unchanged. *)
Theorem reset_code_single_use_and_timed requestBody2 faults2 teacherId header secret :
  EntityType.validateProperties requestBody2
    (EntityType.createProperties Constants.CREDENTIAL_ENTITY_TYPE) = true ->
  (forall n, faults2 n = false) ->
  wellFormed header teacherId secret ->
  (forall s faults e now requestBody authReceived s' e',
     resetUnknownPassword s faults e now requestBody teacherId authReceived
     = (mkServerResponse 204 NoContent, s', e') ->
     (exists key cid stored,
        JS.parseInt teacherId = Some key /\
        credentialsOf s' key = [(cid, stored)] /\
        decryptString (ResetCode.code (CredentialData.reset_code stored)) = "" /\
        decryptString (ResetCode.expires (CredentialData.reset_code stored)) = "") /\
     forall e2 now2,
       (resetUnknownPassword s' faults2 e2 now2 requestBody2 teacherId (Some header)).1
       = (RESET_CODE_REFUSED, s')) /\
  (forall s faults e issued challenge s' e' key teacher,
     getCredentialResetChallenge s faults e issued teacherId
     = (mkServerResponse 200 challenge, s', e') ->
     JS.parseInt teacherId = Some key ->
     teachers s !! key = Some teacher ->
     forall e2 now,
       (issued + Constants.RESET_CODE_LIFETIME <= now)%N ->
       (resetUnknownPassword s' faults2 e2 now requestBody2 teacherId (Some header)).1
       = (RESET_CODE_REFUSED, s')).
Proof.
  intros Hvalid Hup Hwf. split.
  - intros s faults e now requestBody authReceived s' e' Hdone.
    apply reset_succeeded in Hdone
      as (key & teacher & cid & d & header1 & secret1 & stored
          & Hkey & Hthere & Hcreds & _ & _ & -> & Hcode & Hexpires).
    pose proof (credential_replaced _ _ _ _ stored Hcreds) as Hnow.
    split; [now exists key, cid, stored |].
    intros e2 now2.
    apply reset_refused
      with (secret := secret) (key := key) (teacher := teacher) (cid := cid) (d := stored);
      try assumption.
    intros t. rewrite Hexpires. discriminate.
  - intros s faults e issued challenge s' e' key teacher Hissued Hkey Hthere e2 now Hlate.
    apply challenge_issued in Hissued
      as (key' & cid & d & stored & Hkey' & Hcreds & -> & Hexpires).
    rewrite Hkey in Hkey'. injection Hkey' as <-.
    pose proof (credential_replaced _ _ _ _ stored Hcreds) as Hnow.
    apply reset_refused
      with (secret := secret) (key := key) (teacher := teacher) (cid := cid) (d := stored);
      try assumption.
    intros t. rewrite Hexpires, StoreFacts.parseInt_toString. intros [= <-]. exact Hlate.
Qed.

End Consuming.

Lemma headerOfReset_wellFormed :
  @wellFormed Samples.sampleBase64 Samples.headerOfReset "7" "4".
Proof. apply (@AuthFacts.basic_wellFormed Samples.sampleBase64). reflexivity. Qed.

Lemma afterReset_answer :
  Samples.afterReset
  = (mkServerResponse 204 NoContent, Samples.afterReset.1.2, Samples.afterReset.2).
Proof.
  assert (H : Samples.afterReset.1.1 = mkServerResponse 204 NoContent)
    by (vm_compute; reflexivity).
  destruct Samples.afterReset as [[r s] e]. cbn in *. now subst r.
Qed.

Lemma challenged_answer :
  Samples.challenged
  = (mkServerResponse 200 (ResetCodeChallenge "First pet?" "First school?" "4"),
     Samples.challenged.1.2, Samples.challenged.2).
Proof.
  assert (H : Samples.challenged.1.1
              = mkServerResponse 200 (ResetCodeChallenge "First pet?" "First school?" "4"))
    by (vm_compute; reflexivity).
  destruct Samples.challenged as [[r s] e]. cbn in *. now subst r.
Qed.

(** Teacher 7 is challenged at time 1000 and resets the password at time
    2000 with the code 4; the same header is refused afterwards, and it
    would have been refused from time 1000 + 1800000 on. *)
Lemma reset_code_single_use_and_timed_witness :
  EntityType.validateProperties Samples.resetBody
    (EntityType.createProperties Constants.CREDENTIAL_ENTITY_TYPE) = true /\
  (forall n, Samples.noFaults n = false) /\
  @wellFormed Samples.sampleBase64 Samples.headerOfReset "7" "4" /\
  (forall e2 now2,
     (@resetUnknownPassword Samples.sampleCipher Samples.sampleBase64
        Samples.afterReset.1.2 Samples.noFaults e2 now2 Samples.resetBody "7"
        (Some Samples.headerOfReset)).1
     = (RESET_CODE_REFUSED, Samples.afterReset.1.2)) /\
  (forall e2,
     (@resetUnknownPassword Samples.sampleCipher Samples.sampleBase64
        Samples.challenged.1.2 Samples.noFaults e2 1801000 Samples.resetBody "7"
        (Some Samples.headerOfReset)).1
     = (RESET_CODE_REFUSED, Samples.challenged.1.2)).
Proof.
  destruct (@reset_code_single_use_and_timed Samples.sampleCipher Samples.sampleBase64
              CredentialFacts.sample_round_trip Samples.resetBody Samples.noFaults
              "7" Samples.headerOfReset "4" eq_refl (fun _ => eq_refl)
              headerOfReset_wellFormed) as [Hused Hlate].
  split; [reflexivity |]. split; [reflexivity |].
  split; [exact headerOfReset_wellFormed |]. split.
  - exact (proj2 (Hused _ _ _ _ _ _ _ _ afterReset_answer)).
  - intros e2.
    refine (Hlate Samples.schoolStore Samples.noFaults Samples.sampleEntropy 1000%N _ _ _
              7%N _ challenged_answer eq_refl _ e2 1801000%N _).
    + reflexivity.
    + vm_compute. discriminate.
Defined.

End ResetFacts.

(** * Further properties of the code *)

(** ** Ids: what [isValidId] lets through, and what [parseInt] makes of it *)

Module IdFacts.
Import Constants.

Lemma isValidId_spec id :
  isValidId id = true <-> Forall decimalDigit (list_ascii_of_string id).
Proof.
  induction id as [|c rest IH]; simpl.
  - split; [constructor | reflexivity].
  - destruct (inRange 48 57 c) eqn:Hc.
    + apply PasswordFacts.inRange_spec in Hc. rewrite IH. split.
      * intros Hrest. now constructor.
      * intros Hall. now inversion Hall.
    + split; [discriminate |]. intros Hall. inversion Hall as [|? ? Hd _]; subst.
      apply PasswordFacts.inRange_spec in Hd. congruence.
Qed.

Lemma digit_read c d :
  inRange 48 57 c = true -> exists d', uint_of_char c (Some d) = Some d'.
Proof.
  destruct c as [[|] [|] [|] [|] [|] [|] [|] [|]]; intros H;
    try discriminate H; eexists; reflexivity.
Qed.

Lemma digits_read id :
  isValidId id = true ->
  JS.digitPrefix id = id /\ exists d, NilEmpty.uint_of_string id = Some d.
Proof.
  induction id as [|c rest IH]; simpl.
  - intros _. split; [reflexivity | now exists Decimal.Nil].
  - unfold JS.isDigit. destruct (inRange 48 57 c) eqn:Hc; [| discriminate].
    intros Hrest. destruct (IH Hrest) as (Hprefix & d & Hd).
    rewrite Hprefix, Hd. split; [reflexivity |]. now apply digit_read.
Qed.

(** X1. [isValidId] accepts exactly the strings made of the characters 0 to
    9. Such a string, when not empty, is read by [parseInt] as a number,
    not as [NaN]; the empty string is accepted too, and [parseInt] reads it
    as [NaN]. The decimal rendering of a number up to [2^53], the range in
    which a double holds every integer, is accepted and is read back as
    that number. *)
Theorem isValidId_accepts_digits :
  (forall id, isValidId id = true <-> Forall decimalDigit (list_ascii_of_string id)) /\
  (forall id, isValidId id = true -> id <> "" -> JS.parseInt id <> None) /\
  (isValidId "" = true /\ JS.parseInt "" = None) /\
  (forall n, (n <= 2 ^ 53)%N ->
     isValidId (JS.toString n) = true /\ JS.parseInt (JS.toString n) = Some n).
Proof.
  split; [exact isValidId_spec |]. split; [| split; [split; reflexivity |]].
  - intros id Hvalid Hnonempty. destruct (digits_read id Hvalid) as (Hprefix & d & Hd).
    unfold JS.parseInt. rewrite Hprefix. unfold NilZero.uint_of_string.
    destruct id as [|c rest]; [contradiction |]. now rewrite Hd.
  - intros n _. split; [| apply StoreFacts.parseInt_toString].
    pose proof (StoreFacts.parseInt_toString n) as Hread.
    rewrite StoreFacts.toString_digits.
    assert (Hdigits : forall d, isValidId (NilEmpty.string_of_uint d) = true)
      by (induction d; simpl; auto).
    apply Hdigits.
Qed.

End IdFacts.

(** ** The counter methods and the maintainer at their edges *)

Module CounterMethodFacts.
Import Datastore DataNumber TransactionFacts.
Import MaintainerFacts.

Lemma setNumber_back (this : ProjectDataNumber.t) n :
  n = ProjectDataNumber.number this -> ProjectDataNumber.setNumber this n = this.
Proof. intros ->. now destruct this. Qed.

Lemma add_then_sub c q :
  (- 2 ^ 51 <= c <= 2 ^ 51)%Z -> (- 2 ^ 51 <= q <= 2 ^ 51)%Z ->
  JSNumber.sub (JSNumber.add (JSNumber.ofZ c) (JSNumber.ofZ q)) (JSNumber.ofZ q)
  = JSNumber.ofZ c /\
  JSNumber.add (JSNumber.sub (JSNumber.ofZ c) (JSNumber.ofZ q)) (JSNumber.ofZ q)
  = JSNumber.ofZ c.
Proof.
  intros Hc Hq. split.
  - rewrite NumberFacts.add_exact by (unfold JSNumber.safeInteger; lia).
    rewrite NumberFacts.sub_exact by (unfold JSNumber.safeInteger; lia).
    f_equal. lia.
  - rewrite NumberFacts.sub_exact by (unfold JSNumber.safeInteger; lia).
    rewrite NumberFacts.add_exact by (unfold JSNumber.safeInteger; lia).
    f_equal. lia.
Qed.

(** X2. On counts, that is integers of magnitude at most [2^51], for which
    the doubles of the code add and subtract as integers,
    [deleteObservation] undoes [addObservation], and the other way round:
    called with the same observation data and the same set of other
    descriptions, the second call brings the object back to what it was and
    reports a change exactly when the first did. The only way either method
    fails is the [TypeError] of a project that counts descriptions once
    being given no set of descriptions. *)
Theorem add_and_delete_cancel (this : ProjectDataNumber.t)
    (odn : ObservationDataNumber.t) (otherODNDescriptions : option (gset string)) :
  JSNumber.isCount (ProjectDataNumber.number this) = true ->
  JSNumber.isCount (ObservationDataNumber.quantity odn) = true ->
  match ProjectDataNumber.addObservation this odn otherODNDescriptions with
  | Some (added, changed) =>
      ProjectDataNumber.deleteObservation added odn otherODNDescriptions
      = Some (this, changed)
  | None => ProjectDataNumber.must_be_unique this = true /\ otherODNDescriptions = None
  end /\
  match ProjectDataNumber.deleteObservation this odn otherODNDescriptions with
  | Some (removed, changed) =>
      ProjectDataNumber.addObservation removed odn otherODNDescriptions
      = Some (this, changed)
  | None => ProjectDataNumber.must_be_unique this = true /\ otherODNDescriptions = None
  end.
Proof.
  intros Hcount Hquantity.
  apply NumberFacts.isCount_spec in Hcount as (c & Hc & Hcbound).
  apply NumberFacts.isCount_spec in Hquantity as (q & Hq & Hqbound).
  assert (Hone : (- 2 ^ 51 <= 1 <= 2 ^ 51)%Z) by lia.
  destruct (add_then_sub c 1 Hcbound Hone) as [Hback1 Hforth1].
  destruct (add_then_sub c q Hcbound Hqbound) as [Hback Hforth].
  unfold ProjectDataNumber.addObservation, ProjectDataNumber.deleteObservation.
  destruct (ProjectDataNumber.must_be_unique this) eqn:Hu.
  - destruct otherODNDescriptions as [others|]; [| now split].
    destruct (decide (ObservationDataNumber.description odn ∈ others)) as [Hin|Hout].
    + rewrite Hu. rewrite ?decide_True by assumption. now split.
    + cbn [ProjectDataNumber.must_be_unique ProjectDataNumber.setNumber
           ProjectDataNumber.number]. rewrite Hu.
      rewrite ?decide_False by assumption.
      rewrite !setNumber_setNumber, Hc, Hback1, Hforth1, <- Hc.
      split; f_equal; f_equal; now apply setNumber_back.
  - cbn [ProjectDataNumber.must_be_unique ProjectDataNumber.setNumber
         ProjectDataNumber.number]. rewrite Hu. rewrite !setNumber_setNumber.
    rewrite Hc, Hq, Hback, Hforth, <- Hc.
    split; f_equal; f_equal; now apply setNumber_back.
Qed.

Lemma add_and_delete_cancel_witness :
  JSNumber.isCount (JSNumber.ofZ 4) = true /\
  JSNumber.isCount (JSNumber.ofZ 3) = true /\
  ProjectDataNumber.deleteObservation
    (ProjectDataNumber.mk "Birds" (JSNumber.ofZ 7) false)
    (ObservationDataNumber.mk (JSNumber.ofZ 3) "Goldfinch") None
  = Some (ProjectDataNumber.mk "Birds" (JSNumber.ofZ 4) false, true).
Proof.
  split; [reflexivity |]. split; [reflexivity |].
  exact (proj1 (add_and_delete_cancel
                  (ProjectDataNumber.mk "Birds" (JSNumber.ofZ 4) false)
                  (ObservationDataNumber.mk (JSNumber.ofZ 3) "Goldfinch") None
                  eq_refl eq_refl)).
Defined.

(** Beyond the counts the two methods no longer cancel: at [2^53] adding 1
    is lost to rounding, and taking 1 off again ends one below. *)
Example add_then_delete_rounds :
  let this := ProjectDataNumber.mk "Birds" (JSNumber.ofZ (2 ^ 53)) false in
  let odn := ObservationDataNumber.mk (JSNumber.ofZ 1) "Goldfinch" in
  match ProjectDataNumber.addObservation this odn None with
  | Some (added, _) =>
      ProjectDataNumber.number added = JSNumber.ofZ (2 ^ 53) /\
      (ProjectDataNumber.number <$> (fst <$> ProjectDataNumber.deleteObservation added odn None))
      = Some (JSNumber.ofZ (2 ^ 53 - 1))
  | None => False
  end.
Proof. vm_compute. split; reflexivity. Qed.

Lemma posted_outcome tx key p odn :
  let r := processPostedObservation tx key (ProjectData p) odn in
  (r.1 = Some true \/ r.1 = Some false) /\
  (r.1 = Some false -> extends tx r.2 []) /\
  (r.1 = Some false <-> unique p = true /\ failsNow tx = true).
Proof.
  cbv zeta. unfold processPostedObservation, getOtherODNDescriptions,
    runQueryObservations, remote, adjustPosted, ProjectDataNumber.addObservation,
    saveUpdatedProject.
  destruct (unique p) eqn:Hu.
  - destruct (failsNow tx) eqn:Hfail; cbn [fst snd].
    + split; [now right |]. split; [| now split].
      intros _. now apply extends_record_read.
    + destruct (decide _); cbn [fst snd negb];
        (split; [now left |]; split; [discriminate |]; split;
         [discriminate | intros [_ [=]]]).
  - cbn [fst snd negb]. split; [now left |]. split; [discriminate |].
    split; [discriminate | intros [[=] _]].
Qed.

Lemma adjusted_outcome tx key p oldODN newODN others :
  let r := adjustUpdated tx key p oldODN newODN (if unique p then Some others else None) in
  r.1 = Some true.
Proof.
  cbv zeta. rewrite adjustUpdated_exact. reflexivity.
Qed.

Lemma updated_outcome tx ancestorId id oldODN newODN :
  let r := processUpdatedObservation tx ancestorId id oldODN newODN in
  (r.1 = Some true \/ r.1 = Some false) /\
  (r.1 = Some false -> extends tx r.2 []).
Proof.
  cbv zeta. unfold processUpdatedObservation.
  destruct (ObservationDataNumber.deepEquals newODN oldODN);
    [split; [now left | discriminate] |].
  destruct (JS.parseInt ancestorId) as [key|];
    [| split; [now right | intros _; apply extends_refl]].
  pose proof (getAncestorData_extends tx key) as H1.
  destruct (getAncestorData tx key) as [[p|] tx1]; cbn [snd] in H1;
    [| split; [now right | now intros _]].
  destruct (unique p) eqn:Hu.
  - destruct (String.eqb _ _); [split; [now left | discriminate] |].
    pose proof (getOtherODNDescriptions_extends tx1 key (Some id)) as H2.
    destruct (getOtherODNDescriptions tx1 key (Some id)) as [[others|] tx2];
      cbn [snd] in H2.
    + pose proof (adjusted_outcome tx2 key p oldODN newODN others) as Hok.
      rewrite Hu in Hok. cbv zeta in Hok. rewrite Hok.
      split; [now left | discriminate].
    + split; [now right |]. intros _. exact (extends_reads _ _ _ _ H1 H2).
  - pose proof (adjusted_outcome tx1 key p oldODN newODN ∅) as Hok.
    rewrite Hu in Hok. cbv zeta in Hok. rewrite Hok.
    split; [now left | discriminate].
Qed.

Lemma deleted_outcome tx ancestorId id odn :
  let r := processDeletedObservation tx ancestorId id odn in
  (r.1 = Some true \/ r.1 = Some false) /\
  (r.1 = Some false -> extends tx r.2 []).
Proof.
  cbv zeta. unfold processDeletedObservation.
  destruct (JS.parseInt ancestorId) as [key|];
    [| split; [now right | intros _; apply extends_refl]].
  pose proof (getAncestorData_extends tx key) as H1.
  destruct (getAncestorData tx key) as [[p|] tx1]; cbn [snd] in H1;
    [| split; [now right | now intros _]].
  destruct (unique p) eqn:Hu.
  - pose proof (getOtherODNDescriptions_extends tx1 key (Some id)) as H2.
    destruct (getOtherODNDescriptions tx1 key (Some id)) as [[others|] tx2];
      cbn [snd] in H2.
    + destruct (adjustDeleted tx2 key p odn (Some others)) as [r tx3] eqn:Hadj.
      pose proof (adjustDeleted_spec tx2 key p odn others r tx3) as Hspec.
      rewrite Hu in Hspec. destruct (Hspec Hadj) as (-> & _).
      split; [now left | discriminate].
    + split; [now right |]. intros _. exact (extends_reads _ _ _ _ H1 H2).
  - destruct (adjustDeleted tx1 key p odn None) as [r tx3] eqn:Hadj.
    pose proof (adjustDeleted_spec tx1 key p odn ∅ r tx3) as Hspec.
    rewrite Hu in Hspec. destruct (Hspec Hadj) as (-> & _).
    split; [now left | discriminate].
Qed.

(** X3. Called for a project (with the data of a project for a new
    observation, with the id of a project for an updated or a deleted one),
    none of the three entry points of the maintainer lets an exception
    escape: each resolves to [true] or to [false]. When one resolves to
    [false] it has buffered no write in the transaction. For a new
    observation, [false] is returned exactly when the project counts each
    description once and the query for the other descriptions is not
    answered. Handed the data of a teacher, which is what the route
    [/teachers/:id/observations] reads as the ancestor,
    [processPostedObservation] throws before it has read or written
    anything. *)
Theorem maintainer_failure_buffers_nothing tx key p teacher ancestorId id
    (odn oldODN newODN : ObservationDataNumber.t) :
  let posted := processPostedObservation tx key (ProjectData p) odn in
  let updated := processUpdatedObservation tx ancestorId id oldODN newODN in
  let deleted := processDeletedObservation tx ancestorId id odn in
  ((posted.1 = Some true \/ posted.1 = Some false) /\
   (updated.1 = Some true \/ updated.1 = Some false) /\
   (deleted.1 = Some true \/ deleted.1 = Some false)) /\
  ((posted.1 = Some false -> extends tx posted.2 []) /\
   (updated.1 = Some false -> extends tx updated.2 []) /\
   (deleted.1 = Some false -> extends tx deleted.2 [])) /\
  (posted.1 = Some false <-> unique p = true /\ failsNow tx = true) /\
  processPostedObservation tx key (TeacherData teacher) odn = (None, tx).
Proof.
  cbv zeta.
  destruct (posted_outcome tx key p odn) as (P1 & P2 & P3).
  destruct (updated_outcome tx ancestorId id oldODN newODN) as (U1 & U2).
  destruct (deleted_outcome tx ancestorId id odn) as (D1 & D2).
  split; [exact (conj P1 (conj U1 D1)) |].
  split; [exact (conj P2 (conj U2 D2)) |]. split; [exact P3 | reflexivity].
Qed.

End CounterMethodFacts.

(** ** Secret questions: what is accepted, and what matches *)

Module SecretQuestionFacts.
Import Constants.

Lemma VALIDATE_STRING_spec value :
  VALIDATE_STRING value = true <-> exists s, value = VString s /\ s <> "".
Proof.
  destruct value as [| | | |s| |]; simpl;
    try (split; [discriminate | intros (s' & [=] & _)]).
  destruct s as [|c rest]; simpl.
  - split; [discriminate | intros (s' & [= <-] & Hs); contradiction].
  - split; [| reflexivity]. intros _. eexists. split; [reflexivity | discriminate].
Qed.

Lemma strictEqualsString_false a b :
  strictEqualsString (VString a) (VString b) = false <-> a <> b.
Proof. simpl. apply String.eqb_neq. Qed.

(** X4. [VALIDATE_SECRET_QUESTIONS] accepts a value exactly when it is an
    object with four properties in which [question_1], [question_2],
    [answer_1] and [answer_2] are non-empty strings, the two questions differ
    and the two answers differ. An array, [null] or an object with a fifth
    property is refused. *)
Theorem VALIDATE_SECRET_QUESTIONS_accepts value :
  VALIDATE_SECRET_QUESTIONS value = true <-> acceptableSecretQuestions value.
Proof.
  unfold VALIDATE_SECRET_QUESTIONS, acceptableSecretQuestions. split.
  - destruct (VALIDATE_EMBEDDED_OBJECT value) eqn:Hobj; cbn [negb]; [| discriminate].
    destruct (Nat.eqb (keysLength value) 4) eqn:Hlen; cbn [negb]; [| discriminate].
    destruct (VALIDATE_STRING (getProp value "question_1")) eqn:H1; cbn [negb];
      [| discriminate].
    destruct (VALIDATE_STRING (getProp value "question_2")) eqn:H2; cbn [negb];
      [| discriminate].
    destruct (VALIDATE_STRING (getProp value "answer_1")) eqn:H3; cbn [negb];
      [| discriminate].
    destruct (VALIDATE_STRING (getProp value "answer_2")) eqn:H4; cbn [negb];
      [| discriminate].
    apply VALIDATE_STRING_spec in H1 as (q1 & E1 & N1).
    apply VALIDATE_STRING_spec in H2 as (q2 & E2 & N2).
    apply VALIDATE_STRING_spec in H3 as (a1 & E3 & N3).
    apply VALIDATE_STRING_spec in H4 as (a2 & E4 & N4).
    rewrite E1, E2, E3, E4.
    destruct (strictEqualsString (VString q1) (VString q2)) eqn:Hq; [discriminate |].
    destruct (strictEqualsString (VString a1) (VString a2)) eqn:Ha; [discriminate |].
    intros _. apply strictEqualsString_false in Hq, Ha.
    destruct value as [| | | | |items|fields]; try discriminate.
    apply Nat.eqb_eq in Hlen. simpl in *.
    now exists fields, q1, q2, a1, a2.
  - intros (fields & q1 & q2 & a1 & a2 & -> & Hlen & E1 & E2 & E3 & E4
            & N1 & N2 & N3 & N4 & Hq & Ha).
    cbn [VALIDATE_EMBEDDED_OBJECT typeof JSType_eqb negb andb keysLength getProp].
    rewrite Hlen, E1, E2, E3, E4. cbn [Nat.eqb negb].
    assert (Hs : forall s, s <> "" -> VALIDATE_STRING (VString s) = true)
      by (intros s Hne; apply VALIDATE_STRING_spec; now exists s).
    rewrite !Hs by assumption. cbn [negb].
    apply strictEqualsString_false in Hq, Ha. now rewrite Hq, Ha.
Qed.

Lemma differs_false mine other key :
  SecretQuestions.differs mine other key = false <-> getProp other key = VString mine.
Proof.
  unfold SecretQuestions.differs.
  destruct (getProp other key) as [| | | |theirs| |];
    try (split; [discriminate | intros [=]]).
  rewrite negb_false_iff, String.eqb_eq. split; [now intros -> | now intros [= ->]].
Qed.

Lemma deepCompare_true this other :
  SecretQuestions.deepCompare this other = Some true <->
  getProp other "question_1" = VString (SecretQuestions.question_1 this) /\
  getProp other "question_2" = VString (SecretQuestions.question_2 this) /\
  getProp other "answer_1" = VString (SecretQuestions.answer_1 this) /\
  getProp other "answer_2" = VString (SecretQuestions.answer_2 this).
Proof.
  assert (Hthrows : other = VNull \/ other = VUndefined ->
                    getProp other "question_1" = VUndefined)
    by now intros [-> | ->].
  assert (Hcompared :
    (if SecretQuestions.differs (SecretQuestions.question_1 this) other "question_1"
     then false
     else if SecretQuestions.differs (SecretQuestions.question_2 this) other "question_2"
     then false
     else if SecretQuestions.differs (SecretQuestions.answer_1 this) other "answer_1"
     then false
     else if SecretQuestions.differs (SecretQuestions.answer_2 this) other "answer_2"
     then false else true) = true <->
    getProp other "question_1" = VString (SecretQuestions.question_1 this) /\
    getProp other "question_2" = VString (SecretQuestions.question_2 this) /\
    getProp other "answer_1" = VString (SecretQuestions.answer_1 this) /\
    getProp other "answer_2" = VString (SecretQuestions.answer_2 this)).
  { rewrite <- !differs_false.
    destruct (SecretQuestions.differs _ other "question_1");
      [split; [discriminate | now intros ([=] & _)] |].
    destruct (SecretQuestions.differs _ other "question_2");
      [split; [discriminate | now intros (_ & [=] & _)] |].
    destruct (SecretQuestions.differs _ other "answer_1");
      [split; [discriminate | now intros (_ & _ & [=] & _)] |].
    destruct (SecretQuestions.differs _ other "answer_2");
      [split; [discriminate | now intros (_ & _ & _ & [=])] |].
    now split. }
  rewrite <- Hcompared. unfold SecretQuestions.deepCompare.
  destruct other;
    try (split; [now intros [= ->] | now intros ->]).
  - split; [discriminate |]. intros H. apply Hcompared in H as (H & _).
    rewrite Hthrows in H by now right. discriminate.
  - split; [discriminate |]. intros H. apply Hcompared in H as (H & _).
    rewrite Hthrows in H by now left. discriminate.
Qed.

Lemma accepted_fields value :
  VALIDATE_SECRET_QUESTIONS value = true ->
  exists q1 q2 a1 a2,
    getProp value "question_1" = VString q1 /\ getProp value "question_2" = VString q2 /\
    getProp value "answer_1" = VString a1 /\ getProp value "answer_2" = VString a2.
Proof.
  unfold VALIDATE_SECRET_QUESTIONS.
  destruct (VALIDATE_EMBEDDED_OBJECT value); cbn [negb]; [| discriminate].
  destruct (Nat.eqb (keysLength value) 4); cbn [negb]; [| discriminate].
  destruct (VALIDATE_STRING (getProp value "question_1")) eqn:H1; cbn [negb];
    [| discriminate].
  destruct (VALIDATE_STRING (getProp value "question_2")) eqn:H2; cbn [negb];
    [| discriminate].
  destruct (VALIDATE_STRING (getProp value "answer_1")) eqn:H3; cbn [negb];
    [| discriminate].
  destruct (VALIDATE_STRING (getProp value "answer_2")) eqn:H4; cbn [negb];
    [| discriminate].
  apply VALIDATE_STRING_spec in H1 as (q1 & E1 & _).
  apply VALIDATE_STRING_spec in H2 as (q2 & E2 & _).
  apply VALIDATE_STRING_spec in H3 as (a1 & E3 & _).
  apply VALIDATE_STRING_spec in H4 as (a2 & E4 & _).
  intros _. now exists q1, q2, a1, a2.
Qed.

(** X5. The secret questions built from a value that
    [VALIDATE_SECRET_QUESTIONS] accepts match that same value under
    [deepCompare]; and any value they match, accepted or not, carries the
    same two questions and the same two answers. *)
Theorem deepCompare_of_accepted value :
  VALIDATE_SECRET_QUESTIONS value = true ->
  SecretQuestions.deepCompare (SecretQuestions.ofValue value) value = Some true /\
  forall other,
    SecretQuestions.deepCompare (SecretQuestions.ofValue value) other = Some true ->
    SecretQuestions.ofValue other = SecretQuestions.ofValue value.
Proof.
  intros Hvalid.
  apply accepted_fields in Hvalid as (q1 & q2 & a1 & a2 & E1 & E2 & E3 & E4).
  split.
  - apply deepCompare_true. unfold SecretQuestions.ofValue.
    cbn [SecretQuestions.question_1 SecretQuestions.question_2
         SecretQuestions.answer_1 SecretQuestions.answer_2].
    now rewrite E1, E2, E3, E4.
  - intros other Hsame. apply deepCompare_true in Hsame as (S1 & S2 & S3 & S4).
    unfold SecretQuestions.ofValue at 1. now rewrite S1, S2, S3, S4.
Qed.

Lemma deepCompare_of_accepted_witness :
  VALIDATE_SECRET_QUESTIONS Samples.secretQuestionsBody = true /\
  SecretQuestions.deepCompare (SecretQuestions.ofValue Samples.secretQuestionsBody)
    Samples.secretQuestionsBody = Some true.
Proof.
  split; [reflexivity |].
  exact (proj1 (deepCompare_of_accepted Samples.secretQuestionsBody eq_refl)).
Defined.

End SecretQuestionFacts.

(** ** Image URLs: parsing, validating, deleting *)

Module ImageFacts.
Import Storage.

Lemma split_nonempty sep s : JS.split sep s <> [].
Proof.
  destruct s as [|c rest]; simpl; [discriminate |].
  destruct (Ascii.eqb c sep); [discriminate |].
  destruct (JS.split sep rest); discriminate.
Qed.

Lemma length_split sep s : length (JS.split sep s) = S (occurrences sep s).
Proof.
  induction s as [|c rest IH]; simpl; [reflexivity |].
  destruct (Ascii.eqb c sep); simpl; [now rewrite IH |].
  destruct (JS.split sep rest) as [|first others] eqn:Hrest; [now simpl in IH | exact IH].
Qed.

Lemma split_whole sep s : occurrences sep s = 0 -> JS.split sep s = [s].
Proof.
  induction s as [|c rest IH]; simpl; [reflexivity |].
  destruct (Ascii.eqb c sep); [discriminate |]. simpl. intros Hnone.
  now rewrite IH.
Qed.

Lemma occurrences_app c s t :
  occurrences c (s ++ t) = occurrences c s + occurrences c t.
Proof. induction s as [|a rest IH]; simpl; [reflexivity |]. rewrite IH. lia. Qed.

Lemma occurrences_digits d : occurrences "/" (NilEmpty.string_of_uint d) = 0.
Proof. induction d; simpl; auto. Qed.

Lemma occurrences_uploadedName now originalname :
  occurrences "/" (uploadedName now originalname) = occurrences "/" originalname.
Proof.
  unfold uploadedName. rewrite !occurrences_app, StoreFacts.toString_digits,
    occurrences_digits. reflexivity.
Qed.

Lemma parseImageUrl_length url :
  is_Some (parseImageUrl url) <-> length (JS.split "/" url) = 5.
Proof.
  unfold parseImageUrl.
  destruct (JS.split "/" url) as [|a [|b [|c [|d [|e [|f rest]]]]]]; simpl;
    split; try discriminate; try (intros [? [=]]); eauto.
Qed.

Lemma parseImageUrl_publicUrl blobName :
  occurrences "/" blobName = 0 ->
  parseImageUrl (publicUrl blobName)
  = Some {| baseUrl := CLOUD_STORAGE_BASE_URL; bucketName := BUCKET_NAME;
            fileName := blobName |}.
Proof.
  intros Hnone. unfold parseImageUrl, publicUrl, CLOUD_STORAGE_BASE_URL, BUCKET_NAME.
  simpl.
  match goal with |- context [JS.split _ ?x] => change x with blobName end.
  rewrite (split_whole _ _ Hnone). reflexivity.
Qed.

(** X6. [new ParsedImageUrl(url)] succeeds exactly when the URL holds four
    slashes. The public URL answered for an upload parses back into the
    base URL, the bucket name and the name of the stored file when the name
    the client gave the file has no slash; when that name has a slash, the
    URL answered for the upload cannot be parsed. *)
Theorem parseImageUrl_four_slashes :
  (forall url, is_Some (parseImageUrl url) <-> occurrences "/" url = 4) /\
  (forall now originalname,
     occurrences "/" originalname = 0 ->
     parseImageUrl (publicUrl (uploadedName now originalname))
     = Some {| baseUrl := CLOUD_STORAGE_BASE_URL; bucketName := BUCKET_NAME;
               fileName := uploadedName now originalname |}) /\
  (forall now originalname,
     occurrences "/" originalname <> 0 ->
     parseImageUrl (publicUrl (uploadedName now originalname)) = None).
Proof.
  split; [| split].
  - intros url. rewrite parseImageUrl_length, length_split. lia.
  - intros now originalname Hnone. apply parseImageUrl_publicUrl.
    now rewrite occurrences_uploadedName.
  - intros now originalname Hsome.
    destruct (parseImageUrl _) as [parsed|] eqn:Hparsed; [| reflexivity].
    assert (Hfour : is_Some (parseImageUrl (publicUrl (uploadedName now originalname))))
      by (rewrite Hparsed; eauto).
    rewrite parseImageUrl_length, length_split in Hfour.
    unfold publicUrl in Hfour. rewrite !occurrences_app in Hfour.
    rewrite occurrences_uploadedName in Hfour. simpl in Hfour. lia.
Qed.

Lemma parseImageUrl_four_slashes_witness :
  occurrences "/" "finch.png" = 0 /\
  parseImageUrl (publicUrl (uploadedName 1606709615803 "finch.png"))
  = Some {| baseUrl := CLOUD_STORAGE_BASE_URL; bucketName := BUCKET_NAME;
            fileName := "1606709615803_finch.png" |}.
Proof.
  split; [reflexivity |].
  exact (proj1 (proj2 parseImageUrl_four_slashes) 1606709615803%N "finch.png" eq_refl).
Defined.

Lemma deleteImage_shrinks b url : (deleteImage b url).2 ⊆ b.
Proof.
  unfold deleteImage. destruct (parseImageUrl url) as [parsed|]; [| reflexivity].
  destruct (b !! fileName parsed); [apply delete_subseteq | reflexivity].
Qed.

(** X7. [deleteImage] answers [false] exactly when it leaves the bucket as
    it was (the URL does not parse, or no file of that name is there); it
    never adds or alters a file; a second call with the same URL always
    answers [false] and changes nothing; and it looks only at the last
    component of the URL: two URLs with the same file name, whatever their
    host and bucket name, are treated alike. *)
Theorem deleteImage_once (b : gmap string string) url :
  let first := deleteImage b url in
  (first.1 = false <-> first.2 = b) /\
  first.2 ⊆ b /\
  deleteImage first.2 url = (false, first.2) /\
  (forall parsed parsed',
     parseImageUrl url = Some parsed ->
     forall other, parseImageUrl other = Some parsed' ->
     fileName parsed' = fileName parsed -> deleteImage b other = first).
Proof.
  cbv zeta. split; [| split; [apply deleteImage_shrinks | split]].
  - unfold deleteImage. destruct (parseImageUrl url) as [parsed|]; [| now split].
    destruct (b !! fileName parsed) as [t|] eqn:Hfile; [| now split].
    cbn [fst snd]. split; [discriminate |]. intros Hsame.
    apply (f_equal (fun m => m !! fileName parsed)) in Hsame.
    rewrite lookup_delete_eq, Hfile in Hsame. discriminate.
  - unfold deleteImage. destruct (parseImageUrl url) as [parsed|];
      cbn [snd]; [| reflexivity].
    destruct (b !! fileName parsed) as [t|] eqn:Hfile; cbn [snd].
    + now rewrite lookup_delete_eq.
    + now rewrite Hfile.
  - intros parsed parsed' Hparsed other Hother Hname. unfold deleteImage.
    now rewrite Hparsed, Hother, Hname.
Qed.

End ImageFacts.

(** ** The cascade when the store answers *)

Module CascadeEffectFacts.
Import Datastore Storage BatchDelete TransactionFacts.

Lemma deleteObservationImages_spec projectKey observations :
  forall (b : gmap string string) observationKeys,
    let r := deleteObservationImages b projectKey observations observationKeys in
    r.2 = observationKeys
          ++ map (fun o : N * Observation.t => ObservationKey projectKey o.1) observations /\
    r.1 ⊆ b /\
    forall o parsed,
      o ∈ observations ->
      parseImageUrl (url (Observation.data_image o.2)) = Some parsed ->
      r.1 !! fileName parsed = None.
Proof.
  induction observations as [|first rest IH]; intros b observationKeys; cbv zeta.
  - simpl. rewrite app_nil_r. split; [reflexivity |]. split; [reflexivity |].
    intros o parsed Hin. now apply elem_of_nil in Hin.
  - cbn [deleteObservationImages].
    pose proof (ImageFacts.deleteImage_shrinks b (url (Observation.data_image first.2)))
      as Hshrink.
    destruct (deleteImage b (url (Observation.data_image first.2))) as [ok b1] eqn:Hdel.
    cbn [snd] in Hshrink.
    destruct (IH b1 (observationKeys ++ [ObservationKey projectKey first.1]))
      as (Hkeys & Hsub & Hgone).
    split; [| split].
    + rewrite Hkeys, <- app_assoc. reflexivity.
    + now transitivity b1.
    + intros o parsed Hin Hparsed. apply elem_of_cons in Hin as [-> | Hin].
      * eapply lookup_weaken_None; [| exact Hsub].
        unfold deleteImage in Hdel. rewrite Hparsed in Hdel.
        destruct (b !! fileName parsed) eqn:Hfile; injection Hdel as _ <-;
          [apply lookup_delete_eq | exact Hfile].
      * now apply (Hgone o parsed).
Qed.

(** X9. [deleteObservationsOfProject], when its query is not answered,
    returns [false], buffers nothing and leaves the bucket alone. When the
    query is answered it returns [true] whatever happens to the images, has
    buffered one deletion of the keys of exactly the observations the query
    listed, in that order, and has left in the bucket no file named by the
    image URL of one of them. In both cases it adds no file to the bucket
    and alters none. *)
Theorem deleteObservationsOfProject_outcome tx (b : gmap string string) projectKey :
  let r := deleteObservationsOfProject tx b projectKey in
  let listed := observationsOf (snapshot tx) projectKey in
  r.2 ⊆ b /\
  if failsNow tx
  then r = (false, record tx (QueryObservations projectKey), b)
  else
    r.1.1 = true /\
    r.1.2 = record (record tx (QueryObservations projectKey))
              (DeleteKeys
                 (map (fun o : N * Observation.t => ObservationKey projectKey o.1) listed)) /\
    forall o parsed,
      o ∈ listed ->
      parseImageUrl (url (Observation.data_image o.2)) = Some parsed ->
      r.2 !! fileName parsed = None.
Proof.
  cbv zeta. unfold deleteObservationsOfProject, runQueryObservations, remote.
  destruct (failsNow tx); [now split |].
  pose proof (deleteObservationImages_spec projectKey
                (observationsOf (snapshot tx) projectKey) b []) as H.
  cbv zeta in H.
  destruct (deleteObservationImages b projectKey _ []) as [b' keys].
  cbn [fst snd] in *. destruct H as (-> & Hsub & Hgone).
  split; [exact Hsub |]. split; [reflexivity |]. split; [reflexivity | exact Hgone].
Qed.

End CascadeEffectFacts.

(** ** The authorization header: what is refused unread, and what is accepted *)

Module HeaderFacts.
Import Datastore Auth TransactionFacts.

Section Headers.
Context {cipher : Cipher} {base64 : Base64}.

Lemma passwordsMatch_true c e secret :
  (passwordsMatch c e secret).1.1 = true <-> decryptString (password c) = secret.
Proof.
  rewrite CredentialFacts.passwordsMatch_answer.
  destruct c as [[p q r] k]. cbn. rewrite String.eqb_eq. split; congruence.
Qed.

(** What a [null] answer of the password check tells its caller. *)
Lemma validateAuthHeader_accepts tx e now authReceived expected st :
  validateAuthHeader tx e now authReceived expected None false = (None, st) ->
  exists header id secret c tx1,
    authReceived = Some header /\ wellFormed header id secret /\
    (forall x, expected = Some x -> x = id) /\
    getCredential tx id = (Some c, tx1) /\
    decryptString (password c) = secret /\
    transaction st = tx1.
Proof.
  unfold validateAuthHeader.
  destruct authReceived as [[|a rest]|]; try (intros [=]; fail).
  destruct (Z.leb_spec (JS.indexOf " " (String a rest)) 0) as [|Hidx];
    [intros [=] |].
  destruct (String.eqb_spec (JS.substring2 (String a rest) 0
                               (JS.indexOf " " (String a rest))) "Basic") as [Htype|];
    [| intros [=]].
  cbn [negb].
  destruct (JS.split ":" _) as [|received [|secret [|extra more]]] eqn:Hsplit;
    try (intros [=]; fail).
  assert (Hexpected : (forall x, expected = Some x -> x = received) \/
                      exists x, expected = Some x /\ x <> received).
  { destruct expected as [x|]; [| left; intros x [=]].
    destruct (String.eqb_spec x received) as [-> | Hne];
      [left; now intros x [= <-] | right; now exists x]. }
  destruct Hexpected as [Hexpected | (x & -> & Hne)].
  2: { destruct (String.eqb_spec received x) as [-> |]; [contradiction | intros [=]]. }
  assert (Hpass : match expected with
                  | Some x => negb (String.eqb received x)
                  | None => false
                  end = false).
  { destruct expected as [x|]; [| reflexivity].
    rewrite (Hexpected x eq_refl). now rewrite String.eqb_refl. }
  rewrite Hpass.
  destruct (getCredential tx received) as [[c|] tx1] eqn:Hcredential; [| intros [=]].
  destruct (passwordsMatch c e secret) as [[matches c'] e'] eqn:Hmatch.
  destruct matches; cbn [negb]; intros [= <-].
  exists (String a rest), received, secret, c, tx1.
  repeat split; try assumption; try discriminate.
  apply (passwordsMatch_true c e secret). now rewrite Hmatch.
Qed.

Lemma validateAuthHeader_grants tx e now header id secret expected c tx1 :
  wellFormed header id secret ->
  (forall x, expected = Some x -> x = id) ->
  getCredential tx id = (Some c, tx1) ->
  decryptString (password c) = secret ->
  (validateAuthHeader tx e now (Some header) expected None false).1 = None.
Proof.
  intros (Hnonempty & Hidx & Htype & Hsplit) Hexpected Hcredential Hsecret.
  unfold validateAuthHeader.
  destruct header as [|a rest]; [contradiction |].
  apply Z.leb_gt in Hidx. rewrite Hidx, Htype.
  change (("Basic" =? "Basic")%string) with true. cbn [negb].
  rewrite Hsplit.
  assert (Hpass : match expected with
                  | Some x => negb (String.eqb id x)
                  | None => false
                  end = false).
  { destruct expected as [x|]; [| reflexivity].
    rewrite (Hexpected x eq_refl). now rewrite String.eqb_refl. }
  rewrite Hpass, Hcredential.
  apply (passwordsMatch_true c e secret) in Hsecret.
  destruct (passwordsMatch c e secret) as [[matches c'] e'].
  cbn [fst] in Hsecret. now rewrite Hsecret.
Qed.

(** X10. The password check of [validateAuthHeader], as the CRUD handlers
    call it, lets a request through exactly when the header parses into an
    id and a secret, the id is the expected one (when one is expected), the
    teacher with that id has exactly one credential on file, and the secret
    is what the stored password decrypts to. *)
Theorem access_needs_the_password tx e now authReceived expected :
  (validateAuthHeader tx e now authReceived expected None false).1 = None <->
  exists header id secret c tx1,
    authReceived = Some header /\ wellFormed header id secret /\
    (forall x, expected = Some x -> x = id) /\
    getCredential tx id = (Some c, tx1) /\
    decryptString (password c) = secret.
Proof.
  split.
  - destruct (validateAuthHeader tx e now authReceived expected None false)
      as [answer st] eqn:Hcheck.
    cbn [fst]. intros ->.
    apply validateAuthHeader_accepts in Hcheck
      as (header & id & secret & c & tx1 & H1 & H2 & H3 & H4 & H5 & _).
    now exists header, id, secret, c, tx1.
  - intros (header & id & secret & c & tx1 & -> & Hwf & Hexpected & Hc & Hsecret).
    exact (validateAuthHeader_grants tx e now header id secret expected c tx1
             Hwf Hexpected Hc Hsecret).
Qed.

(** X11. A missing header, or one that does not parse into the word Basic
    followed by an id and a secret, is answered 400 or 401 before anything
    is read: the transaction, the random source and the credential object
    are as they were, in the password check and in the reset-code check
    alike. *)
Theorem unparsed_header_reads_nothing tx e now authReceived expected
    credentialExpected useResetCode :
  (forall header id secret, authReceived = Some header -> ~ wellFormed header id secret) ->
  exists responseInfo,
    validateAuthHeader tx e now authReceived expected credentialExpected useResetCode
    = (Some responseInfo, mkAuthState tx e credentialExpected) /\
    (status responseInfo = 400%Z \/ status responseInfo = 401%Z).
Proof.
  intros Hbad. unfold validateAuthHeader.
  destruct authReceived as [[|a rest]|]; try (eexists; split; [reflexivity | now right]).
  destruct (Z.leb_spec (JS.indexOf " " (String a rest)) 0) as [|Hidx];
    [eexists; split; [reflexivity | now left] |].
  destruct (String.eqb_spec (JS.substring2 (String a rest) 0
                               (JS.indexOf " " (String a rest))) "Basic") as [Htype|];
    cbn [negb]; [| eexists; split; [reflexivity | now right]].
  destruct (JS.split ":" _) as [|received [|secret [|extra more]]] eqn:Hsplit;
    try (eexists; split; [reflexivity | now left]).
  exfalso. apply (Hbad (String a rest) received secret eq_refl).
  repeat split; try assumption. discriminate.
Qed.

End Headers.

Lemma bearer_not_wellFormed :
  forall header id secret,
    Some "Bearer abc" = Some header -> ~ @wellFormed Samples.sampleBase64 header id secret.
Proof.
  intros header id secret [= <-] (_ & _ & Htype & _). vm_compute in Htype. discriminate.
Qed.

Lemma unparsed_header_reads_nothing_witness :
  (forall header id secret,
     Some "Bearer abc" = Some header -> ~ @wellFormed Samples.sampleBase64 header id secret) /\
  exists responseInfo,
    @validateAuthHeader Samples.sampleCipher Samples.sampleBase64
      (begin Samples.schoolStore Samples.noFaults) Samples.sampleEntropy 0
      (Some "Bearer abc") (Some "7") None false
    = (Some responseInfo,
       mkAuthState (begin Samples.schoolStore Samples.noFaults) Samples.sampleEntropy None) /\
    (status responseInfo = 400%Z \/ status responseInfo = 401%Z).
Proof.
  split; [exact bearer_not_wellFormed |].
  exact (@unparsed_header_reads_nothing Samples.sampleCipher Samples.sampleBase64
           (begin Samples.schoolStore Samples.noFaults) Samples.sampleEntropy 0%N
           (Some "Bearer abc") (Some "7") None false bearer_not_wellFormed).
Defined.

End HeaderFacts.

(** ** A credential through its life: built, updated, challenged *)

Module CredentialLifeFacts.
Import Datastore Auth.

Section RoundTrip.
Context {cipher : Cipher}.
Hypothesis decrypt_encrypt : forall salt s, decryptString (encryptString salt s) = s.

Ltac open_life :=
  cbv beta iota zeta delta
    [newCredential passwordsMatch secretQuestionsMatch resetCodeValid
     updatePassword updateSecretQuestions clearResetCode generateResetCodeChallenge plain
     decryptPassword decryptSecretQuestions decryptResetCode
     encryptPassword encryptSecretQuestions encryptResetCode encrypt draw
     setPassword setSecretQuestions setResetCode password secret_questions reset_code
     data datastoreKey fst snd pool used allEncrypted
     CredentialData.password CredentialData.secret_questions CredentialData.reset_code
     SecretQuestions.question_1 SecretQuestions.question_2
     SecretQuestions.answer_1 SecretQuestions.answer_2
     ResetCode.code ResetCode.expires ResetCode.clearCode ResetCode.empty
     ResetCode.refreshCode].

Ltac encrypted := unfold encryptedForm; eexists _, _; reflexivity.

(** X12. [new Credential(json, false)] keeps nothing in the clear: every
    field of the object it builds is a ciphertext. Decrypted, the object
    holds the password and the secret questions it was given and an empty
    reset code; it has no Datastore key yet; and [passwordsMatch] on it
    answers [true] for the password it was built with and for no other. *)
Theorem newCredential_encrypts_everything (password : string)
    (questions : SecretQuestions.t) (e : Entropy) :
  let c := (newCredential password questions e).1 in
  allEncrypted c /\
  plain c = CredentialData.mk password questions ResetCode.empty /\
  datastoreKey c = None /\
  forall e' candidate,
    (passwordsMatch c e' candidate).1.1 = String.eqb candidate password.
Proof.
  destruct questions as [q1 q2 a1 a2]. open_life.
  split; [repeat split; encrypted |].
  rewrite !decrypt_encrypt. repeat split.
Qed.

(** X13. [updatePassword], [updateSecretQuestions] and [clearResetCode]
    each replace one secret and leave the other two as they decrypt:
    afterwards the credential decrypts to the new password, to the new
    questions, or to an empty reset code, and every field that was
    replaced is a ciphertext: the password; the two questions and the two
    answers; the code and its expiry. *)
Theorem updates_replace_one_secret (c : Credential) (e : Entropy)
    (newPassword : string) (newSecretQuestions : SecretQuestions.t) :
  let before := plain c in
  let c1 := (updatePassword c e newPassword).1 in
  let c2 := (updateSecretQuestions c e newSecretQuestions).1 in
  let c3 := (clearResetCode c e).1 in
  (plain c1 = CredentialData.mk newPassword
                (CredentialData.secret_questions before)
                (CredentialData.reset_code before) /\
   encryptedForm (Auth.password c1)) /\
  (plain c2 = CredentialData.mk (CredentialData.password before) newSecretQuestions
                (CredentialData.reset_code before) /\
   encryptedForm (SecretQuestions.question_1 (secret_questions c2)) /\
   encryptedForm (SecretQuestions.question_2 (secret_questions c2)) /\
   encryptedForm (SecretQuestions.answer_1 (secret_questions c2)) /\
   encryptedForm (SecretQuestions.answer_2 (secret_questions c2))) /\
  (plain c3 = CredentialData.mk (CredentialData.password before)
                (CredentialData.secret_questions before) ResetCode.empty /\
   encryptedForm (ResetCode.code (reset_code c3)) /\
   encryptedForm (ResetCode.expires (reset_code c3))) /\
  datastoreKey c1 = datastoreKey c /\ datastoreKey c2 = datastoreKey c /\
  datastoreKey c3 = datastoreKey c.
Proof.
  destruct c as [[p [q1 q2 a1 a2] [code expires]] k].
  destruct newSecretQuestions as [n1 n2 m1 m2]. open_life.
  rewrite !decrypt_encrypt. repeat split; encrypted.
Qed.

(** X14. [generateResetCodeChallenge] at time [now] answers the two
    questions as they decrypt and the fresh code, and leaves the password
    and the secret questions as they decrypt. On the credential it leaves
    behind, [resetCodeValid] answers [true] exactly for that code at a time
    before [now + RESET_CODE_LIFETIME]. *)
Theorem challenge_code_lasts_thirty_minutes (c : Credential) (e : Entropy) (now : N) :
  let r := generateResetCodeChallenge c e now in
  let code := pool e (4 + used e) in
  r.1.1 = ResetCodeChallenge
            (SecretQuestions.question_1 (CredentialData.secret_questions (plain c)))
            (SecretQuestions.question_2 (CredentialData.secret_questions (plain c)))
            code /\
  CredentialData.password (plain r.1.2) = CredentialData.password (plain c) /\
  CredentialData.secret_questions (plain r.1.2)
  = CredentialData.secret_questions (plain c) /\
  forall e' now' candidate,
    (resetCodeValid r.1.2 e' now' candidate).1.1
    = String.eqb candidate code && N.ltb now' (now + Constants.RESET_CODE_LIFETIME).
Proof.
  destruct c as [[p [q1 q2 a1 a2] [code0 expires0]] k]. open_life.
  rewrite !decrypt_encrypt. repeat split.
  intros e' now' candidate. unfold ResetCode.isUnexpired.
  cbn [ResetCode.expires]. now rewrite StoreFacts.parseInt_toString.
Qed.

End RoundTrip.

Lemma newCredential_encrypts_everything_witness :
  (forall salt s, Samples.sampleDecrypt (Samples.sampleEncrypt salt s) = s) /\
  @plain Samples.sampleCipher Samples.sampleCredential
  = CredentialData.mk "Relativity1" (SecretQuestions.ofValue Samples.secretQuestionsBody)
      ResetCode.empty.
Proof.
  split; [exact CredentialFacts.sample_round_trip |].
  exact (proj1 (proj2 (@newCredential_encrypts_everything Samples.sampleCipher
                         CredentialFacts.sample_round_trip "Relativity1"
                         (SecretQuestions.ofValue Samples.secretQuestionsBody)
                         Samples.sampleEntropy))).
Defined.

Lemma updates_replace_one_secret_witness :
  (forall salt s, Samples.sampleDecrypt (Samples.sampleEncrypt salt s) = s) /\
  CredentialData.password
    (@plain Samples.sampleCipher
       (@updatePassword Samples.sampleCipher Samples.sampleCredential
          Samples.sampleEntropy "Gravitation2").1)
  = "Gravitation2".
Proof.
  split; [exact CredentialFacts.sample_round_trip |].
  pose proof (@updates_replace_one_secret Samples.sampleCipher
                CredentialFacts.sample_round_trip Samples.sampleCredential
                Samples.sampleEntropy "Gravitation2"
                (SecretQuestions.ofValue Samples.secretQuestionsBody)) as H.
  cbv zeta in H. destruct H as ((H & _) & _). now rewrite H.
Defined.

Lemma challenge_code_lasts_thirty_minutes_witness :
  (forall salt s, Samples.sampleDecrypt (Samples.sampleEncrypt salt s) = s) /\
  (@generateResetCodeChallenge Samples.sampleCipher Samples.sampleCredential
     Samples.sampleEntropy 1000).1.1
  = ResetCodeChallenge "First pet?" "First school?" "4".
Proof.
  split; [exact CredentialFacts.sample_round_trip |].
  pose proof (@challenge_code_lasts_thirty_minutes Samples.sampleCipher
                CredentialFacts.sample_round_trip Samples.sampleCredential
                Samples.sampleEntropy 1000%N) as H.
  cbv zeta in H. destruct H as (H & _). rewrite H. reflexivity.
Defined.

End CredentialLifeFacts.

(** ** The three credential requests *)

Module CredentialRequestFacts.
Import Datastore Auth TransactionFacts.

Section Requests.
Context {cipher : Cipher} {base64 : Base64}.

Lemma validateAuthHeader_known tx e now authReceived expected c useResetCode :
  transaction (validateAuthHeader tx e now authReceived expected (Some c) useResetCode).2
  = tx.
Proof.
  unfold validateAuthHeader.
  repeat match goal with
         | |- context [match ?x with _ => _ end] =>
             lazymatch x with
             | passwordsMatch _ _ _ => fail
             | resetCodeValid _ _ _ _ => fail
             | _ => destruct x eqn:?
             end
         end; try reflexivity.
  all: try destruct (resetCodeValid _ _ _ _) as [[? ?] ?];
    try destruct (passwordsMatch _ _ _) as [[? ?] ?]; reflexivity.
Qed.

Lemma validateAuthHeader_known_key tx e now authReceived expected c useResetCode c' :
  credential (validateAuthHeader tx e now authReceived expected (Some c) useResetCode).2
  = Some c' ->
  datastoreKey c' = datastoreKey c.
Proof.
  unfold validateAuthHeader.
  repeat match goal with
         | |- context [match ?x with _ => _ end] =>
             lazymatch x with
             | passwordsMatch _ _ _ => fail
             | resetCodeValid _ _ _ _ => fail
             | _ => destruct x eqn:?
             end
         end; try (intros [= <-]; reflexivity).
  all: intros [= <-]; reflexivity.
Qed.

Lemma teacherExists_extends tx id : extends tx (teacherExists tx id).2 [].
Proof.
  unfold teacherExists. destruct (JS.parseInt id) as [key|]; [| apply extends_refl].
  pose proof (extends_remote tx (GetTeacher key) (teachers (snapshot tx) !! key) eq_refl) as H.
  unfold getTeacher. destruct (remote tx _ _) as [[[teacher|]|] tx1]; exact H.
Qed.

Lemma datastoreKey_kept (c : Credential) (e : Entropy) (secret : string) (v : Value)
    (q : SecretQuestions.t) :
  datastoreKey (secretQuestionsMatch c e v).1.2 = datastoreKey c /\
  datastoreKey (passwordsMatch c e secret).1.2 = datastoreKey c /\
  datastoreKey (updatePassword c e secret).1 = datastoreKey c /\
  datastoreKey (updateSecretQuestions c e q).1 = datastoreKey c /\
  datastoreKey (clearResetCode c e).1 = datastoreKey c /\
  forall now, datastoreKey (generateResetCodeChallenge c e now).1.2 = datastoreKey c.
Proof.
  split; [| repeat split]. unfold secretQuestionsMatch.
  now destruct (SecretQuestions.deepCompare _ v).
Qed.

(** The end shared by the requests: nothing, or one credential saved under
    the key it was read with. *)
Lemma saveAndCommit_outcome s faults tx c e :
  extends (begin s faults) tx [] ->
  let r := saveAndCommit tx c e in
  (r.1.1 = SERVER_ERROR /\ r.1.2 = s) \/
  (exists key cid,
     datastoreKey c = Some (key, cid) /\
     r.1.1 = mkServerResponse 204 NoContent /\
     r.1.2 = setCredentials s (<[(key, cid) := data c]> (credentials s))).
Proof.
  intros H. cbv zeta. unfold saveAndCommit, saveCredential.
  destruct (datastoreKey c) as [[key cid]|];
    [| left; split; [reflexivity | exact (rollback_extends _ _ _ _ H)]].
  pose proof (extends_reads _ _ _ _ H
                (extends_record_write tx (SaveCredential key cid (data c)) eq_refl)) as H1.
  destruct (commit _) as [s'|] eqn:Hcommit.
  - right. exists key, cid. split; [reflexivity |]. split; [reflexivity |].
    exact (commit_extends _ _ _ _ _ H1 Hcommit).
  - left. split; [reflexivity | exact (rollback_extends _ _ _ _ H1)].
Qed.

Lemma saved_step s faults tx c e key cid teacherId :
  extends (begin s faults) tx [] ->
  JS.parseInt teacherId = Some key ->
  credentialsOf s key = [(cid, data c)] \/ (exists d, credentialsOf s key = [(cid, d)]) ->
  datastoreKey c = Some (key, cid) ->
  let r := saveAndCommit tx c e in
  credentialStep s r.1.2 teacherId /\ (status r.1.1 <> 204%Z -> r.1.2 = s).
Proof.
  intros H Hkey Hcreds Hdk. cbv zeta.
  destruct (saveAndCommit_outcome s faults tx c e H)
    as [(-> & ->) | (key' & cid' & Hdk' & -> & ->)].
  - split; [now left | reflexivity].
  - rewrite Hdk in Hdk'. injection Hdk' as <- <-.
    split; [| intros Hne; now contradiction Hne].
    right. destruct Hcreds as [Hc | (d & Hc)]; eauto 10.
Qed.

Lemma reset_step s faults e now requestBody teacherId authReceived :
  let r := resetUnknownPassword s faults e now requestBody teacherId authReceived in
  credentialStep s r.1.2 teacherId /\ (status r.1.1 <> 204%Z -> r.1.2 = s).
Proof.
  cbv zeta. unfold resetUnknownPassword.
  destruct (EntityType.validateProperties requestBody _); cbn [negb];
    [| split; [now left | reflexivity]].
  set (tx := begin s faults).
  pose proof (teacherExists_extends tx teacherId) as H1.
  destruct (teacherExists tx teacherId) as [[|] tx1]; cbn [negb snd] in *;
    [| split; [left |]; intros; exact (rollback_extends _ _ _ _ H1)].
  pose proof (getCredential_extends tx1 teacherId) as H2.
  destruct (getCredential tx1 teacherId) as [[c|] tx2] eqn:Hcredential; cbn [snd] in H2;
    [| split; [left |]; intros;
       exact (rollback_extends _ _ _ _ (extends_reads _ _ _ _ H1 H2))].
  pose proof (extends_reads _ _ _ _ H1 H2) as H12.
  apply ResetFacts.getCredential_some in Hcredential
    as (key & cid & Hkey & Hcreds & Hdk & _).
  replace (snapshot tx1) with s in Hcreds by (symmetry; apply H1).
  pose proof (validateAuthHeader_known tx2 e now authReceived (Some teacherId) c true) as Htx.
  pose proof (validateAuthHeader_known_key tx2 e now authReceived (Some teacherId) c true)
    as Hck.
  destruct (validateAuthHeader tx2 e now authReceived (Some teacherId) (Some c) true)
    as [[responseInfo|] st]; cbn [snd] in Htx, Hck; rewrite Htx;
    [split; [left |]; intros; exact (rollback_extends _ _ _ _ H12) |].
  destruct (credential st) as [c0|];
    [| split; [left |]; intros; exact (rollback_extends _ _ _ _ H12)].
  specialize (Hck c0 eq_refl).
  pose proof (datastoreKey_kept c0 (entropy st) ""
                (lookupField "secret_questions" requestBody)
                (SecretQuestions.ofValue VNull)) as (K1 & _).
  destruct (secretQuestionsMatch c0 (entropy st) _) as [[questionsMatch c1] e1].
  cbn [fst snd] in K1.
  destruct questionsMatch as [[|]|];
    try (split; [left |]; intros; exact (rollback_extends _ _ _ _ H12)).
  pose proof (datastoreKey_kept c1 e1 (asString (lookupField "password" requestBody))
                VNull (SecretQuestions.ofValue VNull)) as (_ & K2 & _).
  destruct (passwordsMatch c1 e1 _) as [[same c2] e2]. cbn [fst snd] in K2.
  destruct same; [split; [left |]; intros; exact (rollback_extends _ _ _ _ H12) |].
  pose proof (datastoreKey_kept c2 e2 (asString (lookupField "password" requestBody))
                VNull (SecretQuestions.ofValue VNull)) as (_ & _ & K3 & _).
  destruct (updatePassword c2 e2 _) as [c3 e3]. cbn [fst] in K3.
  pose proof (datastoreKey_kept c3 e3 "" VNull (SecretQuestions.ofValue VNull))
    as (_ & _ & _ & _ & K4 & _).
  destruct (clearResetCode c3 e3) as [c4 e4]. cbn [fst] in K4.
  apply (saved_step s faults tx2 c4 e4 key cid teacherId H12 Hkey); [eauto |].
  congruence.
Qed.

Lemma update_step s faults e now credentialPatches teacherId authReceived :
  let r := updateCredentialPasswordKnown s faults e now credentialPatches teacherId
             authReceived in
  credentialStep s r.1.2 teacherId /\ (status r.1.1 <> 204%Z -> r.1.2 = s).
Proof.
  cbv zeta. unfold updateCredentialPasswordKnown.
  destruct (EntityType.validateProperties credentialPatches _); cbn [negb];
    [| split; [now left | reflexivity]].
  set (tx := begin s faults).
  pose proof (teacherExists_extends tx teacherId) as H1.
  destruct (teacherExists tx teacherId) as [[|] tx1]; cbn [negb snd] in *;
    [| split; [left |]; intros; exact (rollback_extends _ _ _ _ H1)].
  pose proof (getCredential_extends tx1 teacherId) as H2.
  destruct (getCredential tx1 teacherId) as [[c|] tx2] eqn:Hcredential; cbn [snd] in H2;
    [| split; [left |]; intros;
       exact (rollback_extends _ _ _ _ (extends_reads _ _ _ _ H1 H2))].
  pose proof (extends_reads _ _ _ _ H1 H2) as H12.
  apply ResetFacts.getCredential_some in Hcredential
    as (key & cid & Hkey & Hcreds & Hdk & _).
  replace (snapshot tx1) with s in Hcreds by (symmetry; apply H1).
  pose proof (validateAuthHeader_known tx2 e now authReceived (Some teacherId) c false)
    as Htx.
  pose proof (validateAuthHeader_known_key tx2 e now authReceived (Some teacherId) c false)
    as Hck.
  destruct (validateAuthHeader tx2 e now authReceived (Some teacherId) (Some c) false)
    as [[responseInfo|] st]; cbn [snd] in Htx, Hck; rewrite Htx;
    [split; [left |]; intros; exact (rollback_extends _ _ _ _ H12) |].
  destruct (credential st) as [c0|];
    [| split; [left |]; intros; exact (rollback_extends _ _ _ _ H12)].
  specialize (Hck c0 eq_refl).
  assert (K1 : forall p, datastoreKey (updatePassword c0 (entropy st) p).1 = datastoreKey c0)
    by reflexivity.
  destruct (if includes "password" _ then _ else _) as [c1 e1] eqn:Hp.
  assert (Hk1 : datastoreKey c1 = datastoreKey c0).
  { destruct (includes "password" _); [| now injection Hp as <- _].
    rewrite <- (K1 (asString (lookupField "password" credentialPatches))).
    now rewrite Hp. }
  assert (K2 : forall q, datastoreKey (updateSecretQuestions c1 e1 q).1 = datastoreKey c1)
    by reflexivity.
  destruct (if includes "secret_questions" _ then _ else _) as [c2 e2] eqn:Hq.
  assert (Hk2 : datastoreKey c2 = datastoreKey c1).
  { destruct (includes "secret_questions" _); [| now injection Hq as <- _].
    rewrite <- (K2 (SecretQuestions.ofValue
                      (lookupField "secret_questions" credentialPatches))).
    now rewrite Hq. }
  apply (saved_step s faults tx2 c2 e2 key cid teacherId H12 Hkey); [eauto |].
  congruence.
Qed.

Lemma challenge_step s faults e now teacherId :
  let r := getCredentialResetChallenge s faults e now teacherId in
  credentialStep s r.1.2 teacherId /\ (status r.1.1 <> 200%Z -> r.1.2 = s).
Proof.
  cbv zeta. unfold getCredentialResetChallenge.
  set (tx := begin s faults).
  pose proof (getCredential_extends tx teacherId) as H1.
  destruct (getCredential tx teacherId) as [[c|] tx1] eqn:Hcredential; cbn [snd] in H1;
    [| split; [left |]; intros; exact (rollback_extends _ _ _ _ H1)].
  apply ResetFacts.getCredential_some in Hcredential
    as (key & cid & Hkey & Hcreds & Hdk & _).
  pose proof (datastoreKey_kept c e "" VNull (SecretQuestions.ofValue VNull))
    as (_ & _ & _ & _ & _ & K).
  specialize (K now).
  destruct (generateResetCodeChallenge c e now) as [[challenge c'] e'].
  cbn [fst snd] in K. unfold saveCredential. rewrite K, Hdk.
  pose proof (extends_reads _ _ _ _ H1
                (extends_record_write tx1 (SaveCredential key cid (data c')) eq_refl)) as H2.
  destruct (commit _) as [s'|] eqn:Hcommit.
  - apply (commit_extends _ _ _ _ _ H2) in Hcommit. cbn [foldl applyCall] in Hcommit.
    cbn [fst snd]. split; [| intros Hne; now contradiction Hne].
    right. exists key, cid, (data c), (data c'). now repeat split.
  - split; [left |]; intros; exact (rollback_extends _ _ _ _ H2).
Qed.

(** X15. The three credential requests (the reset of a forgotten password,
    the update with the known password, the reset challenge) either leave
    the store exactly as it was or replace the one credential of the teacher
    they name, under the key it already had; teachers, projects,
    observations and the credentials of other teachers are never touched.
    An answer other than the success code (204, or 200 for the challenge)
    always comes with the store unchanged. *)
Theorem credential_requests_touch_one_credential s faults e now body teacherId
    authReceived :
  let reset := resetUnknownPassword s faults e now body teacherId authReceived in
  let update := updateCredentialPasswordKnown s faults e now body teacherId authReceived in
  let challenge := getCredentialResetChallenge s faults e now teacherId in
  (credentialStep s reset.1.2 teacherId /\
   (status reset.1.1 <> 204%Z -> reset.1.2 = s)) /\
  (credentialStep s update.1.2 teacherId /\
   (status update.1.1 <> 204%Z -> update.1.2 = s)) /\
  (credentialStep s challenge.1.2 teacherId /\
   (status challenge.1.1 <> 200%Z -> challenge.1.2 = s)).
Proof.
  cbv zeta. split; [apply reset_step |]. split; [apply update_step | apply challenge_step].
Qed.

End Requests.

Section Succeeding.
Context {cipher : Cipher} {base64 : Base64}.
Hypothesis decrypt_encrypt : forall salt s, decryptString (encryptString salt s) = s.

Ltac open_request :=
  cbv beta iota zeta delta
    [passwordsMatch secretQuestionsMatch resetCodeValid updatePassword
     updateSecretQuestions clearResetCode plain
     decryptPassword decryptSecretQuestions decryptResetCode
     encryptPassword encryptSecretQuestions encryptResetCode encrypt draw
     setPassword setSecretQuestions setResetCode password secret_questions reset_code
     data datastoreKey fst snd transaction entropy credential pool used
     CredentialData.password CredentialData.secret_questions CredentialData.reset_code
     SecretQuestions.question_1 SecretQuestions.question_2
     SecretQuestions.answer_1 SecretQuestions.answer_2
     ResetCode.code ResetCode.expires ResetCode.clearCode ResetCode.empty] in *.

Lemma validateAuthHeader_password_known tx e now authReceived expected c st :
  validateAuthHeader tx e now authReceived (Some expected) (Some c) false = (None, st) ->
  exists header secret,
    authReceived = Some header /\ wellFormed header expected secret /\
    (passwordsMatch c e secret).1.1 = true /\
    st = mkAuthState tx (passwordsMatch c e secret).2
                     (Some (passwordsMatch c e secret).1.2).
Proof.
  unfold validateAuthHeader.
  destruct authReceived as [[|a rest]|]; try (intros [=]; fail).
  destruct (Z.leb_spec (JS.indexOf " " (String a rest)) 0) as [|Hidx];
    [intros [=] |].
  destruct (String.eqb_spec (JS.substring2 (String a rest) 0
                               (JS.indexOf " " (String a rest))) "Basic") as [Htype|];
    [| intros [=]].
  cbn [negb].
  destruct (JS.split ":" _) as [|received [|secret [|extra more]]] eqn:Hsplit;
    try (intros [=]; fail).
  destruct (String.eqb_spec received expected) as [-> |]; [| intros [=]].
  cbn [negb].
  destruct (passwordsMatch c e secret) as [[valid c'] e'] eqn:Hvalid.
  destruct valid; cbn [negb]; intros [= <-].
  exists (String a rest), secret. rewrite Hvalid.
  repeat split; try assumption. discriminate.
Qed.

(** X16. When the reset of a forgotten password is answered 204, the header
    carried the reset code on file, presented before it expired; the secret
    questions and answers of the body matched those on file; the new
    password differs from the old one; and the credential now stored
    decrypts to the new password, the same secret questions, and an empty
    reset code. *)
Theorem reset_stores_the_new_password s faults e now requestBody teacherId
    authReceived s' e' :
  resetUnknownPassword s faults e now requestBody teacherId authReceived
  = (mkServerResponse 204 NoContent, s', e') ->
  exists key cid d stored header secret,
    let before := plain {| data := d; datastoreKey := Some (key, cid) |} in
    let after := plain {| data := stored; datastoreKey := Some (key, cid) |} in
    let newPassword := asString (lookupField "password" requestBody) in
    JS.parseInt teacherId = Some key /\
    credentialsOf s key = [(cid, d)] /\ credentialsOf s' key = [(cid, stored)] /\
    authReceived = Some header /\ wellFormed header teacherId secret /\
    secret = ResetCode.code (CredentialData.reset_code before) /\
    ResetCode.isUnexpired (CredentialData.reset_code before) now = true /\
    SecretQuestions.deepCompare (CredentialData.secret_questions before)
      (lookupField "secret_questions" requestBody) = Some true /\
    newPassword <> CredentialData.password before /\
    after = CredentialData.mk newPassword (CredentialData.secret_questions before)
              ResetCode.empty.
Proof.
  unfold resetUnknownPassword.
  destruct (EntityType.validateProperties requestBody _); cbn [negb]; [| intros [=]].
  set (tx := begin s faults).
  destruct (teacherExists tx teacherId) as [[|] tx1] eqn:Hteacher; cbn [negb];
    [| intros [=]].
  apply ResetFacts.teacherExists_true in Hteacher as (key & teacher & Hkey & Hthere & H1).
  destruct (getCredential tx1 teacherId) as [[c|] tx2] eqn:Hcredential; [| intros [=]].
  apply ResetFacts.getCredential_some in Hcredential
    as (key' & cid & Hkey' & Hcreds & Hdk & H2).
  rewrite Hkey in Hkey'. injection Hkey' as <-.
  replace (snapshot tx1) with s in Hcreds by (symmetry; apply H1).
  destruct (validateAuthHeader tx2 e now authReceived (Some teacherId) (Some c) true)
    as [[responseInfo|] st] eqn:Hauth.
  { intros [= -> _ _]. now apply ResetFacts.validateAuthHeader_status in Hauth. }
  apply ResetFacts.validateAuthHeader_reset_accepts in Hauth
    as (header & secret & -> & Hwf & Hcode & ->).
  destruct c as [[p [q1 q2 a1 a2] [code expires]] dk]. cbn [datastoreKey] in Hdk. subst dk.
  cbn [data] in Hcreds.
  open_request.
  match goal with |- context [SecretQuestions.deepCompare ?q ?v] =>
    destruct (SecretQuestions.deepCompare q v) as [[|]|] eqn:Hquestions end;
    try (intros [=]; fail).
  match goal with |- context [if ?b then (mkServerResponse 403 _, _, _) else _] =>
    destruct b eqn:Hsame end; [intros [=] |].
  unfold saveAndCommit, saveCredential. open_request.
  match goal with |- context [commit ?t] => destruct (commit t) as [s1|] eqn:Hcommit end;
    [| intros [=]].
  intros [= <- _].
  match type of Hcommit with
  | commit (record _ ?c) = _ =>
      pose proof (extends_reads _ _ _ _ H1
                    (extends_reads _ _ _ _ H2 (extends_record_write tx2 c eq_refl))) as H3
  end.
  apply (commit_extends _ _ _ _ _ H3) in Hcommit. cbn [foldl applyCall] in Hcommit.
  apply andb_true_iff in Hcode as [Hequal Hfresh].
  apply String.eqb_eq in Hequal. apply String.eqb_neq in Hsame.
  eexists key, cid, _, _, header, secret.
  split; [exact Hkey |]. split; [exact Hcreds |].
  split; [rewrite Hcommit; apply (ResetFacts.credential_replaced _ _ _ _ _ Hcreds) |].
  split; [reflexivity |]. split; [exact Hwf |]. split; [exact Hequal |].
  split; [exact Hfresh |]. split; [exact Hquestions |]. split; [exact Hsame |].
  rewrite !decrypt_encrypt. reflexivity.
Qed.

(** X17. When the update with the known password is answered 204, the
    header carried the password on file for that teacher, and the credential
    now stored decrypts to the password of the patch if it has one (else
    the old one), to the secret questions of the patch if it has them (else
    the old ones), and to the reset code as it was. *)
Theorem known_password_update_stores_the_patch s faults e now credentialPatches
    teacherId authReceived s' e' :
  updateCredentialPasswordKnown s faults e now credentialPatches teacherId authReceived
  = (mkServerResponse 204 NoContent, s', e') ->
  exists key cid d stored header secret,
    let before := plain {| data := d; datastoreKey := Some (key, cid) |} in
    let after := plain {| data := stored; datastoreKey := Some (key, cid) |} in
    let patchKeys := map fst credentialPatches in
    JS.parseInt teacherId = Some key /\
    credentialsOf s key = [(cid, d)] /\ credentialsOf s' key = [(cid, stored)] /\
    authReceived = Some header /\ wellFormed header teacherId secret /\
    secret = CredentialData.password before /\
    after = CredentialData.mk
              (if includes "password" patchKeys
               then asString (lookupField "password" credentialPatches)
               else CredentialData.password before)
              (if includes "secret_questions" patchKeys
               then SecretQuestions.ofValue
                      (lookupField "secret_questions" credentialPatches)
               else CredentialData.secret_questions before)
              (CredentialData.reset_code before).
Proof.
  unfold updateCredentialPasswordKnown.
  destruct (EntityType.validateProperties credentialPatches _); cbn [negb];
    [| intros [=]].
  set (tx := begin s faults).
  destruct (teacherExists tx teacherId) as [[|] tx1] eqn:Hteacher; cbn [negb];
    [| intros [=]].
  apply ResetFacts.teacherExists_true in Hteacher as (key & teacher & Hkey & Hthere & H1).
  destruct (getCredential tx1 teacherId) as [[c|] tx2] eqn:Hcredential; [| intros [=]].
  apply ResetFacts.getCredential_some in Hcredential
    as (key' & cid & Hkey' & Hcreds & Hdk & H2).
  rewrite Hkey in Hkey'. injection Hkey' as <-.
  replace (snapshot tx1) with s in Hcreds by (symmetry; apply H1).
  destruct (validateAuthHeader tx2 e now authReceived (Some teacherId) (Some c) false)
    as [[responseInfo|] st] eqn:Hauth.
  { intros [= -> _ _]. now apply ResetFacts.validateAuthHeader_status in Hauth. }
  apply validateAuthHeader_password_known in Hauth
    as (header & secret & -> & Hwf & Hpassword & ->).
  destruct c as [[p [q1 q2 a1 a2] [code expires]] dk]. cbn [datastoreKey] in Hdk. subst dk.
  cbn [data] in Hcreds.
  destruct (SecretQuestions.ofValue (lookupField "secret_questions" credentialPatches))
    as [n1 n2 m1 m2] eqn:Hnew.
  destruct (includes "password" (map fst credentialPatches));
    destruct (includes "secret_questions" (map fst credentialPatches));
    open_request; apply String.eqb_eq in Hpassword;
    unfold saveAndCommit, saveCredential; open_request.
  all: match goal with |- context [commit ?t] =>
         destruct (commit t) as [s1|] eqn:Hcommit end; [| intros [=]].
  all: intros [= <- _].
  all: match type of Hcommit with
       | commit (record _ ?c) = _ =>
           pose proof (extends_reads _ _ _ _ H1
                         (extends_reads _ _ _ _ H2 (extends_record_write tx2 c eq_refl)))
             as H3
       end.
  all: apply (commit_extends _ _ _ _ _ H3) in Hcommit; cbn [foldl applyCall] in Hcommit.
  all: eexists key, cid, _, _, header, secret.
  all: split; [exact Hkey |]; split; [exact Hcreds |].
  all: split; [rewrite Hcommit; apply (ResetFacts.credential_replaced _ _ _ _ _ Hcreds) |].
  all: split; [reflexivity |]; split; [exact Hwf |]; split; [exact Hpassword |].
  all: rewrite ?decrypt_encrypt; reflexivity.
Qed.

End Succeeding.

Lemma afterUpdate_answer :
  Samples.afterUpdate
  = (mkServerResponse 204 NoContent, Samples.afterUpdate.1.2, Samples.afterUpdate.2).
Proof.
  assert (H : Samples.afterUpdate.1.1 = mkServerResponse 204 NoContent)
    by (vm_compute; reflexivity).
  destruct Samples.afterUpdate as [[r s] e]. cbn in *. now subst r.
Qed.

Lemma reset_stores_the_new_password_witness :
  (forall salt s, Samples.sampleDecrypt (Samples.sampleEncrypt salt s) = s) /\
  Samples.afterReset
  = (mkServerResponse 204 NoContent, Samples.afterReset.1.2, Samples.afterReset.2) /\
  exists key cid stored,
    credentialsOf Samples.afterReset.1.2 key = [(cid, stored)] /\
    CredentialData.password
      (@plain Samples.sampleCipher {| data := stored; datastoreKey := Some (key, cid) |})
    = "Gravitation2".
Proof.
  split; [exact CredentialFacts.sample_round_trip |].
  split; [exact ResetFacts.afterReset_answer |].
  destruct (@reset_stores_the_new_password Samples.sampleCipher Samples.sampleBase64
              CredentialFacts.sample_round_trip _ _ _ _ _ _ _ _ _
              ResetFacts.afterReset_answer)
    as (key & cid & d & stored & header & secret & H).
  cbv zeta in H. destruct H as (_ & _ & Hstored & _ & _ & _ & _ & _ & _ & Hafter).
  exists key, cid, stored. split; [exact Hstored |]. now rewrite Hafter.
Defined.

Lemma known_password_update_stores_the_patch_witness :
  (forall salt s, Samples.sampleDecrypt (Samples.sampleEncrypt salt s) = s) /\
  Samples.afterUpdate
  = (mkServerResponse 204 NoContent, Samples.afterUpdate.1.2, Samples.afterUpdate.2) /\
  exists key cid stored,
    credentialsOf Samples.afterUpdate.1.2 key = [(cid, stored)] /\
    CredentialData.password
      (@plain Samples.sampleCipher {| data := stored; datastoreKey := Some (key, cid) |})
    = "Gravitation2".
Proof.
  split; [exact CredentialFacts.sample_round_trip |].
  split; [exact afterUpdate_answer |].
  destruct (@known_password_update_stores_the_patch Samples.sampleCipher
              Samples.sampleBase64 CredentialFacts.sample_round_trip _ _ _ _ _ _ _ _ _
              afterUpdate_answer)
    as (key & cid & d & stored & header & secret & H).
  cbv zeta in H. destruct H as (_ & _ & Hstored & _ & _ & _ & Hafter).
  exists key, cid, stored. split; [exact Hstored |]. now rewrite Hafter.
Defined.

End CredentialRequestFacts.

(** ** Writes: who may make them, and what a refused one leaves behind *)

Module WriteFacts.
Import Datastore Auth TransactionFacts.

Section Writes.
Context {cipher : Cipher} {base64 : Base64}.

Lemma authorize_grants tx e now entityType method authReceived expected tx' e' :
  EntityType.methodRequiresCredentials entityType method = true ->
  Crud.authorize tx e now entityType method authReceived expected = (None, tx', e') ->
  presentsPassword (snapshot tx) authReceived expected /\ snapshot tx' = snapshot tx.
Proof.
  intros Hrequired. unfold Crud.authorize. rewrite Hrequired.
  destruct (validateAuthHeader tx e now authReceived (Some expected) None false)
    as [responseInfo st] eqn:Hcheck.
  intros [= -> <- _].
  apply HeaderFacts.validateAuthHeader_accepts in Hcheck
    as (header & id & secret & c & tx1 & -> & Hwf & Hexpected & Hc & Hsecret & ->).
  rewrite <- (Hexpected expected eq_refl) in *.
  apply ResetFacts.getCredential_some in Hc as (key & cid & Hkey & Hcreds & _ & H).
  split; [| apply H].
  exists header, secret, key, cid, (data c).
  exact (conj eq_refl (conj Hwf (conj Hkey (conj Hcreds Hsecret)))).
Qed.

Lemma authorize_refuses tx e now entityType method authReceived expected r tx' e' :
  Crud.authorize tx e now entityType method authReceived expected = (Some r, tx', e') ->
  status r = 400%Z \/ status r = 401%Z \/ status r = 403%Z \/ status r = 404%Z.
Proof.
  unfold Crud.authorize.
  destruct (EntityType.methodRequiresCredentials entityType method); [| intros [=]].
  destruct (validateAuthHeader tx e now authReceived (Some expected) None false)
    as [responseInfo st] eqn:Hcheck.
  intros [= -> _ _]. revert Hcheck. unfold validateAuthHeader.
  repeat match goal with
         | |- context [match ?x with _ => _ end] =>
             lazymatch x with
             | getCredential _ _ => fail
             | passwordsMatch _ _ _ => fail
             | _ => destruct x eqn:?
             end
         end; try (intros [= <- _]; cbn; tauto).
  all: try match goal with
       | |- context [getCredential ?t ?i] => destruct (getCredential t i) as [[?|] ?]
       end.
  all: try destruct (passwordsMatch _ _ _) as [[[|] ?] ?];
    cbn [negb]; intros [= <- _]; cbn; tauto.
Qed.

Lemma authorize_snapshot tx e now entityType method authReceived expected :
  snapshot (Crud.authorize tx e now entityType method authReceived expected).1.2
  = snapshot tx.
Proof. apply authorize_extends. Qed.

Lemma finish_outcome tx w e success :
  let r := Crud.finish tx w e success in
  (r.1 = Crud.SERVER_ERROR /\ Crud.store r.2 = snapshot tx) \/
  (r.1 = success /\ commit tx = Some (Crud.store r.2)).
Proof.
  cbv zeta. unfold Crud.finish. destruct (commit tx) as [s'|]; [now right | now left].
Qed.

Lemma getTeacherOfProject_owner tx ancestorId entityId owner tx' :
  getTeacherOfProject tx ancestorId = (Some owner, tx') ->
  Crud.ownerOf (snapshot tx) (Crud.Observations ancestorId) entityId = Some owner /\
  snapshot tx' = snapshot tx.
Proof.
  unfold getTeacherOfProject, Crud.ownerOf.
  destruct (JS.parseInt ancestorId) as [key|]; [| intros [=]].
  unfold getProject, remote. destruct (failsNow tx); [intros [=] |].
  destruct (projects (snapshot tx) !! key) as [project|]; intros [= <- <-].
  now split.
Qed.

Lemma getTeacherOfProject_snapshot tx ancestorId :
  snapshot (getTeacherOfProject tx ancestorId).2 = snapshot tx.
Proof. apply getTeacherOfProject_extends. Qed.

Lemma deleteObservationsOfProject_snapshot tx (b : gmap string string) projectKey :
  snapshot (BatchDelete.deleteObservationsOfProject tx b projectKey).1.2 = snapshot tx.
Proof.
  unfold BatchDelete.deleteObservationsOfProject, runQueryObservations, remote.
  destruct (failsNow tx); [reflexivity |].
  now destruct (BatchDelete.deleteObservationImages _ _ _ _).
Qed.

Lemma deleteProjectSubtrees_snapshot projects :
  forall tx (b : gmap string string) projectKeys,
    snapshot (BatchDelete.deleteProjectSubtrees tx b projects projectKeys).1.1
    = snapshot tx.
Proof.
  induction projects as [|project rest IH]; intros tx b projectKeys; [reflexivity |].
  cbn [BatchDelete.deleteProjectSubtrees].
  destruct (Storage.deleteImage b _) as [ok b1].
  pose proof (deleteObservationsOfProject_snapshot tx b1 project.1) as H.
  destruct (BatchDelete.deleteObservationsOfProject tx b1 project.1) as [[ok' tx1] b2].
  cbn [fst snd] in H. now rewrite IH.
Qed.

Lemma deleteProjectsOfTeacher_snapshot tx (b : gmap string string) teacherId :
  snapshot (BatchDelete.deleteProjectsOfTeacher tx b teacherId).1.2 = snapshot tx.
Proof.
  unfold BatchDelete.deleteProjectsOfTeacher, runQueryProjects, remote.
  destruct (failsNow tx); [reflexivity |].
  pose proof (deleteProjectSubtrees_snapshot (projectsOf (snapshot tx) teacherId)
                (record tx (QueryProjects teacherId)) b []) as H.
  destruct (BatchDelete.deleteProjectSubtrees _ _ _ _) as [[tx2 b'] keys].
  exact H.
Qed.

Lemma deleteCredential_snapshot tx teacherId :
  snapshot (deleteCredential tx teacherId).2 = snapshot tx.
Proof.
  unfold deleteCredential.
  pose proof (getCredential_extends tx teacherId) as H.
  destruct (getCredential tx teacherId) as [[c|] tx1]; [| apply H].
  destruct (datastoreKey c) as [[key id]|]; apply H.
Qed.

Ltac chain :=
  repeat match goal with x := _ |- _ => subst x end;
  unfold rollback in *;
  cbn [Crud.store fst snd snapshot record begin] in *; congruence.

Ltac unchanged := left; split; [chain | cbn; discriminate].

Lemma status_refused (r : ServerResponse) :
  status r = 400%Z \/ status r = 401%Z \/ status r = 403%Z \/ status r = 404%Z ->
  status r <> 200%Z /\ status r <> 201%Z /\ status r <> 204%Z.
Proof. intros [-> | [-> | [-> | ->]]]; repeat split; discriminate. Qed.

Lemma deleteEntity_outcome w faults now collection entityId authReceived :
  let r := Crud.deleteEntity w faults now collection entityId authReceived in
  (Crud.store r.2 = Crud.store w /\ status r.1 <> 204%Z) \/
  (r.1 = Crud.NO_CONTENT /\
   exists owner,
     Crud.ownerOf (Crud.store w) collection entityId = Some owner /\
     presentsPassword (Crud.store w) authReceived owner).
Proof.
  cbv zeta. unfold Crud.deleteEntity.
  destruct (JS.parseInt entityId) as [id|] eqn:Hid; [| unchanged].
  set (tx := begin (Crud.store w) faults).
  destruct collection as [| |ancestorId].
  - unfold getTeacher, remote. destruct (failsNow tx); [unchanged |].
    destruct (teachers (snapshot tx) !! id) as [entity|]; [| unchanged].
    set (tx1 := record tx (GetTeacher id)).
    destruct (Crud.authorize tx1 _ _ _ _ _ _) as [[[responseInfo|] tx2] e1] eqn:Hauth.
    + pose proof (authorize_snapshot tx1 (Crud.entropy w) now
                    Constants.COLLECTIONS.roots.teachers Constants.DELETE authReceived
                    entityId) as S2.
      cbn [Crud.entityTypeOf] in Hauth. rewrite Hauth in S2. cbn [fst snd] in S2.
      apply authorize_refuses, status_refused in Hauth as (_ & _ & Hstatus).
      left. split; [chain | exact Hstatus].
    + apply authorize_grants in Hauth as [Hpassword S2]; [| reflexivity].
      pose proof (deleteProjectsOfTeacher_snapshot tx2
                    (Crud.deleteEntityImage (Crud.bucket w) (Teacher.profile_photo entity))
                    entityId) as S3.
      destruct (BatchDelete.deleteProjectsOfTeacher tx2 _ entityId) as [[ok tx3] b2].
      pose proof (deleteCredential_snapshot tx3 entityId) as S4.
      destruct (deleteCredential tx3 entityId) as [ok' tx4]. cbn [fst snd] in S3, S4.
      match goal with |- context [Crud.finish ?t ?w' ?e ?r] =>
        destruct (finish_outcome t w' e r) as [[-> ->] | [-> _]] end.
      * left. split; [chain | discriminate].
      * right. split; [reflexivity |]. exists entityId. split; [reflexivity | exact Hpassword].
  - unfold getProject, remote. destruct (failsNow tx); [unchanged |].
    destruct (projects (snapshot tx) !! id) as [entity|] eqn:Hentity; [| unchanged].
    set (tx1 := record tx (GetProject id)).
    destruct (Crud.authorize tx1 _ _ _ _ _ _) as [[[responseInfo|] tx2] e1] eqn:Hauth.
    + pose proof (authorize_snapshot tx1 (Crud.entropy w) now
                    Constants.COLLECTIONS.roots.projects Constants.DELETE authReceived
                    (Project.teacher_id entity)) as S2.
      cbn [Crud.entityTypeOf] in Hauth. rewrite Hauth in S2. cbn [fst snd] in S2.
      apply authorize_refuses, status_refused in Hauth as (_ & _ & Hstatus).
      left. split; [chain | exact Hstatus].
    + apply authorize_grants in Hauth as [Hpassword S2]; [| reflexivity].
      pose proof (deleteObservationsOfProject_snapshot tx2
                    (Crud.deleteEntityImage (Crud.bucket w)
                       (url (Project.description_image entity))) id) as S3.
      destruct (BatchDelete.deleteObservationsOfProject tx2 _ id) as [[ok tx3] b2].
      cbn [fst snd] in S3.
      match goal with |- context [Crud.finish ?t ?w' ?e ?r] =>
        destruct (finish_outcome t w' e r) as [[-> ->] | [-> _]] end.
      * left. split; [chain | discriminate].
      * right. split; [reflexivity |]. exists (Project.teacher_id entity).
        split; [| exact Hpassword].
        unfold Crud.ownerOf. rewrite Hid. cbn [snapshot tx begin] in Hentity.
        now rewrite Hentity.
  - destruct (JS.parseInt ancestorId) as [ancestorKey|] eqn:Hkey; [| unchanged].
    unfold getObservation, remote. destruct (failsNow tx); [unchanged |].
    destruct (observations (snapshot tx) !! (ancestorKey, id)) as [entity|];
      [| unchanged].
    set (tx1 := record tx (GetObservation ancestorKey id)).
    pose proof (getTeacherOfProject_snapshot tx1 ancestorId) as S2.
    destruct (getTeacherOfProject tx1 ancestorId) as [[owner|] tx2] eqn:Howner;
      cbn [snd] in S2; [| unchanged].
    apply (getTeacherOfProject_owner tx1 ancestorId entityId) in Howner as [Howner _].
    destruct (Crud.authorize tx2 _ _ _ _ _ _) as [[[responseInfo|] tx3] e1] eqn:Hauth.
    + pose proof (authorize_snapshot tx2 (Crud.entropy w) now
                    Constants.COLLECTIONS.children.observations Constants.DELETE
                    authReceived owner) as S3.
      cbn [Crud.entityTypeOf] in Hauth. rewrite Hauth in S3. cbn [fst snd] in S3.
      apply authorize_refuses, status_refused in Hauth as (_ & _ & Hstatus).
      left. split; [chain | exact Hstatus].
    + apply authorize_grants in Hauth as [Hpassword S3]; [| reflexivity].
      set (tx4 := record tx3 (DeleteKeys [ObservationKey ancestorKey id])).
      destruct (DataNumber.processDeletedObservation tx4 ancestorId entityId _)
        as [result tx5] eqn:Hprocess.
      apply MaintainerFacts.processDeletedObservation_spec in Hprocess
        as (writes & H5 & _).
      assert (S5 : snapshot tx5 = snapshot tx3) by apply H5.
      destruct result as [[|]|]; try unchanged.
      match goal with |- context [Crud.finish ?t ?w' ?e ?r] =>
        destruct (finish_outcome t w' e r) as [[-> ->] | [-> _]] end.
      * left. split; [chain | discriminate].
      * right. split; [reflexivity |]. exists owner. split; [exact Howner |].
        now rewrite S2 in Hpassword.
Qed.

Lemma VALIDATE_IMAGE_url value :
  Constants.VALIDATE_IMAGE value = true ->
  exists fields imageUrl,
    value = VObject fields /\ lookupField "url" fields = VString imageUrl.
Proof.
  unfold Constants.VALIDATE_IMAGE.
  destruct (Constants.VALIDATE_EMBEDDED_OBJECT value) eqn:Hobj; cbn [negb];
    [| discriminate].
  destruct (Nat.eqb (keysLength value) 3); cbn [negb]; [| discriminate].
  destruct (Constants.VALIDATE_STRING (getProp value "title")); cbn [negb];
    [| discriminate].
  destruct (Constants.VALIDATE_STRING (getProp value "url")) eqn:Hurl; cbn [negb];
    [| discriminate].
  intros _. apply SecretQuestionFacts.VALIDATE_STRING_spec in Hurl as (imageUrl & Hurl & _).
  destruct value as [| | | | |items|fields]; try discriminate.
  now exists fields, imageUrl.
Qed.

Lemma required_valid entityData props prop :
  EntityType.validateProperties entityData props = true ->
  In prop props -> EntityType.required prop = true ->
  EntityType.validator prop (lookupField (EntityType.name prop) entityData) = true.
Proof.
  intros Hvalid Hin Hrequired.
  destruct (EntityType.validator prop _) eqn:Hv; [reflexivity |].
  rewrite (PasswordFacts.validateProperties_refused entityData props prop Hin
             (or_introl Hrequired) Hv) in Hvalid.
  discriminate.
Qed.

Lemma getImageUrl_project entityData :
  EntityType.validateProperties entityData Constants.projectCreateProperties = true ->
  Crud.getImageUrl entityData Constants.COLLECTIONS.roots.projects
  = Some (url (Project.description_image (Crud.projectOf entityData))).
Proof.
  intros Hvalid.
  pose proof (required_valid entityData _
                (EntityType.mkProperty "description_image" Constants.VALIDATE_IMAGE true)
                Hvalid) as Himage.
  cbn [EntityType.validator EntityType.name EntityType.required] in Himage.
  destruct (VALIDATE_IMAGE_url _ (Himage ltac:(simpl; tauto) eq_refl))
    as (fields & imageUrl & Hfields & Hurl).
  unfold Crud.getImageUrl, Crud.projectOf, Crud.imageOf.
  cbn [EntityType.getImageLocation EntityType.imageLocation
       Constants.COLLECTIONS.roots.projects Crud.followPath getProp
       Project.description_image url].
  rewrite Hfields. cbn [getProp]. now rewrite Hurl.
Qed.

Lemma getImageUrl_observation entityData :
  EntityType.validateProperties entityData Constants.observationCreateProperties = true ->
  Crud.getImageUrl entityData Constants.COLLECTIONS.children.observations
  = Some (url (Observation.data_image (Crud.observationOf entityData))).
Proof.
  intros Hvalid.
  pose proof (required_valid entityData _
                (EntityType.mkProperty "data_image" Constants.VALIDATE_IMAGE true)
                Hvalid) as Himage.
  cbn [EntityType.validator EntityType.name EntityType.required] in Himage.
  destruct (VALIDATE_IMAGE_url _ (Himage ltac:(simpl; tauto) eq_refl))
    as (fields & imageUrl & Hfields & Hurl).
  unfold Crud.getImageUrl, Crud.observationOf, Crud.imageOf.
  cbn [EntityType.getImageLocation EntityType.imageLocation
       Constants.COLLECTIONS.children.observations Crud.followPath getProp
       Observation.data_image url].
  rewrite Hfields. cbn [getProp]. now rewrite Hurl.
Qed.

Lemma newProjectId_fresh s : projects s !! newProjectId s = None.
Proof.
  destruct (projects s !! newProjectId s) as [p|] eqn:H; [| reflexivity].
  apply elem_of_map_to_list in H.
  assert (Hin : In (newProjectId s) (map fst (map_to_list (projects s)))).
  { apply in_map_iff. exists (newProjectId s, p). split; [reflexivity |].
    now apply list_elem_of_In. }
  eapply or_introl, in_or_app, StoreFacts.allocateId_above in Hin.
  unfold newProjectId in Hin at 1. apply N.lt_irrefl in Hin. contradiction.
Qed.

Lemma postProject_outcome w faults credentialSaveFails now entityData authReceived :
  let r := Crud.postEntity w faults credentialSaveFails now entityData Crud.Projects
             authReceived in
  let owner := asString (lookupField "teacher_id" entityData) in
  let id := newProjectId (Crud.store w) in
  Crud.bucket r.2 = Crud.bucket w /\
  ((Crud.store r.2 = Crud.store w /\ status r.1 <> 201%Z) \/
   (r.1 = mkServerResponse 201 (IdAndSelf id) /\
    presentsPassword (Crud.store w) authReceived owner /\
    (exists key teacher,
       JS.parseInt owner = Some key /\ teachers (Crud.store w) !! key = Some teacher) /\
    Storage.validateImageUrl (Crud.bucket w)
      (url (Project.description_image (Crud.projectOf entityData))) = true /\
    projects (Crud.store w) !! id = None /\
    Crud.store r.2
    = setProjects (Crud.store w)
        (<[id := Crud.projectOf entityData]> (projects (Crud.store w))))).
Proof.
  cbv zeta. unfold Crud.postEntity.
  destruct (EntityType.validateProperties entityData _) eqn:Hvalid; cbn [negb];
    [| split; [reflexivity | unchanged]].
  cbn [Crud.entityTypeOf EntityType.createProperties
       Constants.COLLECTIONS.roots.projects] in Hvalid.
  cbn [Crud.entityTypeOf]. rewrite (getImageUrl_project entityData Hvalid).
  destruct (Storage.validateImageUrl (Crud.bucket w) _) eqn:Himage; cbn [negb];
    [| split; [reflexivity | unchanged]].
  set (tx := begin (Crud.store w) faults).
  destruct (teacherExists tx _) as [[|] tx1] eqn:Hteacher; cbn [negb];
    [| split; [reflexivity | unchanged]].
  apply ResetFacts.teacherExists_true in Hteacher as (key & teacher & Hkey & Hthere & H1).
  destruct (Crud.authorize tx1 _ _ _ _ _ _) as [[[responseInfo|] tx2] e1] eqn:Hauth.
  - pose proof (authorize_snapshot tx1 (Crud.entropy w) now
                  Constants.COLLECTIONS.roots.projects Constants.POST authReceived
                  (asString (lookupField "teacher_id" entityData))) as S2.
    cbn [Crud.entityTypeOf] in Hauth. rewrite Hauth in S2. cbn [fst snd] in S2.
    apply authorize_refuses, status_refused in Hauth as (_ & Hstatus & _).
    assert (S1 : snapshot tx1 = Crud.store w) by apply H1.
    split; [reflexivity |]. left. split; [chain | exact Hstatus].
  - pose proof (authorize_extends tx1 (Crud.entropy w) now
                  Constants.COLLECTIONS.roots.projects Constants.POST authReceived
                  (asString (lookupField "teacher_id" entityData))) as H2.
    cbn [Crud.entityTypeOf] in Hauth. rewrite Hauth in H2. cbn [fst snd] in H2.
    apply authorize_grants in Hauth as [Hpassword S2]; [| reflexivity].
    assert (S1 : snapshot tx1 = Crud.store w) by apply H1.
    rewrite S1 in Hpassword.
    replace (snapshot tx2) with (Crud.store w) by congruence.
    set (project := Crud.projectOf entityData).
    pose proof (extends_reads _ _ _ _ H1
                  (extends_reads _ _ _ _ H2
                     (extends_record_write tx2 (SaveNewProject project) eq_refl))) as H3.
    match goal with |- context [Crud.finish ?t ?w' ?e ?r] =>
      destruct (finish_outcome t w' e r) as [[Hr Hs] | [Hr Hs]];
      assert (Hb : Crud.bucket (Crud.finish t w' e r).2 = Crud.bucket w)
        by (unfold Crud.finish; now destruct (commit t))
    end.
    + split; [exact Hb |]. left. rewrite Hr, Hs. split; [chain | discriminate].
    + split; [exact Hb |]. right. rewrite Hr.
      apply (commit_extends _ _ _ _ _ H3) in Hs. cbn [foldl applyCall] in Hs.
      split; [reflexivity |]. split; [exact Hpassword |].
      split; [now exists key, teacher |]. split; [reflexivity |].
      split; [apply newProjectId_fresh | exact Hs].
Qed.

Lemma postObservation_outcome w faults credentialSaveFails now entityData ancestorId
    authReceived :
  let r := Crud.postEntity w faults credentialSaveFails now entityData
             (Crud.Observations ancestorId) authReceived in
  Crud.bucket r.2 = Crud.bucket w /\
  ((Crud.store r.2 = Crud.store w /\ status r.1 <> 201%Z) \/
   (exists key owner,
      JS.parseInt ancestorId = Some key /\
      Crud.ownerOf (Crud.store w) (Crud.Observations ancestorId) "" = Some owner /\
      r.1 = mkServerResponse 201 (IdAndSelf (newObservationId (Crud.store w) key)) /\
      presentsPassword (Crud.store w) authReceived owner /\
      Storage.validateImageUrl (Crud.bucket w)
        (url (Observation.data_image (Crud.observationOf entityData))) = true)).
Proof.
  cbv zeta. unfold Crud.postEntity.
  destruct (EntityType.validateProperties entityData _) eqn:Hvalid; cbn [negb];
    [| split; [reflexivity | unchanged]].
  cbn [Crud.entityTypeOf EntityType.createProperties
       Constants.COLLECTIONS.children.observations] in Hvalid.
  cbn [Crud.entityTypeOf]. rewrite (getImageUrl_observation entityData Hvalid).
  destruct (Storage.validateImageUrl (Crud.bucket w) _) eqn:Himage; cbn [negb];
    [| split; [reflexivity | unchanged]].
  destruct (JS.parseInt ancestorId) as [key|] eqn:Hkey;
    [| split; [reflexivity | unchanged]].
  set (tx := begin (Crud.store w) faults).
  pose proof (getAncestorData_extends tx key) as H1.
  destruct (getAncestorData tx key) as [[p|] tx1] eqn:Hanc; cbn [snd] in H1;
    [| split; [reflexivity |]; assert (S1 : snapshot tx1 = Crud.store w) by apply H1;
       unchanged].
  assert (S1 : snapshot tx1 = Crud.store w) by apply H1.
  apply getAncestorData_found in Hanc. cbn [snapshot begin tx] in Hanc.
  destruct (Crud.authorize tx1 _ _ _ _ _ _) as [[[responseInfo|] tx2] e1] eqn:Hauth.
  - pose proof (authorize_snapshot tx1 (Crud.entropy w) now
                  Constants.COLLECTIONS.children.observations Constants.POST authReceived
                  (Project.teacher_id p)) as S2.
    rewrite Hauth in S2. cbn [fst snd] in S2.
    apply authorize_refuses, status_refused in Hauth as (_ & Hstatus & _).
    split; [reflexivity |]. left. split; [chain | exact Hstatus].
  - pose proof (authorize_snapshot tx1 (Crud.entropy w) now
                  Constants.COLLECTIONS.children.observations Constants.POST authReceived
                  (Project.teacher_id p)) as S2.
    rewrite Hauth in S2. cbn [fst snd] in S2.
    apply authorize_grants in Hauth as [Hpassword _]; [| reflexivity].
    rewrite S1 in Hpassword.
    set (observation := Crud.observationOf entityData).
    set (tx3 := record tx2 (SaveNewObservation key observation)).
    destruct (DataNumber.processPostedObservation tx3 key (DataNumber.ProjectData p) _)
      as [result tx4]
      eqn:Hprocess.
    apply MaintainerFacts.processPostedObservation_spec in Hprocess
      as (writes & H4 & _).
    assert (S4 : snapshot tx4 = Crud.store w).
    { transitivity (snapshot tx3); [apply H4 |]. subst tx3. cbn [snapshot record].
      congruence. }
    destruct result as [[|]|]; try (split; [reflexivity | unchanged]).
    rewrite S4.
    match goal with |- context [Crud.finish ?t ?w' ?e ?r] =>
      destruct (finish_outcome t w' e r) as [[Hr Hs] | [Hr Hs]];
      assert (Hb : Crud.bucket (Crud.finish t w' e r).2 = Crud.bucket w)
        by (unfold Crud.finish; now destruct (commit t))
    end.
    + split; [exact Hb |]. left. rewrite Hr, Hs. split; [exact S4 | discriminate].
    + split; [exact Hb |]. right. exists key, (Project.teacher_id p).
      split; [reflexivity |]. split; [unfold Crud.ownerOf; now rewrite Hkey, Hanc |].
      split; [exact Hr |]. split; [exact Hpassword | reflexivity].
Qed.

Lemma replaceImage_shrinks (b : gmap string string) oldImageUrl newImageUrl b' :
  Crud.replaceImage b oldImageUrl newImageUrl = Some b' ->
  b' ⊆ b /\
  forall newUrl, newImageUrl = Some newUrl -> newUrl <> oldImageUrl ->
                 Storage.validateImageUrl b newUrl = true.
Proof.
  unfold Crud.replaceImage. destruct newImageUrl as [newUrl|];
    [| intros [= <-]; split; [reflexivity | intros ? [=]]].
  destruct (String.eqb_spec newUrl oldImageUrl) as [-> | Hne]; cbn [negb].
  - intros [= <-]. split; [reflexivity |]. intros ? [= <-] Hdiff. contradiction.
  - destruct (Storage.validateImageUrl b newUrl) eqn:Hvalid; cbn [negb]; [| discriminate].
    destruct (String.eqb oldImageUrl Constants.DEFAULT_PROFILE_PHOTO); cbn [negb];
      intros [= <-]; (split; [| now intros ? [= <-] _]).
    + reflexivity.
    + apply ImageFacts.deleteImage_shrinks.
Qed.

Lemma updateEntity_outcome w faults now entityPatches ancestorId entityId authReceived :
  let r := Crud.updateEntity w faults now entityPatches ancestorId entityId
             authReceived in
  Crud.bucket r.2 ⊆ Crud.bucket w /\
  ((Crud.store r.2 = Crud.store w /\ status r.1 <> 200%Z) \/
   (exists key id entity owner,
      JS.parseInt ancestorId = Some key /\ JS.parseInt entityId = Some id /\
      observations (Crud.store w) !! (key, id) = Some entity /\
      Crud.ownerOf (Crud.store w) (Crud.Observations ancestorId) entityId = Some owner /\
      r.1 = mkServerResponse 200 (IdAndSelf id) /\
      presentsPassword (Crud.store w) authReceived owner /\
      forall newUrl,
        Crud.getImageUrl entityPatches Constants.COLLECTIONS.children.observations
        = Some newUrl ->
        newUrl <> url (Observation.data_image entity) ->
        Storage.validateImageUrl (Crud.bucket w) newUrl = true)).
Proof.
  cbv zeta. unfold Crud.updateEntity.
  destruct (EntityType.validateProperties entityPatches _); cbn [negb];
    [| split; [reflexivity | unchanged]].
  destruct (JS.parseInt ancestorId) as [key|] eqn:Hkey;
    [| split; [reflexivity | unchanged]].
  destruct (JS.parseInt entityId) as [id|] eqn:Hid;
    [| split; [reflexivity | unchanged]].
  set (tx := begin (Crud.store w) faults).
  unfold getObservation, remote. destruct (failsNow tx);
    [split; [reflexivity | unchanged] |].
  destruct (observations (snapshot tx) !! (key, id)) as [entity|] eqn:Hentity;
    [| split; [reflexivity | unchanged]].
  cbn [snapshot tx begin] in Hentity.
  set (tx1 := record tx (GetObservation key id)).
  pose proof (getTeacherOfProject_snapshot tx1 ancestorId) as S2.
  destruct (getTeacherOfProject tx1 ancestorId) as [[owner|] tx2] eqn:Howner;
    cbn [snd] in S2; [| split; [reflexivity | unchanged]].
  apply (getTeacherOfProject_owner tx1 ancestorId entityId) in Howner as [Howner _].
  cbn [snapshot tx1 record tx begin] in Howner, S2.
  destruct (Crud.authorize tx2 _ _ _ _ _ _) as [[[responseInfo|] tx3] e1] eqn:Hauth.
  - pose proof (authorize_snapshot tx2 (Crud.entropy w) now
                  Constants.COLLECTIONS.children.observations Constants.PATCH authReceived
                  owner) as S3.
    rewrite Hauth in S3. cbn [fst snd] in S3.
    apply authorize_refuses, status_refused in Hauth as (Hstatus & _).
    split; [reflexivity |]. left. split; [chain | exact Hstatus].
  - pose proof (authorize_snapshot tx2 (Crud.entropy w) now
                  Constants.COLLECTIONS.children.observations Constants.PATCH authReceived
                  owner) as S3.
    rewrite Hauth in S3. cbn [fst snd] in S3.
    apply authorize_grants in Hauth as [Hpassword _]; [| reflexivity].
    rewrite S2 in Hpassword.
    destruct (Crud.replaceImage _ _ _) as [bucket'|] eqn:Hreplace;
      [| split; [reflexivity | unchanged]].
    apply replaceImage_shrinks in Hreplace as [Hsub Hnew].
    set (entity' := Crud.patchObservation entity entityPatches).
    set (tx4 := record tx3 (SaveObservation key id entity')).
    assert (S4 : snapshot tx4 = Crud.store w) by (subst tx4; cbn; congruence).
    assert (Hfinish : forall t, snapshot t = Crud.store w ->
      let r := Crud.finish t (Crud.mkWorld (Crud.store w) bucket' e1) e1
                 (mkServerResponse 200 (IdAndSelf id)) in
      Crud.bucket r.2 ⊆ Crud.bucket w /\
      ((Crud.store r.2 = Crud.store w /\ status r.1 <> 200%Z) \/
       r.1 = mkServerResponse 200 (IdAndSelf id))).
    { intros t St. cbv zeta. unfold Crud.finish. destruct (commit t);
        (split; [exact Hsub |]); [now right | left]. split; [exact St | discriminate]. }
    assert (Hdone : forall r : ServerResponse * Crud.World,
      Crud.bucket r.2 ⊆ Crud.bucket w /\
      ((Crud.store r.2 = Crud.store w /\ status r.1 <> 200%Z) \/
       r.1 = mkServerResponse 200 (IdAndSelf id)) ->
      Crud.bucket r.2 ⊆ Crud.bucket w /\
      ((Crud.store r.2 = Crud.store w /\ status r.1 <> 200%Z) \/
       (exists key0 id0 entity0 owner0,
          Some key = Some key0 /\ Some id = Some id0 /\
          observations (Crud.store w) !! (key0, id0) = Some entity0 /\
          Crud.ownerOf (Crud.store w) (Crud.Observations ancestorId) entityId
          = Some owner0 /\
          r.1 = mkServerResponse 200 (IdAndSelf id0) /\
          presentsPassword (Crud.store w) authReceived owner0 /\
          forall newUrl,
            Crud.getImageUrl entityPatches Constants.COLLECTIONS.children.observations
            = Some newUrl ->
            newUrl <> url (Observation.data_image entity0) ->
            Storage.validateImageUrl (Crud.bucket w) newUrl = true))).
    { intros r [Hb [Hfail | Hok]]; (split; [exact Hb |]); [now left | right].
      exists key, id, entity, owner.
      exact (conj eq_refl (conj eq_refl (conj Hentity (conj Howner (conj Hok
               (conj Hpassword Hnew)))))). }
    destruct (includes "data_number" (map fst entityPatches)).
    + destruct (DataNumber.processUpdatedObservation tx4 ancestorId entityId _ _)
        as [result tx5] eqn:Hprocess.
      apply MaintainerFacts.processUpdatedObservation_spec in Hprocess
        as (writes & H5 & _).
      assert (S5 : snapshot tx5 = Crud.store w)
        by (transitivity (snapshot tx4); [apply H5 | exact S4]).
      destruct result as [[|]|];
        try (split; [exact Hsub | left; split; [exact S5 | discriminate]]).
      apply Hdone, Hfinish, S5.
    + apply Hdone, Hfinish, S4.
Qed.

(** X18. No write without the owner's password. A project is created only
    when the header carries the id named as [teacher_id] in the body and the
    password on file for that teacher; an observation is created or updated
    only with the id and password of the teacher who owns the project above
    it; a teacher, a project or an observation is deleted only with the id
    and password of its owner. *)
Theorem writes_present_the_owners_password w faults credentialSaveFails now
    (entityData : list (string * Value)) ancestorId entityId collection authReceived :
  (status (Crud.postEntity w faults credentialSaveFails now entityData Crud.Projects
             authReceived).1 = 201%Z ->
   presentsPassword (Crud.store w) authReceived
     (asString (lookupField "teacher_id" entityData))) /\
  (status (Crud.postEntity w faults credentialSaveFails now entityData
             (Crud.Observations ancestorId) authReceived).1 = 201%Z ->
   exists owner,
     Crud.ownerOf (Crud.store w) (Crud.Observations ancestorId) "" = Some owner /\
     presentsPassword (Crud.store w) authReceived owner) /\
  (status (Crud.updateEntity w faults now entityData ancestorId entityId
             authReceived).1 = 200%Z ->
   exists owner,
     Crud.ownerOf (Crud.store w) (Crud.Observations ancestorId) entityId = Some owner /\
     presentsPassword (Crud.store w) authReceived owner) /\
  (status (Crud.deleteEntity w faults now collection entityId authReceived).1 = 204%Z ->
   exists owner,
     Crud.ownerOf (Crud.store w) collection entityId = Some owner /\
     presentsPassword (Crud.store w) authReceived owner).
Proof.
  split; [| split; [| split]].
  - intros Hcreated.
    destruct (postProject_outcome w faults credentialSaveFails now entityData authReceived)
      as (_ & [(_ & Hne) | (_ & Hpassword & _)]); [contradiction | exact Hpassword].
  - intros Hcreated.
    destruct (postObservation_outcome w faults credentialSaveFails now entityData
                ancestorId authReceived)
      as (_ & [(_ & Hne) | (key & owner & _ & Howner & _ & Hpassword & _)]);
      [contradiction | now exists owner].
  - intros Hupdated.
    destruct (updateEntity_outcome w faults now entityData ancestorId entityId authReceived)
      as (_ & [(_ & Hne) | (key & id & entity & owner & _ & _ & _ & Howner & _
                            & Hpassword & _)]);
      [contradiction | now exists owner].
  - intros Hdeleted.
    destruct (deleteEntity_outcome w faults now collection entityId authReceived)
      as [(_ & Hne) | (_ & Hpassword)]; [contradiction | exact Hpassword].
Qed.

(** X19. A write that is not answered with its success code leaves the
    store exactly as it was: creating a project or an observation (201),
    updating an observation (200), deleting a teacher, a project or an
    observation (204). Creating never touches the bucket; updating can only
    remove files from it. *)
Theorem refused_write_changes_no_record w faults credentialSaveFails now
    (entityData : list (string * Value)) ancestorId entityId collection authReceived :
  let createdProject :=
    Crud.postEntity w faults credentialSaveFails now entityData Crud.Projects
      authReceived in
  let createdObservation :=
    Crud.postEntity w faults credentialSaveFails now entityData
      (Crud.Observations ancestorId) authReceived in
  let updated :=
    Crud.updateEntity w faults now entityData ancestorId entityId authReceived in
  let deleted := Crud.deleteEntity w faults now collection entityId authReceived in
  ((status createdProject.1 <> 201%Z -> Crud.store createdProject.2 = Crud.store w) /\
   Crud.bucket createdProject.2 = Crud.bucket w) /\
  ((status createdObservation.1 <> 201%Z ->
    Crud.store createdObservation.2 = Crud.store w) /\
   Crud.bucket createdObservation.2 = Crud.bucket w) /\
  ((status updated.1 <> 200%Z -> Crud.store updated.2 = Crud.store w) /\
   Crud.bucket updated.2 ⊆ Crud.bucket w) /\
  (status deleted.1 <> 204%Z -> Crud.store deleted.2 = Crud.store w).
Proof.
  cbv zeta. split; [| split; [| split]].
  - destruct (postProject_outcome w faults credentialSaveFails now entityData authReceived)
      as (Hb & [(Hs & _) | (Hr & _)]); (split; [| exact Hb]); [now intros _ |].
    intros Hne. rewrite Hr in Hne. now contradiction Hne.
  - destruct (postObservation_outcome w faults credentialSaveFails now entityData
                ancestorId authReceived)
      as (Hb & [(Hs & _) | (key & owner & _ & _ & Hr & _)]);
      (split; [| exact Hb]); [now intros _ |].
    intros Hne. rewrite Hr in Hne. now contradiction Hne.
  - destruct (updateEntity_outcome w faults now entityData ancestorId entityId authReceived)
      as (Hb & [(Hs & _) | (key & id & entity & owner & _ & _ & _ & _ & Hr & _)]);
      (split; [| exact Hb]); [now intros _ |].
    intros Hne. rewrite Hr in Hne. now contradiction Hne.
  - destruct (deleteEntity_outcome w faults now collection entityId authReceived)
      as [(Hs & _) | (Hr & _)]; [now intros _ |].
    intros Hne. rewrite Hr in Hne. now contradiction Hne.
Qed.

(** X20. A project is created exactly as sent. When the request is answered
    201, the teacher named in the body exists, the image URL of the body was
    accepted by [validateImageUrl], the id answered is one no project had, and
    the store afterwards is the store before with that one project added
    under that id: no other record is touched, and the counter of the new
    project is the number the client sent. *)
Theorem project_created_as_sent w faults credentialSaveFails now
    (entityData : list (string * Value)) authReceived :
  let r := Crud.postEntity w faults credentialSaveFails now entityData Crud.Projects
             authReceived in
  let id := newProjectId (Crud.store w) in
  status r.1 = 201%Z ->
  r.1 = mkServerResponse 201 (IdAndSelf id) /\
  (exists key teacher,
     JS.parseInt (asString (lookupField "teacher_id" entityData)) = Some key /\
     teachers (Crud.store w) !! key = Some teacher) /\
  Storage.validateImageUrl (Crud.bucket w)
    (url (Project.description_image (Crud.projectOf entityData))) = true /\
  projects (Crud.store w) !! id = None /\
  Crud.store r.2
  = setProjects (Crud.store w)
      (<[id := Crud.projectOf entityData]> (projects (Crud.store w))) /\
  ProjectDataNumber.number (Project.data_number (Crud.projectOf entityData))
  = asNumber (getProp (lookupField "data_number" entityData) "number").
Proof.
  cbv zeta. intros Hcreated.
  destruct (postProject_outcome w faults credentialSaveFails now entityData authReceived)
    as (_ & [(_ & Hne) | (Hr & _ & Hteacher & Himage & Hfresh & Hstore)]);
    [contradiction |].
  repeat split; assumption.
Qed.

(** X21. An observation is created only with an image that has been
    checked: when the request is answered 201, the project named in the
    route exists, the id answered is the one allocated under it, and the
    URL kept in [data_image] is one that [validateImageUrl] accepted at the
    time of the request. *)
Theorem observation_created_with_a_checked_image w faults credentialSaveFails now
    (entityData : list (string * Value)) ancestorId authReceived :
  let r := Crud.postEntity w faults credentialSaveFails now entityData
             (Crud.Observations ancestorId) authReceived in
  status r.1 = 201%Z ->
  exists key,
    JS.parseInt ancestorId = Some key /\
    is_Some (projects (Crud.store w) !! key) /\
    r.1 = mkServerResponse 201 (IdAndSelf (newObservationId (Crud.store w) key)) /\
    Storage.validateImageUrl (Crud.bucket w)
      (url (Observation.data_image (Crud.observationOf entityData))) = true.
Proof.
  cbv zeta. intros Hcreated.
  destruct (postObservation_outcome w faults credentialSaveFails now entityData
              ancestorId authReceived)
    as (_ & [(_ & Hne) | (key & owner & Hkey & Howner & Hr & _ & Himage)]);
    [contradiction |].
  exists key. refine (conj Hkey (conj _ (conj Hr Himage))).
  unfold Crud.ownerOf in Howner. rewrite Hkey in Howner.
  destruct (projects (Crud.store w) !! key); [eauto | discriminate].
Qed.

(** *** What a deleted project takes with it *)

Lemma deleteObservationKeys_spec projectKey (listed : list (N * Observation.t)) :
  forall s,
    let s' := foldl deleteKey s
                (map (fun o : N * Observation.t => ObservationKey projectKey o.1) listed) in
    teachers s' = teachers s /\ credentials s' = credentials s /\
    projects s' = projects s /\
    forall p o,
      observations s' !! (p, o)
      = if decide (p = projectKey /\ o ∈ map fst listed) then None
        else observations s !! (p, o).
Proof.
  induction listed as [|first rest IH]; intros s; cbv zeta.
  - simpl. repeat split. intros p o. rewrite decide_False; [reflexivity |].
    intros [_ H]. now apply elem_of_nil in H.
  - cbn [map foldl].
    destruct (IH (deleteKey s (ObservationKey projectKey first.1)))
      as (Ht & Hc & Hp & Ho).
    cbv zeta in Ho. split; [exact Ht |]. split; [exact Hc |]. split; [exact Hp |].
    intros p o. rewrite Ho. cbn [deleteKey setObservations observations].
    destruct (decide (p = projectKey /\ o ∈ map fst rest)) as [[-> Hin] | Hrest].
    + rewrite decide_True; [reflexivity |]. split; [reflexivity |].
      apply elem_of_cons. now right.
    + destruct (decide ((p, o) = (projectKey, first.1))) as [[= -> ->] | Hne].
      * rewrite lookup_delete_eq, decide_True; [reflexivity |].
        split; [reflexivity |]. apply elem_of_cons. now left.
      * rewrite lookup_delete_ne by congruence.
        rewrite decide_False; [reflexivity |].
        intros [-> Hin]. apply elem_of_cons in Hin as [-> | Hin];
          [now apply Hne | apply Hrest; now split].
Qed.

Lemma deleteObservationsOfProject_writes tx (b : gmap string string) projectKey :
  extends tx (BatchDelete.deleteObservationsOfProject tx b projectKey).1.2
    (if failsNow tx then []
     else [DeleteKeys
             (map (fun o : N * Observation.t => ObservationKey projectKey o.1)
                (observationsOf (snapshot tx) projectKey))]).
Proof.
  unfold BatchDelete.deleteObservationsOfProject, runQueryObservations, remote.
  destruct (failsNow tx).
  - cbn [fst snd]. now apply extends_record_read.
  - pose proof (CascadeEffectFacts.deleteObservationImages_spec projectKey
                  (observationsOf (snapshot tx) projectKey) b []) as H.
    cbv zeta in H.
    destruct (BatchDelete.deleteObservationImages b projectKey _ []) as [b' keys].
    cbn [fst snd] in *. destruct H as (-> & _).
    apply (extends_reads tx (record tx (QueryObservations projectKey)));
      [now apply extends_record_read | now apply extends_record_write].
Qed.

Lemma extends_outage tx tx' writes : extends tx tx' writes -> outage tx' = outage tx.
Proof. now intros (_ & H & _). Qed.

(** X22. What a deleted project takes with it. When the deletion of a
    project is answered 204, the project is gone from the store and nothing
    outside its subtree has changed: the teachers, the credentials, the other
    projects and the observations of other projects are as before. When in
    addition no call to the store failed, no observation of the project is
    left. *)
Theorem deleted_project_takes_its_subtree_only w faults now entityId authReceived :
  let r := Crud.deleteEntity w faults now Crud.Projects entityId authReceived in
  status r.1 = 204%Z ->
  exists id,
    JS.parseInt entityId = Some id /\
    projects (Crud.store r.2) = delete id (projects (Crud.store w)) /\
    teachers (Crud.store r.2) = teachers (Crud.store w) /\
    credentials (Crud.store r.2) = credentials (Crud.store w) /\
    (forall p o, p <> id ->
       observations (Crud.store r.2) !! (p, o) = observations (Crud.store w) !! (p, o)) /\
    ((forall n, faults n = false) ->
     forall o, observations (Crud.store r.2) !! (id, o) = None).
Proof.
  cbv zeta. unfold Crud.deleteEntity.
  destruct (JS.parseInt entityId) as [id|] eqn:Hid; [| cbn; discriminate].
  set (tx := begin (Crud.store w) faults).
  unfold getProject, remote. destruct (failsNow tx); [cbn; discriminate |].
  destruct (projects (snapshot tx) !! id) as [entity|] eqn:Hentity; [| cbn; discriminate].
  pose proof (extends_record_read tx (GetProject id) eq_refl) as E1.
  set (tx1 := record tx (GetProject id)) in *.
  pose proof (authorize_extends tx1 (Crud.entropy w) now
                Constants.COLLECTIONS.roots.projects Constants.DELETE authReceived
                (Project.teacher_id entity)) as E2.
  cbn [Crud.entityTypeOf].
  destruct (Crud.authorize tx1 _ _ _ _ _ _) as [[[responseInfo|] tx2] e1] eqn:Hauth.
  - apply authorize_refuses, status_refused in Hauth as (_ & _ & Hstatus).
    cbn [fst]. intros H. now contradiction Hstatus.
  - cbn [fst snd] in E2.
    pose proof (deleteObservationsOfProject_writes tx2
                  (Crud.deleteEntityImage (Crud.bucket w)
                     (url (Project.description_image entity))) id) as E3.
    destruct (BatchDelete.deleteObservationsOfProject tx2 _ id) as [[ok tx3] b2].
    cbn [fst snd] in E3.
    pose proof (extends_record_write tx3 (DeleteKeys [ProjectKey id]) eq_refl) as E4.
    pose proof (extends_trans _ _ _ _ _ (extends_reads _ _ _ _ (extends_reads _ _ _ _ E1 E2) E3)
                  E4) as E.
    match goal with |- context [Crud.finish ?t ?w' ?e ?r] =>
      destruct (finish_outcome t w' e r) as [[-> _] | [_ Hcommit]] end;
      [cbn; discriminate |].
    intros _. apply (commit_extends _ _ _ _ _ E) in Hcommit.
    rewrite Hcommit, foldl_app. cbn [foldl applyCall deleteKey]. exists id.
    assert (outage tx2 = faults) as Houtage
      by exact (extends_outage _ _ _ (extends_reads _ _ _ _ E1 E2)).
    assert (snapshot tx2 = Crud.store w) as Hsnapshot
      by exact (rollback_extends _ _ _ _ (extends_reads _ _ _ _ E1 E2)).
    unfold failsNow. rewrite Houtage, Hsnapshot.
    destruct (faults (length (log tx2))) eqn:Hfault; cbn [foldl applyCall].
    + cbn [setProjects projects teachers credentials observations].
      do 4 (split; [reflexivity |]). split; [now intros p o _ |].
      intros Hnone. now rewrite Hnone in Hfault.
    + destruct (deleteObservationKeys_spec id (observationsOf (Crud.store w) id)
                  (Crud.store w)) as (Ht & Hc & Hp & Ho).
      cbv zeta in Ho. cbn [setProjects projects teachers credentials observations].
      split; [reflexivity |]. split; [now rewrite Hp |]. split; [exact Ht |].
      split; [exact Hc |]. split.
      * intros p o Hne. rewrite Ho, decide_False; [reflexivity | now intros [? _]].
      * intros _ o. rewrite Ho.
        destruct (decide (id = id /\ o ∈ map fst (observationsOf (Crud.store w) id)))
          as [_ | Hout]; [reflexivity |].
        destruct (observations (Crud.store w) !! (id, o)) as [x|] eqn:Hx; [| reflexivity].
        contradiction Hout. split; [reflexivity |].
        apply list_elem_of_fmap. exists (o, x). split; [reflexivity |].
        now apply StoreFacts.elem_of_childrenOf.
Qed.

(** *** What a deleted teacher takes with it *)

Lemma deleteKeys_spec keys :
  forall s,
    let s' := foldl deleteKey s keys in
    (forall t, (TeacherKey t ∈ keys -> teachers s' !! t = None) /\
               (TeacherKey t ∉ keys -> teachers s' !! t = teachers s !! t)) /\
    (forall t c, (CredentialKey t c ∈ keys -> credentials s' !! (t, c) = None) /\
                 (CredentialKey t c ∉ keys ->
                  credentials s' !! (t, c) = credentials s !! (t, c))) /\
    (forall p, (ProjectKey p ∈ keys -> projects s' !! p = None) /\
               (ProjectKey p ∉ keys -> projects s' !! p = projects s !! p)) /\
    (forall p o, (ObservationKey p o ∈ keys -> observations s' !! (p, o) = None) /\
                 (ObservationKey p o ∉ keys ->
                  observations s' !! (p, o) = observations s !! (p, o))).
Proof.
  assert (EqDecision Key) as Hdec
    by (unfold EqDecision, Decision; decide equality; apply N.eq_dec).
  induction keys as [|key rest IH]; intros s; cbv zeta.
  - simpl. repeat split; try reflexivity; intros H; now apply elem_of_nil in H.
  - cbn [foldl]. destruct (IH (deleteKey s key)) as (Ht & Hc & Hp & Ho).
    cbv zeta in Ht, Hc, Hp, Ho.
    split; [| split; [| split]].
    + intros t. destruct (Ht t) as [Hin Hout]. split.
      * intros H. destruct (decide (TeacherKey t ∈ rest)) as [Hrest | Hrest];
          [now apply Hin |].
        rewrite (Hout Hrest). apply elem_of_cons in H as [<- | H]; [| contradiction].
        cbn [deleteKey setTeachers teachers]. apply lookup_delete_eq.
      * intros H. apply not_elem_of_cons in H as [Hne Hrest]. rewrite (Hout Hrest).
        destruct key; cbn [deleteKey setTeachers setCredentials setProjects
                             setObservations teachers]; try reflexivity.
        apply lookup_delete_ne. congruence.
    + intros t c. destruct (Hc t c) as [Hin Hout]. split.
      * intros H. destruct (decide (CredentialKey t c ∈ rest)) as [Hrest | Hrest];
          [now apply Hin |].
        rewrite (Hout Hrest). apply elem_of_cons in H as [<- | H]; [| contradiction].
        cbn [deleteKey setCredentials credentials]. apply lookup_delete_eq.
      * intros H. apply not_elem_of_cons in H as [Hne Hrest]. rewrite (Hout Hrest).
        destruct key; cbn [deleteKey setTeachers setCredentials setProjects
                             setObservations credentials]; try reflexivity.
        apply lookup_delete_ne. congruence.
    + intros p. destruct (Hp p) as [Hin Hout]. split.
      * intros H. destruct (decide (ProjectKey p ∈ rest)) as [Hrest | Hrest];
          [now apply Hin |].
        rewrite (Hout Hrest). apply elem_of_cons in H as [<- | H]; [| contradiction].
        cbn [deleteKey setProjects projects]. apply lookup_delete_eq.
      * intros H. apply not_elem_of_cons in H as [Hne Hrest]. rewrite (Hout Hrest).
        destruct key; cbn [deleteKey setTeachers setCredentials setProjects
                             setObservations projects]; try reflexivity.
        apply lookup_delete_ne. congruence.
    + intros p o. destruct (Ho p o) as [Hin Hout]. split.
      * intros H. destruct (decide (ObservationKey p o ∈ rest)) as [Hrest | Hrest];
          [now apply Hin |].
        rewrite (Hout Hrest). apply elem_of_cons in H as [<- | H]; [| contradiction].
        cbn [deleteKey setObservations observations]. apply lookup_delete_eq.
      * intros H. apply not_elem_of_cons in H as [Hne Hrest]. rewrite (Hout Hrest).
        destruct key; cbn [deleteKey setTeachers setCredentials setProjects
                             setObservations observations]; try reflexivity.
        apply lookup_delete_ne. congruence.
Qed.

Lemma foldl_DeleteKeys batches :
  forall s, foldl applyCall s (map DeleteKeys batches) = foldl deleteKey s (concat batches).
Proof.
  induction batches as [|batch rest IH]; intros s; [reflexivity |].
  cbn [map foldl applyCall concat]. now rewrite IH, foldl_app.
Qed.

Lemma elem_of_projectsOf s teacherId k :
  k ∈ map fst (projectsOf s teacherId)
  <-> exists p, projects s !! k = Some p /\ Project.teacher_id p = teacherId.
Proof.
  unfold projectsOf. rewrite list_elem_of_fmap. split.
  - intros ([k' p] & -> & Hin). apply list_elem_of_In, filter_In in Hin as [Hin Hp].
    exists p. split; [now apply elem_of_map_to_list, list_elem_of_In |].
    now apply String.eqb_eq.
  - intros (p & Hp & Hid). exists (k, p). split; [reflexivity |].
    apply list_elem_of_In, filter_In. split; [| now apply String.eqb_eq].
    now apply list_elem_of_In, elem_of_map_to_list.
Qed.

(** The loop of [deleteProjectsOfTeacher]: the keys it collects, and the
    batches of observation keys it has buffered for deletion. *)
Lemma deleteProjectSubtrees_writes (listed : list (N * Project.t)) :
  forall tx (b : gmap string string) projectKeys,
    let r := BatchDelete.deleteProjectSubtrees tx b listed projectKeys in
    r.2 = projectKeys ++ map (fun p : N * Project.t => ProjectKey p.1) listed /\
    exists batches,
      extends tx r.1.1 (map DeleteKeys batches) /\
      (forall key, key ∈ concat batches ->
         exists p o, key = ObservationKey p o /\ p ∈ map fst listed) /\
      ((forall n, outage tx n = false) ->
       forall p o x,
         p ∈ map fst listed -> observations (snapshot tx) !! (p, o) = Some x ->
         ObservationKey p o ∈ concat batches).
Proof.
  induction listed as [|project rest IH]; intros tx b projectKeys; cbv zeta.
  - cbn [BatchDelete.deleteProjectSubtrees fst snd map]. rewrite app_nil_r.
    split; [reflexivity |]. exists []. split; [apply extends_refl |]. split.
    + intros key H. now apply elem_of_nil in H.
    + intros _ p o x H. now apply elem_of_nil in H.
  - cbn [BatchDelete.deleteProjectSubtrees].
    destruct (Storage.deleteImage b _) as [ok b1].
    pose proof (deleteObservationsOfProject_writes tx b1 project.1) as E1.
    destruct (BatchDelete.deleteObservationsOfProject tx b1 project.1) as [[ok' tx1] b2].
    cbn [fst snd] in E1.
    destruct (IH tx1 b2 (projectKeys ++ [ProjectKey project.1])) as (Hkeys & batches & E2 & Hin & Hall).
    split; [rewrite Hkeys, <- app_assoc; reflexivity |].
    set (first := if failsNow tx then []
                  else [map (fun o : N * Observation.t => ObservationKey project.1 o.1)
                          (observationsOf (snapshot tx) project.1)]).
    assert (extends tx tx1 (map DeleteKeys first)) as E1'
      by (subst first; now destruct (failsNow tx)).
    exists (first ++ batches). split; [| split].
    + rewrite map_app. exact (extends_trans _ _ _ _ _ E1' E2).
    + intros key H. rewrite concat_app in H. apply elem_of_app in H as [H | H].
      * subst first. destruct (failsNow tx); [now apply elem_of_nil in H |].
        cbn [concat] in H. rewrite app_nil_r in H.
        apply list_elem_of_fmap in H as (o & -> & _).
        exists project.1, o.1. split; [reflexivity |]. cbn [map]. apply elem_of_cons. now left.
      * destruct (Hin key H) as (p & o & -> & Hp). exists p, o. split; [reflexivity |].
        cbn [map]. apply elem_of_cons. now right.
    + intros Hup p o x Hp Hx. rewrite concat_app. apply elem_of_app.
      cbn [map] in Hp. apply elem_of_cons in Hp as [-> | Hp].
      * left. subst first. unfold failsNow. rewrite Hup. cbn [concat].
        rewrite app_nil_r. apply list_elem_of_fmap. exists (o, x). split; [reflexivity |].
        now apply StoreFacts.elem_of_childrenOf.
      * right. destruct E1' as (Hsnapshot & Houtage & _).
        apply (Hall ltac:(now rewrite Houtage) p o x Hp). now rewrite Hsnapshot.
Qed.

Lemma deleteProjectsOfTeacher_writes tx (b : gmap string string) teacherId :
  exists batches,
    extends tx (BatchDelete.deleteProjectsOfTeacher tx b teacherId).1.2
      (map DeleteKeys batches) /\
    (forall key, key ∈ concat batches ->
       exists p, p ∈ map fst (projectsOf (snapshot tx) teacherId) /\
         (key = ProjectKey p \/ exists o, key = ObservationKey p o)) /\
    ((forall n, outage tx n = false) ->
     forall p, p ∈ map fst (projectsOf (snapshot tx) teacherId) ->
       ProjectKey p ∈ concat batches /\
       forall o x, observations (snapshot tx) !! (p, o) = Some x ->
         ObservationKey p o ∈ concat batches).
Proof.
  unfold BatchDelete.deleteProjectsOfTeacher, runQueryProjects, remote.
  pose proof (extends_record_read tx (QueryProjects teacherId) eq_refl) as E1.
  destruct (failsNow tx) eqn:Hfails.
  - exists []. cbn [fst snd map]. split; [exact E1 |]. split.
    + intros key H. now apply elem_of_nil in H.
    + intros Hup. unfold failsNow in Hfails. now rewrite Hup in Hfails.
  - set (tx1 := record tx (QueryProjects teacherId)) in *.
    set (listed := projectsOf (snapshot tx) teacherId).
    destruct (deleteProjectSubtrees_writes listed tx1 b []) as (Hkeys & batches & E2 & Hin & Hall).
    destruct (BatchDelete.deleteProjectSubtrees tx1 b listed []) as [[tx2 b'] projectKeys].
    cbn [fst snd] in *. rewrite app_nil_l in Hkeys. subst projectKeys.
    set (projectKeys := map (fun p : N * Project.t => ProjectKey p.1) listed).
    exists (batches ++ [projectKeys]). split; [| split].
    + rewrite map_app.
      apply (extends_reads _ _ _ _ E1), (extends_trans _ _ _ _ _ E2).
      now apply extends_record_write.
    + intros key H. rewrite concat_app in H. apply elem_of_app in H as [H | H].
      * destruct (Hin key H) as (p & o & -> & Hp). exists p. split; [exact Hp |].
        right. now exists o.
      * cbn [concat] in H. rewrite app_nil_r in H. subst projectKeys.
        apply list_elem_of_fmap in H as (p & -> & Hp). exists p.1.
        split; [| now left]. apply list_elem_of_fmap. now exists p.
    + intros Hup p Hp. split.
      * rewrite concat_app. apply elem_of_app. right. cbn [concat]. rewrite app_nil_r.
        subst projectKeys. apply list_elem_of_fmap in Hp as (q & -> & Hq).
        apply list_elem_of_fmap. now exists q.
      * intros o x Hx. rewrite concat_app. apply elem_of_app. left.
        now apply (Hall Hup p o x Hp).
Qed.

Lemma deleteCredential_writes tx teacherId :
  exists batches,
    extends tx (deleteCredential tx teacherId).2 (map DeleteKeys batches) /\
    (forall key, key ∈ concat batches ->
       exists teacherKey cid,
         key = CredentialKey teacherKey cid /\ JS.parseInt teacherId = Some teacherKey) /\
    ((forall n, outage tx n = false) ->
     forall teacherKey cid d,
       JS.parseInt teacherId = Some teacherKey ->
       credentialsOf (snapshot tx) teacherKey = [(cid, d)] ->
       CredentialKey teacherKey cid ∈ concat batches).
Proof.
  unfold deleteCredential, getCredential.
  destruct (JS.parseInt teacherId) as [teacherKey|].
  - unfold runQueryCredentials, remote.
    pose proof (extends_record_read tx (QueryCredentials teacherKey) eq_refl) as E1.
    destruct (failsNow tx) eqn:Hfails.
    + exists []. cbn [fst snd map]. split; [exact E1 |]. split.
      * intros key H. now apply elem_of_nil in H.
      * intros Hup. unfold failsNow in Hfails. now rewrite Hup in Hfails.
    + destruct (credentialsOf (snapshot tx) teacherKey) as [|entity [|second rest]]
        eqn:Hcredentials.
      * exists []. cbn [fst snd map]. split; [exact E1 |]. split.
        -- intros key H. now apply elem_of_nil in H.
        -- intros _ k cid d [= <-] H. rewrite Hcredentials in H. discriminate.
      * exists [[CredentialKey teacherKey entity.1]]. cbn [fst snd map datastoreKey]. split.
        -- apply (extends_reads _ _ _ _ E1). now apply extends_record_write.
        -- split.
           ++ intros key H. cbn [concat] in H. rewrite app_nil_r in H.
              apply list_elem_of_singleton in H as ->. now exists teacherKey, entity.1.
           ++ intros _ k cid d [= <-] H. rewrite Hcredentials in H.
              injection H as ->. cbn [concat fst]. rewrite app_nil_r.
              now apply list_elem_of_singleton.
      * exists []. cbn [fst snd map]. split; [exact E1 |]. split.
        -- intros key H. now apply elem_of_nil in H.
        -- intros _ k cid d [= <-] H. rewrite Hcredentials in H. discriminate.
  - exists []. cbn [fst snd map]. split; [apply extends_refl |]. split.
    + intros key H. now apply elem_of_nil in H.
    + intros _ k cid d [=].
Qed.

Lemma Key_eq_dec : EqDecision Key.
Proof. unfold EqDecision, Decision. decide equality; apply N.eq_dec. Qed.

(** X23. What a deleted teacher takes with it. When the deletion of a
    teacher is answered 204, the teacher is gone and nothing outside its
    subtree has changed: the other teachers and their credentials are as
    before, and so is every project whose [teacher_id] is not the id as it was
    sent, with the observations below it. When in addition no call to the
    store failed, the credential of the teacher is gone, and so is every
    project whose [teacher_id] is the id as sent, with all its observations. *)
Theorem deleted_teacher_takes_its_subtree_only w faults now entityId authReceived :
  let r := Crud.deleteEntity w faults now Crud.Teachers entityId authReceived in
  let s := Crud.store w in
  let s' := Crud.store r.2 in
  status r.1 = 204%Z ->
  exists id,
    JS.parseInt entityId = Some id /\
    teachers s' !! id = None /\
    (forall t, t <> id -> teachers s' !! t = teachers s !! t) /\
    (forall t c, t <> id -> credentials s' !! (t, c) = credentials s !! (t, c)) /\
    (forall k p, projects s !! k = Some p -> Project.teacher_id p <> entityId ->
       projects s' !! k = Some p) /\
    (forall k o,
       (forall p, projects s !! k = Some p -> Project.teacher_id p <> entityId) ->
       observations s' !! (k, o) = observations s !! (k, o)) /\
    ((forall n, faults n = false) ->
     (forall c, credentials s' !! (id, c) = None) /\
     (forall k p, projects s !! k = Some p -> Project.teacher_id p = entityId ->
        projects s' !! k = None /\ forall o, observations s' !! (k, o) = None)).
Proof.
  cbv zeta. unfold Crud.deleteEntity.
  destruct (JS.parseInt entityId) as [id|] eqn:Hid; [| cbn; discriminate].
  set (tx := begin (Crud.store w) faults).
  unfold getTeacher, remote. destruct (failsNow tx); [cbn; discriminate |].
  destruct (teachers (snapshot tx) !! id) as [entity|] eqn:Hentity; [| cbn; discriminate].
  pose proof (extends_record_read tx (GetTeacher id) eq_refl) as E1.
  set (tx1 := record tx (GetTeacher id)) in *.
  pose proof (authorize_extends tx1 (Crud.entropy w) now
                Constants.COLLECTIONS.roots.teachers Constants.DELETE authReceived
                entityId) as E2.
  cbn [Crud.entityTypeOf].
  destruct (Crud.authorize tx1 _ _ _ _ _ _) as [[[responseInfo|] tx2] e1] eqn:Hauth.
  { apply authorize_refuses, status_refused in Hauth as (_ & _ & Hstatus).
    cbn [fst]. intros H. now contradiction Hstatus. }
  cbn [fst snd] in E2.
  apply authorize_grants in Hauth as [Hpassword _]; [| reflexivity].
  pose proof (extends_reads _ _ _ _ E1 E2) as E12.
  assert (outage tx2 = faults) as Houtage2 by exact (extends_outage _ _ _ E12).
  assert (snapshot tx2 = Crud.store w) as Hsnapshot2
    by exact (rollback_extends _ _ _ _ E12).
  destruct (deleteProjectsOfTeacher_writes tx2
              (Crud.deleteEntityImage (Crud.bucket w) (Teacher.profile_photo entity))
              entityId) as (batches1 & E3 & Hin1 & Hall1).
  destruct (BatchDelete.deleteProjectsOfTeacher tx2 _ entityId) as [[ok tx3] b2].
  cbn [fst snd] in E3.
  assert (outage tx3 = faults) as Houtage3
    by (rewrite (extends_outage _ _ _ E3); exact Houtage2).
  assert (snapshot tx3 = Crud.store w) as Hsnapshot3
    by (destruct E3 as (-> & _); exact Hsnapshot2).
  destruct (deleteCredential_writes tx3 entityId) as (batches2 & E4 & Hin2 & Hall2).
  destruct (deleteCredential tx3 entityId) as [ok' tx4]. cbn [fst snd] in E4.
  pose proof (extends_record_write tx4 (DeleteKeys [TeacherKey id]) eq_refl) as E5.
  pose proof (extends_trans _ _ _ _ _
                (extends_trans _ _ _ _ _ (extends_reads _ _ _ _ E12 E3) E4) E5) as E.
  match goal with |- context [Crud.finish ?t ?w' ?e ?r] =>
    destruct (finish_outcome t w' e r) as [[-> _] | [_ Hcommit]] end;
    [cbn; discriminate |].
  intros _. apply (commit_extends _ _ _ _ _ E) in Hcommit.
  change [DeleteKeys [TeacherKey id]] with (map DeleteKeys [[TeacherKey id]]) in Hcommit.
  rewrite <- !map_app, foldl_DeleteKeys in Hcommit. rewrite Hcommit.
  set (keys := concat ((batches1 ++ batches2) ++ [[TeacherKey id]])).
  assert (forall key, key ∈ keys <->
            key ∈ concat batches1 \/ key ∈ concat batches2 \/ key = TeacherKey id)
    as Hkeys.
  { intros key. subst keys. rewrite !concat_app. cbn [concat]. rewrite app_nil_r.
    rewrite !elem_of_app, list_elem_of_singleton. tauto. }
  rewrite Hsnapshot2 in Hin1, Hall1. rewrite Hsnapshot3 in Hall2.
  rewrite Houtage2 in Hall1. rewrite Houtage3 in Hall2.
  destruct (deleteKeys_spec keys (Crud.store w)) as (Ht & Hc & Hp & Ho).
  cbv zeta in Ht, Hc, Hp, Ho. exists id. split; [reflexivity |].
  pose proof Key_eq_dec as Hdec.
  split; [| split; [| split; [| split; [| split]]]].
  - apply Ht, Hkeys. now right; right.
  - intros t Hne. apply Ht. rewrite Hkeys. intros [H | [H | H]].
    + destruct (Hin1 _ H) as (p & _ & [Hkey | [o Hkey]]); discriminate.
    + destruct (Hin2 _ H) as (k & cid & Hkey & _); discriminate.
    + congruence.
  - intros t c Hne. apply Hc. rewrite Hkeys. intros [H | [H | H]].
    + destruct (Hin1 _ H) as (p & _ & [Hkey | [o Hkey]]); discriminate.
    + destruct (Hin2 _ H) as (k & cid & Hkey & Hk). congruence.
    + discriminate.
  - intros k p Hk Hother. rewrite <- Hk. apply Hp. rewrite Hkeys. intros [H | [H | H]].
    + destruct (Hin1 _ H) as (q & Hq & [Hkey | [o Hkey]]); [| discriminate].
      injection Hkey as <-. apply elem_of_projectsOf in Hq as (p' & Hp' & Hid').
      congruence.
    + destruct (Hin2 _ H) as (t & cid & Hkey & _); discriminate.
    + discriminate.
  - intros k o Hother. apply Ho. rewrite Hkeys. intros [H | [H | H]].
    + destruct (Hin1 _ H) as (q & Hq & [Hkey | [o' Hkey]]); [discriminate |].
      injection Hkey as <- <-. apply elem_of_projectsOf in Hq as (p' & Hp' & Hid').
      now apply (Hother p').
    + destruct (Hin2 _ H) as (t & cid & Hkey & _); discriminate.
    + discriminate.
  - intros Hup. split.
    + intros c. destruct Hpassword as (header & secret & key & cid & d & _ & _ & Hkey
                                       & Hcredentials & _).
      cbn [snapshot tx1 tx record begin] in Hcredentials.
      rewrite Hid in Hkey. injection Hkey as <-.
      destruct (decide (CredentialKey id c ∈ keys)) as [Hin | Hout]; [now apply Hc |].
      rewrite (proj2 (Hc id c) Hout).
      destruct (credentials (Crud.store w) !! (id, c)) as [x|] eqn:Hx; [| reflexivity].
      apply StoreFacts.elem_of_childrenOf in Hx. fold (credentialsOf (Crud.store w) id) in Hx.
      rewrite Hcredentials in Hx. apply list_elem_of_singleton in Hx as [= -> ->].
      contradiction Hout. apply Hkeys. right; left.
      now apply (Hall2 Hup id cid d).
    + intros k p Hk Hown.
      assert (k ∈ map fst (projectsOf (Crud.store w) entityId)) as Hlisted
        by (apply elem_of_projectsOf; now exists p).
      destruct (Hall1 Hup k Hlisted) as [Hproject Hobservations]. split.
      * apply Hp, Hkeys. now left.
      * intros o.
        destruct (decide (ObservationKey k o ∈ keys)) as [Hin | Hout]; [now apply Ho |].
        rewrite (proj2 (Ho k o) Hout).
        destruct (observations (Crud.store w) !! (k, o)) as [x|] eqn:Hx; [| reflexivity].
        contradiction Hout. apply Hkeys. left. now apply (Hobservations o x).
Qed.

(** *** The image of an updated observation *)

Lemma updateEntity_image w faults now entityPatches ancestorId entityId authReceived :
  let r := Crud.updateEntity w faults now entityPatches ancestorId entityId
             authReceived in
  status r.1 = 200%Z ->
  exists key id entity,
    JS.parseInt ancestorId = Some key /\ JS.parseInt entityId = Some id /\
    observations (Crud.store w) !! (key, id) = Some entity /\
    Crud.replaceImage (Crud.bucket w) (url (Observation.data_image entity))
      (Crud.getImageUrl entityPatches Constants.COLLECTIONS.children.observations)
    = Some (Crud.bucket r.2).
Proof.
  cbv zeta. unfold Crud.updateEntity.
  destruct (EntityType.validateProperties entityPatches _); cbn [negb];
    [| cbn; discriminate].
  destruct (JS.parseInt ancestorId) as [key|] eqn:Hkey; [| cbn; discriminate].
  destruct (JS.parseInt entityId) as [id|] eqn:Hid; [| cbn; discriminate].
  set (tx := begin (Crud.store w) faults).
  unfold getObservation, remote. destruct (failsNow tx); [cbn; discriminate |].
  destruct (observations (snapshot tx) !! (key, id)) as [entity|] eqn:Hentity;
    [| cbn; discriminate].
  cbn [snapshot tx begin] in Hentity.
  set (tx1 := record tx (GetObservation key id)).
  destruct (getTeacherOfProject tx1 ancestorId) as [[owner|] tx2]; [| cbn; discriminate].
  destruct (Crud.authorize tx2 _ _ _ _ _ _) as [[[responseInfo|] tx3] e1] eqn:Hauth.
  { apply authorize_refuses, status_refused in Hauth as (Hstatus & _).
    cbn [fst]. intros H. now contradiction Hstatus. }
  destruct (Crud.replaceImage _ _ _) as [bucket'|] eqn:Hreplace; [| cbn; discriminate].
  assert (forall t,
            status (Crud.finish t (Crud.mkWorld (Crud.store w) bucket' e1) e1
                      (mkServerResponse 200 (IdAndSelf id))).1 = 200%Z ->
            Crud.bucket (Crud.finish t (Crud.mkWorld (Crud.store w) bucket' e1) e1
                           (mkServerResponse 200 (IdAndSelf id))).2 = bucket') as Hfinish.
  { intros t. unfold Crud.finish. now destruct (commit t). }
  destruct (includes "data_number" (map fst entityPatches)).
  - destruct (DataNumber.processUpdatedObservation _ ancestorId entityId _ _)
      as [[[|]|] tx5]; try (cbn; discriminate).
    intros H. exists key, id, entity. rewrite (Hfinish _ H). now repeat split.
  - intros H. exists key, id, entity. rewrite (Hfinish _ H). now repeat split.
Qed.

(** X24. The image of an updated observation. When an update that names an
    image URL other than the one on file is answered 200, the new URL was
    accepted by [validateImageUrl] against the bucket as it was before the
    request; and, the old URL not being the default profile photo, the bucket
    afterwards is the bucket before without the file the old URL names. An
    update that names no image, or the URL on file, leaves the bucket as it
    was. *)
Theorem updated_image_replaces_the_old_one w faults now entityPatches ancestorId
    entityId authReceived :
  let r := Crud.updateEntity w faults now entityPatches ancestorId entityId
             authReceived in
  let newImageUrl :=
    Crud.getImageUrl entityPatches Constants.COLLECTIONS.children.observations in
  status r.1 = 200%Z ->
  exists key id entity,
    JS.parseInt ancestorId = Some key /\ JS.parseInt entityId = Some id /\
    observations (Crud.store w) !! (key, id) = Some entity /\
    let oldImageUrl := url (Observation.data_image entity) in
    ((newImageUrl = None \/ newImageUrl = Some oldImageUrl) ->
     Crud.bucket r.2 = Crud.bucket w) /\
    (forall newUrl,
       newImageUrl = Some newUrl -> newUrl <> oldImageUrl ->
       oldImageUrl <> Constants.DEFAULT_PROFILE_PHOTO ->
       Storage.validateImageUrl (Crud.bucket w) newUrl = true /\
       forall parsed,
         Storage.parseImageUrl oldImageUrl = Some parsed ->
         Crud.bucket r.2 = delete (Storage.fileName parsed) (Crud.bucket w)).
Proof.
  cbv zeta. intros Hupdated.
  destruct (updateEntity_image w faults now entityPatches ancestorId entityId authReceived
              Hupdated) as (key & id & entity & Hkey & Hid & Hentity & Hreplace).
  exists key, id, entity. split; [exact Hkey |]. split; [exact Hid |].
  split; [exact Hentity |]. unfold Crud.replaceImage in Hreplace. split.
  - intros [Hnone | Hsame].
    + rewrite Hnone in Hreplace. now injection Hreplace.
    + rewrite Hsame, String.eqb_refl in Hreplace. now injection Hreplace.
  - intros newUrl Hnew Hdiffers Hcustom. rewrite Hnew in Hreplace.
    apply String.eqb_neq in Hdiffers, Hcustom. rewrite Hdiffers, Hcustom in Hreplace.
    cbn [negb] in Hreplace.
    destruct (Storage.validateImageUrl (Crud.bucket w) newUrl); [| discriminate].
    split; [reflexivity |]. intros parsed Hparsed. cbn [negb] in Hreplace.
    injection Hreplace as <-. unfold Storage.deleteImage. rewrite Hparsed.
    destruct (Crud.bucket w !! Storage.fileName parsed) eqn:Hfile; cbn [snd];
      [reflexivity |].
    symmetry. now apply delete_id.
Qed.

End Writes.

Lemma sample_project_created :
  status (@Crud.postEntity Samples.sampleCipher Samples.sampleBase64 Samples.withTeacher
            Samples.noFaults false 0 (Samples.projectBody 0 true) Crud.Projects
            (Some Samples.headerOfTeacher1)).1 = 201%Z.
Proof. vm_compute. reflexivity. Qed.

Lemma sample_observation_created :
  status (@Crud.postEntity Samples.sampleCipher Samples.sampleBase64
            (Samples.withProject 0 false) Samples.noFaults false 0
            (Samples.observationBody "a.png" "robin" 1) (Crud.Observations "1")
            (Some Samples.headerOfTeacher1)).1 = 201%Z.
Proof. vm_compute. reflexivity. Qed.

Lemma project_created_as_sent_witness :
  status (@Crud.postEntity Samples.sampleCipher Samples.sampleBase64 Samples.withTeacher
            Samples.noFaults false 0 (Samples.projectBody 0 true) Crud.Projects
            (Some Samples.headerOfTeacher1)).1 = 201%Z /\
  projects (Crud.store Samples.withTeacher)
    !! newProjectId (Crud.store Samples.withTeacher) = None /\
  Crud.store (Samples.withProject 0 true)
  = setProjects (Crud.store Samples.withTeacher)
      (<[newProjectId (Crud.store Samples.withTeacher)
         := Crud.projectOf (Samples.projectBody 0 true)]>
         (projects (Crud.store Samples.withTeacher))).
Proof.
  split; [exact sample_project_created |].
  destruct (@project_created_as_sent Samples.sampleCipher Samples.sampleBase64
              Samples.withTeacher Samples.noFaults false 0 (Samples.projectBody 0 true)
              (Some Samples.headerOfTeacher1) sample_project_created)
    as (_ & _ & _ & Hfresh & Hstore & _).
  split; [exact Hfresh | exact Hstore].
Defined.

Lemma observation_created_with_a_checked_image_witness :
  status (@Crud.postEntity Samples.sampleCipher Samples.sampleBase64
            (Samples.withProject 0 false) Samples.noFaults false 0
            (Samples.observationBody "a.png" "robin" 1) (Crud.Observations "1")
            (Some Samples.headerOfTeacher1)).1 = 201%Z /\
  Storage.validateImageUrl (Crud.bucket (Samples.withProject 0 false))
    (url (Observation.data_image
            (Crud.observationOf (Samples.observationBody "a.png" "robin" 1)))) = true.
Proof.
  split; [exact sample_observation_created |].
  destruct (@observation_created_with_a_checked_image Samples.sampleCipher
              Samples.sampleBase64 (Samples.withProject 0 false) Samples.noFaults false 0
              (Samples.observationBody "a.png" "robin" 1) "1"
              (Some Samples.headerOfTeacher1) sample_observation_created)
    as (key & _ & _ & _ & Himage).
  exact Himage.
Defined.

Lemma sample_project_deleted :
  status (@Crud.deleteEntity Samples.sampleCipher Samples.sampleBase64 Samples.schoolWorld
            Samples.noFaults 0 Crud.Projects "1" (Some Samples.headerOfTeacher7)).1 = 204%Z.
Proof. vm_compute. reflexivity. Qed.

Lemma sample_teacher_deleted :
  status (@Crud.deleteEntity Samples.sampleCipher Samples.sampleBase64 Samples.schoolWorld
            Samples.noFaults 0 Crud.Teachers "7" (Some Samples.headerOfTeacher7)).1 = 204%Z.
Proof. vm_compute. reflexivity. Qed.

Lemma deleted_project_takes_its_subtree_only_witness :
  status (@Crud.deleteEntity Samples.sampleCipher Samples.sampleBase64 Samples.schoolWorld
            Samples.noFaults 0 Crud.Projects "1" (Some Samples.headerOfTeacher7)).1 = 204%Z /\
  projects (Crud.store
              (@Crud.deleteEntity Samples.sampleCipher Samples.sampleBase64
                 Samples.schoolWorld Samples.noFaults 0 Crud.Projects "1"
                 (Some Samples.headerOfTeacher7)).2)
  = delete 1%N (projects Samples.schoolStore) /\
  forall o,
    observations (Crud.store
                    (@Crud.deleteEntity Samples.sampleCipher Samples.sampleBase64
                       Samples.schoolWorld Samples.noFaults 0 Crud.Projects "1"
                       (Some Samples.headerOfTeacher7)).2) !! (1%N, o) = None.
Proof.
  split; [exact sample_project_deleted |].
  destruct (@deleted_project_takes_its_subtree_only Samples.sampleCipher
              Samples.sampleBase64 Samples.schoolWorld Samples.noFaults 0 "1"
              (Some Samples.headerOfTeacher7) sample_project_deleted)
    as (id & Hid & Hproject & _ & _ & _ & Hgone).
  vm_compute in Hid. injection Hid as <-.
  split; [exact Hproject |]. apply Hgone. reflexivity.
Defined.

Lemma deleted_teacher_takes_its_subtree_only_witness :
  status (@Crud.deleteEntity Samples.sampleCipher Samples.sampleBase64 Samples.schoolWorld
            Samples.noFaults 0 Crud.Teachers "7" (Some Samples.headerOfTeacher7)).1 = 204%Z /\
  teachers (Crud.store
              (@Crud.deleteEntity Samples.sampleCipher Samples.sampleBase64
                 Samples.schoolWorld Samples.noFaults 0 Crud.Teachers "7"
                 (Some Samples.headerOfTeacher7)).2) !! 7%N = None /\
  forall c,
    credentials (Crud.store
                   (@Crud.deleteEntity Samples.sampleCipher Samples.sampleBase64
                      Samples.schoolWorld Samples.noFaults 0 Crud.Teachers "7"
                      (Some Samples.headerOfTeacher7)).2) !! (7%N, c) = None.
Proof.
  split; [exact sample_teacher_deleted |].
  destruct (@deleted_teacher_takes_its_subtree_only Samples.sampleCipher
              Samples.sampleBase64 Samples.schoolWorld Samples.noFaults 0 "7"
              (Some Samples.headerOfTeacher7) sample_teacher_deleted)
    as (id & Hid & Hteacher & _ & _ & _ & _ & Hgone).
  vm_compute in Hid. injection Hid as <-.
  split; [exact Hteacher |]. apply Hgone. reflexivity.
Defined.

Lemma sample_image_updated :
  status (@Crud.updateEntity Samples.sampleCipher Samples.sampleBase64 Samples.schoolWorld
            Samples.noFaults 0 [("data_image", Samples.imageBody "project.png")] "1" "1"
            (Some Samples.headerOfTeacher7)).1 = 200%Z.
Proof. vm_compute. reflexivity. Qed.

Lemma updated_image_replaces_the_old_one_witness :
  status (@Crud.updateEntity Samples.sampleCipher Samples.sampleBase64 Samples.schoolWorld
            Samples.noFaults 0 [("data_image", Samples.imageBody "project.png")] "1" "1"
            (Some Samples.headerOfTeacher7)).1 = 200%Z /\
  Storage.validateImageUrl Samples.schoolBucket (Samples.imageUrl "project.png") = true /\
  Crud.bucket
    (@Crud.updateEntity Samples.sampleCipher Samples.sampleBase64 Samples.schoolWorld
       Samples.noFaults 0 [("data_image", Samples.imageBody "project.png")] "1" "1"
       (Some Samples.headerOfTeacher7)).2
  = delete "shared.png" Samples.schoolBucket.
Proof.
  split; [exact sample_image_updated |].
  destruct (@updated_image_replaces_the_old_one Samples.sampleCipher Samples.sampleBase64
              Samples.schoolWorld Samples.noFaults 0
              [("data_image", Samples.imageBody "project.png")] "1" "1"
              (Some Samples.headerOfTeacher7) sample_image_updated)
    as (key & id & entity & Hkey & Hid & Hentity & _ & Hnew).
  vm_compute in Hkey, Hid. injection Hkey as <-. injection Hid as <-.
  assert (entity = Samples.observationWith "shared.png" "Goldfinch" 1) as ->.
  { vm_compute in Hentity. now injection Hentity. }
  destruct (Hnew (Samples.imageUrl "project.png") eq_refl) as [Hvalid Hbucket];
    [discriminate | discriminate |].
  split; [exact Hvalid |].
  exact (Hbucket {| Storage.baseUrl := Storage.CLOUD_STORAGE_BASE_URL;
                    Storage.bucketName := Storage.BUCKET_NAME;
                    Storage.fileName := "shared.png" |} eq_refl).
Defined.

End WriteFacts.

(** ** Lists: what a page holds *)

Module ListFacts.
Import Datastore.

Lemma page_of_rows (rows : list N) limit position id :
  id ∈ take limit (drop position rows) -> id ∈ rows.
Proof.
  intros H. apply list_elem_of_lookup in H as [i H].
  apply lookup_take_Some in H as [H _]. rewrite lookup_drop in H.
  now apply list_elem_of_lookup_2 in H.
Qed.

(** X25. What a page holds. A list request is answered 200 only when the
    project named as ancestor and the teacher named as filter exist. The page
    then holds at most [maxPerPage] ids of the collection, each the id of an
    entity of the store: of an observation of the project named, or of a
    project, one whose [teacher_id] is the filter when a filter was given. *)
Theorem page_holds_entities_asked_for s faults decodeCursor collection startCursor
    teacherId :
  let r := Crud.getEntities s faults decodeCursor collection startCursor teacherId in
  status r = 200%Z ->
  Crud.listable s collection teacherId /\
  exists ids,
    content r = EntityList ids /\
    length ids <= EntityType.maxPerPage (Crud.entityTypeOf collection) /\
    forall id, id ∈ ids ->
      match collection with
      | Crud.Teachers => is_Some (teachers s !! id)
      | Crud.Projects =>
          exists p, projects s !! id = Some p /\
            forall t, teacherId = Some t -> Project.teacher_id p = t
      | Crud.Observations ancestorId =>
          exists key, JS.parseInt ancestorId = Some key /\
            is_Some (observations s !! (key, id))
      end.
Proof.
  cbv zeta. unfold Crud.getEntities, Crud.listable.
  set (tx := begin s faults).
  assert (exists tx1,
            (match collection with
             | Crud.Observations ancestorId =>
                 match JS.parseInt ancestorId with
                 | None => (false, tx)
                 | Some ancestorKey =>
                     match getAncestorData tx ancestorKey with
                     | (Some _, tx1) => (true, tx1)
                     | (None, tx1) => (false, tx1)
                     end
                 end
             | _ => (true, tx)
             end = (false, tx1)) \/
            (match collection with
             | Crud.Observations ancestorId =>
                 match JS.parseInt ancestorId with
                 | None => (false, tx)
                 | Some ancestorKey =>
                     match getAncestorData tx ancestorKey with
                     | (Some _, tx1) => (true, tx1)
                     | (None, tx1) => (false, tx1)
                     end
                 end
             | _ => (true, tx)
             end = (true, tx1) /\
             snapshot tx1 = s /\
             match collection with
             | Crud.Observations ancestorId =>
                 exists key project,
                   JS.parseInt ancestorId = Some key /\ projects s !! key = Some project
             | _ => True
             end)) as (tx1 & [-> | (-> & Hsnapshot1 & Hancestor)]).
  { destruct collection as [| |ancestorId].
    - exists tx. now right.
    - exists tx. now right.
    - destruct (JS.parseInt ancestorId) as [key|]; [| exists tx; now left].
      unfold getAncestorData, getProject, remote.
      destruct (failsNow tx); [eexists; now left |].
      destruct (projects (snapshot tx) !! key) as [project|] eqn:Hproject;
        [| eexists; now left].
      eexists. right. split; [reflexivity |]. split; [reflexivity |].
      now exists key, project. }
  { cbn. discriminate. }
  cbn [negb].
  assert (exists tx2,
            (match teacherId with
             | Some id => teacherExists tx1 id
             | None => (true, tx1)
             end = (false, tx2)) \/
            (match teacherId with
             | Some id => teacherExists tx1 id
             | None => (true, tx1)
             end = (true, tx2) /\
             match teacherId with
             | Some id =>
                 exists key teacher,
                   JS.parseInt id = Some key /\ teachers s !! key = Some teacher
             | None => True
             end)) as (tx2 & [-> | (-> & Hteacher)]).
  { destruct teacherId as [id|]; [| exists tx1; now right].
    unfold teacherExists. destruct (JS.parseInt id) as [key|]; [| exists tx1; now left].
    unfold getTeacher, remote. destruct (failsNow tx1); [eexists; now left |].
    rewrite Hsnapshot1.
    destruct (teachers s !! key) as [teacher|] eqn:Hkey; [| eexists; now left].
    eexists. right. split; [reflexivity |]. now exists key, teacher. }
  { cbn. discriminate. }
  cbn [negb]. unfold Crud.runPageQuery.
  destruct (failsNow tx2); [cbn; discriminate |].
  destruct (match startCursor with Some cursor => decodeCursor cursor | None => Some 0 end)
    as [position|]; [| cbn; discriminate].
  destruct (commit _) as [s'|]; [| cbn; discriminate].
  intros _. split; [now split |].
  eexists. split; [reflexivity |]. split.
  { rewrite length_take. lia. }
  intros id Hid. apply page_of_rows in Hid.
  destruct collection as [| |ancestorId].
  - apply list_elem_of_fmap in Hid as ([k x] & -> & Hin).
    apply elem_of_map_to_list in Hin. cbn. now rewrite Hin.
  - destruct teacherId as [t|].
    + apply WriteFacts.elem_of_projectsOf in Hid as (p & Hp & Hown).
      exists p. split; [exact Hp |]. now intros ? [= <-].
    + apply list_elem_of_fmap in Hid as ([k x] & -> & Hin).
      apply elem_of_map_to_list in Hin. exists x. split; [exact Hin |]. intros ? [=].
  - destruct Hancestor as (key & project & Hkey & _). rewrite Hkey in Hid |- *.
    exists key. split; [reflexivity |].
    apply list_elem_of_fmap in Hid as ([o x] & -> & Hin).
    apply StoreFacts.elem_of_childrenOf in Hin. cbn. now rewrite Hin.
Qed.

Lemma sample_page_listed :
  status (Crud.getEntities Samples.schoolStore Samples.noFaults Samples.noCursor
            (Crud.Observations "1") None None) = 200%Z.
Proof. vm_compute. reflexivity. Qed.

Lemma page_holds_entities_asked_for_witness :
  status (Crud.getEntities Samples.schoolStore Samples.noFaults Samples.noCursor
            (Crud.Observations "1") None None) = 200%Z /\
  exists ids,
    content (Crud.getEntities Samples.schoolStore Samples.noFaults Samples.noCursor
               (Crud.Observations "1") None None) = EntityList ids /\
    length ids <= 5 /\
    forall id, id ∈ ids -> is_Some (observations Samples.schoolStore !! (1%N, id)).
Proof.
  split; [exact sample_page_listed |].
  destruct (page_holds_entities_asked_for Samples.schoolStore Samples.noFaults
              Samples.noCursor (Crud.Observations "1") None None sample_page_listed)
    as (_ & ids & Hcontent & Hlength & Hids).
  exists ids. split; [exact Hcontent |]. split; [exact Hlength |].
  intros id Hid. destruct (Hids id Hid) as (key & Hkey & Hsome).
  vm_compute in Hkey. injection Hkey as <-. exact Hsome.
Defined.

End ListFacts.
